(** * Resource handlers of the azurerm provider: a shallow embedding

    The handlers of the provider are Go functions of the shape
    [func(d *pluginsdk.ResourceData, meta interface{}) error].  Each one reads
    configuration fields from [d], talks to a generated SDK client, and
    writes fields and the resource ID back into [d].

    The embedding keeps that shape.  A handler is a computation in a small
    state-and-exit monad over a [World] that holds the resource data [d],
    the answers the remote API is going to give, the log of everything
    the handler did (lock, unlock, API request) and the stack of deferred
    calls of the running Go function. *)

From Stdlib Require Import ZArith String Ascii List Lia Bool.
From stdpp Require Import gmap strings list.

Local Open Scope Z_scope.
Local Open Scope string_scope.

(** ** The runtime the handlers share *)

Module Sdk.

(** [autorest.Response]: the HTTP response attached to an SDK result, reduced
    to its status code; [None] is a nil [*http.Response]. *)
Definition Response := option Z.

Definition StatusNotFound : Z := 404.

(** [utils.ResponseWasNotFound] / [response.WasNotFound]. *)
Definition ResponseWasNotFound (resp : Response) : bool :=
  match resp with
  | Some code => Z.eqb code StatusNotFound
  | None => false
  end.

(** Go [error] values the handlers build.  [Errorf] keeps the leading text of
    the format string and the wrapped cause; [ImportAsExistsError] is the
    distinguished error of [tf.ImportAsExistsError]. *)
Inductive error : Type :=
  | Errorf (format : string) (cause : option string)
  | ImportAsExistsError (resourceName : string) (id : string).

(** How a Go function stops: [return err] or a run-time panic. *)
Inductive Exit : Type :=
  | Return (e : option error)
  | Panic.

(** Attributes of a nested configuration block ([map[string]interface{}]). *)
Inductive Attr : Type :=
  | AString (s : string)
  | AInt (n : Z).

(** Values held by the fields of [*pluginsdk.ResourceData]. *)
Inductive Value : Type :=
  | VNil
  | VString (s : string)
  | VBool (b : bool)
  | VInt (n : Z)
  | VList (blocks : list (gmap string Attr)).

Record ResourceData : Type := mkResourceData {
  Id : string;
  IsNewResource : bool;
  fields : gmap string Value
}.

(** [d.Get(key).(string)]: a field that is not set reads as the zero value. *)
Definition GetString (d : ResourceData) (key : string) : string :=
  match fields d !! key with
  | Some (VString s) => s
  | _ => ""
  end.

Definition GetBool (d : ResourceData) (key : string) : bool :=
  match fields d !! key with
  | Some (VBool b) => b
  | _ => false
  end.

Definition GetInt (d : ResourceData) (key : string) : Z :=
  match fields d !! key with
  | Some (VInt n) => n
  | _ => 0
  end.

(** A [*string] passed to [d.Set]. *)
Definition VStringPtr (p : option string) : Value :=
  match p with
  | Some s => VString s
  | None => VNil
  end.

Definition VBoolPtr (p : option bool) : Value :=
  match p with
  | Some b => VBool b
  | None => VNil
  end.

(** [azure.ResourceID], the result of [azure.ParseAzureResourceID]; a key
    that is absent from [Path] reads as the empty string. *)
Record ResourceID : Type := mkResourceID {
  ResourceGroup : string;
  Path : gmap string string
}.

Definition PathAt (id : ResourceID) (key : string) : string :=
  match Path id !! key with
  | Some v => v
  | None => ""
  end.

Inductive Deferred : Type :=
  | DeferUnlockByName (name : string) (resourceType : string).

Section Runtime.
(** [Req] is the type of the requests of one SDK client, [Body] the type
    of the object its responses carry. *)
Context {Req Body : Type}.

(** What an SDK call hands back: the decoded object, the HTTP response and
    the Go error. *)
Record Answer : Type := mkAnswer {
  body : Body;
  response : Response;
  err : option string
}.

Inductive Event : Type :=
  | EvLock (name : string) (resourceType : string)
  | EvUnlock (name : string) (resourceType : string)
  | EvCall (r : Req).

(** [oracle n r] is the answer of the remote API to request [r] when it is
    the [n]-th request of the run. *)
Record World : Type := mkWorld {
  oracle : nat -> Req -> Answer;
  ncalls : nat;
  events : list Event;
  deferred : list Deferred;
  data : ResourceData
}.

Inductive Step (A : Type) : Type :=
  | Next (a : A)
  | Stop (x : Exit).
Arguments Next {A} a.
Arguments Stop {A} x.

Definition M (A : Type) : Type := World -> Step A * World.

Definition ret {A} (a : A) : M A := fun w => (Next a, w).

Definition bind {A B} (m : M A) (k : A -> M B) : M B :=
  fun w =>
    match m w with
    | (Next a, w') => k a w'
    | (Stop x, w') => (Stop x, w')
    end.

(** [return e] *)
Definition return_ {A} (e : option error) : M A :=
  fun w => (Stop (Return e), w).

Definition panic {A} : M A := fun w => (Stop Panic, w).

Definition log (e : Event) (w : World) : World :=
  mkWorld (oracle w) (ncalls w) (events w ++ [e]) (deferred w) (data w).

(** A request to the remote API. *)
Definition call (r : Req) : M Answer :=
  fun w =>
    (Next (oracle w (ncalls w) r),
     mkWorld (oracle w) (S (ncalls w)) (events w ++ [EvCall r])
             (deferred w) (data w)).

(** [locks.ByName] *)
Definition ByName (name resourceType : string) : M unit :=
  fun w => (Next tt, log (EvLock name resourceType) w).

(** [defer locks.UnlockByName(name, resourceType)] *)
Definition defer_UnlockByName (name resourceType : string) : M unit :=
  fun w =>
    (Next tt,
     mkWorld (oracle w) (ncalls w) (events w)
             (DeferUnlockByName name resourceType :: deferred w) (data w)).

Definition get_d : M ResourceData := fun w => (Next (data w), w).

Definition put_d (d : ResourceData) : M unit :=
  fun w =>
    (Next tt, mkWorld (oracle w) (ncalls w) (events w) (deferred w) d).

(** [d.SetId(id)] *)
Definition SetId (id : string) : M unit :=
  fun w =>
    let d := data w in
    put_d (mkResourceData id (IsNewResource d) (fields d)) w.

(** [d.Set(key, v)] *)
Definition Set_ (key : string) (v : Value) : M unit :=
  fun w =>
    let d := data w in
    put_d (mkResourceData (Id d) (IsNewResource d) (<[key := v]> (fields d))) w.

(** Deferred calls run last-in first-out when the function is left. *)
Fixpoint run_deferred (ds : list Deferred) (w : World) : World :=
  match ds with
  | [] => w
  | DeferUnlockByName name resourceType :: ds' =>
      run_deferred ds' (log (EvUnlock name resourceType) w)
  end.

(** Running a Go function: the body runs in a frame of deferred calls of
    its own; however the body is left, by [return] or by a panic, the
    frame is unwound. *)
Definition runFn (f : M Empty_set) (w : World) : Exit * World :=
  let saved := deferred w in
  let w0 := mkWorld (oracle w) (ncalls w) (events w) [] (data w) in
  match f w0 with
  | (Next a, _) => match a with end
  | (Stop x, w1) =>
      let w2 := run_deferred (deferred w1) w1 in
      (x, mkWorld (oracle w2) (ncalls w2) (events w2) saved (data w2))
  end.

(** A call [f(d, meta)] inside another handler. *)
Definition callFn (f : M Empty_set) : M (option error) :=
  fun w =>
    match runFn f w with
    | (Return e, w') => (Next e, w')
    | (Panic, w') => (Stop Panic, w')
    end.

(** [wp m Q w]: running [m] in the world [w] ends in a step and a world
    that satisfy [Q]. *)
Definition wp {A} (m : M A) (Q : Step A -> World -> Prop) (w : World) : Prop :=
  Q (fst (m w)) (snd (m w)).

(** The same for a whole Go function, deferred calls included. *)
Definition wpFn (f : M Empty_set) (Q : Exit -> World -> Prop) (w : World) : Prop :=
  Q (fst (runFn f w)) (snd (runFn f w)).

(** The world a handler starts in: nothing logged, nothing deferred. *)
Definition world0 (o : nat -> Req -> Answer) (d : ResourceData) : World :=
  mkWorld o 0 [] [] d.
End Runtime.

Arguments Answer : clear implicits.
Arguments Event : clear implicits.
Arguments World : clear implicits.
Arguments M : clear implicits.
Arguments Next {A} a.
Arguments Stop {A} x.

Declare Scope go_scope.
Delimit Scope go_scope with go.
Notation "x <- c ;; k" := (bind c (fun x => k))
  (at level 100, c at next level, right associativity) : go_scope.
Notation "c ;;; k" := (bind c (fun _ => k))
  (at level 100, right associativity) : go_scope.

End Sdk.

Import Sdk.
Local Open Scope go_scope.

(** ** The Go standard library, as far as the handlers use it

    Go strings are byte strings: a [string] here is the list of its bytes,
    an [ascii] standing for one byte.  Runes and machine integers are [Z]. *)

Module Go.

Definition byte (c : ascii) : Z := Z.of_N (N_of_ascii c).
Definition chr (b : Z) : ascii := ascii_of_N (Z.to_N (b mod 256)).

(** Conversion of a Go [int] to [int32] and of a mathematical integer to
    [int64]: two's complement wrap-around. *)
Definition wrap (bits : Z) (n : Z) : Z :=
  (n + 2 ^ (bits - 1)) mod 2 ^ bits - 2 ^ (bits - 1).
Definition int32 (n : Z) : Z := wrap 32 n.
Definition int64 (n : Z) : Z := wrap 64 n.

(** *** unicode/utf8 *)

Definition RuneError : Z := 65533.
Definition RuneSelf : Z := 128.
Definition MaxRune : Z := 1114111.

Definition inb (lo hi x : Z) : bool := Z.leb lo x && Z.leb x hi.

(** The [first] table of package utf8 with [acceptRanges] folded in: for a
    lead byte, the length of the sequence and the interval the second byte
    has to lie in; [None] for a byte that starts no sequence. *)
Definition first (s0 : Z) : option (Z * Z * Z) :=
  if inb 194 223 s0 then Some (2, 128, 191)
  else if Z.eqb s0 224 then Some (3, 160, 191)
  else if inb 225 236 s0 then Some (3, 128, 191)
  else if Z.eqb s0 237 then Some (3, 128, 159)
  else if inb 238 239 s0 then Some (3, 128, 191)
  else if Z.eqb s0 240 then Some (4, 144, 191)
  else if inb 241 243 s0 then Some (4, 128, 191)
  else if Z.eqb s0 244 then Some (4, 128, 143)
  else None.

Definition cont (b : Z) : bool := inb 128 191 b.

(** [utf8.DecodeRuneInString]: the rune at the head of [s] and its width in
    bytes; [(RuneError, 1)] for a byte that is no valid encoding. *)
Definition DecodeRuneInString (s : string) : Z * nat :=
  match s with
  | EmptyString => (RuneError, 0%nat)
  | String c0 t0 =>
      let s0 := byte c0 in
      if Z.ltb s0 RuneSelf then (s0, 1%nat)
      else
        match first s0 with
        | None => (RuneError, 1%nat)
        | Some (sz, lo, hi) =>
            match t0 with
            | EmptyString => (RuneError, 1%nat)
            | String c1 t1 =>
                let s1 := byte c1 in
                if negb (inb lo hi s1) then (RuneError, 1%nat)
                else if Z.leb sz 2
                then (Z.lor (Z.shiftl (Z.land s0 31) 6) (Z.land s1 63), 2%nat)
                else
                  match t1 with
                  | EmptyString => (RuneError, 1%nat)
                  | String c2 t2 =>
                      let s2 := byte c2 in
                      if negb (cont s2) then (RuneError, 1%nat)
                      else if Z.leb sz 3
                      then (Z.lor (Z.lor (Z.shiftl (Z.land s0 15) 12)
                                         (Z.shiftl (Z.land s1 63) 6))
                                  (Z.land s2 63), 3%nat)
                      else
                        match t2 with
                        | EmptyString => (RuneError, 1%nat)
                        | String c3 _ =>
                            let s3 := byte c3 in
                            if negb (cont s3) then (RuneError, 1%nat)
                            else (Z.lor (Z.lor (Z.lor (Z.shiftl (Z.land s0 7) 18)
                                                      (Z.shiftl (Z.land s1 63) 12))
                                               (Z.shiftl (Z.land s2 63) 6))
                                        (Z.land s3 63), 4%nat)
                        end
                  end
            end
        end
  end.

Definition surrogate (r : Z) : bool := inb 55296 57343 r.

(** [utf8.ValidRune] *)
Definition ValidRune (r : Z) : bool :=
  if inb 0 55295 r then true
  else if inb 57344 MaxRune r then true
  else false.

Definition str1 (b0 : Z) : string := String (chr b0) EmptyString.

(** [utf8.EncodeRune] *)
Definition EncodeRune (r : Z) : string :=
  let enc3 (r : Z) :=
    String (chr (Z.lor 224 (Z.shiftr r 12)))
      (String (chr (Z.lor 128 (Z.land (Z.shiftr r 6) 63)))
         (str1 (Z.lor 128 (Z.land r 63)))) in
  if inb 0 127 r then str1 r
  else if inb 0 2047 r then
    String (chr (Z.lor 192 (Z.shiftr r 6))) (str1 (Z.lor 128 (Z.land r 63)))
  else if negb (inb 0 MaxRune r) || surrogate r then enc3 RuneError
  else if Z.leb r 65535 then enc3 r
  else
    String (chr (Z.lor 240 (Z.shiftr r 18)))
      (String (chr (Z.lor 128 (Z.land (Z.shiftr r 12) 63)))
         (String (chr (Z.lor 128 (Z.land (Z.shiftr r 6) 63)))
            (str1 (Z.lor 128 (Z.land r 63))))).

Fixpoint drop (n : nat) (s : string) : string :=
  match n, s with
  | O, _ => s
  | S n', String _ t => drop n' t
  | S _, EmptyString => EmptyString
  end.

(** [utf8.ValidString] *)
Fixpoint ValidString_fuel (fuel : nat) (s : string) : bool :=
  match fuel with
  | O => true
  | S fuel' =>
      match s with
      | EmptyString => true
      | _ =>
          let '(r, size) := DecodeRuneInString s in
          if Z.eqb r RuneError && Nat.eqb size 1 then false
          else ValidString_fuel fuel' (drop size s)
      end
  end.
Definition ValidString (s : string) : bool :=
  ValidString_fuel (String.length s) s.

Fixpoint contains (s : string) (c : ascii) : bool :=
  match s with
  | EmptyString => false
  | String c' t => Ascii.eqb c' c || contains t c
  end.

(** *** strconv *)

Definition lowerhex (d : Z) : ascii :=
  if Z.ltb d 10 then chr (48 + d) else chr (87 + d).

(** [unhex] *)
Definition unhex (b : Z) : option Z :=
  if inb 48 57 b then Some (b - 48)
  else if inb 97 102 b then Some (b - 97 + 10)
  else if inb 65 70 b then Some (b - 65 + 10)
  else None.

(** The loop [v = v<<4 | x] of [UnquoteChar] over the first [n] bytes; [v]
    is a [rune], a 32-bit integer. *)
Fixpoint unhexN (n : nat) (v : Z) (s : string) : option (Z * string) :=
  match n with
  | O => Some (v, s)
  | S n' =>
      match s with
      | EmptyString => None
      | String c t =>
          match unhex (byte c) with
          | None => None
          | Some x => unhexN n' (int32 (Z.lor (Z.shiftl v 4) x)) t
          end
      end
  end.

(** The loop [v = (v << 3) | x] of [UnquoteChar] for an octal escape. *)
Fixpoint unoctN (n : nat) (v : Z) (s : string) : option (Z * string) :=
  match n with
  | O => Some (v, s)
  | S n' =>
      match s with
      | EmptyString => None
      | String c t =>
          let x := byte c - 48 in
          if Z.ltb x 0 || Z.ltb 7 x then None
          else unoctN n' (Z.lor (Z.shiftl v 3) x) t
      end
  end.

(** [strconv.UnquoteChar]: value, multibyte flag and tail; [None] is
    [ErrSyntax]. *)
Definition UnquoteChar (s : string) (quote : Z) : option (Z * bool * string) :=
  match s with
  | EmptyString => None
  | String c0 t0 =>
      let c := byte c0 in
      if Z.eqb c quote && (Z.eqb quote 39 || Z.eqb quote 34) then None
      else if Z.leb RuneSelf c then
        let '(r, size) := DecodeRuneInString s in
        Some (r, true, drop size s)
      else if negb (Z.eqb c 92) then Some (c, false, t0)
      else
        match t0 with
        | EmptyString => None
        | String c1 s' =>
            let c := byte c1 in
            if Z.eqb c 97 then Some (7, false, s')
            else if Z.eqb c 98 then Some (8, false, s')
            else if Z.eqb c 102 then Some (12, false, s')
            else if Z.eqb c 110 then Some (10, false, s')
            else if Z.eqb c 114 then Some (13, false, s')
            else if Z.eqb c 116 then Some (9, false, s')
            else if Z.eqb c 118 then Some (11, false, s')
            else if Z.eqb c 120 || Z.eqb c 117 || Z.eqb c 85 then
              let n := if Z.eqb c 120 then 2%nat
                       else if Z.eqb c 117 then 4%nat else 8%nat in
              match unhexN n 0 s' with
              | None => None
              | Some (v, s'') =>
                  if Z.eqb c 120 then Some (v, false, s'')
                  else if Z.ltb MaxRune v then None
                  else Some (v, true, s'')
              end
            else if inb 48 55 c then
              match unoctN 2 (c - 48) s' with
              | None => None
              | Some (v, s'') =>
                  if Z.ltb 255 v then None else Some (v, false, s'')
              end
            else if Z.eqb c 92 then Some (92, false, s')
            else if Z.eqb c 39 || Z.eqb c 34 then
              if negb (Z.eqb c quote) then None else Some (c, false, s')
            else None
        end
  end.

(** The loop of [Unquote] over the body of a quoted string. *)
Fixpoint unquoteLoop (fuel : nat) (s : string) (quote : Z) : option string :=
  match s with
  | EmptyString => Some EmptyString
  | _ =>
      match fuel with
      | O => None
      | S fuel' =>
          match UnquoteChar s quote with
          | None => None
          | Some (c, multibyte, ss) =>
              let out :=
                if Z.ltb c RuneSelf || negb multibyte then str1 c
                else EncodeRune c in
              if Z.eqb quote 39 && negb (Nat.eqb (String.length ss) 0) then None
              else
                match unquoteLoop fuel' ss quote with
                | None => None
                | Some rest => Some (out +:+ rest)
                end
          end
      end
  end.

(** A string of at least two bytes whose first and last byte agree: that
    byte and what lies between, [s[1 : n-1]]. *)
Fixpoint splitLast (s : string) : option (string * ascii) :=
  match s with
  | EmptyString => None
  | String c EmptyString => Some (EmptyString, c)
  | String c t =>
      match splitLast t with
      | Some (init, l) => Some (String c init, l)
      | None => None
      end
  end.

Fixpoint removeCR (s : string) : string :=
  match s with
  | EmptyString => EmptyString
  | String c t => if Ascii.eqb c "013"%char then removeCR t else String c (removeCR t)
  end.

(** [strconv.Unquote]; [None] is a non-nil error. *)
Definition Unquote (s : string) : option string :=
  match s with
  | EmptyString => None
  | String q t =>
      match splitLast t with
      | None => None
      | Some (s', l) =>
          let quote := byte q in
          if negb (Z.eqb quote (byte l)) then None
          else if Z.eqb quote 96 then
            if contains s' "`"%char then None
            else if contains s' "013"%char then Some (removeCR s')
            else Some s'
          else if negb (Z.eqb quote 34) && negb (Z.eqb quote 39) then None
          else if contains s' "010"%char then None
          else if negb (contains s' (chr 92)) && negb (contains s' q)
                  && (if Z.eqb quote 34 then ValidString s'
                      else let '(r, size) := DecodeRuneInString s' in
                           Nat.eqb size (String.length s')
                           && (negb (Z.eqb r RuneError) || negb (Nat.eqb size 1)))
          then Some s'
          else unquoteLoop (String.length s') s' quote
      end
  end.

Section Quote.
(** The tables [isPrint16], [isNotPrint16], [isPrint32], [isNotPrint32]
    and [isGraphic] of package strconv decide whether a rune above
    U+00FF prints; they enter as a parameter. *)
Variable isPrintWide : Z -> bool.

(** [strconv.IsPrint] *)
Definition IsPrint (r : Z) : bool :=
  if Z.leb r 255 then
    if inb 32 126 r then true
    else if inb 161 255 r then negb (Z.eqb r 173)
    else false
  else isPrintWide r.

Definition hex2 (b : Z) : string :=
  String (lowerhex (Z.shiftr b 4)) (String (lowerhex (Z.land b 15)) EmptyString).

(** [for s := hi; s >= 0; s -= 4 { buf = append(buf, lowerhex[r>>uint(s)&0xF]) }],
    [n] digits. *)
Fixpoint hexdigits (n : nat) (r : Z) : string :=
  match n with
  | O => EmptyString
  | S n' =>
      String (lowerhex (Z.land (Z.shiftr r (4 * Z.of_nat n')) 15)) (hexdigits n' r)
  end.

(** [appendEscapedRune] with [ASCIIonly] and [graphicOnly] false. *)
Definition appendEscapedRune (r : Z) (quote : Z) : string :=
  if Z.eqb r quote || Z.eqb r 92 then String (chr 92) (str1 r)
  else if IsPrint r then EncodeRune r
  else if Z.eqb r 7 then "\a"
  else if Z.eqb r 8 then "\b"
  else if Z.eqb r 12 then "\f"
  else if Z.eqb r 10 then "\n"
  else if Z.eqb r 13 then "\r"
  else if Z.eqb r 9 then "\t"
  else if Z.eqb r 11 then "\v"
  else if Z.ltb r 32 || Z.eqb r 127 then "\x" +:+ hex2 r
  else if negb (ValidRune r) then "\u" +:+ hexdigits 4 RuneError
  else if Z.ltb r 65536 then "\u" +:+ hexdigits 4 r
  else "\U" +:+ hexdigits 8 r.

(** The loop of [appendQuotedWith]. *)
Fixpoint quoteLoop (fuel : nat) (s : string) (quote : Z) : string :=
  match fuel with
  | O => EmptyString
  | S fuel' =>
      match s with
      | EmptyString => EmptyString
      | String c0 t0 =>
          let '(r, width) :=
            if Z.leb RuneSelf (byte c0) then DecodeRuneInString s
            else (byte c0, 1%nat) in
          if Nat.eqb width 1 && Z.eqb r RuneError
          then "\x" +:+ hex2 (byte c0) +:+ quoteLoop fuel' t0 quote
          else appendEscapedRune r quote +:+ quoteLoop fuel' (drop width s) quote
      end
  end.

(** [strconv.Quote] *)
Definition Quote (s : string) : string :=
  String (chr 34) (quoteLoop (String.length s) s 34 +:+ str1 34).
End Quote.

(** [strconv.ParseUint(s, 10, bitSize)]: the digits are folded from the left
    and the loop stops at the first byte that is no digit (syntax error) or
    as soon as the value passes [1<<bitSize - 1] (range error). *)
Inductive UintResult : Type :=
  | UintOk (n : Z)
  | UintSyntax
  | UintRange.

Fixpoint parseDigits (s : string) (maxVal : Z) (n : Z) : UintResult :=
  match s with
  | EmptyString => UintOk n
  | String c t =>
      let d := byte c - 48 in
      if negb (inb 0 9 d) then UintSyntax
      else
        let n1 := n * 10 + d in
        if Z.ltb maxVal n1 then UintRange else parseDigits t maxVal n1
  end.

Definition ParseUint (s : string) (bitSize : Z) : UintResult :=
  match s with
  | EmptyString => UintSyntax
  | _ => parseDigits s (2 ^ bitSize - 1) 0
  end.

(** [strconv.ParseInt(s, 10, bitSize)]; [None] is a non-nil error. *)
Definition ParseInt (s : string) (bitSize : Z) : option Z :=
  match s with
  | EmptyString => None
  | String c t =>
      let '(neg, s') :=
        if Ascii.eqb c "+"%char then (false, t)
        else if Ascii.eqb c "-"%char then (true, t)
        else (false, s) in
      match ParseUint s' bitSize with
      | UintSyntax => None
      | UintRange => None
      | UintOk un =>
          let cutoff := 2 ^ (bitSize - 1) in
          if negb neg && Z.leb cutoff un then None
          else if neg && Z.ltb cutoff un then None
          else Some (if neg then - un else un)
      end
  end.

(** [strconv.ParseBool] *)
Definition ParseBool (str : string) : option bool :=
  if String.eqb str "1" || String.eqb str "t" || String.eqb str "T"
     || String.eqb str "TRUE" || String.eqb str "true" || String.eqb str "True"
  then Some true
  else if String.eqb str "0" || String.eqb str "f" || String.eqb str "F"
     || String.eqb str "FALSE" || String.eqb str "false" || String.eqb str "False"
  then Some false
  else None.

(** [strconv.FormatBool] *)
Definition FormatBool (b : bool) : string := if b then "true" else "false".

(** The decimal digits of a natural number, least significant digit last. *)
Fixpoint formatDigits (fuel : nat) (n : Z) (acc : string) : string :=
  match fuel with
  | O => acc
  | S fuel' =>
      let acc' := String (chr (48 + n mod 10)) acc in
      if Z.ltb n 10 then acc' else formatDigits fuel' (n / 10) acc'
  end.

(** [strconv.Itoa] *)
Definition Itoa (i : Z) : string :=
  if Z.ltb i 0
  then String "-"%char (formatDigits (S (Z.to_nat (Z.log2 (- i)))) (- i) EmptyString)
  else formatDigits (S (Z.to_nat (Z.log2 i))) i EmptyString.

(** *** strings *)

(** Every byte of [s] is below [utf8.RuneSelf]. *)
Fixpoint isASCII (s : string) : bool :=
  match s with
  | EmptyString => true
  | String c t => Z.ltb (byte c) 128 && isASCII t
  end.

Definition lowerByte (c : ascii) : ascii :=
  if inb 65 90 (byte c) then chr (byte c + 32) else c.

Fixpoint lowerASCII (s : string) : string :=
  match s with
  | EmptyString => EmptyString
  | String c t => String (lowerByte c) (lowerASCII t)
  end.

Section ToLower.
(** [lowerWide s] is [strings.Map(unicode.ToLower, s)], what
    [strings.ToLower] returns for a string that is not all ASCII; the case
    tables of package unicode enter through it. *)
Variable lowerWide : string -> string.

(** [strings.ToLower]: a string of ASCII bytes is lowered byte by byte,
    any other string goes through [unicode.ToLower]. *)
Definition ToLower (s : string) : string :=
  if isASCII s then lowerASCII s else lowerWide s.
End ToLower.

Section EqualFold.
(** [foldOrbit sr tr]: stepping [unicode.SimpleFold] from [sr] reaches
    [tr].  The case tables of package unicode enter as this parameter;
    it is consulted only when the larger rune is outside ASCII. *)
Variable foldOrbit : Z -> Z -> bool.

Definition nextRune (s : string) : Z * string :=
  match s with
  | EmptyString => (0, EmptyString)
  | String c t =>
      if Z.ltb (byte c) RuneSelf then (byte c, t)
      else let '(r, size) := DecodeRuneInString s in (r, drop size s)
  end.

(** [strings.EqualFold] *)
Fixpoint EqualFold_fuel (fuel : nat) (s t : string) : bool :=
  match s, t with
  | EmptyString, _ | _, EmptyString => String.eqb s t
  | _, _ =>
      match fuel with
      | O => false
      | S fuel' =>
          let '(sr, s') := nextRune s in
          let '(tr, t') := nextRune t in
          if Z.eqb tr sr then EqualFold_fuel fuel' s' t'
          else
            let '(sr, tr) := if Z.ltb tr sr then (tr, sr) else (sr, tr) in
            if Z.ltb tr RuneSelf then
              if inb 65 90 sr && Z.eqb tr (sr + 97 - 65)
              then EqualFold_fuel fuel' s' t'
              else false
            else if foldOrbit sr tr then EqualFold_fuel fuel' s' t'
            else false
      end
  end.

Definition EqualFold (s t : string) : bool :=
  EqualFold_fuel (String.length s) s t.
End EqualFold.

(** [strings.Split(s, sep)] for a separator of one byte. *)
Fixpoint Split (s : string) (sep : ascii) : list string :=
  match s with
  | EmptyString => [EmptyString]
  | String c t =>
      if Ascii.eqb c sep then EmptyString :: Split t sep
      else
        match Split t sep with
        | h :: r => String c h :: r
        | [] => [String c EmptyString]
        end
  end.

(** *** regexp: the one pattern the provider compiles for dates *)

(** The pattern ["\\/Date\((-?[0-9]+)\)\\/"], written as a raw string in the
    source: a double quote, a backslash, [/Date(], an optional minus sign,
    one or more digits, [)], a backslash, [/] and a double quote. *)
Definition datePrefix : string := String (chr 34) (String (chr 92) "/Date(").
Definition dateSuffix : string := String ")"%char (String (chr 92) (String "/"%char (str1 34))).

Fixpoint stripPrefix (p s : string) : option string :=
  match p with
  | EmptyString => Some s
  | String a p' =>
      match s with
      | EmptyString => None
      | String b s' => if Ascii.eqb a b then stripPrefix p' s' else None
      end
  end.

Definition isDigit (c : ascii) : bool := inb 48 57 (byte c).

(** The longest run of digits at the head of [s], and the rest. *)
Fixpoint spanDigits (s : string) : string * string :=
  match s with
  | EmptyString => (EmptyString, EmptyString)
  | String c t =>
      if isDigit c
      then let '(ds, rest) := spanDigits t in (String c ds, rest)
      else (EmptyString, s)
  end.

(** A match of the pattern that starts at the head of [s]: the text of
    the match and of its group. *)
Definition matchDateAt (s : string) : option (string * string) :=
  match stripPrefix datePrefix s with
  | None => None
  | Some s1 =>
      let '(sign, s2) :=
        match s1 with
        | String c s2 => if Ascii.eqb c "-"%char then ("-", s2) else (EmptyString, s1)
        | EmptyString => (EmptyString, s1)
        end in
      let '(ds, s3) := spanDigits s2 in
      match ds with
      | EmptyString => None
      | _ =>
          match stripPrefix dateSuffix s3 with
          | None => None
          | Some _ =>
              Some (datePrefix +:+ sign +:+ ds +:+ dateSuffix, sign +:+ ds)
          end
      end
  end.

(** [datePattern.FindStringSubmatch]: the leftmost match; the empty list is
    a nil slice. *)
Fixpoint FindStringSubmatch (s : string) : list string :=
  match matchDateAt s with
  | Some (m, g) => [m; g]
  | None =>
      match s with
      | EmptyString => []
      | String _ t => FindStringSubmatch t
      end
  end.

(** *** time *)

(** A [time.Time]: seconds since the Unix epoch and nanoseconds within the
    second. *)
Record Time : Type := mkTime { sec : Z; nsec : Z }.

(** [time.Unix] *)
Definition Unix (sec nsec : Z) : Time :=
  if Z.ltb nsec 0 || Z.leb 1000000000 nsec then
    let n := Z.quot nsec 1000000000 in
    let sec := int64 (sec + n) in
    let nsec := nsec - n * 1000000000 in
    if Z.ltb nsec 0 then mkTime (int64 (sec - 1)) (nsec + 1000000000)
    else mkTime sec nsec
  else mkTime sec nsec.

(** Nanoseconds since the epoch, as a mathematical integer. *)
Definition nanos (t : Time) : Z := sec t * 1000000000 + nsec t.

(** [Time.UnixNano] *)
Definition UnixNano (t : Time) : Z := int64 (sec t * 1000000000 + nsec t).

End Go.

(** ** Tags

    [map[string]*string], the tags of an SDK object.  The helpers of
    package [tags] are not part of the files modelled here: [tags.Expand]
    applied to [d.Get("tags")] and [tags.FlattenAndSet] enter the handlers
    below as parameters. *)

Module TagsHelpers.

Definition Tags : Type := gmap string (option string).

Section FlattenAndSet.
Context {Req Body : Type}.
(** [tags.FlattenAndSet(d, tagMap)]: the resource data it leaves and the
    error it returns. *)
Variable FlattenAndSet : ResourceData -> Tags -> ResourceData * option error.

(** [return tags.FlattenAndSet(d, tagMap)] *)
Definition returnFlattenAndSet {A : Type} (tagMap : Tags) : M Req Body A :=
  d <- get_d ;;
  let '(d', e) := FlattenAndSet d tagMap in
  put_d d' ;;;
  return_ e.
End FlattenAndSet.

End TagsHelpers.

(** ** Container registry token data source *)

Module Containers.

(** The fields of [containerregistry.Token] the data source reads. *)
Record Token : Type := mkToken {
  ID : option string;
  Name : option string;
  ScopeMapID : option string;
  Status : string
}.

Inductive Req : Type :=
  | TokensGet (resourceGroup containerRegistryName name : string).

Section TokenDataSource.
(** [containerregistry.TokenStatusDisabled], a constant of the SDK. *)
Variable TokenStatusDisabled : string.

Definition dataSourceContainerRegistryTokenRead : M Req Token Empty_set :=
  d <- get_d ;;
  let resourceGroup := GetString d "resource_group_name" in
  let containerRegistryName := GetString d "container_registry_name" in
  let name := GetString d "name" in
  resp <- call (TokensGet resourceGroup containerRegistryName name) ;;
  match err resp with
  | Some e =>
      if ResponseWasNotFound (response resp)
      then return_ (Some (Errorf "Container Registry token %q was not found in Resource Group %q" None))
      else return_ (Some (Errorf "Error making Read request on token %q (Azure Container Registry %q, Resource Group %q): %+v" (Some e)))
  | None =>
      match ID (body resp) with
      | None => return_ (Some (Errorf "retrieving Container Registry Token %q (Azure Container Registry %q, Resource Group %q): `id` was nil" None))
      | Some id =>
          if String.eqb id ""
          then return_ (Some (Errorf "retrieving Container Registry Token %q (Azure Container Registry %q, Resource Group %q): `id` was nil" None))
          else
            let status := true in
            let status :=
              if String.eqb (Status (body resp)) TokenStatusDisabled
              then false else status in
            SetId id ;;;
            Set_ "name" (VStringPtr (Name (body resp))) ;;;
            Set_ "resource_group_name" (VString resourceGroup) ;;;
            Set_ "container_registry_name" (VString containerRegistryName) ;;;
            Set_ "scope_map_id" (VStringPtr (ScopeMapID (body resp))) ;;;
            Set_ "enabled" (VBool status) ;;;
            return_ None
      end
  end.
End TokenDataSource.

End Containers.

(** ** Automation variables *)

Module Automation.
Import Go.

(** The dynamic values [ParseAzureAutomationVariableValue] hands back in
    its [interface{}] result. *)
Inductive GoValue : Type :=
  | GNil
  | GTime (t : Time)
  | GString (s : string)
  | GInt32 (n : Z)
  | GBool (b : bool).

(** Lines 30-48 of [ParseAzureAutomationVariableValue]: [value] and
    [actualResource] after the chain of [if] / [else if]. *)
Definition classify (input : string) : GoValue * string :=
  let matches := FindStringSubmatch input in
  if Nat.eqb (List.length matches) 2 && String.eqb (nth 0 matches "") input then
    match ParseInt (nth 1 matches "") 64 with
    | Some ticks =>
        (GTime (Unix (Z.quot ticks 1000) (Z.rem ticks 1000 * 1000000)),
         "azurerm_automation_variable_datetime")
    | None => (GNil, "Unknown")
    end
  else
    match Unquote input with
    | Some v => (GString v, "azurerm_automation_variable_string")
    | None =>
        match ParseInt input 32 with
        | Some v => (GInt32 (int32 v), "azurerm_automation_variable_int")
        | None =>
            match ParseBool input with
            | Some v => (GBool v, "azurerm_automation_variable_bool")
            | None => (GBool false, "Unknown")
            end
        end
    end.

Definition ParseAzureAutomationVariableValue (resource : string) (input : option string)
  : GoValue * option error :=
  match input with
  | None =>
      if negb (String.eqb resource "azurerm_automation_variable_null")
      then (GNil, Some (Errorf "Expected value 'nil' to be %q, actual type is 'azurerm_automation_variable_null'" None))
      else (GNil, None)
  | Some input =>
      let '(value, actualResource) := classify input in
      if negb (String.eqb actualResource resource)
      then (GNil, Some (Errorf "Expected value %q to be %q, actual type is %q" None))
      else (value, None)
  end.

(** [automation.Variable] (as [Variable_]) and its properties. *)
Record VariableProperties : Type := mkVariableProperties {
  Value : option string;
  IsEncrypted : option bool;
  Description : option string
}.

Record Variable_ : Type := mkVariable {
  ID : option string;
  Name : option string;
  Properties : option VariableProperties
}.

(** [automation.VariableCreateOrUpdateParameters] *)
Record VariableCreateOrUpdateParameters : Type := mkParameters {
  pName : option string;
  pDescription : option string;
  pIsEncrypted : option bool;
  pValue : option string
}.

Inductive Req : Type :=
  | Get (resourceGroup accountName name : string)
  | CreateOrUpdate (resourceGroup accountName name : string)
      (parameters : VariableCreateOrUpdateParameters)
  | Delete (resourceGroup accountName name : string).

Section Handlers.
(** [azure.ParseAzureResourceID], [time.Parse(time.RFC3339, _)], the
    layout formatter [Time.Format], the print tables of strconv and
    [strings.Map(unicode.ToLower, _)]. *)
Variable ParseAzureResourceID : string -> error + ResourceID.
Variable time_Parse : string -> option Time.
Variable time_Format : Time -> string.
Variable isPrintWide : Z -> bool.
Variable lowerWide : string -> string.

(** Lines 151-166 of [resourceAutomationVariableCreateUpdate]: the string
    the variable is stored as; [inl] is the early [return] of the
    datetime case. *)
Definition valueString (varTypeLower : string) (d : ResourceData) : error + string :=
  let value := "" in
  if String.eqb varTypeLower "datetime" then
    match time_Parse (GetString d "value") with
    | None => inl (Errorf "Error invalid time format: %+v" None)
    | Some vTime =>
        inr (datePrefix +:+ Itoa (Z.quot (UnixNano vTime) 1000000) +:+ dateSuffix)
    end
  else if String.eqb varTypeLower "bool" then inr (FormatBool (GetBool d "value"))
  else if String.eqb varTypeLower "int" then inr (Itoa (GetInt d "value"))
  else if String.eqb varTypeLower "string" then inr (Quote isPrintWide (GetString d "value"))
  else inr value.

Definition resourceAutomationVariableRead (varType : string) : M Req Variable_ Empty_set :=
  d <- get_d ;;
  match ParseAzureResourceID (Id d) with
  | inl e => return_ (Some e)
  | inr id =>
      let resourceGroup := ResourceGroup id in
      let accountName := PathAt id "automationAccounts" in
      let name := PathAt id "variables" in
      let varTypeLower := ToLower lowerWide varType in
      resp <- call (Get resourceGroup accountName name) ;;
      match err resp with
      | Some e =>
          if ResponseWasNotFound (response resp)
          then SetId "" ;;; return_ None
          else return_ (Some (Errorf "Error reading Automation %s Variable %q (Automation Account Name %q / Resource Group %q): %+v" (Some e)))
      | None =>
          Set_ "name" (VStringPtr (Name (body resp))) ;;;
          Set_ "resource_group_name" (VString resourceGroup) ;;;
          Set_ "automation_account_name" (VString accountName) ;;;
          match Properties (body resp) with
          | None => return_ None
          | Some properties =>
              Set_ "description" (VStringPtr (Description properties)) ;;;
              Set_ "encrypted" (VBoolPtr (IsEncrypted properties)) ;;;
              d <- get_d ;;
              if negb (GetBool d "encrypted") then
                match ParseAzureAutomationVariableValue
                        ("azurerm_automation_variable_" +:+ varTypeLower)
                        (Value properties) with
                | (_, Some e) => return_ (Some e)
                | (value, None) =>
                    if String.eqb varTypeLower "datetime" then
                      match value with
                      | GTime t => Set_ "value" (VString (time_Format t)) ;;; return_ None
                      | _ => panic
                      end
                    else if negb (String.eqb varTypeLower "null") then
                      Set_ "value"
                        match value with
                        | GNil => VNil
                        | GTime t => VString (time_Format t)
                        | GString v => VString v
                        | GInt32 v => VInt v
                        | GBool v => VBool v
                        end ;;;
                      return_ None
                    else return_ None
                end
              else return_ None
          end
      end
  end.

Definition resourceAutomationVariableCreateUpdate (varType : string) : M Req Variable_ Empty_set :=
  d <- get_d ;;
  let name := GetString d "name" in
  let resourceGroup := GetString d "resource_group_name" in
  let accountName := GetString d "automation_account_name" in
  let varTypeLower := ToLower lowerWide varType in
  (if IsNewResource d then
     resp <- call (Get resourceGroup accountName name) ;;
     (match err resp with
      | Some e =>
          if negb (ResponseWasNotFound (response resp))
          then return_ (Some (Errorf "Error checking for present of existing Automation %s Variable %q (Automation Account Name %q / Resource Group %q): %+v" (Some e)))
          else ret tt
      | None => ret tt
      end) ;;;
     if negb (ResponseWasNotFound (response resp)) then
       match ID (body resp) with
       | None => panic
       | Some id =>
           return_ (Some (ImportAsExistsError ("azurerm_automation_variable_" +:+ varTypeLower) id))
       end
     else ret tt
   else ret tt) ;;;
  let description := GetString d "description" in
  let encrypted := GetBool d "encrypted" in
  match valueString varTypeLower d with
  | inl e => return_ (Some e)
  | inr value =>
      let parameters :=
        mkParameters (Some name) (Some description) (Some encrypted)
          (if negb (String.eqb varTypeLower "null") then Some value else None) in
      created <- call (CreateOrUpdate resourceGroup accountName name parameters) ;;
      match err created with
      | Some e => return_ (Some (Errorf "Error creating Automation %s Variable %q (Automation Account Name %q / Resource Group %q): %+v" (Some e)))
      | None =>
          resp <- call (Get resourceGroup accountName name) ;;
          match err resp with
          | Some e => return_ (Some (Errorf "Error retrieving Automation %s Variable %q (Automation Account Name %q / Resource Group %q): %+v" (Some e)))
          | None =>
              match ID (body resp) with
              | None => return_ (Some (Errorf "Cannot read Automation %s Variable %q (Automation Account Name %q / Resource Group %q) ID" None))
              | Some id =>
                  SetId id ;;;
                  e <- callFn (resourceAutomationVariableRead varType) ;;
                  return_ e
              end
          end
      end
  end.

Definition resourceAutomationVariableDelete (varType : string) : M Req Variable_ Empty_set :=
  d <- get_d ;;
  match ParseAzureResourceID (Id d) with
  | inl e => return_ (Some e)
  | inr id =>
      let resourceGroup := ResourceGroup id in
      let accountName := PathAt id "automationAccounts" in
      let name := PathAt id "variables" in
      resp <- call (Delete resourceGroup accountName name) ;;
      match err resp with
      | Some e => return_ (Some (Errorf "Error deleting Automation %s Variable %q (Automation Account Name %q / Resource Group %q): %+v" (Some e)))
      | None => return_ None
      end
  end.
End Handlers.

End Automation.

(** ** SQL failover groups and firewall rules *)

Module Sql.

(** [sql.ReadWriteEndpointFailoverPolicy]: the two values of the SDK. *)
Definition Automatic : string := "Automatic".
Definition Manual : string := "Manual".

(** [sql.FailoverGroupReadWriteEndpoint] *)
Record FailoverGroupReadWriteEndpoint : Type := mkReadWriteEndpoint {
  FailoverPolicy : string;
  FailoverWithDataLossGracePeriodMinutes : option Z
}.

(** [expandSqlFailoverGroupReadWritePolicy]; [None] is the panic of an index
    out of range or of a failed type assertion. *)
Definition expandSqlFailoverGroupReadWritePolicy (d : ResourceData)
  : option FailoverGroupReadWriteEndpoint :=
  match fields d !! "read_write_endpoint_failover_policy" with
  | Some (VList (v :: _)) =>
      match v !! "mode", v !! "grace_minutes" with
      | Some (AString m), Some (AInt g) =>
          let mode := m in
          let graceMins := Go.int32 g in
          let policy := mkReadWriteEndpoint mode None in
          if negb (String.eqb mode Manual)
          then Some (mkReadWriteEndpoint (FailoverPolicy policy) (Some graceMins))
          else Some policy
      | _, _ => None
      end
  | _ => None
  end.

(** [flattenSqlFailoverGroupReadWritePolicy] *)
Definition flattenSqlFailoverGroupReadWritePolicy
  (input : option FailoverGroupReadWriteEndpoint) : list (gmap string Attr) :=
  match input with
  | None => []
  | Some input =>
      let policy : gmap string Attr := ∅ in
      let policy := <["mode" := AString (FailoverPolicy input)]> policy in
      let policy :=
        match FailoverWithDataLossGracePeriodMinutes input with
        | Some g => <["grace_minutes" := AInt g]> policy
        | None => policy
        end in
      [policy]
  end.

(** [sql.FirewallRule] *)
Record FirewallRule : Type := mkFirewallRule {
  ID : option string;
  StartIPAddress : option string;
  EndIPAddress : option string
}.

(** [parse.FirewallRuleId] *)
Record FirewallRuleId : Type := mkFirewallRuleId {
  ResourceGroup : string;
  ServerName : string;
  Name : string
}.

Inductive Req : Type :=
  | Get (resourceGroup serverName name : string)
  | CreateOrUpdate (resourceGroup serverName name : string) (parameters : FirewallRule)
  | Delete (resourceGroup serverName name : string).

Section FirewallRule.
(** [parse.FirewallRuleID] *)
Variable FirewallRuleID : string -> error + FirewallRuleId.

Definition resourceSqlFirewallRuleRead : M Req FirewallRule Empty_set :=
  d <- get_d ;;
  match FirewallRuleID (Id d) with
  | inl e => return_ (Some e)
  | inr id =>
      resp <- call (Get (ResourceGroup id) (ServerName id) (Name id)) ;;
      match err resp with
      | Some e =>
          if ResponseWasNotFound (response resp)
          then SetId "" ;;; return_ None
          else return_ (Some (Errorf "retrieving SQL Firewall Rule %q (Server %q / Resource Group %q): %+v" (Some e)))
      | None =>
          Set_ "name" (VString (Name id)) ;;;
          Set_ "server_name" (VString (ServerName id)) ;;;
          Set_ "resource_group_name" (VString (ResourceGroup id)) ;;;
          Set_ "start_ip_address" (VStringPtr (StartIPAddress (body resp))) ;;;
          Set_ "end_ip_address" (VStringPtr (EndIPAddress (body resp))) ;;;
          return_ None
      end
  end.

Definition resourceSqlFirewallRuleCreateUpdate : M Req FirewallRule Empty_set :=
  d <- get_d ;;
  let name := GetString d "name" in
  let serverName := GetString d "server_name" in
  let resourceGroup := GetString d "resource_group_name" in
  let startIPAddress := GetString d "start_ip_address" in
  let endIPAddress := GetString d "end_ip_address" in
  (if IsNewResource d then
     existing <- call (Get resourceGroup serverName name) ;;
     (match err existing with
      | Some e =>
          if negb (ResponseWasNotFound (response existing))
          then return_ (Some (Errorf "Error checking for presence of existing SQL Firewall Rule %s (Resource Group %s, Server %s): %+v" (Some e)))
          else ret tt
      | None => ret tt
      end) ;;;
     match ID (body existing) with
     | Some id =>
         if negb (String.eqb id "")
         then return_ (Some (ImportAsExistsError "azurerm_sql_firewall_rule" id))
         else ret tt
     | None => ret tt
     end
   else ret tt) ;;;
  let parameters := mkFirewallRule None (Some startIPAddress) (Some endIPAddress) in
  created <- call (CreateOrUpdate resourceGroup serverName name parameters) ;;
  match err created with
  | Some e => return_ (Some (Errorf "Error creating SQL Firewall Rule %s (Resource Group %s, Server %s): %+v" (Some e)))
  | None =>
      resp <- call (Get resourceGroup serverName name) ;;
      match err resp with
      | Some e => return_ (Some (Errorf "Error retrieving SQL Firewall Rule %s (Resource Group %s, Server %s): %+v" (Some e)))
      | None =>
          match ID (body resp) with
          | None => panic
          | Some id =>
              SetId id ;;;
              e <- callFn resourceSqlFirewallRuleRead ;;
              return_ e
          end
      end
  end.

Definition resourceSqlFirewallRuleDelete : M Req FirewallRule Empty_set :=
  d <- get_d ;;
  match FirewallRuleID (Id d) with
  | inl e => return_ (Some e)
  | inr id =>
      resp <- call (Delete (ResourceGroup id) (ServerName id) (Name id)) ;;
      match err resp with
      | Some e =>
          if negb (ResponseWasNotFound (response resp))
          then return_ (Some (Errorf "deleting SQL Firewall Rule %q (Server %q / Resource Group %q): %+v" (Some e)))
          else return_ None
      | None => return_ None
      end
  end.
End FirewallRule.

End Sql.

(** ** Storage sync services *)

Module Storage.
Import TagsHelpers.

(** [storagesync.Service], the fields the handlers read. *)
Record ServiceProperties : Type := mkServiceProperties {
  IncomingTrafficPolicy : string
}.

Record Service : Type := mkService {
  ID : option string;
  Name : option string;
  Location : option string;
  Properties : option ServiceProperties;
  serviceTags : Tags
}.

(** [parse.StorageSyncServiceId] *)
Record StorageSyncServiceId : Type := mkStorageSyncServiceId {
  ResourceGroup : string;
  SyncName : string
}.

Inductive Req : Type :=
  | Get (resourceGroup name : string)
  | Delete (resourceGroup name : string)
  | WaitForCompletionRef.

Section StorageSync.
(** [parse.StorageSyncServiceID], [location.NormalizeNilable] and
    [tags.FlattenAndSet]. *)
Variable StorageSyncServiceID : string -> error + StorageSyncServiceId.
Variable NormalizeNilable : option string -> string.
Variable FlattenAndSet : ResourceData -> Tags -> ResourceData * option error.

Definition resourceStorageSyncRead : M Req Service Empty_set :=
  d <- get_d ;;
  match StorageSyncServiceID (Id d) with
  | inl e => return_ (Some e)
  | inr id =>
      resp <- call (Get (ResourceGroup id) (SyncName id)) ;;
      match err resp with
      | Some e =>
          if ResponseWasNotFound (response resp)
          then SetId "" ;;; return_ None
          else return_ (Some (Errorf "reading Storage Sync(Storage Sync Name %q / Resource Group %q): %+v" (Some e)))
      | None =>
          Set_ "name" (VStringPtr (Name (body resp))) ;;;
          Set_ "resource_group_name" (VString (ResourceGroup id)) ;;;
          Set_ "location" (VString (NormalizeNilable (Location (body resp)))) ;;;
          (match Properties (body resp) with
           | Some props => Set_ "incoming_traffic_policy" (VString (IncomingTrafficPolicy props))
           | None => ret tt
           end) ;;;
          returnFlattenAndSet FlattenAndSet (serviceTags (body resp))
      end
  end.

Definition resourceStorageSyncDelete : M Req Service Empty_set :=
  d <- get_d ;;
  match StorageSyncServiceID (Id d) with
  | inl e => return_ (Some e)
  | inr id =>
      future <- call (Delete (ResourceGroup id) (SyncName id)) ;;
      match err future with
      | Some e => return_ (Some (Errorf "deleting Storage Sync(Storage Sync Name %q / Resource Group %q): %+v" (Some e)))
      | None =>
          done <- call WaitForCompletionRef ;;
          match err done with
          | Some e => return_ (Some (Errorf "waiting for deletion of Storage Sync(Storage Sync Name %q / Resource Group %q): %+v" (Some e)))
          | None => return_ None
          end
      end
  end.
End StorageSync.

End Storage.

(** ** IoT Hub ServiceBus queue endpoints *)

Module IotHub.
Import Go.

(** [devices.RoutingServiceBusQueueEndpointProperties] *)
Record RoutingServiceBusQueueEndpointProperties : Type := mkQueueEndpoint {
  ConnectionString : option string;
  Name : option string;
  SubscriptionID : option string;
  ResourceGroup : option string
}.

(** [devices.RoutingEventHubProperties] *)
Record RoutingEventHubProperties : Type := mkEventHub {
  ehConnectionString : option string;
  ehName : option string
}.

(** [devices.RoutingEndpoints]: the two lists the handlers look at. *)
Record RoutingEndpoints : Type := mkEndpoints {
  ServiceBusQueues : option (list RoutingServiceBusQueueEndpointProperties);
  EventHubs : option (list RoutingEventHubProperties)
}.

Record RoutingProperties : Type := mkRouting {
  Endpoints : option RoutingEndpoints
}.

Record IotHubProperties : Type := mkProperties {
  Routing : option RoutingProperties
}.

(** [devices.IotHubDescription] *)
Record IotHubDescription : Type := mkIotHub {
  ID : option string;
  Properties : option IotHubProperties
}.

Inductive Req : Type :=
  | Get (resourceGroup iothubName : string)
  | CreateOrUpdate (resourceGroup iothubName : string) (iothub : IotHubDescription)
  | WaitForCompletionRef.

Section Handlers.
(** [azure.ParseAzureResourceID], the package constant
    [IothubResourceName], the subscription of the client in [meta] and
    the case tables behind [strings.EqualFold]. *)
Variable ParseAzureResourceID : string -> error + ResourceID.
Variable IothubResourceName : string.
Variable subscriptionID : string.
Variable foldOrbit : Z -> Z -> bool.

(** The [for] loop of lines 180-186 of the Read handler. *)
Fixpoint setConnectionString (endpointName : string)
    (l : list RoutingServiceBusQueueEndpointProperties) : M Req IotHubDescription unit :=
  match l with
  | [] => ret tt
  | endpoint :: l' =>
      (match Name endpoint with
       | Some existingEndpointName =>
           if EqualFold foldOrbit existingEndpointName endpointName
           then Set_ "connection_string" (VStringPtr (ConnectionString endpoint))
           else ret tt
       | None => ret tt
       end) ;;;
      setConnectionString endpointName l'
  end.

Definition resourceIotHubEndpointServiceBusQueueRead : M Req IotHubDescription Empty_set :=
  d <- get_d ;;
  match ParseAzureResourceID (Id d) with
  | inl e => return_ (Some e)
  | inr parsedIothubEndpointId =>
      let resourceGroup := Sdk.ResourceGroup parsedIothubEndpointId in
      let iothubName := PathAt parsedIothubEndpointId "IotHubs" in
      let endpointName := PathAt parsedIothubEndpointId "Endpoints" in
      iothub <- call (Get resourceGroup iothubName) ;;
      match err iothub with
      | Some e => return_ (Some (Errorf "Error loading IotHub %q (Resource Group %q): %+v" (Some e)))
      | None =>
          Set_ "name" (VString endpointName) ;;;
          Set_ "iothub_name" (VString iothubName) ;;;
          Set_ "resource_group_name" (VString resourceGroup) ;;;
          match Properties (body iothub) with
          | None => return_ None
          | Some props =>
              match Routing props with
              | None => return_ None
              | Some routing =>
                  match Endpoints routing with
                  | None => return_ None
                  | Some eps =>
                      (match ServiceBusQueues eps with
                       | Some endpoints => setConnectionString endpointName endpoints
                       | None => ret tt
                       end) ;;;
                      return_ None
                  end
              end
          end
      end
  end.

(** The [for] loop of lines 117-129: the rebuilt list [endpoints] and the
    flag [alreadyExists]. *)
Fixpoint rebuildEndpoints (resourceId endpointName : string)
    (queueEndpoint : RoutingServiceBusQueueEndpointProperties)
    (l endpoints : list RoutingServiceBusQueueEndpointProperties)
    (alreadyExists : bool)
  : M Req IotHubDescription (list RoutingServiceBusQueueEndpointProperties * bool) :=
  match l with
  | [] => ret (endpoints, alreadyExists)
  | existingEndpoint :: l' =>
      match Name existingEndpoint with
      | Some existingEndpointName =>
          if EqualFold foldOrbit existingEndpointName endpointName then
            d <- get_d ;;
            if IsNewResource d
            then return_ (Some (ImportAsExistsError "azurerm_iothub_endpoint_servicebus_queue" resourceId))
            else rebuildEndpoints resourceId endpointName queueEndpoint l'
                   (endpoints ++ [queueEndpoint])%list true
          else rebuildEndpoints resourceId endpointName queueEndpoint l'
                 (endpoints ++ [existingEndpoint])%list alreadyExists
      | None =>
          rebuildEndpoints resourceId endpointName queueEndpoint l' endpoints alreadyExists
      end
  end.

Definition resourceIotHubEndpointServiceBusQueueCreateUpdate : M Req IotHubDescription Empty_set :=
  d <- get_d ;;
  let iothubName := GetString d "iothub_name" in
  let resourceGroup := GetString d "resource_group_name" in
  ByName iothubName IothubResourceName ;;;
  defer_UnlockByName iothubName IothubResourceName ;;;
  iothub <- call (Get resourceGroup iothubName) ;;
  match err iothub with
  | Some e =>
      if ResponseWasNotFound (response iothub)
      then return_ (Some (Errorf "IotHub %q (Resource Group %q) was not found" None))
      else return_ (Some (Errorf "Error loading IotHub %q (Resource Group %q): %+v" (Some e)))
  | None =>
      let endpointName := GetString d "name" in
      match ID (body iothub) with
      | None => panic
      | Some iothubID =>
          let resourceId := iothubID +:+ "/Endpoints/" +:+ endpointName in
          let queueEndpoint :=
            mkQueueEndpoint (Some (GetString d "connection_string")) (Some endpointName)
              (Some subscriptionID) (Some resourceGroup) in
          match Properties (body iothub) with
          | None => panic
          | Some props =>
              (* [routing] aliases the routing object of [iothub] unless
                 that one is nil, in which case it is a fresh object the
                 hub does not point to *)
              let '(routing, aliased) :=
                match Routing props with
                | Some r => (r, true)
                | None => (mkRouting None, false)
                end in
              let routingEndpoints :=
                match Endpoints routing with
                | Some eps => eps
                | None => mkEndpoints None None
                end in
              let routingEndpoints :=
                match EventHubs routingEndpoints with
                | None => mkEndpoints (Some []) (EventHubs routingEndpoints)
                | Some _ => routingEndpoints
                end in
              match ServiceBusQueues routingEndpoints with
              | None => panic
              | Some queues =>
                  rebuilt <-
                    rebuildEndpoints resourceId endpointName queueEndpoint queues [] false ;;
                  let '(endpoints, alreadyExists) := rebuilt in
                  endpoints <-
                    (if IsNewResource d then ret (endpoints ++ [queueEndpoint])%list
                     else if negb alreadyExists
                     then return_ (Some (Errorf "Unable to find ServiceBus Queue Endpoint %q defined for IotHub %q (Resource Group %q)" None))
                     else ret endpoints) ;;
                  let routing :=
                    mkRouting (Some (mkEndpoints (Some endpoints) (EventHubs routingEndpoints))) in
                  let iothub' :=
                    if aliased
                    then mkIotHub (ID (body iothub)) (Some (mkProperties (Some routing)))
                    else body iothub in
                  future <- call (CreateOrUpdate resourceGroup iothubName iothub') ;;
                  match err future with
                  | Some e => return_ (Some (Errorf "Error creating/updating IotHub %q (Resource Group %q): %+v" (Some e)))
                  | None =>
                      done <- call WaitForCompletionRef ;;
                      match err done with
                      | Some e => return_ (Some (Errorf "Error waiting for the completion of the creating/updating of IotHub %q (Resource Group %q): %+v" (Some e)))
                      | None =>
                          SetId resourceId ;;;
                          e <- callFn resourceIotHubEndpointServiceBusQueueRead ;;
                          return_ e
                      end
                  end
              end
          end
      end
  end.

(** The [for] loop of lines 228-234 of the Delete handler. *)
Fixpoint updatedEndpoints (endpointName : string)
    (l : list RoutingServiceBusQueueEndpointProperties)
  : list RoutingServiceBusQueueEndpointProperties :=
  match l with
  | [] => []
  | endpoint :: l' =>
      match Name endpoint with
      | Some existingEndpointName =>
          if negb (EqualFold foldOrbit existingEndpointName endpointName)
          then endpoint :: updatedEndpoints endpointName l'
          else updatedEndpoints endpointName l'
      | None => updatedEndpoints endpointName l'
      end
  end.

Definition resourceIotHubEndpointServiceBusQueueDelete : M Req IotHubDescription Empty_set :=
  d <- get_d ;;
  match ParseAzureResourceID (Id d) with
  | inl e => return_ (Some e)
  | inr parsedIothubEndpointId =>
      let resourceGroup := Sdk.ResourceGroup parsedIothubEndpointId in
      let iothubName := PathAt parsedIothubEndpointId "IotHubs" in
      let endpointName := PathAt parsedIothubEndpointId "Endpoints" in
      ByName iothubName IothubResourceName ;;;
      defer_UnlockByName iothubName IothubResourceName ;;;
      iothub <- call (Get resourceGroup iothubName) ;;
      match err iothub with
      | Some e =>
          if ResponseWasNotFound (response iothub)
          then return_ (Some (Errorf "IotHub %q (Resource Group %q) was not found" None))
          else return_ (Some (Errorf "Error loading IotHub %q (Resource Group %q): %+v" (Some e)))
      | None =>
          match Properties (body iothub) with
          | None => return_ None
          | Some props =>
              match Routing props with
              | None => return_ None
              | Some routing =>
                  match Endpoints routing with
                  | None => return_ None
                  | Some eps =>
                      match ServiceBusQueues eps with
                      | None => return_ None
                      | Some endpoints =>
                          let updated := updatedEndpoints endpointName endpoints in
                          let iothub' :=
                            mkIotHub (ID (body iothub))
                              (Some (mkProperties (Some (mkRouting
                                 (Some (mkEndpoints (Some updated) (EventHubs eps))))))) in
                          future <- call (CreateOrUpdate resourceGroup iothubName iothub') ;;
                          match err future with
                          | Some e => return_ (Some (Errorf "Error updating IotHub %q (Resource Group %q) with ServiceBus Queue Endpoint %q: %+v" (Some e)))
                          | None =>
                              done <- call WaitForCompletionRef ;;
                              match err done with
                              | Some e => return_ (Some (Errorf "Error waiting for IotHub %q (Resource Group %q) to finish updating ServiceBus Queue Endpoint %q: %+v" (Some e)))
                              | None => return_ None
                              end
                          end
                      end
                  end
              end
          end
      end
  end.
End Handlers.

End IotHub.

(** ** Network interface <-> network security group association *)

Module Network.
Import Go.

(** [network.SecurityGroup] *)
Record SecurityGroup : Type := mkSecurityGroup {
  sgID : option string
}.

(** [network.InterfacePropertiesFormat] *)
Record InterfacePropertiesFormat : Type := mkInterfaceProperties {
  NetworkSecurityGroup : option SecurityGroup
}.

(** [network.Interface] *)
Record Interface : Type := mkInterface {
  ID : option string;
  Properties : option InterfacePropertiesFormat
}.

Inductive Req : Type :=
  | Get (resourceGroup networkInterfaceName expand : string)
  | CreateOrUpdate (resourceGroup networkInterfaceName : string) (parameters : Interface)
  | UpdateNetworkInterfaceAllowingRemovalOfNSG (resourceGroup networkInterfaceName : string)
      (parameters : Interface)
  | WaitForCompletionRef.

Section Handlers.
(** [azure.ParseAzureResourceID] and the package constants
    [networkInterfaceResourceName], [networkSecurityGroupResourceName]. *)
Variable ParseAzureResourceID : string -> error + ResourceID.
Variable networkInterfaceResourceName : string.
Variable networkSecurityGroupResourceName : string.

Definition resourceNetworkInterfaceSecurityGroupAssociationRead : M Req Interface Empty_set :=
  d <- get_d ;;
  let splitId := Split (Id d) "|"%char in
  if negb (Nat.eqb (List.length splitId) 2)
  then return_ (Some (Errorf "Expected ID to be in the format {networkInterfaceId}|{networkSecurityGroupId} but got %q" None))
  else
    match ParseAzureResourceID (nth 0 splitId "") with
    | inl e => return_ (Some e)
    | inr nicID =>
        let name := PathAt nicID "networkInterfaces" in
        let resourceGroup := Sdk.ResourceGroup nicID in
        read <- call (Get resourceGroup name "") ;;
        match err read with
        | Some e =>
            if ResponseWasNotFound (response read)
            then SetId "" ;;; return_ None
            else return_ (Some (Errorf "Error retrieving Network Interface %q (Resource Group %q): %+v" (Some e)))
        | None =>
            match Properties (body read) with
            | None => return_ (Some (Errorf "Error: `properties` was nil for Network Interface %q (Resource Group %q)" None))
            | Some props =>
                match NetworkSecurityGroup props with
                | Some (mkSecurityGroup (Some nsgID)) =>
                    Set_ "network_interface_id" (VStringPtr (ID (body read))) ;;;
                    Set_ "network_security_group_id" (VString nsgID) ;;;
                    return_ None
                | _ => SetId "" ;;; return_ None
                end
            end
        end
    end.

Definition resourceNetworkInterfaceSecurityGroupAssociationCreate : M Req Interface Empty_set :=
  d <- get_d ;;
  let networkInterfaceId := GetString d "network_interface_id" in
  let networkSecurityGroupId := GetString d "network_security_group_id" in
  match ParseAzureResourceID networkInterfaceId with
  | inl e => return_ (Some e)
  | inr nicId =>
      let networkInterfaceName := PathAt nicId "networkInterfaces" in
      let resourceGroup := Sdk.ResourceGroup nicId in
      ByName networkInterfaceName networkInterfaceResourceName ;;;
      defer_UnlockByName networkInterfaceName networkInterfaceResourceName ;;;
      match ParseAzureResourceID networkSecurityGroupId with
      | inl e => return_ (Some e)
      | inr nsgId =>
          let nsgName := PathAt nsgId "networkSecurityGroups" in
          ByName nsgName networkSecurityGroupResourceName ;;;
          defer_UnlockByName nsgName networkSecurityGroupResourceName ;;;
          read <- call (Get resourceGroup networkInterfaceName "") ;;
          match err read with
          | Some e =>
              if ResponseWasNotFound (response read)
              then return_ (Some (Errorf "Network Interface %q (Resource Group %q) was not found!" None))
              else return_ (Some (Errorf "Error retrieving Network Interface %q (Resource Group %q): %+v" (Some e)))
          | None =>
              match Properties (body read) with
              | None => return_ (Some (Errorf "Error: `properties` was nil for Network Interface %q (Resource Group %q)" None))
              | Some props =>
                  let resourceId := networkInterfaceId +:+ "|" +:+ networkSecurityGroupId in
                  match NetworkSecurityGroup props with
                  | Some _ =>
                      return_ (Some (ImportAsExistsError "azurerm_network_interface_security_group_association" resourceId))
                  | None =>
                      let read' :=
                        mkInterface (ID (body read))
                          (Some (mkInterfaceProperties
                                   (Some (mkSecurityGroup (Some networkSecurityGroupId))))) in
                      future <- call (CreateOrUpdate resourceGroup networkInterfaceName read') ;;
                      match err future with
                      | Some e => return_ (Some (Errorf "Error updating Security Group Association for Network Interface %q (Resource Group %q): %+v" (Some e)))
                      | None =>
                          done <- call WaitForCompletionRef ;;
                          match err done with
                          | Some e => return_ (Some (Errorf "Error waiting for completion of Security Group Association for NIC %q (Resource Group %q): %+v" (Some e)))
                          | None =>
                              SetId resourceId ;;;
                              e <- callFn resourceNetworkInterfaceSecurityGroupAssociationRead ;;
                              return_ e
                          end
                      end
                  end
              end
          end
      end
  end.

Definition resourceNetworkInterfaceSecurityGroupAssociationDelete : M Req Interface Empty_set :=
  d <- get_d ;;
  let splitId := Split (Id d) "|"%char in
  if negb (Nat.eqb (List.length splitId) 2)
  then return_ (Some (Errorf "Expected ID to be in the format {networkInterfaceId}/{networkSecurityGroup} but got %q" None))
  else
    match ParseAzureResourceID (nth 0 splitId "") with
    | inl e => return_ (Some e)
    | inr nicID =>
        let name := PathAt nicID "networkInterfaces" in
        let resourceGroup := Sdk.ResourceGroup nicID in
        ByName name networkInterfaceResourceName ;;;
        defer_UnlockByName name networkInterfaceResourceName ;;;
        read <- call (Get resourceGroup name "") ;;
        match err read with
        | Some e =>
            if ResponseWasNotFound (response read)
            then return_ (Some (Errorf "Network Interface %q (Resource Group %q) was not found!" None))
            else return_ (Some (Errorf "Error retrieving Network Interface %q (Resource Group %q): %+v" (Some e)))
        | None =>
            match Properties (body read) with
            | None => return_ (Some (Errorf "Error: `properties` was nil for Network Interface %q (Resource Group %q)" None))
            | Some props =>
                let read' := mkInterface (ID (body read)) (Some (mkInterfaceProperties None)) in
                future <- call (UpdateNetworkInterfaceAllowingRemovalOfNSG resourceGroup name read') ;;
                match err future with
                | Some e => return_ (Some (Errorf "Error updating Network Interface %q (Resource Group %q): %+v" (Some e)))
                | None =>
                    done <- call WaitForCompletionRef ;;
                    match err done with
                    | Some e => return_ (Some (Errorf "Error waiting for update of Network Interface %q (Resource Group %q): %+v" (Some e)))
                    | None => return_ None
                    end
                end
            end
        end
    end.
End Handlers.

End Network.

(** ** Portal dashboards *)

Module Portal.
Import TagsHelpers.

(** [portal.DashboardProperties], by the JSON document it decodes from. *)
Record DashboardProperties : Type := mkDashboardProperties {
  document : string
}.

(** [portal.Dashboard] *)
Record Dashboard : Type := mkDashboard {
  Location : option string;
  Properties : option DashboardProperties;
  dashboardTags : Tags
}.

(** [parse.DashboardId] *)
Record DashboardId : Type := mkDashboardId {
  ResourceGroup : string;
  Name : string
}.

Inductive Req : Type :=
  | Get (resourceGroup name : string)
  | CreateOrUpdate (resourceGroup name : string) (dashboard : Dashboard)
  | Delete (resourceGroup name : string).

Section Handlers.
(** [parse.DashboardID], the formatter [parse.NewDashboardID(..).ID()],
    [azure.NormalizeLocation], [json.Unmarshal] and [json.Marshal] for
    dashboard properties, the subscription of the client,
    [tags.Expand(d.Get("tags"))] and [tags.FlattenAndSet]. *)
Variable DashboardID : string -> error + DashboardId.
Variable NewDashboardID : string -> string -> string -> string.
Variable NormalizeLocation : string -> string.
Variable json_Unmarshal : string -> string + DashboardProperties.
Variable json_Marshal : option DashboardProperties -> string + string.
Variable subscriptionId : string.
Variable expandTags : ResourceData -> Tags.
Variable FlattenAndSet : ResourceData -> Tags -> ResourceData * option error.

Definition resourceDashboardRead : M Req Dashboard Empty_set :=
  d <- get_d ;;
  match DashboardID (Id d) with
  | inl e => return_ (Some e)
  | inr id =>
      resp <- call (Get (ResourceGroup id) (Name id)) ;;
      match err resp with
      | Some e =>
          if ResponseWasNotFound (response resp)
          then SetId "" ;;; return_ None
          else return_ (Some (Errorf "retrieving Dashboard %q (Resource Group %q): %+v" (Some e)))
      | None =>
          Set_ "name" (VString (Name id)) ;;;
          Set_ "resource_group_name" (VString (ResourceGroup id)) ;;;
          (match Location (body resp) with
           | Some location => Set_ "location" (VString (NormalizeLocation location))
           | None => ret tt
           end) ;;;
          match json_Marshal (Properties (body resp)) with
          | inl jsonErr => return_ (Some (Errorf "parsing JSON for Dashboard Properties: %+v" (Some jsonErr)))
          | inr props =>
              Set_ "dashboard_properties" (VString props) ;;;
              returnFlattenAndSet FlattenAndSet (dashboardTags (body resp))
          end
      end
  end.

Definition resourceDashboardCreateUpdate : M Req Dashboard Empty_set :=
  d <- get_d ;;
  let t := expandTags d in
  let name := GetString d "name" in
  let resourceGroup := GetString d "resource_group_name" in
  let location := NormalizeLocation (GetString d "location") in
  let dashboardProps := GetString d "dashboard_properties" in
  (* TODO: requires import support *)
  match json_Unmarshal dashboardProps with
  | inl e => return_ (Some (Errorf "Error parsing JSON: %+v" (Some e)))
  | inr dashboardProperties =>
      let dashboard := mkDashboard (Some location) (Some dashboardProperties) t in
      created <- call (CreateOrUpdate resourceGroup name dashboard) ;;
      match err created with
      | Some e => return_ (Some (Errorf "creating/updating Dashboard %q (Resource Group %q): %+v" (Some e)))
      | None =>
          SetId (NewDashboardID subscriptionId resourceGroup name) ;;;
          e <- callFn resourceDashboardRead ;;
          return_ e
      end
  end.

Definition resourceDashboardDelete : M Req Dashboard Empty_set :=
  d <- get_d ;;
  match DashboardID (Id d) with
  | inl e => return_ (Some e)
  | inr id =>
      resp <- call (Delete (ResourceGroup id) (Name id)) ;;
      match err resp with
      | Some e =>
          if negb (ResponseWasNotFound (response resp))
          then return_ (Some (Errorf "deleting Dashboard %q (Resource Group %q): %+v" (Some e)))
          else return_ None
      | None => return_ None
      end
  end.
End Handlers.

End Portal.


(** ** Vocabulary of the properties *)

Module Spec.

Section Traces.
Context {Req : Type}.

Definition isCall (e : Event Req) : bool :=
  match e with
  | EvCall _ => true
  | _ => false
  end.

(** A stretch of the log in which the handler only talks to the API. *)
Definition onlyCalls (evs : list (Event Req)) : bool := forallb isCall evs.

(** The lock discipline for the lock keyed by [name] and [resourceType],
    checked along a log: [held] counts how often the lock is held at this
    point.  Every API request is made with the lock held, the lock is never
    released without being held, and at the end of the log it is free. *)
Fixpoint disciplined (name resourceType : string) (held : nat) (evs : list (Event Req))
  : bool :=
  match evs with
  | [] => Nat.eqb held 0
  | EvLock n t :: evs' =>
      if String.eqb n name && String.eqb t resourceType
      then disciplined name resourceType (S held) evs'
      else disciplined name resourceType held evs'
  | EvUnlock n t :: evs' =>
      if String.eqb n name && String.eqb t resourceType
      then match held with
           | O => false
           | S held' => disciplined name resourceType held' evs'
           end
      else disciplined name resourceType held evs'
  | EvCall _ :: evs' =>
      Nat.ltb 0 held && disciplined name resourceType held evs'
  end.
End Traces.

(** The parent a handler works on, as the handler itself determines it
    from the resource data; the empty name when the ID does not parse. *)
Section Parents.
Variable ParseAzureResourceID : string -> error + ResourceID.

(** The hub of an endpoint, from the ID of the endpoint. *)
Definition hubOfEndpoint (d : ResourceData) : string :=
  match ParseAzureResourceID (Id d) with
  | inr id => PathAt id "IotHubs"
  | inl _ => ""
  end.

(** The network interface of a new association, from its configuration. *)
Definition nicOfConfig (d : ResourceData) : string :=
  match ParseAzureResourceID (GetString d "network_interface_id") with
  | inr id => PathAt id "networkInterfaces"
  | inl _ => ""
  end.

(** The network interface of an association, from the ID of the
    association. *)
Definition nicOfAssociation (d : ResourceData) : string :=
  match ParseAzureResourceID (nth 0 (Go.Split (Id d) "|"%char) "") with
  | inr id => PathAt id "networkInterfaces"
  | inl _ => ""
  end.
End Parents.

End Spec.

(** ** SQL failover groups: the read-only policy and the partner servers *)

Module SqlFailoverGroup.

(** [sql.FailoverGroupReadOnlyEndpoint] *)
Record FailoverGroupReadOnlyEndpoint : Type := mkReadOnlyEndpoint {
  FailoverPolicy : string
}.

(** [sql.PartnerInfo] *)
Record PartnerInfo : Type := mkPartnerInfo {
  ID : option string;
  Location : option string;
  ReplicationRole : string
}.

(** [expandSqlFailoverGroupReadOnlyPolicy]; the outer [None] is the panic
    of a failed type assertion, [Some None] the nil pointer returned for
    an empty list. *)
Definition expandSqlFailoverGroupReadOnlyPolicy (d : ResourceData)
  : option (option FailoverGroupReadOnlyEndpoint) :=
  match fields d !! "readonly_endpoint_failover_policy" with
  | None | Some (VList []) => Some None
  | Some (VList (v :: _)) =>
      match v !! "mode" with
      | Some (AString mode) => Some (Some (mkReadOnlyEndpoint mode))
      | _ => None
      end
  | Some _ => None
  end.

(** [flattenSqlFailoverGroupReadOnlyPolicy] *)
Definition flattenSqlFailoverGroupReadOnlyPolicy
  (input : option FailoverGroupReadOnlyEndpoint) : list (gmap string Attr) :=
  match input with
  | None => []
  | Some input =>
      let policy : gmap string Attr := ∅ in
      let policy := <["mode" := AString (FailoverPolicy input)]> policy in
      [policy]
  end.

(** The loop of [expandSqlFailoverGroupPartnerServers]. *)
Fixpoint expandPartners (servers : list (gmap string Attr)) (partners : list PartnerInfo)
  : option (list PartnerInfo) :=
  match servers with
  | [] => Some partners
  | info :: servers' =>
      match info !! "id" with
      | Some (AString id) =>
          expandPartners servers' (partners ++ [mkPartnerInfo (Some id) None ""])%list
      | _ => None
      end
  end.

(** [expandSqlFailoverGroupPartnerServers]; [None] is a panic, the result
    is never a nil pointer. *)
Definition expandSqlFailoverGroupPartnerServers (d : ResourceData)
  : option (list PartnerInfo) :=
  match fields d !! "partner_servers" with
  | None => expandPartners [] []
  | Some (VList servers) => expandPartners servers []
  | Some _ => None
  end.

(** The body of the loop of [flattenSqlFailoverGroupPartnerServers]. *)
Definition flattenPartner (server : PartnerInfo) : gmap string Attr :=
  let info : gmap string Attr := ∅ in
  let info :=
    match ID server with
    | Some v => <["id" := AString v]> info
    | None => info
    end in
  let info :=
    match Location server with
    | Some v => <["location" := AString v]> info
    | None => info
    end in
  <["role" := AString (ReplicationRole server)]> info.

Fixpoint flattenPartners (input : list PartnerInfo) (result : list (gmap string Attr))
  : list (gmap string Attr) :=
  match input with
  | [] => result
  | server :: input' => flattenPartners input' (result ++ [flattenPartner server])%list
  end.

(** [flattenSqlFailoverGroupPartnerServers] *)
Definition flattenSqlFailoverGroupPartnerServers (input : option (list PartnerInfo))
  : list (gmap string Attr) :=
  match input with
  | Some input => flattenPartners input []
  | None => []
  end.

End SqlFailoverGroup.

(** ** ExpressRoute gateways *)

Module ExpressRoute.
Import TagsHelpers.

(** [network.ExpressRouteGatewayPropertiesAutoScaleConfigurationBounds] *)
Record Bounds : Type := mkBounds {
  Min : option Z
}.

(** [network.ExpressRouteGatewayPropertiesAutoScaleConfiguration] *)
Record AutoScaleConfiguration : Type := mkAutoScaleConfiguration {
  ascBounds : option Bounds
}.

(** [network.VirtualHubID] *)
Record VirtualHubID : Type := mkVirtualHubID {
  vhID : option string
}.

(** [network.ExpressRouteGatewayProperties] *)
Record ExpressRouteGatewayProperties : Type := mkGatewayProperties {
  AutoScale : option AutoScaleConfiguration;
  VirtualHub : option VirtualHubID
}.

(** [network.ExpressRouteGateway] *)
Record ExpressRouteGateway : Type := mkGateway {
  ID : option string;
  Name : option string;
  Location : option string;
  Properties : option ExpressRouteGatewayProperties;
  gatewayTags : Tags
}.

(** The requests of the gateways client.  The answer to
    [WaitForCompletionRef] carries [future.Response()] as it is after
    waiting. *)
Inductive Req : Type :=
  | Get (resourceGroup name : string)
  | CreateOrUpdate (resourceGroup name : string) (parameters : ExpressRouteGateway)
  | Delete (resourceGroup name : string)
  | WaitForCompletionRef.

Section Handlers.
(** [azure.ParseAzureResourceID], [azure.NormalizeLocation],
    [tags.Expand(d.Get("tags"))] and [tags.FlattenAndSet]. *)
Variable ParseAzureResourceID : string -> error + ResourceID.
Variable NormalizeLocation : string -> string.
Variable expandTags : ResourceData -> Tags.
Variable FlattenAndSet : ResourceData -> Tags -> ResourceData * option error.

Definition resourceExpressRouteGatewayRead : M Req ExpressRouteGateway Empty_set :=
  d <- get_d ;;
  match ParseAzureResourceID (Id d) with
  | inl e => return_ (Some e)
  | inr id =>
      let resourceGroup := ResourceGroup id in
      let name := PathAt id "expressRouteGateways" in
      resp <- call (Get resourceGroup name) ;;
      match err resp with
      | Some e =>
          if ResponseWasNotFound (response resp)
          then SetId "" ;;; return_ None
          else return_ (Some (Errorf "Error reading ExpressRoute Gateway %q (Resource Group %q): %+v" (Some e)))
      | None =>
          Set_ "name" (VStringPtr (Name (body resp))) ;;;
          Set_ "resource_group_name" (VString resourceGroup) ;;;
          (match Location (body resp) with
           | Some location => Set_ "location" (VString (NormalizeLocation location))
           | None => ret tt
           end) ;;;
          (match Properties (body resp) with
           | Some props =>
               let virtualHubId :=
                 match VirtualHub props with
                 | Some (mkVirtualHubID (Some hubID)) => hubID
                 | _ => ""
                 end in
               Set_ "virtual_hub_id" (VString virtualHubId) ;;;
               let scaleUnits :=
                 match AutoScale props with
                 | Some (mkAutoScaleConfiguration (Some (mkBounds (Some min)))) => min
                 | _ => 0
                 end in
               Set_ "scale_units" (VInt scaleUnits)
           | None => ret tt
           end) ;;;
          returnFlattenAndSet FlattenAndSet (gatewayTags (body resp))
      end
  end.

Definition resourceExpressRouteGatewayCreateUpdate : M Req ExpressRouteGateway Empty_set :=
  d <- get_d ;;
  let name := GetString d "name" in
  let resourceGroup := GetString d "resource_group_name" in
  (if IsNewResource d then
     resp <- call (Get resourceGroup name) ;;
     (match err resp with
      | Some e =>
          if negb (ResponseWasNotFound (response resp))
          then return_ (Some (Errorf "Error checking for present of existing ExpressRoute Gateway %q (Resource Group %q): %+v" (Some e)))
          else ret tt
      | None => ret tt
      end) ;;;
     match ID (body resp) with
     | Some id =>
         if negb (String.eqb id "")
         then return_ (Some (ImportAsExistsError "azurerm_express_route_gateway" id))
         else ret tt
     | None => ret tt
     end
   else ret tt) ;;;
  let location := NormalizeLocation (GetString d "location") in
  let virtualHubId := GetString d "virtual_hub_id" in
  let t := expandTags d in
  let minScaleUnits := Go.int32 (GetInt d "scale_units") in
  let parameters :=
    mkGateway None None (Some location)
      (Some (mkGatewayProperties
               (Some (mkAutoScaleConfiguration (Some (mkBounds (Some minScaleUnits)))))
               (Some (mkVirtualHubID (Some virtualHubId)))))
      t in
  future <- call (CreateOrUpdate resourceGroup name parameters) ;;
  match err future with
  | Some e => return_ (Some (Errorf "Error creating ExpressRoute Gateway %q (Resource Group %q): %+v" (Some e)))
  | None =>
      done <- call WaitForCompletionRef ;;
      match err done with
      | Some e => return_ (Some (Errorf "Error waiting for creation of ExpressRoute Gateway %q (Resource Group %q): %+v" (Some e)))
      | None =>
          resp <- call (Get resourceGroup name) ;;
          match err resp with
          | Some e => return_ (Some (Errorf "Error retrieving ExpressRoute Gateway %q (Resource Group %q): %+v" (Some e)))
          | None =>
              match ID (body resp) with
              | None => return_ (Some (Errorf "Cannot read ExpressRoute Gateway %q (Resource Group %q) ID" None))
              | Some id =>
                  if String.eqb id ""
                  then return_ (Some (Errorf "Cannot read ExpressRoute Gateway %q (Resource Group %q) ID" None))
                  else
                    SetId id ;;;
                    e <- callFn resourceExpressRouteGatewayRead ;;
                    return_ e
              end
          end
      end
  end.

Definition resourceExpressRouteGatewayDelete : M Req ExpressRouteGateway Empty_set :=
  d <- get_d ;;
  match ParseAzureResourceID (Id d) with
  | inl e => return_ (Some e)
  | inr id =>
      let resourceGroup := ResourceGroup id in
      let name := PathAt id "expressRouteGateways" in
      future <- call (Delete resourceGroup name) ;;
      match err future with
      | Some e =>
          if ResponseWasNotFound (response future)
          then return_ None
          else return_ (Some (Errorf "Error deleting ExpressRoute Gateway %q (Resource Group %q): %+v" (Some e)))
      | None =>
          done <- call WaitForCompletionRef ;;
          match err done with
          | Some e =>
              if negb (ResponseWasNotFound (response done))
              then return_ (Some (Errorf "Error waiting for deleting ExpressRoute Gateway %q (Resource Group %q): %+v" (Some e)))
              else return_ None
          | None => return_ None
          end
      end
  end.
End Handlers.

End ExpressRoute.

(** ** DevTest Labs policies *)

Module DevTestPolicy.
Import TagsHelpers.

(** [dtl.PolicyProperties] *)
Record PolicyProperties : Type := mkPolicyProperties {
  Description : option string;
  FactName : string;
  FactData : option string;
  Threshold : option string;
  EvaluatorType : string
}.

(** [dtl.Policy] *)
Record Policy : Type := mkPolicy {
  ID : option string;
  Name : option string;
  Properties : option PolicyProperties;
  policyTags : Tags
}.

Inductive Req : Type :=
  | Get (resourceGroup labName policySetName name expand : string)
  | CreateOrUpdate (resourceGroup labName policySetName name : string) (policy : Policy)
  | Delete (resourceGroup labName policySetName name : string).

Section Handlers.
(** [azure.ParseAzureResourceID], [tags.Expand(d.Get("tags"))] and
    [tags.FlattenAndSet]. *)
Variable ParseAzureResourceID : string -> error + ResourceID.
Variable expandTags : ResourceData -> Tags.
Variable FlattenAndSet : ResourceData -> Tags -> ResourceData * option error.

Definition resourceArmDevTestPolicyRead : M Req Policy Empty_set :=
  d <- get_d ;;
  match ParseAzureResourceID (Id d) with
  | inl e => return_ (Some e)
  | inr id =>
      let resourceGroup := ResourceGroup id in
      let labName := PathAt id "labs" in
      let policySetName := PathAt id "policysets" in
      let name := PathAt id "policies" in
      read <- call (Get resourceGroup labName policySetName name "") ;;
      match err read with
      | Some e =>
          if ResponseWasNotFound (response read)
          then SetId "" ;;; return_ None
          else return_ (Some (Errorf "Error making Read request on DevTest Policy %q (Policy Set %q / Lab %q / Resource Group %q): %+v" (Some e)))
      | None =>
          Set_ "name" (VStringPtr (Name (body read))) ;;;
          Set_ "policy_set_name" (VString policySetName) ;;;
          Set_ "lab_name" (VString labName) ;;;
          Set_ "resource_group_name" (VString resourceGroup) ;;;
          (match Properties (body read) with
           | Some props =>
               Set_ "description" (VStringPtr (Description props)) ;;;
               Set_ "fact_data" (VStringPtr (FactData props)) ;;;
               Set_ "evaluator_type" (VString (EvaluatorType props)) ;;;
               Set_ "threshold" (VStringPtr (Threshold props))
           | None => ret tt
           end) ;;;
          returnFlattenAndSet FlattenAndSet (policyTags (body read))
      end
  end.

Definition resourceArmDevTestPolicyCreateUpdate : M Req Policy Empty_set :=
  d <- get_d ;;
  let name := GetString d "name" in
  let policySetName := GetString d "policy_set_name" in
  let labName := GetString d "lab_name" in
  let resourceGroup := GetString d "resource_group_name" in
  (if IsNewResource d then
     existing <- call (Get resourceGroup labName policySetName name "") ;;
     (match err existing with
      | Some e =>
          if negb (ResponseWasNotFound (response existing))
          then return_ (Some (Errorf "Error checking for presence of existing DevTest Policy %q (Policy Set %q / Lab %q / Resource Group %q): %s" (Some e)))
          else ret tt
      | None => ret tt
      end) ;;;
     match ID (body existing) with
     | Some id =>
         if negb (String.eqb id "")
         then return_ (Some (ImportAsExistsError "azurerm_dev_test_policy" id))
         else ret tt
     | None => ret tt
     end
   else ret tt) ;;;
  let factData := GetString d "fact_data" in
  let threshold := GetString d "threshold" in
  let evaluatorType := GetString d "evaluator_type" in
  let description := GetString d "description" in
  let t := expandTags d in
  let parameters :=
    mkPolicy None None
      (Some (mkPolicyProperties (Some description) name (Some factData) (Some threshold)
               evaluatorType))
      t in
  written <- call (CreateOrUpdate resourceGroup labName policySetName name parameters) ;;
  match err written with
  | Some e => return_ (Some (Errorf "Error creating/updating DevTest Policy %q (Policy Set %q / Lab %q / Resource Group %q): %+v" (Some e)))
  | None =>
      read <- call (Get resourceGroup labName policySetName name "") ;;
      match err read with
      | Some e => return_ (Some (Errorf "Error retrieving DevTest Policy %q (Policy Set %q / Lab %q / Resource Group %q): %+v" (Some e)))
      | None =>
          match ID (body read) with
          | None => return_ (Some (Errorf "Cannot read DevTest Policy %q (Policy Set %q / Lab %q / Resource Group %q) ID" None))
          | Some id =>
              SetId id ;;;
              e <- callFn resourceArmDevTestPolicyRead ;;
              return_ e
          end
      end
  end.

Definition resourceArmDevTestPolicyDelete : M Req Policy Empty_set :=
  d <- get_d ;;
  match ParseAzureResourceID (Id d) with
  | inl e => return_ (Some e)
  | inr id =>
      let resourceGroup := ResourceGroup id in
      let labName := PathAt id "labs" in
      let policySetName := PathAt id "policysets" in
      let name := PathAt id "policies" in
      read <- call (Get resourceGroup labName policySetName name "") ;;
      match err read with
      | Some e =>
          if ResponseWasNotFound (response read)
          then return_ None
          else return_ (Some (Errorf "Error retrieving DevTest Policy %q (Policy Set %q / Lab %q / Resource Group %q): %+v" (Some e)))
      | None =>
          deleted <- call (Delete resourceGroup labName policySetName name) ;;
          match err deleted with
          | Some e => return_ (Some (Errorf "Error deleting DevTest Policy %q (Policy Set %q / Lab %q / Resource Group %q): %+v" (Some e)))
          | None => return_ None
          end
      end
  end.
End Handlers.

End DevTestPolicy.

(** ** The subscription data source *)

Module Subscription.
Import TagsHelpers.

(** [subscriptions.Policies] *)
Record SubscriptionPolicies : Type := mkSubscriptionPolicies {
  LocationPlacementID : option string;
  QuotaID : option string;
  SpendingLimit : string
}.

(** [subscriptions.Subscription] *)
Record Subscription : Type := mkSubscription {
  ID : option string;
  SubscriptionID : option string;
  DisplayName : option string;
  TenantID : option string;
  State : string;
  Policies : option SubscriptionPolicies;
  subscriptionTags : Tags
}.

Inductive Req : Type :=
  | Get (subscriptionId : string).

Section DataSource.
(** [client.Account.SubscriptionId], the subscription of the provider,
    and [tags.FlattenAndSet]. *)
Variable accountSubscriptionId : string.
Variable FlattenAndSet : ResourceData -> Tags -> ResourceData * option error.

Definition dataSourceSubscriptionRead : M Req Subscription Empty_set :=
  d <- get_d ;;
  let subscriptionId := GetString d "subscription_id" in
  let subscriptionId :=
    if String.eqb subscriptionId "" then accountSubscriptionId else subscriptionId in
  resp <- call (Get subscriptionId) ;;
  match err resp with
  | Some e =>
      if ResponseWasNotFound (response resp)
      then return_ (Some (Errorf "Error: default tags for Subscription %q was not found" None))
      else return_ (Some (Errorf "Error reading default tags for Subscription: %+v" (Some e)))
  | None =>
      match ID (body resp) with
      | None => panic
      | Some id =>
          SetId id ;;;
          Set_ "subscription_id" (VStringPtr (SubscriptionID (body resp))) ;;;
          Set_ "display_name" (VStringPtr (DisplayName (body resp))) ;;;
          Set_ "tenant_id" (VStringPtr (TenantID (body resp))) ;;;
          Set_ "state" (VString (State (body resp))) ;;;
          (match Policies (body resp) with
           | Some policies =>
               Set_ "location_placement_id" (VStringPtr (LocationPlacementID policies)) ;;;
               Set_ "quota_id" (VStringPtr (QuotaID policies)) ;;;
               Set_ "spending_limit" (VString (SpendingLimit policies))
           | None => ret tt
           end) ;;;
          returnFlattenAndSet FlattenAndSet (subscriptionTags (body resp))
      end
  end.
End DataSource.

End Subscription.

(** ** The data source of automation variables *)

Module AutomationDataSource.
Import Go Automation.

Section DataSource.
(** The layout formatter [Time.Format] and [strings.Map(unicode.ToLower, _)]. *)
Variable time_Format : Time -> string.
Variable lowerWide : string -> string.

Definition dataSourceAutomationVariableRead (varType : string) : M Req Variable_ Empty_set :=
  d <- get_d ;;
  let resourceGroup := GetString d "resource_group_name" in
  let accountName := GetString d "automation_account_name" in
  let name := GetString d "name" in
  let varTypeLower := ToLower lowerWide varType in
  resp <- call (Get resourceGroup accountName name) ;;
  match err resp with
  | Some e =>
      if ResponseWasNotFound (response resp)
      then SetId "" ;;; return_ None
      else return_ (Some (Errorf "Error reading Automation %s Variable %q (Automation Account Name %q / Resource Group %q): %+v" (Some e)))
  | None =>
      match ID (body resp) with
      | None => panic
      | Some id =>
          SetId id ;;;
          Set_ "name" (VStringPtr (Name (body resp))) ;;;
          Set_ "resource_group_name" (VString resourceGroup) ;;;
          Set_ "automation_account_name" (VString accountName) ;;;
          match Properties (body resp) with
          | None => return_ None
          | Some properties =>
              Set_ "description" (VStringPtr (Description properties)) ;;;
              Set_ "encrypted" (VBoolPtr (IsEncrypted properties)) ;;;
              d <- get_d ;;
              if negb (GetBool d "encrypted") then
                match ParseAzureAutomationVariableValue
                        ("azurerm_automation_variable_" +:+ varTypeLower)
                        (Value properties) with
                | (_, Some e) => return_ (Some e)
                | (value, None) =>
                    if String.eqb varTypeLower "datetime" then
                      match value with
                      | GTime t => Set_ "value" (VString (time_Format t)) ;;; return_ None
                      | _ => panic
                      end
                    else if negb (String.eqb varTypeLower "null") then
                      Set_ "value"
                        match value with
                        | GNil => VNil
                        | GTime t => VString (time_Format t)
                        | GString v => VString v
                        | GInt32 v => VInt v
                        | GBool v => VBool v
                        end ;;;
                      return_ None
                    else return_ None
                end
              else return_ None
          end
      end
  end.
End DataSource.

End AutomationDataSource.
(** * Properties *)

(** Running a handler symbolically: the monad operations and the record
    projections are evaluated call-by-value, so that the world is threaded
    through the run rather than copied. *)
Ltac go_run :=
  cbv [bind ret return_ panic call ByName defer_UnlockByName get_d put_d SetId Set_
       runFn callFn run_deferred log world0
       oracle ncalls events deferred data fst snd];
  cbn [Id IsNewResource fields].

(** *** Rules for running a handler step by step *)

Section WpRules.
Context {Req Body : Type}.
Local Abbreviation World := (World Req Body).
Local Abbreviation M := (M Req Body).

Lemma wp_bind {A B} (m : M A) (k : A -> M B) (Q : Step B -> World -> Prop) (w : World) :
  wp m (fun s w' =>
          match s with
          | Next a => wp (k a) Q w'
          | Stop x => Q (Stop x) w'
          end) w ->
  wp (bind m k) Q w.
Proof.
  unfold wp, bind. destruct (m w) as [[a|x] w']; cbn [fst snd]; auto.
Qed.

Lemma wp_ret {A} (a : A) (Q : Step A -> World -> Prop) (w : World) :
  Q (Next a) w -> wp (ret a) Q w.
Proof. auto. Qed.

Lemma wp_return {A} (e : option error) (Q : Step A -> World -> Prop) (w : World) :
  Q (Stop (Return e)) w -> wp (return_ e) Q w.
Proof. auto. Qed.

Lemma wp_panic {A} (Q : Step A -> World -> Prop) (w : World) :
  Q (Stop Panic) w -> wp panic Q w.
Proof. auto. Qed.

Lemma wp_call (r : Req) (Q : Step (Answer Body) -> World -> Prop) (w : World) :
  Q (Next (oracle w (ncalls w) r))
    (mkWorld (oracle w) (S (ncalls w)) (events w ++ [EvCall r]) (deferred w) (data w)) ->
  wp (call r) Q w.
Proof. auto. Qed.

Lemma wp_ByName (name resourceType : string) (Q : Step unit -> World -> Prop) (w : World) :
  Q (Next tt)
    (mkWorld (oracle w) (ncalls w) (events w ++ [EvLock name resourceType])
             (deferred w) (data w)) ->
  wp (ByName name resourceType) Q w.
Proof. auto. Qed.

Lemma wp_defer (name resourceType : string) (Q : Step unit -> World -> Prop) (w : World) :
  Q (Next tt)
    (mkWorld (oracle w) (ncalls w) (events w)
             (DeferUnlockByName name resourceType :: deferred w) (data w)) ->
  wp (defer_UnlockByName name resourceType) Q w.
Proof. auto. Qed.

Lemma wp_get_d (Q : Step ResourceData -> World -> Prop) (w : World) :
  Q (Next (data w)) w -> wp get_d Q w.
Proof. auto. Qed.

Lemma wp_SetId (id : string) (Q : Step unit -> World -> Prop) (w : World) :
  Q (Next tt)
    (mkWorld (oracle w) (ncalls w) (events w) (deferred w)
       (mkResourceData id (IsNewResource (data w)) (fields (data w)))) ->
  wp (SetId id) Q w.
Proof. auto. Qed.

Lemma wp_Set (key : string) (v : Value) (Q : Step unit -> World -> Prop) (w : World) :
  Q (Next tt)
    (mkWorld (oracle w) (ncalls w) (events w) (deferred w)
       (mkResourceData (Id (data w)) (IsNewResource (data w))
          (<[key := v]> (fields (data w))))) ->
  wp (Set_ key v) Q w.
Proof. auto. Qed.

Lemma wp_callFn (f : M Empty_set) (Q : Step (option error) -> World -> Prop) (w : World) :
  wpFn f (fun x w' =>
            match x with
            | Return e => Q (Next e) w'
            | Panic => Q (Stop Panic) w'
            end) w ->
  wp (callFn f) Q w.
Proof.
  unfold wp, wpFn, callFn. destruct (runFn f w) as [[e|] w']; cbn [fst snd]; auto.
Qed.

Lemma wpFn_body (f : M Empty_set) (Q : Exit -> World -> Prop) (w : World) :
  wp f (fun s w1 =>
          match s with
          | Next a => True
          | Stop x =>
              let w2 := run_deferred (deferred w1) w1 in
              Q x (mkWorld (oracle w2) (ncalls w2) (events w2) (deferred w) (data w2))
          end)
     (mkWorld (oracle w) (ncalls w) (events w) [] (data w)) ->
  wpFn f Q w.
Proof.
  unfold wp, wpFn, runFn.
  destruct (f _) as [[a|x] w1]; cbn [fst snd]; [destruct a | auto].
Qed.

Lemma wp_mono {A} (m : M A) (Q Q' : Step A -> World -> Prop) (w : World) :
  wp m Q w -> (forall s w', Q s w' -> Q' s w') -> wp m Q' w.
Proof. unfold wp. auto. Qed.

Lemma wpFn_mono (f : M Empty_set) (Q Q' : Exit -> World -> Prop) (w : World) :
  wpFn f Q w -> (forall x w', Q x w' -> Q' x w') -> wpFn f Q' w.
Proof. unfold wpFn. auto. Qed.

End WpRules.

Ltac wp_norm :=
  cbn [oracle ncalls events deferred data run_deferred log Id IsNewResource fields app].

(** One step of a handler. *)
Ltac wp_step :=
  cbv beta iota;
  lazymatch goal with
  | |- wp (bind _ _) _ _ => apply wp_bind
  | |- wp (ret _) _ _ => apply wp_ret
  | |- wp (return_ _) _ _ => apply wp_return
  | |- wp panic _ _ => apply wp_panic
  | |- wp (call _) _ _ => apply wp_call
  | |- wp (ByName _ _) _ _ => apply wp_ByName
  | |- wp (defer_UnlockByName _ _) _ _ => apply wp_defer
  | |- wp get_d _ _ => apply wp_get_d
  | |- wp (SetId _) _ _ => apply wp_SetId
  | |- wp (Set_ _ _) _ _ => apply wp_Set
  | |- wp (callFn _) _ _ => apply wp_callFn
  | |- wp (match ?x with _ => _ end) _ _ => destruct x eqn:?
  | |- match ?x with _ => _ end => destruct x eqn:?
  end; wp_norm.

Ltac wp_steps := repeat wp_step.

(** A log [lock :: ... ++ [unlock]] without its ends. *)
Ltac strip_last l :=
  lazymatch l with
  | [?u] => let T := type of u in constr:(@nil T)
  | (?cs ++ [?u])%list => constr:(cs)
  | ?a :: ?r => let r' := strip_last r in constr:(a :: r')
  end.

Ltac solve_bracket :=
  lazymatch goal with
  | |- exists calls, _ :: ?rest = _ /\ _ =>
      let c := strip_last rest in
      exists c; split; [reflexivity | cbn; first [reflexivity | assumption]]
  end.

(** *** Handlers that end in [tags.FlattenAndSet] *)

Section TagsRules.
Import TagsHelpers.
Context {Req Body : Type}.

Lemma wp_returnFlattenAndSet {A : Type}
  (FlattenAndSet : ResourceData -> Tags -> ResourceData * option error) (tagMap : Tags)
  (Q : Step A -> World Req Body -> Prop) (w : World Req Body) :
  Q (Stop (Return (snd (FlattenAndSet (data w) tagMap))))
    (mkWorld (oracle w) (ncalls w) (events w) (deferred w)
             (fst (FlattenAndSet (data w) tagMap))) ->
  wp (returnFlattenAndSet FlattenAndSet tagMap) Q w.
Proof.
  unfold wp, returnFlattenAndSet, bind, get_d, put_d, return_.
  destruct (FlattenAndSet (data w) tagMap). auto.
Qed.

(** What the handlers rely on: [tags.FlattenAndSet] sets the field
    [tags] and nothing else. *)
Definition setsTagsOnly
  (FlattenAndSet : ResourceData -> Tags -> ResourceData * option error) : Prop :=
  forall (d : ResourceData) (tagMap : Tags),
    Id (fst (FlattenAndSet d tagMap)) = Id d /\
    forall key, key <> "tags" ->
                fields (fst (FlattenAndSet d tagMap)) !! key = fields d !! key.

End TagsRules.

Ltac wp_step_tags :=
  cbv beta iota;
  lazymatch goal with
  | |- wp (TagsHelpers.returnFlattenAndSet _ _) _ _ =>
      apply wp_returnFlattenAndSet; wp_norm
  | _ => wp_step
  end.

Module TagsSamples.
Import TagsHelpers.

(** No tags anywhere: nothing to expand and nothing to set. *)
Definition noTags (d : ResourceData) : Tags := ∅.
Definition setNoTags (d : ResourceData) (tagMap : Tags) : ResourceData * option error :=
  (d, None).

End TagsSamples.

Lemma setNoTags_setsTagsOnly : setsTagsOnly TagsSamples.setNoTags.
Proof. intros d tagMap. split; [reflexivity | intros key _; reflexivity]. Defined.

(** The existence check of a new resource, with an answer that is no
    failure other than "not found" and names no resource, lets the run
    go on: [Hfree] gives the two facts about the answer. *)
Ltac existence_check_passes Hfree :=
  let Hfirst := fresh "Hfirst" in
  let Hnone := fresh "Hnone" in
  destruct (Hfree eq_refl) as [Hfirst Hnone];
  do 3 wp_step; cbv beta iota;
  lazymatch type of Hfirst with
  | err ?a = None \/ _ =>
      apply wp_bind;
      (destruct Hfirst as [Hfirst | Hfirst]; rewrite Hfirst;
       [| destruct (err a)]; cbn [negb]; apply wp_ret; wp_norm; cbv beta iota);
      (destruct Hnone as [Hnone | Hnone]; rewrite Hnone; cbn [String.eqb negb];
       apply wp_ret; wp_norm; cbv beta iota)
  end.

(** ** Container registry token data source *)

Section ContainersFacts.
Import Containers.




End ContainersFacts.

(** ** Integer conversions *)

Lemma wrap_in_range (bits n : Z) :
  0 < bits -> - 2 ^ (bits - 1) <= n < 2 ^ (bits - 1) -> Go.wrap bits n = n.
Proof.
  intros Hb Hn. unfold Go.wrap.
  assert (Hp : 2 ^ bits = 2 * 2 ^ (bits - 1)).
  { replace bits with (Z.succ (bits - 1)) at 1 by lia.
    rewrite Z.pow_succ_r by lia. reflexivity. }
  rewrite Z.mod_small by lia. lia.
Qed.

Lemma int32_in_range (n : Z) : -2147483648 <= n < 2147483648 -> Go.int32 n = n.
Proof. intros H. apply wrap_in_range; [lia | exact H]. Qed.

Lemma int64_in_range (n : Z) :
  -9223372036854775808 <= n < 9223372036854775808 -> Go.int64 n = n.
Proof. intros H. apply wrap_in_range; [lia | exact H]. Qed.

(** ** SQL failover group: the read-write endpoint policy *)

Section SqlPolicyFacts.
Import Sql.

(** A [read_write_endpoint_failover_policy] block as [d.Get] hands it out:
    both attributes are present, [grace_minutes] with its zero value when
    the configuration leaves it out. *)
Definition policyBlock (mode : string) (graceMinutes : Z) : gmap string Attr :=
  <["mode" := AString mode]> (<["grace_minutes" := AInt graceMinutes]> ∅).

Definition policyConfig (mode : string) (graceMinutes : Z) : ResourceData :=
  mkResourceData "" true
    (<["read_write_endpoint_failover_policy" := VList [policyBlock mode graceMinutes]]> ∅).

Lemma expand_policyBlock (d : ResourceData) (mode : string) (g : Z) :
  fields d !! "read_write_endpoint_failover_policy" = Some (VList [policyBlock mode g]) ->
  expandSqlFailoverGroupReadWritePolicy d =
    Some (mkReadWriteEndpoint mode
            (if String.eqb mode Manual then None else Some (Go.int32 g))).
Proof.
  intros Hd. unfold expandSqlFailoverGroupReadWritePolicy. rewrite Hd.
  unfold policyBlock.
  rewrite lookup_insert_eq.
  rewrite lookup_insert_ne by discriminate.
  rewrite lookup_insert_eq.
  destruct (String.eqb mode Manual); reflexivity.
Qed.

(** C4, as the claim states it, fails: for the mode [Manual] the grace
    period is not sent to the API, and the flattened block has no
    [grace_minutes] attribute. *)
Lemma C4_manual_loses_grace_minutes :
  expandSqlFailoverGroupReadWritePolicy (policyConfig "Manual" 60)
    = Some (mkReadWriteEndpoint "Manual" None) /\
  flattenSqlFailoverGroupReadWritePolicy (Some (mkReadWriteEndpoint "Manual" None))
    <> [policyBlock "Manual" 60].
Proof.
  split.
  - apply (expand_policyBlock (policyConfig "Manual" 60) "Manual" 60). reflexivity.
  - intros H.
    apply (f_equal (fun l : list (gmap string Attr) =>
                      match l with
                      | m :: _ => m !! "grace_minutes"
                      | [] => None
                      end)) in H.
    vm_compute in H. discriminate H.
Qed.

(** C4, amended: for a block whose mode is not [Manual] (that is, for
    [Automatic]) and whose [grace_minutes] fits in 32 bits, flatten after
    expand gives the block back, [grace_minutes] included; for the mode
    [Manual] it gives a block with the mode alone. *)
Theorem C4_read_write_policy_round_trip :
  forall (d : ResourceData) (mode : string) (graceMinutes : Z),
    fields d !! "read_write_endpoint_failover_policy"
      = Some (VList [policyBlock mode graceMinutes]) ->
    exists endpoint,
      expandSqlFailoverGroupReadWritePolicy d = Some endpoint /\
      (mode <> Manual ->
       -2147483648 <= graceMinutes < 2147483648 ->
       flattenSqlFailoverGroupReadWritePolicy (Some endpoint)
         = [policyBlock mode graceMinutes]) /\
      (mode = Manual ->
       flattenSqlFailoverGroupReadWritePolicy (Some endpoint)
         = [ {[ "mode" := AString Manual ]} ]).
Proof.
  intros d mode g Hd.
  eexists. split; [apply (expand_policyBlock d mode g Hd)|].
  unfold flattenSqlFailoverGroupReadWritePolicy, policyBlock. cbn [FailoverPolicy FailoverWithDataLossGracePeriodMinutes].
  split.
  - intros Hmode Hg. apply String.eqb_neq in Hmode. rewrite Hmode.
    rewrite int32_in_range by exact Hg.
    rewrite (insert_insert_ne (M := gmap string) ∅ "grace_minutes" "mode") by discriminate.
    reflexivity.
  - intros Hmode. subst mode. rewrite String.eqb_refl. reflexivity.
Qed.

Lemma C4_round_trip_witness :
  exists endpoint,
    expandSqlFailoverGroupReadWritePolicy (policyConfig "Automatic" 60) = Some endpoint /\
    (("Automatic" : string) <> Manual ->
     -2147483648 <= 60 < 2147483648 ->
     flattenSqlFailoverGroupReadWritePolicy (Some endpoint)
       = [policyBlock "Automatic" 60]) /\
    ("Automatic" = Manual ->
     flattenSqlFailoverGroupReadWritePolicy (Some endpoint)
       = [ {[ "mode" := AString Manual ]} ]).
Proof.
  exact (C4_read_write_policy_round_trip (policyConfig "Automatic" 60) "Automatic" 60 eq_refl).
Defined.

End SqlPolicyFacts.

(** ** Automation variables: decoding a stored value *)

Section AutomationParseFacts.
Import Go Automation.

(** The resource names [classify] can infer. *)
Definition inferredNames : list string :=
  [ "azurerm_automation_variable_datetime";
    "azurerm_automation_variable_string";
    "azurerm_automation_variable_int";
    "azurerm_automation_variable_bool";
    "Unknown" ].

Lemma classify_names (input : string) : In (snd (classify input)) inferredNames.
Proof.
  unfold classify, inferredNames.
  destruct (_ && _).
  - destruct (ParseInt _ 64); cbn; auto 10.
  - destruct (Unquote input); [cbn; auto 10|].
    destruct (ParseInt input 32); [cbn; auto 10|].
    destruct (ParseBool input); cbn; auto 10.
Qed.

(** C8: on a nil input the function returns [(nil, nil)] when the expected
    resource name is [azurerm_automation_variable_null] and [nil] with an
    error for every other name; on a non-nil input it returns an error
    exactly when the name inferred from the input (datetime, string, int,
    bool or Unknown) differs from the expected one, and the decoded value
    without an error otherwise. *)
Theorem C8_parse_errors_exactly_on_type_mismatch :
  forall resource : string,
    ParseAzureAutomationVariableValue resource None
      = (GNil,
         if String.eqb resource "azurerm_automation_variable_null" then None
         else Some (Errorf "Expected value 'nil' to be %q, actual type is 'azurerm_automation_variable_null'" None))
    /\
    forall input : string,
      In (snd (classify input)) inferredNames /\
      (snd (ParseAzureAutomationVariableValue resource (Some input)) <> None
       <-> snd (classify input) <> resource) /\
      (fst (ParseAzureAutomationVariableValue resource (Some input))
       = if String.eqb (snd (classify input)) resource
         then fst (classify input) else GNil).
Proof.
  intros resource. split.
  - unfold ParseAzureAutomationVariableValue.
    destruct (String.eqb resource _); reflexivity.
  - intros input. split; [apply classify_names|].
    unfold ParseAzureAutomationVariableValue.
    destruct (classify input) as [value actualResource]. cbn [fst snd].
    destruct (String.eqb actualResource resource) eqn:E; cbn [negb fst snd].
    + apply String.eqb_eq in E. split; [|reflexivity].
      split; [intros H; now contradiction H | intros H; now contradiction H].
    + apply String.eqb_neq in E. split; [|reflexivity].
      split; [intros _; exact E | intros _; discriminate].
Qed.

End AutomationParseFacts.

(** ** IoT Hub endpoints: the list the Delete handler writes back *)

Section IotHubDeleteFacts.
Import Go IotHub.

Variable ParseAzureResourceID : string -> error + ResourceID.
Variable IothubResourceName : string.
Variable foldOrbit : Z -> Z -> bool.

(** The ServiceBus queue endpoints of a hub, if its routing has the list. *)
Definition queuesOf (iothub : IotHubDescription)
  : option (list RoutingServiceBusQueueEndpointProperties) :=
  match Properties iothub with
  | None => None
  | Some props =>
      match Routing props with
      | None => None
      | Some routing =>
          match Endpoints routing with
          | None => None
          | Some eps => ServiceBusQueues eps
          end
      end
  end.

(** An entry stays in the list when it has a name and that name differs
    from the deleted one up to case. *)
Definition survives (endpointName : string)
  (endpoint : RoutingServiceBusQueueEndpointProperties) : bool :=
  match Name endpoint with
  | Some existingEndpointName => negb (EqualFold foldOrbit existingEndpointName endpointName)
  | None => false
  end.

Lemma updatedEndpoints_filter (endpointName : string)
  (l : list RoutingServiceBusQueueEndpointProperties) :
  updatedEndpoints foldOrbit endpointName l = List.filter (survives endpointName) l.
Proof.
  induction l as [|endpoint l IH]; [reflexivity|].
  cbn [updatedEndpoints List.filter]. unfold survives at 1.
  destruct (Name endpoint) as [existingEndpointName|].
  - destruct (EqualFold foldOrbit existingEndpointName endpointName); cbn [negb];
      rewrite IH; reflexivity.
  - exact IH.
Qed.

(** C5, amended: when the hub read by Delete has a list of ServiceBus
    queue endpoints, the third thing the handler does, after taking the
    lock and reading the hub, is to write the hub back with the list of
    those entries of the original list, in their order and unchanged,
    that have a name different up to case from the deleted one.  Entries
    without a name are dropped along with the entries of that name. *)
Theorem C5_delete_keeps_other_named_endpoints :
  forall (o : nat -> Req -> Answer IotHubDescription) (d : ResourceData)
         (id : ResourceID) (l : list RoutingServiceBusQueueEndpointProperties),
    ParseAzureResourceID (Id d) = inr id ->
    let resourceGroup := Sdk.ResourceGroup id in
    let iothubName := PathAt id "IotHubs" in
    let endpointName := PathAt id "Endpoints" in
    err (o 0%nat (Get resourceGroup iothubName)) = None ->
    queuesOf (body (o 0%nat (Get resourceGroup iothubName))) = Some l ->
    let out := runFn (resourceIotHubEndpointServiceBusQueueDelete
                        ParseAzureResourceID IothubResourceName foldOrbit)
                     (world0 o d) in
    exists iothub rest,
      events (snd out)
        = EvLock iothubName IothubResourceName
          :: EvCall (Get resourceGroup iothubName)
          :: EvCall (CreateOrUpdate resourceGroup iothubName iothub)
          :: rest /\
      queuesOf iothub = Some (List.filter (survives endpointName) l).
Proof.
  intros o d id l Hid rg hub name Herr Hq out. subst out.
  unfold resourceIotHubEndpointServiceBusQueueDelete.
  go_run. rewrite Hid. go_run. fold rg hub name.
  rewrite Herr.
  unfold queuesOf in Hq.
  destruct (Properties (body (o 0%nat (Get rg hub)))) as [props|]; [|discriminate].
  destruct (Routing props) as [routing|]; [|discriminate].
  destruct (Endpoints routing) as [eps|]; [|discriminate].
  rewrite Hq. go_run.
  rewrite updatedEndpoints_filter.
  match goal with
  | |- context [o 1%nat ?r] => destruct (err (o 1%nat r))
  end.
  - go_run. eexists _, _. cbn [app]. split; reflexivity.
  - go_run.
    match goal with
    | |- context [o 2%nat ?r] => destruct (err (o 2%nat r))
    end; go_run; eexists _, _; cbn [app]; split; reflexivity.
Qed.

End IotHubDeleteFacts.

(** *** Sample data for the IoT Hub handlers *)

Module IotHubSamples.
Import Go IotHub.

(** ASCII names only: the case tables are never consulted. *)
Definition noWideFold : Z -> Z -> bool := fun _ _ => false.

Definition sampleHubID : string :=
  "/subscriptions/sub1/resourceGroups/rg1/providers/Microsoft.Devices/IotHubs/hub1".

Definition sampleEndpointResourceID : string := sampleHubID +:+ "/Endpoints/gone".

Definition sampleEndpointID : ResourceID :=
  mkResourceID "rg1" (<["IotHubs" := "hub1"]> (<["Endpoints" := "gone"]> ∅)).

(** A resource-ID parser that knows the one ID of the samples. *)
Definition sampleParse (id : string) : error + ResourceID :=
  if String.eqb id sampleEndpointResourceID then inr sampleEndpointID
  else inl (Errorf "Cannot parse Azure ID: %s" None).

Definition unnamedEndpoint : RoutingServiceBusQueueEndpointProperties :=
  mkQueueEndpoint (Some "Endpoint=sb://u/;EntityPath=u") None (Some "sub1") (Some "rg1").

Definition keptEndpoint : RoutingServiceBusQueueEndpointProperties :=
  mkQueueEndpoint (Some "Endpoint=sb://k/;EntityPath=k") (Some "keep") (Some "sub1") (Some "rg1").

Definition goneEndpoint : RoutingServiceBusQueueEndpointProperties :=
  mkQueueEndpoint (Some "Endpoint=sb://g/;EntityPath=g") (Some "GONE") (Some "sub1") (Some "rg1").

Definition sampleQueues : list RoutingServiceBusQueueEndpointProperties :=
  [unnamedEndpoint; goneEndpoint; keptEndpoint].

Definition hubWith (eps : RoutingEndpoints) : IotHubDescription :=
  mkIotHub (Some sampleHubID) (Some (mkProperties (Some (mkRouting (Some eps))))).

(** The API answers every request with success; a Get returns [iothub]. *)
Definition answering (iothub : IotHubDescription) : nat -> Req -> Answer IotHubDescription :=
  fun _ _ => mkAnswer iothub (Some 200%Z) None.

Definition sampleEndpointData : ResourceData :=
  mkResourceData sampleEndpointResourceID false ∅.

(** The configuration of a new endpoint [q1] on hub [hub1]. *)
Definition newEndpointData : ResourceData :=
  mkResourceData "" true
    (<["name" := VString "q1"]>
       (<["iothub_name" := VString "hub1"]>
          (<["resource_group_name" := VString "rg1"]>
             (<["connection_string" := VString "Endpoint=sb://q/;EntityPath=q1"]> ∅)))).

(** Routing endpoints as the API may return them: an event hub endpoint
    is configured, the list of ServiceBus queues is absent. *)
Definition onlyEventHubs : RoutingEndpoints :=
  mkEndpoints None (Some [mkEventHub (Some "Endpoint=sb://e/;EntityPath=e") (Some "eh1")]).

End IotHubSamples.

Section IotHubDeleteExamples.
Import Go IotHub IotHubSamples.

(** C5, as the claim states it, fails: an entry without a name does not
    bear the deleted name, yet Delete drops it from the list. *)
Lemma C5_unnamed_endpoint_is_dropped :
  updatedEndpoints noWideFold "gone" sampleQueues = [keptEndpoint] /\
  In unnamedEndpoint sampleQueues /\
  Name unnamedEndpoint = None /\
  ~ In unnamedEndpoint (updatedEndpoints noWideFold "gone" sampleQueues).
Proof.
  assert (H : updatedEndpoints noWideFold "gone" sampleQueues = [keptEndpoint])
    by (vm_compute; reflexivity).
  rewrite H. repeat split.
  - left. reflexivity.
  - intros [E | []]. discriminate E.
Qed.

Lemma C5_delete_witness :
  exists iothub rest,
    events (snd (runFn (resourceIotHubEndpointServiceBusQueueDelete
                          sampleParse "azurerm_iothub" noWideFold)
                       (world0 (answering (hubWith (mkEndpoints (Some sampleQueues) None)))
                               sampleEndpointData)))
      = EvLock (PathAt sampleEndpointID "IotHubs") "azurerm_iothub"
        :: EvCall (Get (Sdk.ResourceGroup sampleEndpointID) (PathAt sampleEndpointID "IotHubs"))
        :: EvCall (CreateOrUpdate (Sdk.ResourceGroup sampleEndpointID)
                     (PathAt sampleEndpointID "IotHubs") iothub)
        :: rest /\
    queuesOf iothub
      = Some (List.filter (survives noWideFold (PathAt sampleEndpointID "Endpoints"))
                sampleQueues).
Proof.
  exact (C5_delete_keeps_other_named_endpoints sampleParse "azurerm_iothub" noWideFold
           (answering (hubWith (mkEndpoints (Some sampleQueues) None)))
           sampleEndpointData sampleEndpointID sampleQueues eq_refl eq_refl eq_refl).
Defined.

End IotHubDeleteExamples.

(** ** IoT Hub endpoints: the nil list of queues in Create/Update *)

Section IotHubCreateFacts.
Import Go IotHub.

Variable ParseAzureResourceID : string -> error + ResourceID.
Variable IothubResourceName : string.
Variable subscriptionID : string.
Variable foldOrbit : Z -> Z -> bool.

(** Whenever the hub comes back with routing endpoints whose [EventHubs]
    list is present and whose [ServiceBusQueues] list is nil, the handler
    dereferences the nil list in the [range] clause of line 117 and
    panics; the deferred unlock still runs. *)
Lemma createUpdate_nil_queues_panics :
  forall (o : nat -> Req -> Answer IotHubDescription) (d : ResourceData)
         (id : string) (ehs : list RoutingEventHubProperties),
    let iothubName := GetString d "iothub_name" in
    let resourceGroup := GetString d "resource_group_name" in
    let iothub := o 0%nat (Get resourceGroup iothubName) in
    err iothub = None ->
    ID (body iothub) = Some id ->
    Properties (body iothub)
      = Some (mkProperties (Some (mkRouting (Some (mkEndpoints None (Some ehs)))))) ->
    let out := runFn (resourceIotHubEndpointServiceBusQueueCreateUpdate
                        ParseAzureResourceID IothubResourceName subscriptionID foldOrbit)
                     (world0 o d) in
    fst out = Panic /\
    events (snd out)
      = [EvLock iothubName IothubResourceName;
         EvCall (Get resourceGroup iothubName);
         EvUnlock iothubName IothubResourceName].
Proof.
  intros o d id ehs hub rg iothub Herr Hid Hprops out. subst out iothub.
  unfold resourceIotHubEndpointServiceBusQueueCreateUpdate.
  go_run. fold hub rg. rewrite Herr, Hid, Hprops.
  cbn. split; reflexivity.
Qed.

End IotHubCreateFacts.

Section IotHubCreateExamples.
Import Go IotHub IotHubSamples.

(** C9: the claim is that iterating over the existing ServiceBus queue
    endpoints never dereferences a nil list.  The code does: the guard of
    line 110 tests [EventHubs] where it means [ServiceBusQueues], so for a
    hub with an event hub endpoint and no list of queues the handler
    panics. *)
Theorem C9_create_panics_on_nil_queue_list :
  fst (runFn (resourceIotHubEndpointServiceBusQueueCreateUpdate
                sampleParse "azurerm_iothub" "sub1" noWideFold)
             (world0 (answering (hubWith onlyEventHubs)) newEndpointData))
  = Panic.
Proof.
  apply (createUpdate_nil_queues_panics sampleParse "azurerm_iothub" "sub1" noWideFold
           (answering (hubWith onlyEventHubs)) newEndpointData sampleHubID
           [mkEventHub (Some "Endpoint=sb://e/;EntityPath=e") (Some "eh1")]
           eq_refl eq_refl eq_refl).
Qed.

End IotHubCreateExamples.

(** ** Locking of the shared parent *)

Section TraceFacts.
Import Spec.
Context {Req : Type}.

Lemma disciplined_calls (name resourceType : string) (held : nat) (calls rest : list (Event Req)) :
  onlyCalls calls = true ->
  disciplined name resourceType (S held) (calls ++ rest)
  = disciplined name resourceType (S held) rest.
Proof.
  induction calls as [|e calls IH]; intros Hc; [reflexivity|].
  cbn in Hc. apply andb_true_iff in Hc as [He Hc].
  destruct e; try discriminate He.
  cbn. exact (IH Hc).
Qed.

(** A log of the shape lock, requests, unlock keeps the discipline. *)
Lemma disciplined_bracket (name resourceType : string) (calls : list (Event Req)) :
  onlyCalls calls = true ->
  disciplined name resourceType 0
    (EvLock name resourceType :: calls ++ [EvUnlock name resourceType]) = true.
Proof.
  intros Hc. cbn [disciplined]. rewrite !String.eqb_refl. cbn [andb].
  rewrite disciplined_calls by exact Hc.
  cbn [disciplined]. rewrite !String.eqb_refl. reflexivity.
Qed.

(** Two locks taken one inside the other, the requests in between. *)
Lemma disciplined_nested (name resourceType name2 resourceType2 : string)
  (calls : list (Event Req)) :
  onlyCalls calls = true ->
  disciplined name resourceType 0
    (EvLock name resourceType :: EvLock name2 resourceType2
       :: calls ++ [EvUnlock name2 resourceType2; EvUnlock name resourceType]) = true.
Proof.
  intros Hc. cbn [disciplined]. rewrite !String.eqb_refl. cbn [andb].
  destruct (String.eqb name2 name && String.eqb resourceType2 resourceType) eqn:E;
    rewrite disciplined_calls by exact Hc;
    cbn [disciplined]; rewrite E, ?String.eqb_refl; reflexivity.
Qed.

End TraceFacts.

Ltac strip_last2 l :=
  lazymatch l with
  | [?u1; ?u2] => let T := type of u1 in constr:(@nil T)
  | (?cs ++ [?u1; ?u2])%list => constr:(cs)
  | ?a :: ?r => let r' := strip_last2 r in constr:(a :: r')
  end.

Ltac solve_nested :=
  rewrite <- ?app_assoc; cbn [app];
  lazymatch goal with
  | |- Spec.disciplined _ _ 0%nat (_ :: _ :: ?rest) = true =>
      let c := strip_last2 rest in
      apply (disciplined_nested _ _ _ _ c); cbn; first [reflexivity | assumption]
  end.

Section IotHubLockFacts.
Import Go IotHub Spec.

Variable ParseAzureResourceID : string -> error + ResourceID.
Variable IothubResourceName : string.
Variable subscriptionID : string.
Variable foldOrbit : Z -> Z -> bool.

Local Abbreviation World := (World Req IotHubDescription).

(** The loop of Create/Update leaves the world alone; it goes on or
    returns an error. *)
Lemma rebuildEndpoints_wp (resourceId endpointName : string)
  (queueEndpoint : RoutingServiceBusQueueEndpointProperties)
  (l endpoints : list RoutingServiceBusQueueEndpointProperties) (alreadyExists : bool)
  (w : World) :
  wp (rebuildEndpoints foldOrbit resourceId endpointName queueEndpoint l endpoints
        alreadyExists)
     (fun s w' =>
        w' = w /\
        match s with
        | Next _ => True
        | Stop x => exists e, x = Return (Some e)
        end) w.
Proof.
  revert endpoints alreadyExists.
  induction l as [|existingEndpoint l IH]; intros endpoints alreadyExists.
  - cbn [rebuildEndpoints]. wp_steps. auto.
  - cbn [rebuildEndpoints].
    destruct (Name existingEndpoint) as [existingEndpointName|]; [|apply IH].
    destruct (EqualFold foldOrbit existingEndpointName endpointName); [|apply IH].
    wp_step. wp_step.
    destruct (IsNewResource (data w)); [|apply IH].
    wp_step. eauto.
Qed.

(** The loop of Read writes fields only. *)
Lemma setConnectionString_wp (endpointName : string)
  (l : list RoutingServiceBusQueueEndpointProperties) (w : World) :
  wp (setConnectionString foldOrbit endpointName l)
     (fun s w' =>
        s = Next tt /\
        exists d',
          w' = mkWorld (oracle w) (ncalls w) (events w) (deferred w) d' /\
          Id d' = Id (data w)) w.
Proof.
  revert w. induction l as [|endpoint l IH]; intros [o n evs ds d].
  - cbn [setConnectionString]. wp_steps. eauto.
  - cbn [setConnectionString]. wp_step.
    assert (Hnext : forall d0 : ResourceData, Id d0 = Id d ->
              wp (setConnectionString foldOrbit endpointName l)
                 (fun s w' =>
                    s = Next tt /\
                    exists d', w' = mkWorld o n evs ds d' /\ Id d' = Id d)
                 (mkWorld o n evs ds d0)).
    { intros d0 Hd0. eapply wp_mono; [apply IH|].
      cbn. intros s w' (Hs & d' & Hw & Hid). split; [exact Hs|].
      exists d'. split; [exact Hw | congruence]. }
    destruct (Name endpoint) as [existingEndpointName|].
    + destruct (EqualFold foldOrbit existingEndpointName endpointName);
        wp_step; apply Hnext; reflexivity.
    + wp_step. apply Hnext; reflexivity.
Qed.

(** What Read does to the world: at most one request, no lock, nothing
    deferred, the ID untouched, no panic. *)
Definition readPost (w : World) (x : Exit) (w' : World) : Prop :=
  exists calls d',
    w' = mkWorld (oracle w) (ncalls w + List.length calls)%nat (events w ++ calls)
                 (deferred w) d' /\
    onlyCalls calls = true /\
    Id d' = Id (data w) /\
    x <> Panic.

Lemma read_wp (w : World) :
  wpFn (resourceIotHubEndpointServiceBusQueueRead ParseAzureResourceID foldOrbit)
       (readPost w) w.
Proof.
  destruct w as [o n evs ds d].
  assert (Hnone : forall x d0, x <> Panic -> Id d0 = Id d ->
                    readPost (mkWorld o n evs ds d) x (mkWorld o n evs ds d0)).
  { intros x d0 Hx Hd0. exists [], d0. cbn. rewrite app_nil_r, Nat.add_0_r. auto. }
  assert (Hone : forall r x d0, x <> Panic -> Id d0 = Id d ->
                   readPost (mkWorld o n evs ds d) x
                     (mkWorld o (S n) (evs ++ [EvCall r]) ds d0)).
  { intros r x d0 Hx Hd0. exists [EvCall r], d0. cbn. rewrite Nat.add_1_r. auto. }
  apply wpFn_body. unfold resourceIotHubEndpointServiceBusQueueRead. wp_norm.
  wp_step. wp_step.
  destruct (ParseAzureResourceID (Id d)) as [e|id].
  { wp_step. apply Hnone; [discriminate | reflexivity]. }
  wp_step. wp_step.
  match goal with
  | |- context [err ?a] => destruct (err a)
  end.
  { wp_step. apply Hone; [discriminate | reflexivity]. }
  do 6 wp_step.
  match goal with
  | |- context [Properties ?b] => destruct (Properties b) as [props|]
  end; [|wp_step; apply Hone; [discriminate | reflexivity]].
  destruct (Routing props) as [routing|];
    [|wp_step; apply Hone; [discriminate | reflexivity]].
  destruct (Endpoints routing) as [eps|];
    [|wp_step; apply Hone; [discriminate | reflexivity]].
  wp_step.
  destruct (ServiceBusQueues eps) as [endpoints|].
  - eapply wp_mono; [apply setConnectionString_wp|].
    cbv beta. intros s w' (Hs & d' & Hw & Hid). subst s w'.
    wp_step. apply Hone; [discriminate | exact Hid].
  - wp_step. wp_step. apply Hone; [discriminate | reflexivity].
Qed.

(** Every run of Create/Update: the log is the lock, a stretch of API
    requests and the unlock; the ID is either untouched or the ID of the
    hub followed by [/Endpoints/] and the name of the endpoint, and it is
    the latter when the handler returns without an error. *)
Definition derivedEndpointID (o : nat -> Req -> Answer IotHubDescription)
  (d : ResourceData) (id : string) : Prop :=
  exists iothubID,
    ID (body (o 0%nat (Get (GetString d "resource_group_name")
                           (GetString d "iothub_name")))) = Some iothubID /\
    id = iothubID +:+ "/Endpoints/" +:+ GetString d "name".

Lemma createUpdate_run (o : nat -> Req -> Answer IotHubDescription) (d : ResourceData) :
  wpFn (resourceIotHubEndpointServiceBusQueueCreateUpdate
          ParseAzureResourceID IothubResourceName subscriptionID foldOrbit)
       (fun x w' =>
          (exists calls,
              events w'
              = EvLock (GetString d "iothub_name") IothubResourceName
                :: calls ++ [EvUnlock (GetString d "iothub_name") IothubResourceName] /\
              onlyCalls calls = true) /\
          (Id (data w') = Id d \/ derivedEndpointID o d (Id (data w'))) /\
          (x = Return None -> derivedEndpointID o d (Id (data w'))))
       (world0 o d).
Proof.
  apply wpFn_body. unfold resourceIotHubEndpointServiceBusQueueCreateUpdate, world0.
  wp_norm.
  set (hub := GetString d "iothub_name").
  set (rg := GetString d "resource_group_name").
  repeat wp_step.
  all: try solve [split; [solve_bracket | split; [left; reflexivity | discriminate]]].
  all: eapply wp_mono; [apply rebuildEndpoints_wp|]; cbv beta;
    intros st w' [-> Hs]; destruct st as [[endpoints alreadyExists]|x];
    [|destruct Hs as [e' ->]; wp_norm;
      split; [solve_bracket | split; [left; reflexivity | discriminate]]].
  all: repeat wp_step.
  all: try solve [split; [solve_bracket | split; [left; reflexivity | discriminate]]].
  all: eapply wpFn_mono; [apply read_wp|]; cbv beta;
    intros x w' (calls & d' & -> & Hc & Hid & Hx); cbn in Hid;
    destruct x as [e'|]; [|contradiction]; repeat wp_step;
    (split; [solve_bracket|]);
    assert (Hder : derivedEndpointID o d (Id d'))
      by (unfold derivedEndpointID; rewrite Hid; eauto);
    split; [right; exact Hder | intros _; exact Hder].
Qed.

(** Every run of Delete: nothing at all when the ID does not parse, else
    the lock, a stretch of API requests and the unlock. *)
Lemma delete_run (o : nat -> Req -> Answer IotHubDescription) (d : ResourceData) :
  wpFn (resourceIotHubEndpointServiceBusQueueDelete
          ParseAzureResourceID IothubResourceName foldOrbit)
       (fun x w' =>
          match ParseAzureResourceID (Id d) with
          | inl _ => events w' = []
          | inr id =>
              exists calls,
                events w'
                = EvLock (PathAt id "IotHubs") IothubResourceName
                  :: calls ++ [EvUnlock (PathAt id "IotHubs") IothubResourceName] /\
                onlyCalls calls = true
          end)
       (world0 o d).
Proof.
  apply wpFn_body. unfold resourceIotHubEndpointServiceBusQueueDelete, world0.
  wp_norm. wp_step. wp_step.
  destruct (ParseAzureResourceID (Id d)) as [e|id].
  - wp_step. reflexivity.
  - repeat wp_step; solve_bracket.
Qed.

End IotHubLockFacts.

Section NetworkFacts.
Import Go Network Spec.

Variable ParseAzureResourceID : string -> error + ResourceID.
Variable networkInterfaceResourceName : string.
Variable networkSecurityGroupResourceName : string.

Local Abbreviation World := (World Req Interface).

(** What Read of the association does to the world: at most one request,
    no lock, nothing deferred, no panic; the ID is left alone or cleared. *)
Definition nicReadPost (w : World) (x : Exit) (w' : World) : Prop :=
  exists calls d',
    w' = mkWorld (oracle w) (ncalls w + List.length calls)%nat (events w ++ calls)
                 (deferred w) d' /\
    onlyCalls calls = true /\
    (Id d' = Id (data w) \/ Id d' = "") /\
    x <> Panic.

Lemma nic_read_wp (w : World) :
  wpFn (resourceNetworkInterfaceSecurityGroupAssociationRead ParseAzureResourceID)
       (nicReadPost w) w.
Proof.
  destruct w as [o n evs ds d].
  assert (Hnone : forall x, x <> Panic ->
                    nicReadPost (mkWorld o n evs ds d) x (mkWorld o n evs ds d)).
  { intros x Hx. exists [], d. cbn. rewrite app_nil_r, Nat.add_0_r. auto. }
  assert (Hone : forall r x d0, x <> Panic -> (Id d0 = Id d \/ Id d0 = "") ->
                   nicReadPost (mkWorld o n evs ds d) x
                     (mkWorld o (S n) (evs ++ [EvCall r]) ds d0)).
  { intros r x d0 Hx Hd0. exists [EvCall r], d0. cbn. rewrite Nat.add_1_r. auto. }
  apply wpFn_body. unfold resourceNetworkInterfaceSecurityGroupAssociationRead. wp_norm.
  repeat wp_step;
    first [ apply Hnone; discriminate
          | apply Hone; [discriminate | first [left; reflexivity | right; reflexivity]] ].
Qed.

(** Every run of Create of the association. *)
Lemma nic_create_run (o : nat -> Req -> Answer Interface) (d : ResourceData) :
  wpFn (resourceNetworkInterfaceSecurityGroupAssociationCreate
          ParseAzureResourceID networkInterfaceResourceName
          networkSecurityGroupResourceName)
       (fun x w' =>
          let resourceId :=
            GetString d "network_interface_id" +:+ "|"
              +:+ GetString d "network_security_group_id" in
          match ParseAzureResourceID (GetString d "network_interface_id") with
          | inl _ => events w' = []
          | inr nicId =>
              disciplined (PathAt nicId "networkInterfaces") networkInterfaceResourceName
                0 (events w') = true
          end /\
          (Id (data w') = Id d \/ Id (data w') = "" \/ Id (data w') = resourceId))
       (world0 o d).
Proof.
  apply wpFn_body. unfold resourceNetworkInterfaceSecurityGroupAssociationCreate, world0.
  wp_norm. wp_step. wp_step.
  destruct (ParseAzureResourceID (GetString d "network_interface_id")) as [e|nicId] eqn:Hnic.
  { wp_step. split; [reflexivity | left; reflexivity]. }
  repeat wp_step.
  all: try congruence.
  all: try solve [split; [cbn [disciplined]; rewrite !String.eqb_refl; reflexivity
                         | left; reflexivity]].
  all: try solve [split; [solve_nested | auto]].
  all: eapply wpFn_mono; [apply nic_read_wp|]; cbv beta;
    intros x w' (calls & d' & -> & Hc & Hid & Hx); cbn in Hid;
    destruct x as [e'|]; [|contradiction]; repeat wp_step;
    split; [solve_nested | intuition].
Qed.

(** Every run of Delete of the association. *)
Lemma nic_delete_run (o : nat -> Req -> Answer Interface) (d : ResourceData) :
  wpFn (resourceNetworkInterfaceSecurityGroupAssociationDelete
          ParseAzureResourceID networkInterfaceResourceName)
       (fun x w' =>
          disciplined (nicOfAssociation ParseAzureResourceID d)
            networkInterfaceResourceName 0 (events w') = true)
       (world0 o d).
Proof.
  apply wpFn_body. unfold resourceNetworkInterfaceSecurityGroupAssociationDelete, world0.
  unfold nicOfAssociation.
  wp_norm. wp_step. wp_step.
  destruct (negb _); [wp_step; reflexivity|].
  destruct (ParseAzureResourceID _) as [e|nicID]; [wp_step; reflexivity|].
  repeat wp_step.
  all: lazymatch goal with
       | |- disciplined _ _ 0%nat (_ :: ?rest) = true =>
           let c := strip_last rest in
           apply (disciplined_bracket _ _ c); reflexivity
       end.
Qed.

(** Read of an association that exists: the interface is there and has a
    security group attached.  Read succeeds and leaves the ID alone. *)
Lemma nic_read_existing (o : nat -> Req -> Answer Interface) (d : ResourceData)
  (nicID : ResourceID) (nsgID : string) :
  List.length (Split (Id d) "|"%char) = 2%nat ->
  ParseAzureResourceID (nth 0 (Split (Id d) "|"%char) "") = inr nicID ->
  let read := o 0%nat (Get (Sdk.ResourceGroup nicID) (PathAt nicID "networkInterfaces") "") in
  err read = None ->
  Properties (body read)
    = Some (mkInterfaceProperties (Some (mkSecurityGroup (Some nsgID)))) ->
  wpFn (resourceNetworkInterfaceSecurityGroupAssociationRead ParseAzureResourceID)
       (fun x w' => x = Return None /\ Id (data w') = Id d)
       (world0 o d).
Proof.
  intros Hlen Hparse read Herr Hprops. subst read.
  apply wpFn_body. unfold resourceNetworkInterfaceSecurityGroupAssociationRead, world0.
  wp_norm. wp_step. wp_step. rewrite Hlen. cbn [Nat.eqb negb]. rewrite Hparse.
  wp_step. wp_step. rewrite Herr, Hprops. cbn [NetworkSecurityGroup].
  repeat wp_step. split; reflexivity.
Qed.

End NetworkFacts.

Section ParentLockTheorems.
Import Go Spec.

(** C7: every Create, Update or Delete run that rewrites a shared parent
    takes the lock keyed by the name of the parent and its resource-type
    tag before it reads the parent, holds it during every request to the
    API, and has released it when the run is over, whether the handler
    returns an error, returns normally or panics.  A run that stops before
    it could name the parent makes no request and takes no lock. *)
Theorem C7_parent_lock_held_around_every_request :
  forall (ParseAzureResourceID : string -> error + ResourceID)
         (IothubResourceName subscriptionID : string)
         (networkInterfaceResourceName networkSecurityGroupResourceName : string)
         (foldOrbit : Z -> Z -> bool),
    (forall o d,
        disciplined (GetString d "iothub_name") IothubResourceName 0
          (events (snd (runFn (IotHub.resourceIotHubEndpointServiceBusQueueCreateUpdate
                                 ParseAzureResourceID IothubResourceName subscriptionID
                                 foldOrbit)
                              (world0 o d)))) = true) /\
    (forall o d,
        disciplined (hubOfEndpoint ParseAzureResourceID d) IothubResourceName 0
          (events (snd (runFn (IotHub.resourceIotHubEndpointServiceBusQueueDelete
                                 ParseAzureResourceID IothubResourceName foldOrbit)
                              (world0 o d)))) = true) /\
    (forall o d,
        disciplined (nicOfConfig ParseAzureResourceID d) networkInterfaceResourceName 0
          (events (snd (runFn (Network.resourceNetworkInterfaceSecurityGroupAssociationCreate
                                 ParseAzureResourceID networkInterfaceResourceName
                                 networkSecurityGroupResourceName)
                              (world0 o d)))) = true) /\
    (forall o d,
        disciplined (nicOfAssociation ParseAzureResourceID d)
          networkInterfaceResourceName 0
          (events (snd (runFn (Network.resourceNetworkInterfaceSecurityGroupAssociationDelete
                                 ParseAzureResourceID networkInterfaceResourceName)
                              (world0 o d)))) = true).
Proof.
  intros parse hubTag sub nicTag nsgTag fold. repeat split; intros o d.
  - destruct (createUpdate_run parse hubTag sub fold o d) as [(calls & Hev & Hc) _].
    rewrite Hev. apply disciplined_bracket. exact Hc.
  - pose proof (delete_run parse hubTag fold o d) as H. unfold wpFn in H.
    unfold hubOfEndpoint.
    destruct (parse (Id d)) as [e|id].
    + rewrite H. reflexivity.
    + destruct H as (calls & Hev & Hc). rewrite Hev.
      apply disciplined_bracket. exact Hc.
  - pose proof (nic_create_run parse nicTag nsgTag o d) as [H _].
    unfold nicOfConfig.
    destruct (parse (GetString d "network_interface_id")) as [e|id].
    + rewrite H. reflexivity.
    + exact H.
  - exact (nic_delete_run parse nicTag o d).
Qed.

End ParentLockTheorems.

(** A run of Create that succeeds and a Read of an association that
    exists. *)
Module AssociationSamples.
Import IotHubSamples.

Definition nicResourceID : string :=
  "/subscriptions/sub1/resourceGroups/rg1/providers/Microsoft.Network/networkInterfaces/nic1".

Definition nsgResourceID : string :=
  "/subscriptions/sub1/resourceGroups/rg1/providers/Microsoft.Network/networkSecurityGroups/nsg1".

Definition nicID : ResourceID :=
  mkResourceID "rg1" (<["networkInterfaces" := "nic1"]> ∅).

(** A resource-ID parser that knows the endpoint and the interface of the
    samples. *)
Definition parseBoth (id : string) : error + ResourceID :=
  if String.eqb id sampleEndpointResourceID then inr sampleEndpointID
  else if String.eqb id nicResourceID then inr nicID
  else inl (Errorf "Cannot parse Azure ID: %s" None).

(** The interface [nic1] with the security group [nsg1] attached. *)
Definition attached : Network.Interface :=
  Network.mkInterface (Some nicResourceID)
    (Some (Network.mkInterfaceProperties
             (Some (Network.mkSecurityGroup (Some nsgResourceID))))).

Definition nicAnswers : nat -> Network.Req -> Answer Network.Interface :=
  fun _ _ => mkAnswer attached (Some 200%Z) None.

Definition associationData : ResourceData :=
  mkResourceData (nicResourceID +:+ "|" +:+ nsgResourceID) false ∅.

(** The configuration of a new endpoint [gone] on hub [hub1], and a hub
    that has the endpoint [keep] only. *)
Definition createEndpointData : ResourceData :=
  mkResourceData "" true
    (<["name" := VString "gone"]>
       (<["iothub_name" := VString "hub1"]>
          (<["resource_group_name" := VString "rg1"]>
             (<["connection_string" := VString "Endpoint=sb://g/;EntityPath=g"]> ∅)))).

Definition hubKeeping : IotHub.IotHubDescription :=
  hubWith (IotHub.mkEndpoints (Some [keptEndpoint]) (Some [])).

End AssociationSamples.

(** ** A remote object that is not there *)

Section NotFoundFacts.
Import Go.

(** An answer that reports "not found". *)
Definition isNotFound {Body : Type} (a : Answer Body) : Prop :=
  err a <> None /\ ResponseWasNotFound (response a) = true.

(** What silent success means for Read: no error, and the ID is cleared. *)
Definition clearedQuietly {Req Body : Type} (out : Exit * World Req Body) : Prop :=
  fst out = Return None /\ Id (data (snd out)) = "".

Lemma automation_read_not_found
  (ParseAzureResourceID : string -> error + ResourceID) (time_Format : Time -> string)
  (lowerWide : string -> string)
  (varType : string) (o : nat -> Automation.Req -> Answer Automation.Variable_)
  (d : ResourceData) (id : ResourceID) :
  ParseAzureResourceID (Id d) = inr id ->
  isNotFound (o 0%nat (Automation.Get (Sdk.ResourceGroup id)
                         (PathAt id "automationAccounts") (PathAt id "variables"))) ->
  clearedQuietly (runFn (Automation.resourceAutomationVariableRead
                           ParseAzureResourceID time_Format lowerWide varType) (world0 o d)).
Proof.
  intros Hparse [Herr H404].
  apply (wpFn_body _ (fun x w' => clearedQuietly (x, w'))).
  unfold Automation.resourceAutomationVariableRead, world0. wp_norm.
  wp_step. wp_step. rewrite Hparse. wp_step. wp_step.
  destruct (err _) as [e|]; [|contradiction]. rewrite H404.
  repeat wp_step. split; reflexivity.
Qed.

Lemma storage_read_not_found
  (StorageSyncServiceID : string -> error + Storage.StorageSyncServiceId)
  (NormalizeNilable : option string -> string)
  (FlattenAndSet : ResourceData -> TagsHelpers.Tags -> ResourceData * option error)
  (o : nat -> Storage.Req -> Answer Storage.Service)
  (d : ResourceData) (id : Storage.StorageSyncServiceId) :
  StorageSyncServiceID (Id d) = inr id ->
  isNotFound (o 0%nat (Storage.Get (Storage.ResourceGroup id) (Storage.SyncName id))) ->
  clearedQuietly (runFn (Storage.resourceStorageSyncRead StorageSyncServiceID NormalizeNilable
                           FlattenAndSet)
                        (world0 o d)).
Proof.
  intros Hparse [Herr H404].
  apply (wpFn_body _ (fun x w' => clearedQuietly (x, w'))).
  unfold Storage.resourceStorageSyncRead, world0. wp_norm.
  wp_step. wp_step. rewrite Hparse. wp_step. wp_step.
  destruct (err _) as [e|]; [|contradiction]. rewrite H404.
  repeat wp_step. split; reflexivity.
Qed.

Lemma firewall_read_not_found
  (FirewallRuleID : string -> error + Sql.FirewallRuleId)
  (o : nat -> Sql.Req -> Answer Sql.FirewallRule)
  (d : ResourceData) (id : Sql.FirewallRuleId) :
  FirewallRuleID (Id d) = inr id ->
  isNotFound (o 0%nat (Sql.Get (Sql.ResourceGroup id) (Sql.ServerName id) (Sql.Name id))) ->
  clearedQuietly (runFn (Sql.resourceSqlFirewallRuleRead FirewallRuleID) (world0 o d)).
Proof.
  intros Hparse [Herr H404].
  apply (wpFn_body _ (fun x w' => clearedQuietly (x, w'))).
  unfold Sql.resourceSqlFirewallRuleRead, world0. wp_norm.
  wp_step. wp_step. rewrite Hparse. wp_step. wp_step.
  destruct (err _) as [e|]; [|contradiction]. rewrite H404.
  repeat wp_step. split; reflexivity.
Qed.

Lemma firewall_delete_not_found
  (FirewallRuleID : string -> error + Sql.FirewallRuleId)
  (o : nat -> Sql.Req -> Answer Sql.FirewallRule)
  (d : ResourceData) (id : Sql.FirewallRuleId) :
  FirewallRuleID (Id d) = inr id ->
  isNotFound (o 0%nat (Sql.Delete (Sql.ResourceGroup id) (Sql.ServerName id) (Sql.Name id))) ->
  fst (runFn (Sql.resourceSqlFirewallRuleDelete FirewallRuleID) (world0 o d)) = Return None.
Proof.
  intros Hparse [Herr H404].
  apply (wpFn_body _ (fun x w' => x = Return None)).
  unfold Sql.resourceSqlFirewallRuleDelete, world0. wp_norm.
  wp_step. wp_step. rewrite Hparse. wp_step. wp_step.
  destruct (err _) as [e|]; [|contradiction]. rewrite H404. cbn [negb].
  repeat wp_step. reflexivity.
Qed.

Lemma dashboard_read_not_found
  (DashboardID : string -> error + Portal.DashboardId)
  (NormalizeLocation : string -> string)
  (json_Marshal : option Portal.DashboardProperties -> string + string)
  (FlattenAndSet : ResourceData -> TagsHelpers.Tags -> ResourceData * option error)
  (o : nat -> Portal.Req -> Answer Portal.Dashboard)
  (d : ResourceData) (id : Portal.DashboardId) :
  DashboardID (Id d) = inr id ->
  isNotFound (o 0%nat (Portal.Get (Portal.ResourceGroup id) (Portal.Name id))) ->
  clearedQuietly (runFn (Portal.resourceDashboardRead DashboardID NormalizeLocation json_Marshal
                           FlattenAndSet)
                        (world0 o d)).
Proof.
  intros Hparse [Herr H404].
  apply (wpFn_body _ (fun x w' => clearedQuietly (x, w'))).
  unfold Portal.resourceDashboardRead, world0. wp_norm.
  wp_step. wp_step. rewrite Hparse. wp_step. wp_step.
  destruct (err _) as [e|]; [|contradiction]. rewrite H404.
  repeat wp_step. split; reflexivity.
Qed.

Lemma dashboard_delete_not_found
  (DashboardID : string -> error + Portal.DashboardId)
  (o : nat -> Portal.Req -> Answer Portal.Dashboard)
  (d : ResourceData) (id : Portal.DashboardId) :
  DashboardID (Id d) = inr id ->
  isNotFound (o 0%nat (Portal.Delete (Portal.ResourceGroup id) (Portal.Name id))) ->
  fst (runFn (Portal.resourceDashboardDelete DashboardID) (world0 o d)) = Return None.
Proof.
  intros Hparse [Herr H404].
  apply (wpFn_body _ (fun x w' => x = Return None)).
  unfold Portal.resourceDashboardDelete, world0. wp_norm.
  wp_step. wp_step. rewrite Hparse. wp_step. wp_step.
  destruct (err _) as [e|]; [|contradiction]. rewrite H404. cbn [negb].
  repeat wp_step. reflexivity.
Qed.

Lemma nic_read_not_found
  (ParseAzureResourceID : string -> error + ResourceID)
  (o : nat -> Network.Req -> Answer Network.Interface)
  (d : ResourceData) (nicID : ResourceID) :
  List.length (Split (Id d) "|"%char) = 2%nat ->
  ParseAzureResourceID (nth 0 (Split (Id d) "|"%char) "") = inr nicID ->
  isNotFound (o 0%nat (Network.Get (Sdk.ResourceGroup nicID)
                         (PathAt nicID "networkInterfaces") "")) ->
  clearedQuietly (runFn (Network.resourceNetworkInterfaceSecurityGroupAssociationRead
                           ParseAzureResourceID) (world0 o d)).
Proof.
  intros Hlen Hparse [Herr H404].
  apply (wpFn_body _ (fun x w' => clearedQuietly (x, w'))).
  unfold Network.resourceNetworkInterfaceSecurityGroupAssociationRead, world0. wp_norm.
  wp_step. wp_step. rewrite Hlen. cbn [Nat.eqb negb]. rewrite Hparse. wp_step. wp_step.
  destruct (err _) as [e|]; [|contradiction]. rewrite H404.
  repeat wp_step. split; reflexivity.
Qed.

End NotFoundFacts.

(** *** Sample data for the not-found cases *)

Module NotFoundSamples.
Import Go.

Definition notFoundText : string :=
  "autorest/azure: Service returned an error. Status=404 Code=ResourceNotFound".

(** The API answers every request with 404; the decoded object is the
    zero value. *)
Definition notFound {Req Body : Type} (zero : Body) : nat -> Req -> Answer Body :=
  fun _ _ => mkAnswer zero (Some 404%Z) (Some notFoundText).

Definition variableResourceID : string :=
  "/subscriptions/sub1/resourceGroups/rg1/providers/Microsoft.Automation/automationAccounts/acc1/variables/v1".

Definition variableID : ResourceID :=
  mkResourceID "rg1" (<["automationAccounts" := "acc1"]> (<["variables" := "v1"]> ∅)).

Definition parseVariableID (id : string) : error + ResourceID :=
  if String.eqb id variableResourceID then inr variableID
  else inl (Errorf "Cannot parse Azure ID: %s" None).

Definition variableData : ResourceData := mkResourceData variableResourceID false ∅.

Definition zeroVariable : Automation.Variable_ := Automation.mkVariable None None None.

Definition syncResourceID : string :=
  "/subscriptions/sub1/resourceGroups/rg1/providers/Microsoft.StorageSync/storageSyncServices/sync1".

Definition parseSyncID (id : string) : error + Storage.StorageSyncServiceId :=
  if String.eqb id syncResourceID then inr (Storage.mkStorageSyncServiceId "rg1" "sync1")
  else inl (Errorf "parsing %q as an ID" None).

Definition syncData : ResourceData := mkResourceData syncResourceID false ∅.

Definition zeroService : Storage.Service := Storage.mkService None None None None ∅.

Definition zeroHub : IotHub.IotHubDescription := IotHub.mkIotHub None None.

Definition formatNothing : Time -> string := fun _ => "".

(** No letter outside ASCII has a lower case of its own. *)
Definition noWideLower : string -> string := fun s => s.

End NotFoundSamples.

Section NotFoundTheorems.
Import Go NotFoundSamples.

(** C1, as the claim states it, fails.  Delete of an IoT Hub endpoint
    turns "not found" into an error of its own; Delete of an automation
    variable and Delete of a storage sync service have one error path for
    every API error and return "not found" wrapped like any other. *)
Lemma C1_delete_returns_error_on_not_found :
  fst (runFn (IotHub.resourceIotHubEndpointServiceBusQueueDelete
                IotHubSamples.sampleParse "azurerm_iothub" IotHubSamples.noWideFold)
             (world0 (notFound zeroHub) IotHubSamples.sampleEndpointData))
  = Return (Some (Errorf "IotHub %q (Resource Group %q) was not found" None)) /\
  fst (runFn (Automation.resourceAutomationVariableDelete parseVariableID "String")
             (world0 (notFound zeroVariable) variableData))
  = Return (Some (Errorf "Error deleting Automation %s Variable %q (Automation Account Name %q / Resource Group %q): %+v"
                         (Some notFoundText))) /\
  fst (runFn (Storage.resourceStorageSyncDelete parseSyncID)
             (world0 (notFound zeroService) syncData))
  = Return (Some (Errorf "deleting Storage Sync(Storage Sync Name %q / Resource Group %q): %+v"
                         (Some notFoundText))).
Proof.
  repeat split; vm_compute; reflexivity.
Qed.

(** C1, amended: when the API answers "not found", Read of an automation
    variable, of a storage sync service, of a SQL firewall rule, of a
    dashboard and of a network interface association clears the ID and
    returns no error, and Delete of a SQL firewall rule and of a dashboard
    returns no error. *)
Theorem C1_not_found_is_silent_where_handled :
  forall (ParseAzureResourceID : string -> error + ResourceID)
         (StorageSyncServiceID : string -> error + Storage.StorageSyncServiceId)
         (FirewallRuleID : string -> error + Sql.FirewallRuleId)
         (DashboardID : string -> error + Portal.DashboardId)
         (time_Format : Time -> string)
         (lowerWide : string -> string)
         (NormalizeNilable : option string -> string)
         (NormalizeLocation : string -> string)
         (json_Marshal : option Portal.DashboardProperties -> string + string)
         (FlattenAndSet : ResourceData -> TagsHelpers.Tags -> ResourceData * option error),
    (forall varType o d id,
        ParseAzureResourceID (Id d) = inr id ->
        isNotFound (o 0%nat (Automation.Get (Sdk.ResourceGroup id)
                               (PathAt id "automationAccounts") (PathAt id "variables"))) ->
        clearedQuietly (runFn (Automation.resourceAutomationVariableRead
                                 ParseAzureResourceID time_Format lowerWide varType)
                              (world0 o d))) /\
    (forall o d id,
        StorageSyncServiceID (Id d) = inr id ->
        isNotFound (o 0%nat (Storage.Get (Storage.ResourceGroup id) (Storage.SyncName id))) ->
        clearedQuietly (runFn (Storage.resourceStorageSyncRead
                                 StorageSyncServiceID NormalizeNilable FlattenAndSet)
                              (world0 o d))) /\
    (forall o d id,
        FirewallRuleID (Id d) = inr id ->
        isNotFound (o 0%nat (Sql.Get (Sql.ResourceGroup id) (Sql.ServerName id) (Sql.Name id))) ->
        clearedQuietly (runFn (Sql.resourceSqlFirewallRuleRead FirewallRuleID) (world0 o d))) /\
    (forall o d id,
        DashboardID (Id d) = inr id ->
        isNotFound (o 0%nat (Portal.Get (Portal.ResourceGroup id) (Portal.Name id))) ->
        clearedQuietly (runFn (Portal.resourceDashboardRead
                                 DashboardID NormalizeLocation json_Marshal FlattenAndSet)
                              (world0 o d))) /\
    (forall o d nicID,
        List.length (Split (Id d) "|"%char) = 2%nat ->
        ParseAzureResourceID (nth 0 (Split (Id d) "|"%char) "") = inr nicID ->
        isNotFound (o 0%nat (Network.Get (Sdk.ResourceGroup nicID)
                               (PathAt nicID "networkInterfaces") "")) ->
        clearedQuietly (runFn (Network.resourceNetworkInterfaceSecurityGroupAssociationRead
                                 ParseAzureResourceID) (world0 o d))) /\
    (forall o d id,
        FirewallRuleID (Id d) = inr id ->
        isNotFound (o 0%nat (Sql.Delete (Sql.ResourceGroup id) (Sql.ServerName id)
                               (Sql.Name id))) ->
        fst (runFn (Sql.resourceSqlFirewallRuleDelete FirewallRuleID) (world0 o d))
        = Return None) /\
    (forall o d id,
        DashboardID (Id d) = inr id ->
        isNotFound (o 0%nat (Portal.Delete (Portal.ResourceGroup id) (Portal.Name id))) ->
        fst (runFn (Portal.resourceDashboardDelete DashboardID) (world0 o d))
        = Return None).
Proof.
  intros parse parseSync parseRule parseDash fmt lower normNil normLoc marshal setTags.
  refine (conj _ (conj _ (conj _ (conj _ (conj _ (conj _ _)))))).
  - intros varType o d id. apply automation_read_not_found.
  - intros o d id. apply storage_read_not_found.
  - intros o d id. apply firewall_read_not_found.
  - intros o d id. apply dashboard_read_not_found.
  - intros o d nicID. apply nic_read_not_found.
  - intros o d id. apply firewall_delete_not_found.
  - intros o d id. apply dashboard_delete_not_found.
Qed.

Lemma isNotFound_sample {Req Body : Type} (zero : Body) (n : nat) (r : Req) :
  isNotFound (notFound zero n r).
Proof. split; [discriminate | reflexivity]. Defined.

(** The automation variable of the samples has vanished: Read clears the
    ID and reports nothing. *)
Lemma C1_not_found_witness :
  clearedQuietly (runFn (Automation.resourceAutomationVariableRead
                           parseVariableID formatNothing noWideLower "String")
                        (world0 (notFound zeroVariable) variableData)).
Proof.
  exact (proj1 (C1_not_found_is_silent_where_handled
                  parseVariableID parseSyncID
                  (fun _ => inl (Errorf "parsing %q as an ID" None))
                  (fun _ => inl (Errorf "parsing %q as an ID" None))
                  formatNothing noWideLower (fun _ => "") (fun l => l) (fun _ => inr "")
                  TagsSamples.setNoTags)
               "String" (notFound zeroVariable) variableData variableID
               eq_refl (isNotFound_sample zeroVariable _ _)).
Defined.

End NotFoundTheorems.

(** ** A remote object that is already there *)

Section AlreadyExistsFacts.

(** The existence check as the handlers with the check run it, here for
    SQL firewall rules: a new resource whose Get finds a rule with an ID
    ends in the "already exists" error, and the Get is the only request:
    nothing is written. *)
Lemma firewall_create_already_exists
  (FirewallRuleID : string -> error + Sql.FirewallRuleId)
  (o : nat -> Sql.Req -> Answer Sql.FirewallRule) (d : ResourceData) (id : string) :
  IsNewResource d = true ->
  let get := Sql.Get (GetString d "resource_group_name") (GetString d "server_name")
                     (GetString d "name") in
  err (o 0%nat get) = None ->
  Sql.ID (body (o 0%nat get)) = Some id ->
  id <> "" ->
  let out := runFn (Sql.resourceSqlFirewallRuleCreateUpdate FirewallRuleID) (world0 o d) in
  fst out = Return (Some (ImportAsExistsError "azurerm_sql_firewall_rule" id)) /\
  events (snd out) = [EvCall get].
Proof.
  intros Hnew get Herr Hid Hne out. subst out get.
  apply (wpFn_body _ (fun x w' =>
           x = Return (Some (ImportAsExistsError "azurerm_sql_firewall_rule" id)) /\
           events w' = [EvCall _])).
  unfold Sql.resourceSqlFirewallRuleCreateUpdate, world0. wp_norm.
  wp_step. wp_step. rewrite Hnew. wp_step. wp_step. wp_step. rewrite Herr.
  wp_step. wp_step. rewrite Hid.
  apply String.eqb_neq in Hne. rewrite Hne. cbn [negb].
  wp_step. split; reflexivity.
Qed.

(** Read of a dashboard adds to the log and never panics. *)
Lemma dashboard_read_wp
  (DashboardID : string -> error + Portal.DashboardId)
  (NormalizeLocation : string -> string)
  (json_Marshal : option Portal.DashboardProperties -> string + string)
  (FlattenAndSet : ResourceData -> TagsHelpers.Tags -> ResourceData * option error)
  (w : World Portal.Req Portal.Dashboard) :
  wpFn (Portal.resourceDashboardRead DashboardID NormalizeLocation json_Marshal FlattenAndSet)
       (fun x w' =>
          exists calls n' d',
            w' = mkWorld (oracle w) n' (events w ++ calls) (deferred w) d' /\
            x <> Panic) w.
Proof.
  destruct w as [o n evs ds d].
  apply wpFn_body. unfold Portal.resourceDashboardRead. wp_norm.
  repeat wp_step_tags.
  all: first [ exists [], n, d; rewrite app_nil_r; split; [reflexivity | discriminate]
             | eexists [_], _, _; split; [reflexivity | discriminate] ].
Qed.

(** Create of a dashboard has no existence check: whenever the JSON of
    the properties decodes, the first request of the run is the write. *)
Lemma dashboard_create_writes_first
  (DashboardID : string -> error + Portal.DashboardId)
  (NewDashboardID : string -> string -> string -> string)
  (NormalizeLocation : string -> string)
  (json_Unmarshal : string -> string + Portal.DashboardProperties)
  (json_Marshal : option Portal.DashboardProperties -> string + string)
  (subscriptionId : string)
  (expandTags : ResourceData -> TagsHelpers.Tags)
  (FlattenAndSet : ResourceData -> TagsHelpers.Tags -> ResourceData * option error)
  (o : nat -> Portal.Req -> Answer Portal.Dashboard) (d : ResourceData)
  (props : Portal.DashboardProperties) :
  json_Unmarshal (GetString d "dashboard_properties") = inr props ->
  let out := runFn (Portal.resourceDashboardCreateUpdate DashboardID NewDashboardID
                      NormalizeLocation json_Unmarshal json_Marshal subscriptionId
                      expandTags FlattenAndSet)
                   (world0 o d) in
  exists rest,
    events (snd out)
    = EvCall (Portal.CreateOrUpdate (GetString d "resource_group_name") (GetString d "name")
                (Portal.mkDashboard
                   (Some (NormalizeLocation (GetString d "location"))) (Some props)
                   (expandTags d)))
      :: rest.
Proof.
  intros Hjson out. subst out.
  apply (wpFn_body _ (fun x w' => exists rest, events w' = EvCall _ :: rest)).
  unfold Portal.resourceDashboardCreateUpdate, world0. wp_norm.
  wp_step. wp_step. rewrite Hjson. wp_step. wp_step.
  destruct (err _).
  - wp_step. eexists. reflexivity.
  - wp_step. wp_step. wp_step. wp_step.
    eapply wpFn_mono; [apply dashboard_read_wp|]. cbv beta.
    intros x w' (calls & n' & d' & -> & Hx).
    destruct x as [e|]; [|contradiction]. wp_step.
    eexists. reflexivity.
Qed.

End AlreadyExistsFacts.

(** *** Sample data for the dashboard *)

Module DashboardSamples.

Definition dashboardResourceID : string :=
  "/subscriptions/sub1/resourceGroups/rg1/providers/Microsoft.Portal/dashboards/dash1".

Definition parseDashboardID (id : string) : error + Portal.DashboardId :=
  if String.eqb id dashboardResourceID then inr (Portal.mkDashboardId "rg1" "dash1")
  else inl (Errorf "parsing %q as an ID" None).

Definition formatDashboardID (subscriptionId resourceGroup name : string) : string :=
  "/subscriptions/" +:+ subscriptionId +:+ "/resourceGroups/" +:+ resourceGroup
    +:+ "/providers/Microsoft.Portal/dashboards/" +:+ name.

(** JSON documents stand for themselves. *)
Definition decode (s : string) : string + Portal.DashboardProperties :=
  inr (Portal.mkDashboardProperties s).

Definition encode (p : option Portal.DashboardProperties) : string + string :=
  match p with
  | Some p => inr (Portal.document p)
  | None => inr "null"
  end.

(** The dashboard [dash1] that is already there, made by someone else. *)
Definition existingDashboard : Portal.Dashboard :=
  Portal.mkDashboard (Some "westeurope")
    (Some (Portal.mkDashboardProperties "{'lenses':{'0':{}}}")) ∅.

(** The remote API: the dashboard exists, every request succeeds. *)
Definition dashboardExists : nat -> Portal.Req -> Answer Portal.Dashboard :=
  fun _ _ => mkAnswer existingDashboard (Some 200%Z) None.

(** The configuration of a new dashboard of the same name. *)
Definition newDashboardData : ResourceData :=
  mkResourceData "" true
    (<["name" := VString "dash1"]>
       (<["resource_group_name" := VString "rg1"]>
          (<["location" := VString "westeurope"]>
             (<["dashboard_properties" := VString "{}"]> ∅)))).

End DashboardSamples.

Section AlreadyExistsTheorems.
Import DashboardSamples.

(** C2: the claim is that Create of a new resource that is already there
    ends in the "already exists" error and writes nothing, for the
    dashboard in particular.  Create of a dashboard does not look: for a
    new dashboard [dash1] where a dashboard [dash1] exists, the first
    request is the write that replaces it, and the handler returns without
    an error. *)
Theorem C2_dashboard_create_overwrites_existing :
  let out := runFn (Portal.resourceDashboardCreateUpdate parseDashboardID formatDashboardID
                      (fun l => l) decode encode "sub1"
                      TagsSamples.noTags TagsSamples.setNoTags)
                   (world0 dashboardExists newDashboardData) in
  fst out = Return None /\
  events (snd out)
  = [EvCall (Portal.CreateOrUpdate "rg1" "dash1"
               (Portal.mkDashboard (Some "westeurope")
                  (Some (Portal.mkDashboardProperties "{}")) ∅));
     EvCall (Portal.Get "rg1" "dash1")] /\
  Id (data (snd out)) = dashboardResourceID.
Proof.
  vm_compute. repeat split; reflexivity.
Qed.

End AlreadyExistsTheorems.

(** ** Automation variables: what Create stores can be read back *)

Section DecimalFacts.
Import Go.

Lemma byte_chr (b : Z) : 0 <= b < 256 -> byte (chr b) = b.
Proof.
  intros Hb. unfold byte, chr. rewrite Z.mod_small by exact Hb.
  rewrite N_ascii_embedding.
  - apply Z2N.id. lia.
  - apply N2Z.inj_lt. rewrite Z2N.id by lia. exact (proj2 Hb).
Qed.

Lemma byte_range (c : ascii) : 0 <= byte c < 256.
Proof.
  unfold byte. pose proof (N_ascii_bounded c) as H.
  split; [apply N2Z.is_nonneg|]. apply N2Z.inj_lt in H. exact H.
Qed.

Lemma chr_byte (c : ascii) : chr (byte c) = c.
Proof.
  unfold chr, byte. rewrite Z.mod_small by apply byte_range.
  rewrite N2Z.id. apply ascii_N_embedding.
Qed.

(** Digits are digits. *)
Lemma digit_char (m : Z) : 0 <= m <= 9 -> byte (chr (48 + m)) - 48 = m.
Proof. intros H. rewrite byte_chr by lia. lia. Qed.

Fixpoint allDigits (s : string) : bool :=
  match s with
  | EmptyString => true
  | String c t => isDigit c && allDigits t
  end.

Lemma formatDigits_allDigits (fuel : nat) :
  forall (n : Z) (acc : string),
    0 <= n -> allDigits acc = true -> allDigits (formatDigits fuel n acc) = true.
Proof.
  induction fuel as [|fuel IH]; intros n acc Hn Hacc; [exact Hacc|].
  cbn [formatDigits].
  assert (Hd : allDigits (String (chr (48 + n mod 10)) acc) = true).
  { cbn [allDigits]. rewrite Hacc, andb_true_r. unfold isDigit, inb.
    pose proof (Z.mod_pos_bound n 10 ltac:(lia)).
    rewrite byte_chr by lia. apply andb_true_iff. split; apply Z.leb_le; lia. }
  destruct (Z.ltb n 10); [exact Hd|].
  apply IH; [apply Z.div_pos; lia | exact Hd].
Qed.

Lemma formatDigits_nonempty (fuel : nat) :
  forall (n : Z) (acc : string),
    exists c rest, formatDigits (S fuel) n acc = String c rest.
Proof.
  induction fuel as [|fuel IH]; intros n acc.
  - cbn [formatDigits]. destruct (Z.ltb n 10); eauto.
  - change (formatDigits (S (S fuel)) n acc)
      with (let acc' := String (chr (48 + n mod 10)) acc in
            if Z.ltb n 10 then acc' else formatDigits (S fuel) (n / 10) acc').
    cbv zeta. destruct (Z.ltb n 10); [eauto | apply IH].
Qed.

(** Reading back the digits of [n]. *)
Lemma parseDigits_formatDigits (maxVal : Z) (fuel : nat) :
  forall (n : Z) (acc : string),
    0 <= n < 2 ^ Z.of_nat fuel -> n <= maxVal ->
    parseDigits (formatDigits fuel n acc) maxVal 0 = parseDigits acc maxVal n.
Proof.
  induction fuel as [|fuel IH]; intros n acc Hn Hmax.
  - cbn [formatDigits]. replace n with 0 by (cbn in Hn; lia). reflexivity.
  - cbn [formatDigits].
    pose proof (Z.mod_pos_bound n 10 ltac:(lia)) as Hmod.
    pose proof (Z.div_mod n 10 ltac:(lia)) as Hdiv.
    assert (Hstep : forall k, k * 10 + n mod 10 = n ->
              parseDigits (String (chr (48 + n mod 10)) acc) maxVal k
              = parseDigits acc maxVal n).
    { intros k Hk. cbn [parseDigits]. rewrite digit_char by lia.
      unfold inb. replace (Z.leb 0 (n mod 10)) with true by (symmetry; apply Z.leb_le; lia).
      replace (Z.leb (n mod 10) 9) with true by (symmetry; apply Z.leb_le; lia).
      cbn [andb negb]. rewrite Hk.
      replace (Z.ltb maxVal n) with false by (symmetry; apply Z.ltb_ge; lia).
      reflexivity. }
    destruct (Z.ltb n 10) eqn:E.
    + apply Z.ltb_lt in E. apply Hstep.
      rewrite Z.mod_small by lia. lia.
    + apply Z.ltb_ge in E.
      rewrite IH.
      * apply Hstep. lia.
      * split; [apply Z.div_pos; lia|].
        rewrite Nat2Z.inj_succ, Z.pow_succ_r in Hn by lia.
        apply Z.div_lt_upper_bound; lia.
      * lia.
Qed.

Lemma log2_fuel (n : Z) : 0 <= n -> n < 2 ^ Z.of_nat (S (Z.to_nat (Z.log2 n))).
Proof.
  intros Hn. rewrite Nat2Z.inj_succ, Z2Nat.id by apply Z.log2_nonneg.
  destruct (Z.eq_dec n 0) as [->|Hne]; [reflexivity|].
  apply Z.log2_spec. lia.
Qed.

(** [ParseInt] reads back what [Itoa] wrote, as long as the number fits. *)
Lemma ParseInt_Itoa (bitSize n : Z) :
  0 < bitSize ->
  - 2 ^ (bitSize - 1) <= n < 2 ^ (bitSize - 1) ->
  ParseInt (Itoa n) bitSize = Some n.
Proof.
  intros Hb Hn.
  assert (Hp : 2 ^ bitSize = 2 * 2 ^ (bitSize - 1)).
  { replace bitSize with (Z.succ (bitSize - 1)) at 1 by lia.
    rewrite Z.pow_succ_r by lia. reflexivity. }
  unfold Itoa. destruct (Z.ltb n 0) eqn:Eneg.
  - apply Z.ltb_lt in Eneg.
    set (fuel := S (Z.to_nat (Z.log2 (- n)))).
    cbn [ParseInt].
    change (Ascii.eqb "-"%char "+"%char) with false.
    change (Ascii.eqb "-"%char "-"%char) with true.
    cbv beta iota.
    unfold ParseUint.
    destruct (formatDigits_nonempty (Z.to_nat (Z.log2 (- n))) (- n) EmptyString)
      as (c & rest & Hs).
    fold fuel in Hs. rewrite Hs, <- Hs.
    rewrite parseDigits_formatDigits; [|split; [lia | apply log2_fuel; lia] | lia].
    cbn [parseDigits andb negb].
    replace (Z.ltb (2 ^ (bitSize - 1)) (- n)) with false
      by (symmetry; apply Z.ltb_ge; lia).
    f_equal. lia.
  - apply Z.ltb_ge in Eneg.
    set (fuel := S (Z.to_nat (Z.log2 n))).
    destruct (formatDigits_nonempty (Z.to_nat (Z.log2 n)) n EmptyString)
      as (c & rest & Hs).
    fold fuel in Hs.
    pose proof (formatDigits_allDigits fuel n EmptyString Eneg eq_refl) as Hall.
    rewrite Hs in Hall. cbn [allDigits] in Hall. apply andb_true_iff in Hall as [Hc _].
    rewrite Hs. cbn [ParseInt].
    assert (Hplus : Ascii.eqb c "+"%char = false).
    { apply Ascii.eqb_neq. intros ->. discriminate Hc. }
    assert (Hminus : Ascii.eqb c "-"%char = false).
    { apply Ascii.eqb_neq. intros ->. discriminate Hc. }
    rewrite Hplus, Hminus. unfold ParseUint. rewrite <- Hs.
    rewrite parseDigits_formatDigits; [|split; [lia | apply log2_fuel; lia] | lia].
    cbn [parseDigits].
    replace (Z.leb (2 ^ (bitSize - 1)) n) with false
      by (symmetry; apply Z.leb_gt; lia).
    reflexivity.
Qed.

End DecimalFacts.

Section ClassifyFacts.
Import Go Automation.

Lemma contains_allDigits (s : string) (c : ascii) :
  allDigits s = true -> isDigit c = false -> contains s c = false.
Proof.
  intros Hs Hc. induction s as [|c' t IH]; [reflexivity|].
  cbn [allDigits] in Hs. apply andb_true_iff in Hs as [Hc' Ht].
  cbn [contains]. rewrite (IH Ht), orb_false_r.
  apply Ascii.eqb_neq. intros ->. congruence.
Qed.

Lemma allDigits_Itoa_tail (n : Z) :
  exists sign ds,
    Itoa n = sign +:+ ds /\
    (sign = EmptyString \/ sign = "-") /\
    (sign = "-" <-> n < 0) /\
    allDigits ds = true /\ ds <> EmptyString.
Proof.
  unfold Itoa. destruct (Z.ltb n 0) eqn:E.
  - apply Z.ltb_lt in E. exists "-", (formatDigits (S (Z.to_nat (Z.log2 (- n)))) (- n) EmptyString).
    split; [reflexivity|]. split; [right; reflexivity|]. split; [tauto|].
    split; [apply formatDigits_allDigits; [lia | reflexivity]|].
    destruct (formatDigits_nonempty (Z.to_nat (Z.log2 (- n))) (- n) EmptyString)
      as (c & rest & ->). discriminate.
  - apply Z.ltb_ge in E. exists EmptyString, (formatDigits (S (Z.to_nat (Z.log2 n))) n EmptyString).
    split; [reflexivity|]. split; [left; reflexivity|].
    split; [split; [discriminate | lia]|].
    split; [apply formatDigits_allDigits; [lia | reflexivity]|].
    destruct (formatDigits_nonempty (Z.to_nat (Z.log2 n)) n EmptyString)
      as (c & rest & ->). discriminate.
Qed.

(** The date pattern needs a double quote to start. *)
Lemma matchDateAt_needs_quote (s : string) :
  contains s (chr 34) = false -> matchDateAt s = None.
Proof.
  intros Hs. unfold matchDateAt.
  destruct s as [|c t]; [reflexivity|].
  cbn [contains] in Hs. apply orb_false_iff in Hs as [Hc _].
  unfold datePrefix. cbn [stripPrefix]. rewrite Ascii.eqb_sym, Hc. reflexivity.
Qed.

Lemma FindStringSubmatch_needs_quote (s : string) :
  contains s (chr 34) = false -> FindStringSubmatch s = [].
Proof.
  induction s as [|c t IH]; intros Hs.
  - reflexivity.
  - cbn [FindStringSubmatch]. rewrite (matchDateAt_needs_quote _ Hs).
    cbn [contains] in Hs. apply orb_false_iff in Hs as [_ Ht]. exact (IH Ht).
Qed.

(** [Unquote] wants one of the three quote characters in front. *)
Lemma Unquote_needs_quote (q : ascii) (t : string) :
  byte q <> 96 -> byte q <> 34 -> byte q <> 39 -> Unquote (String q t) = None.
Proof.
  intros H96 H34 H39. cbn [Unquote].
  destruct (splitLast t) as [[s' l]|]; [|reflexivity].
  destruct (negb (Z.eqb (byte q) (byte l))); [reflexivity|].
  apply Z.eqb_neq in H96, H34, H39. rewrite H96, H34, H39. reflexivity.
Qed.

Lemma contains_append (s t : string) (c : ascii) :
  contains (s +:+ t) c = contains s c || contains t c.
Proof.
  induction s as [|c' s IH]; [reflexivity|].
  change (String c' s +:+ t) with (String c' (s +:+ t)).
  cbn [contains]. rewrite IH. apply orb_assoc.
Qed.

Lemma Itoa_head (n : Z) :
  exists q t, Itoa n = String q t /\ (q = "-"%char \/ isDigit q = true) /\
              contains (Itoa n) (chr 34) = false.
Proof.
  destruct (allDigits_Itoa_tail n) as (sign & ds & Hs & Hsign & _ & Hds & Hne).
  assert (Hq : contains (Itoa n) (chr 34) = false).
  { rewrite Hs, contains_append.
    rewrite (contains_allDigits ds (chr 34) Hds eq_refl), orb_false_r.
    destruct Hsign as [-> | ->]; reflexivity. }
  rewrite Hs in *.
  destruct ds as [|c ds']; [contradiction|].
  cbn [allDigits] in Hds. apply andb_true_iff in Hds as [Hc _].
  destruct Hsign as [-> | ->].
  - exists c, ds'. split; [reflexivity|]. split; [right; exact Hc | exact Hq].
  - exists "-"%char, (String c ds'). split; [reflexivity|]. split; [left; reflexivity | exact Hq].
Qed.

(** An [int] comes back as the [int] it was, if it fits 32 bits. *)
Lemma classify_Itoa (n : Z) :
  -2147483648 <= n < 2147483648 ->
  classify (Itoa n) = (GInt32 n, "azurerm_automation_variable_int").
Proof.
  intros Hn. unfold classify.
  destruct (Itoa_head n) as (q & t & Hs & Hq & Hnoquote).
  rewrite (FindStringSubmatch_needs_quote _ Hnoquote). cbn [List.length Nat.eqb andb].
  rewrite Hs, Unquote_needs_quote, <- Hs.
  - rewrite ParseInt_Itoa by lia. rewrite int32_in_range by exact Hn. reflexivity.
  - destruct Hq as [-> | Hq]; [discriminate|]. intros E. unfold isDigit in Hq.
    rewrite E in Hq. discriminate.
  - destruct Hq as [-> | Hq]; [discriminate|]. intros E. unfold isDigit in Hq.
    rewrite E in Hq. discriminate.
  - destruct Hq as [-> | Hq]; [discriminate|]. intros E. unfold isDigit in Hq.
    rewrite E in Hq. discriminate.
Qed.

Lemma classify_FormatBool (b : bool) :
  classify (FormatBool b) = (GBool b, "azurerm_automation_variable_bool").
Proof. destruct b; vm_compute; reflexivity. Qed.

Lemma append_cons (x : ascii) (a b : string) : String x a +:+ b = String x (a +:+ b).
Proof. reflexivity. Qed.

Lemma append_nil (b : string) : EmptyString +:+ b = b.
Proof. reflexivity. Qed.

Lemma append_assoc (a b c : string) : (a +:+ b) +:+ c = a +:+ (b +:+ c).
Proof.
  induction a as [|x a IH]; [reflexivity|].
  rewrite !append_cons, IH. reflexivity.
Qed.

Lemma stripPrefix_append (p rest : string) : stripPrefix p (p +:+ rest) = Some rest.
Proof.
  induction p as [|x p IH]; [reflexivity|].
  rewrite append_cons. cbn [stripPrefix]. rewrite Ascii.eqb_refl. exact IH.
Qed.

Lemma spanDigits_append (ds : string) (c : ascii) (rest : string) :
  allDigits ds = true -> isDigit c = false ->
  spanDigits (ds +:+ String c rest) = (ds, String c rest).
Proof.
  intros Hds Hc. induction ds as [|x ds IH].
  - rewrite append_nil. cbn [spanDigits]. rewrite Hc. reflexivity.
  - cbn [allDigits] in Hds. apply andb_true_iff in Hds as [Hx Hds].
    rewrite append_cons. cbn [spanDigits]. rewrite Hx, (IH Hds). reflexivity.
Qed.

(** The text that Create writes for a date matches the pattern as a
    whole, and the group is the number of milliseconds. *)
Lemma matchDateAt_encoded (ms : Z) :
  matchDateAt (datePrefix +:+ Itoa ms +:+ dateSuffix)
  = Some (datePrefix +:+ Itoa ms +:+ dateSuffix, Itoa ms).
Proof.
  unfold matchDateAt. rewrite stripPrefix_append.
  destruct (allDigits_Itoa_tail ms) as (sign & ds & Hs & Hsign & _ & Hds & Hne).
  rewrite Hs.
  assert (Hspan : spanDigits (ds +:+ dateSuffix) = (ds, dateSuffix))
    by (apply spanDigits_append; [exact Hds | reflexivity]).
  destruct ds as [|x ds']; [contradiction|].
  assert (Hx : isDigit x = true)
    by (cbn [allDigits] in Hds; apply andb_true_iff in Hds; tauto).
  destruct Hsign as [-> | ->].
  - rewrite append_nil, append_cons.
    assert (Hnot : Ascii.eqb x "-"%char = false)
      by (apply Ascii.eqb_neq; intros E; rewrite E in Hx; discriminate Hx).
    rewrite Hnot. rewrite <- append_cons.
    rewrite Hspan. change (stripPrefix dateSuffix dateSuffix) with (Some EmptyString).
    reflexivity.
  - rewrite append_assoc. rewrite (append_cons "-"%char EmptyString), append_nil.
    rewrite Ascii.eqb_refl.
    rewrite Hspan. change (stripPrefix dateSuffix dateSuffix) with (Some EmptyString).
    reflexivity.
Qed.

Lemma FindStringSubmatch_head (s m g : string) :
  matchDateAt s = Some (m, g) -> FindStringSubmatch s = [m; g].
Proof. intros H. destruct s; cbn [FindStringSubmatch]; rewrite H; reflexivity. Qed.

(** [time.Unix] of a number of milliseconds split the way the provider
    splits it is the instant that many milliseconds from the epoch. *)
Lemma Unix_of_millis (ms : Z) :
  -9223372036854775 <= ms <= 9223372036854775 ->
  let t := Unix (Z.quot ms 1000) (Z.rem ms 1000 * 1000000) in
  nanos t = ms * 1000000 /\ 0 <= nsec t < 1000000000.
Proof.
  intros Hms t. subst t.
  pose proof (Z.quot_rem' ms 1000) as Hqr.
  unfold Unix.
  destruct (Z.le_gt_cases 0 ms) as [Hpos|Hneg].
  - pose proof (Z.rem_bound_pos ms 1000 Hpos ltac:(lia)) as Hr.
    replace (Z.ltb (Z.rem ms 1000 * 1000000) 0) with false
      by (symmetry; apply Z.ltb_ge; lia).
    replace (Z.leb 1000000000 (Z.rem ms 1000 * 1000000)) with false
      by (symmetry; apply Z.leb_gt; lia).
    cbn [orb]. unfold nanos. cbn [sec nsec]. lia.
  - assert (Hr : -1000 < Z.rem ms 1000 <= 0).
    { pose proof (Z.rem_bound_pos (- ms) 1000 ltac:(lia) ltac:(lia)) as Hb.
      rewrite Z.rem_opp_l in Hb by lia. lia. }
    destruct (Z.eq_dec (Z.rem ms 1000) 0) as [Hz|Hnz].
    + rewrite Hz in *. change (0 * 1000000) with 0.
      change (Z.ltb 0 0) with false. change (Z.leb 1000000000 0) with false.
      cbn [orb]. unfold nanos. cbn [sec nsec]. lia.
    + replace (Z.ltb (Z.rem ms 1000 * 1000000) 0) with true
        by (symmetry; apply Z.ltb_lt; lia).
      cbn [orb].
      assert (Hq0 : Z.quot (Z.rem ms 1000 * 1000000) 1000000000 = 0).
      { rewrite <- (Z.opp_involutive (Z.rem ms 1000 * 1000000)).
        rewrite Z.quot_opp_l by lia. rewrite Z.quot_small by lia. reflexivity. }
      rewrite Hq0. rewrite Z.add_0_r, Z.mul_0_l, Z.sub_0_r.
      replace (Z.ltb (Z.rem ms 1000 * 1000000) 0) with true
        by (symmetry; apply Z.ltb_lt; lia).
      rewrite (int64_in_range (Z.quot ms 1000)) by lia.
      rewrite (int64_in_range (Z.quot ms 1000 - 1)) by lia.
      unfold nanos. cbn [sec nsec]. lia.
Qed.

(** A date comes back as the instant the stored milliseconds denote. *)
Lemma classify_date (ms : Z) :
  -9223372036854775 <= ms <= 9223372036854775 ->
  classify (datePrefix +:+ Itoa ms +:+ dateSuffix)
  = (GTime (Unix (Z.quot ms 1000) (Z.rem ms 1000 * 1000000)),
     "azurerm_automation_variable_datetime").
Proof.
  intros Hms. unfold classify.
  rewrite (FindStringSubmatch_head _ _ _ (matchDateAt_encoded ms)).
  cbn [List.length Nat.eqb nth]. rewrite String.eqb_refl. cbn [andb].
  rewrite ParseInt_Itoa by lia. reflexivity.
Qed.

End ClassifyFacts.

(** ** Strings: [strconv.Unquote] reads back what [strconv.Quote] wrote *)

Section Utf8Facts.
Import Go.

(** Every byte value, for checks by enumeration. *)
Definition allBytes : list Z := List.map Z.of_nat (seq 0 256).

Lemma allBytes_complete (b : Z) : 0 <= b < 256 -> In b allBytes.
Proof.
  intros Hb. unfold allBytes. apply in_map_iff. exists (Z.to_nat b).
  split; [apply Z2Nat.id; lia|]. apply in_seq. lia.
Qed.

Lemma forall_bytes (P : Z -> bool) :
  forallb P allBytes = true -> forall b, 0 <= b < 256 -> P b = true.
Proof.
  intros H b Hb. rewrite forallb_forall in H. apply H, allBytes_complete, Hb.
Qed.

(** The runes that sequences of two, three and four bytes decode to. *)
Definition rune2 (s0 s1 : Z) : Z := Z.lor (Z.shiftl (Z.land s0 31) 6) (Z.land s1 63).
Definition rune3 (s0 s1 s2 : Z) : Z :=
  Z.lor (Z.lor (Z.shiftl (Z.land s0 15) 12) (Z.shiftl (Z.land s1 63) 6)) (Z.land s2 63).
Definition rune4 (s0 s1 s2 s3 : Z) : Z :=
  Z.lor (Z.lor (Z.lor (Z.shiftl (Z.land s0 7) 18) (Z.shiftl (Z.land s1 63) 12))
               (Z.shiftl (Z.land s2 63) 6)) (Z.land s3 63).

(** [r] is a valid rune outside ASCII and [p] is its encoding. *)
Definition encodes (r : Z) (p : string) : bool :=
  String.eqb (EncodeRune r) p && ValidRune r && Z.leb 128 r.

Definition bytes2 (s0 s1 : Z) : string := String (chr s0) (str1 s1).
Definition bytes3 (s0 s1 s2 : Z) : string := String (chr s0) (bytes2 s1 s2).
Definition bytes4 (s0 s1 s2 s3 : Z) : string := String (chr s0) (bytes3 s1 s2 s3).

(** No byte of [s] is an ASCII byte. *)
Fixpoint allHigh (s : string) : bool :=
  match s with
  | EmptyString => true
  | String c t => Z.leb 128 (byte c) && allHigh t
  end.

Lemma first_lo (s0 sz lo hi : Z) : first s0 = Some (sz, lo, hi) -> 128 <= lo.
Proof.
  unfold first. intros H.
  repeat match type of H with
         | (if ?b then _ else _) = _ => destruct b
         end; inversion H; lia.
Qed.

Lemma inb_lo (lo hi b : Z) : inb lo hi b = true -> lo <= b.
Proof. unfold inb. intros H. apply andb_true_iff in H as [H _]. apply Z.leb_le, H. Qed.

Lemma lor_shiftl_add (v x k : Z) :
  0 <= k -> 0 <= x < 2 ^ k -> Z.lor (Z.shiftl v k) x = v * 2 ^ k + x.
Proof.
  intros Hk Hx.
  assert (Hland : Z.land (Z.shiftl v k) x = 0).
  { apply Z.bits_inj'. intros n Hn. rewrite Z.land_spec, Z.bits_0.
    destruct (Z.lt_ge_cases n k) as [Hlt|Hge].
    - rewrite Z.shiftl_spec_low by exact Hlt. reflexivity.
    - rewrite <- (Z.mod_small x (2 ^ k)) by exact Hx.
      rewrite Z.mod_pow2_bits_high by lia. apply andb_false_r. }
  rewrite <- Z.lxor_lor by exact Hland.
  rewrite <- Z.add_nocarry_lxor by exact Hland.
  rewrite Z.shiftl_mul_pow2 by exact Hk. reflexivity.
Qed.

Lemma ValidRune_range (r : Z) : ValidRune r = true -> 0 <= r <= MaxRune.
Proof.
  unfold ValidRune, inb, MaxRune. intros H.
  destruct (Z.leb_spec 0 r), (Z.leb_spec r 55295), (Z.leb_spec 57344 r),
    (Z.leb_spec r 1114111); cbn in H; try discriminate; lia.
Qed.

(** Adding less than 64 to a multiple of 64 changes the low six bits
    only. *)
Lemma shiftr_low (A x n : Z) :
  A mod 64 = 0 -> 0 <= x < 64 -> 0 <= n ->
  Z.shiftr (A + x) (6 + n) = Z.shiftr A (6 + n).
Proof.
  intros HA Hx Hn. rewrite !Z.shiftr_div_pow2 by lia.
  rewrite Z.pow_add_r by lia. change (2 ^ 6) with 64.
  assert (Hp : 0 < 2 ^ n) by (apply Z.pow_pos_nonneg; lia).
  rewrite <- !Z.div_div by lia.
  f_equal. Z.div_mod_to_equations. lia.
Qed.

Lemma land_low (A x : Z) :
  A mod 64 = 0 -> 0 <= x < 64 -> Z.land (A + x) 63 = x.
Proof.
  intros HA Hx. change 63 with (Z.ones 6). rewrite Z.land_ones by lia.
  change (2 ^ 6) with 64. Z.div_mod_to_equations. lia.
Qed.

Lemma lor_low (A x : Z) :
  0 <= A -> A mod 64 = 0 -> 0 <= x < 64 -> Z.lor A x = A + x.
Proof.
  intros H0 HA Hx.
  replace A with (Z.shiftl (A / 64) 6) at 1.
  - rewrite lor_shiftl_add by (change (2 ^ 6) with 64; lia).
    change (2 ^ 6) with 64. Z.div_mod_to_equations. lia.
  - rewrite Z.shiftl_mul_pow2 by lia. change (2 ^ 6) with 64.
    Z.div_mod_to_equations. lia.
Qed.

(** [EncodeRune] on a rune of four bytes. *)
Lemma EncodeRune_four (r : Z) :
  65536 <= r <= MaxRune ->
  EncodeRune r
  = String (chr (Z.lor 240 (Z.shiftr r 18)))
      (String (chr (Z.lor 128 (Z.land (Z.shiftr r 12) 63)))
         (String (chr (Z.lor 128 (Z.land (Z.shiftr r 6) 63)))
            (str1 (Z.lor 128 (Z.land r 63))))).
Proof.
  unfold MaxRune. intros Hr. unfold EncodeRune, inb, surrogate, inb, MaxRune.
  replace (Z.leb r 127) with false by (symmetry; apply Z.leb_gt; lia).
  replace (Z.leb r 2047) with false by (symmetry; apply Z.leb_gt; lia).
  replace (Z.leb r 57343) with false by (symmetry; apply Z.leb_gt; lia).
  replace (Z.leb r 65535) with false by (symmetry; apply Z.leb_gt; lia).
  replace (Z.leb 0 r) with true by (symmetry; apply Z.leb_le; lia).
  replace (Z.leb r 1114111) with true by (symmetry; apply Z.leb_le; lia).
  rewrite !andb_false_r. reflexivity.
Qed.

(** The check of a four-byte sequence with its last byte at its lowest. *)
Definition encodes4 (s0 s1 s2 : Z) : bool :=
  let r := rune4 s0 s1 s2 128 in
  encodes r (bytes4 s0 s1 s2 128) && Z.eqb (r mod 64) 0 && Z.leb 65536 r.

(** From the lowest last byte to every last byte. *)
Lemma encodes4_last (s0 s1 s2 s3 : Z) :
  encodes4 s0 s1 s2 = true -> cont s3 = true ->
  encodes (rune4 s0 s1 s2 s3) (bytes4 s0 s1 s2 s3) = true.
Proof.
  unfold encodes4, encodes, cont, inb. intros H Hs3.
  apply andb_true_iff in H as [H Hge]. apply andb_true_iff in H as [H Hmod].
  apply andb_true_iff in H as [H _]. apply andb_true_iff in H as [Henc Hv].
  apply andb_true_iff in Hs3 as [Hlo Hhi].
  apply Z.leb_le in Hge, Hlo, Hhi. apply Z.eqb_eq in Hmod.
  apply String.eqb_eq in Henc. apply ValidRune_range in Hv.
  set (A := rune4 s0 s1 s2 128) in *.
  set (x := s3 - 128).
  assert (Hx : 0 <= x < 64) by (subst x; lia).
  assert (Hland : Z.land s3 63 = x).
  { change 63 with (Z.ones 6). rewrite Z.land_ones by lia.
    change (2 ^ 6) with 64. subst x. Z.div_mod_to_equations. lia. }
  assert (Hrune : rune4 s0 s1 s2 s3 = A + x).
  { rewrite <- (lor_low A x) by (try assumption; lia).
    subst A. unfold rune4. rewrite Hland.
    change (Z.land 128 63) with 0. rewrite Z.lor_0_r. reflexivity. }
  unfold MaxRune in Hv.
  assert (Hfit : 65536 <= A + x <= MaxRune).
  { unfold MaxRune. split; [lia|]. Z.div_mod_to_equations. lia. }
  rewrite Hrune.
  rewrite (EncodeRune_four A) in Henc by (unfold MaxRune; lia).
  rewrite (EncodeRune_four (A + x) Hfit).
  change (Z.shiftr (A + x) 18) with (Z.shiftr (A + x) (6 + 12)).
  change (Z.shiftr (A + x) 12) with (Z.shiftr (A + x) (6 + 6)).
  change (Z.shiftr (A + x) 6) with (Z.shiftr (A + x) (6 + 0)).
  rewrite !shiftr_low by (try exact Hmod; lia).
  rewrite (land_low A x Hmod Hx).
  unfold bytes4, bytes3, bytes2, str1 in Henc |- *.
  injection Henc as E0 E1 E2 _.
  change (6 + 12) with 18. change (6 + 6) with 12. change (6 + 0) with 6.
  rewrite E0, E1, E2.
  replace (Z.lor 128 x) with s3.
  2:{ change 128 with (Z.shiftl 2 6) at 1.
      rewrite lor_shiftl_add by (change (2 ^ 6) with 64; lia).
      change (2 ^ 6) with 64. subst x. lia. }
  rewrite String.eqb_refl. cbn [andb].
  unfold ValidRune, inb, MaxRune. unfold MaxRune in Hfit.
  replace (Z.leb (A + x) 55295) with false by (symmetry; apply Z.leb_gt; lia).
  replace (Z.leb 57344 (A + x)) with true by (symmetry; apply Z.leb_le; lia).
  replace (Z.leb (A + x) 1114111) with true by (symmetry; apply Z.leb_le; lia).
  rewrite andb_false_r. cbn [andb]. apply Z.leb_le. lia.
Qed.

(** Every sequence of two and of three bytes the decoder accepts, and
    every sequence of four up to its last byte, checked one by one. *)
Lemma decodeTable_ok :
  forallb (fun s0 =>
    match first s0 with
    | None => true
    | Some (sz, lo, hi) =>
        forallb (fun s1 =>
          if inb lo hi s1 then
            if Z.leb sz 2 then encodes (rune2 s0 s1) (bytes2 s0 s1)
            else
              forallb (fun s2 =>
                if cont s2 then
                  if Z.leb sz 3 then encodes (rune3 s0 s1 s2) (bytes3 s0 s1 s2)
                  else encodes4 s0 s1 s2
                else true) allBytes
          else true) allBytes
    end) allBytes = true.
Proof. vm_compute. reflexivity. Qed.

(** What [DecodeRuneInString] says about a string that does not start
    with an invalid byte. *)
Inductive Decoded (s : string) (r : Z) (w : nat) : Prop :=
  | decoded_ascii (c : ascii) (t : string) :
      s = String c t -> byte c < 128 -> r = byte c -> w = 1%nat -> Decoded s r w
  | decoded_wide (p t : string) :
      s = p +:+ t -> String.length p = w -> (2 <= w)%nat ->
      EncodeRune r = p -> ValidRune r = true -> 128 <= r ->
      (forall t', DecodeRuneInString (p +:+ t') = (r, w)) ->
      allHigh p = true ->
      Decoded s r w.

Lemma encodes_Decoded (s p t : string) (r : Z) (w : nat) :
  encodes r p = true -> String.length p = w -> (2 <= w)%nat ->
  s = p +:+ t ->
  (forall t', DecodeRuneInString (p +:+ t') = (r, w)) ->
  allHigh p = true ->
  Decoded s r w.
Proof.
  intros He Hlen Hw Hs Hdec Hhead. unfold encodes in He.
  apply andb_true_iff in He as [He Hr]. apply andb_true_iff in He as [He Hv].
  apply String.eqb_eq in He. apply Z.leb_le in Hr.
  eapply decoded_wide; eauto.
Qed.

Lemma decode_cases (c0 : ascii) (t0 : string) :
  let '(r, w) := DecodeRuneInString (String c0 t0) in
  (r = RuneError /\ w = 1%nat /\ 128 <= byte c0) \/ Decoded (String c0 t0) r w.
Proof.
  pose proof decodeTable_ok as Htab.
  pose proof (byte_range c0) as Hc0.
  cbn [DecodeRuneInString].
  destruct (Z.ltb (byte c0) RuneSelf) eqn:Hself.
  { right. apply Z.ltb_lt in Hself. eapply decoded_ascii; eauto. }
  assert (Hwide : 128 <= byte c0) by (apply Z.ltb_ge in Hself; exact Hself).
  pose proof (forall_bytes _ Htab (byte c0) Hc0) as H0. cbv beta in H0.
  destruct (first (byte c0)) as [[[sz lo] hi]|] eqn:Hfirst; [|left; auto].
  pose proof (first_lo _ _ _ _ Hfirst) as Hlo.
  assert (Hhigh : forall b, 128 <= b -> Z.leb 128 b = true)
    by (intros b Hb; apply Z.leb_le, Hb).
  destruct t0 as [|c1 t1]; [left; auto|].
  pose proof (byte_range c1) as Hc1.
  pose proof (forall_bytes _ H0 (byte c1) Hc1) as H1. cbv beta in H1.
  destruct (inb lo hi (byte c1)) eqn:Hin1; cbn [negb]; [|left; auto].
  pose proof (inb_lo _ _ _ Hin1) as Hb1.
  destruct (Z.leb sz 2) eqn:Hsz2; cbv beta iota in H1.
  { right. apply (encodes_Decoded _ (bytes2 (byte c0) (byte c1)) t1 _ _ H1).
    - reflexivity.
    - lia.
    - unfold bytes2, str1. rewrite !chr_byte. reflexivity.
    - intros t'. unfold bytes2, str1. rewrite !chr_byte.
      rewrite !append_cons, append_nil. cbn [DecodeRuneInString].
      rewrite Hself, Hfirst, Hin1, Hsz2. reflexivity.
    - unfold bytes2, str1. rewrite !chr_byte. cbn [allHigh].
      rewrite !Hhigh by lia. reflexivity. }
  destruct t1 as [|c2 t2]; [left; auto|].
  pose proof (byte_range c2) as Hc2.
  pose proof (forall_bytes _ H1 (byte c2) Hc2) as H2. cbv beta in H2.
  destruct (cont (byte c2)) eqn:Hin2; cbn [negb]; [|left; auto].
  pose proof (inb_lo _ _ _ Hin2) as Hb2.
  destruct (Z.leb sz 3) eqn:Hsz3; cbv beta iota in H2.
  { right. apply (encodes_Decoded _ (bytes3 (byte c0) (byte c1) (byte c2)) t2 _ _ H2).
    - reflexivity.
    - lia.
    - unfold bytes3, bytes2, str1. rewrite !chr_byte. reflexivity.
    - intros t'. unfold bytes3, bytes2, str1. rewrite !chr_byte.
      rewrite !append_cons, append_nil. cbn [DecodeRuneInString].
      rewrite Hself, Hfirst, Hin1, Hsz2, Hin2, Hsz3. reflexivity.
    - unfold bytes3, bytes2, str1. rewrite !chr_byte. cbn [allHigh].
      rewrite !Hhigh by lia. reflexivity. }
  destruct t2 as [|c3 t3]; [left; auto|].
  destruct (cont (byte c3)) eqn:Hin3; cbn [negb]; [|left; auto].
  pose proof (inb_lo _ _ _ Hin3) as Hb3.
  pose proof (encodes4_last _ _ _ _ H2 Hin3) as H3.
  right. apply (encodes_Decoded _ (bytes4 (byte c0) (byte c1) (byte c2) (byte c3)) t3 _ _ H3).
  - reflexivity.
  - lia.
  - unfold bytes4, bytes3, bytes2, str1. rewrite !chr_byte. reflexivity.
  - intros t'. unfold bytes4, bytes3, bytes2, str1. rewrite !chr_byte.
    rewrite !append_cons, append_nil. cbn [DecodeRuneInString].
    rewrite Hself, Hfirst, Hin1, Hsz2, Hin2, Hsz3, Hin3. reflexivity.
  - unfold bytes4, bytes3, bytes2, str1. rewrite !chr_byte. cbn [allHigh].
    rewrite !Hhigh by lia. reflexivity.
Qed.

End Utf8Facts.

Section HexFacts.
Import Go.

Lemma unhex_lowerhex (d : Z) : 0 <= d < 16 -> unhex (byte (lowerhex d)) = Some d.
Proof.
  intros Hd. unfold lowerhex, unhex, inb.
  destruct (Z.ltb d 10) eqn:E.
  - apply Z.ltb_lt in E. rewrite byte_chr by lia.
    replace (Z.leb 48 (48 + d)) with true by (symmetry; apply Z.leb_le; lia).
    replace (Z.leb (48 + d) 57) with true by (symmetry; apply Z.leb_le; lia).
    cbn [andb]. f_equal. lia.
  - apply Z.ltb_ge in E. rewrite byte_chr by lia.
    replace (Z.leb (87 + d) 57) with false by (symmetry; apply Z.leb_gt; lia).
    rewrite andb_false_r.
    replace (Z.leb 97 (87 + d)) with true by (symmetry; apply Z.leb_le; lia).
    replace (Z.leb (87 + d) 102) with true by (symmetry; apply Z.leb_le; lia).
    cbn [andb]. f_equal. lia.
Qed.

Lemma hexdigit_value (r : Z) (k : nat) :
  0 <= r ->
  Z.land (Z.shiftr r (4 * Z.of_nat k)) 15 = (r / 16 ^ Z.of_nat k) mod 16.
Proof.
  intros Hr. change 15 with (Z.ones 4). rewrite Z.land_ones by lia.
  rewrite Z.shiftr_div_pow2 by lia.
  rewrite Z.pow_mul_r by lia. reflexivity.
Qed.

(** Reading back [n] hexadecimal digits of [r]. *)
Lemma unhexN_hexdigits (n : nat) :
  forall (v r : Z) (rest : string),
    0 <= v -> 0 <= r ->
    v * 16 ^ Z.of_nat n + r mod 16 ^ Z.of_nat n < 2147483648 ->
    unhexN n v (hexdigits n r +:+ rest)
    = Some (v * 16 ^ Z.of_nat n + r mod 16 ^ Z.of_nat n, rest).
Proof.
  induction n as [|n IH]; intros v r rest Hv Hr Hfit.
  - cbn [unhexN hexdigits]. rewrite append_nil. f_equal. f_equal.
    change (16 ^ Z.of_nat 0) with 1. rewrite Z.mod_1_r. lia.
  - cbn [hexdigits]. rewrite append_cons. cbn [unhexN].
    rewrite hexdigit_value by exact Hr.
    set (d := (r / 16 ^ Z.of_nat n) mod 16).
    assert (Hd : 0 <= d < 16) by (apply Z.mod_pos_bound; lia).
    rewrite unhex_lowerhex by exact Hd.
    rewrite (lor_shiftl_add v d 4) by lia. change (2 ^ 4) with 16.
    assert (Hpow : 0 < 16 ^ Z.of_nat n) by (apply Z.pow_pos_nonneg; lia).
    assert (Hsplit : r mod 16 ^ Z.of_nat (S n)
                     = r mod 16 ^ Z.of_nat n + 16 ^ Z.of_nat n * d).
    { rewrite Nat2Z.inj_succ, Z.pow_succ_r by lia.
      rewrite (Z.mul_comm 16). apply Z.rem_mul_r; lia. }
    assert (Hsucc : 16 ^ Z.of_nat (S n) = 16 * 16 ^ Z.of_nat n)
      by (rewrite Nat2Z.inj_succ, Z.pow_succ_r by lia; reflexivity).
    pose proof (Z.mod_pos_bound r (16 ^ Z.of_nat n) Hpow) as Hlow.
    assert (Hsame : (v * 16 + d) * 16 ^ Z.of_nat n + r mod 16 ^ Z.of_nat n
                    = v * 16 ^ Z.of_nat (S n) + r mod 16 ^ Z.of_nat (S n)).
    { rewrite Hsplit, Hsucc. ring. }
    rewrite int32_in_range.
    + rewrite IH; [rewrite Hsame; reflexivity | lia | exact Hr | rewrite Hsame; exact Hfit].
    + split; [lia|].
      assert ((v * 16 + d) * 1 <= (v * 16 + d) * 16 ^ Z.of_nat n)
        by (apply Z.mul_le_mono_nonneg_l; lia).
      lia.
Qed.

End HexFacts.

Section QuoteStepFacts.
Import Go.
Variable isPrintWide : Z -> bool.

Definition backslash : ascii := chr 92.
Definition newline : ascii := chr 10.
Definition dquote : ascii := chr 34.

(** A piece of quoted text never starts the tail of the date pattern, a
    backslash followed by a slash. *)
Definition startsDateTail (s : string) : bool :=
  match s with
  | String a (String b _) => Ascii.eqb a backslash && Ascii.eqb b "/"%char
  | _ => false
  end.

(** What one round of the loop of [Quote] appends for the bytes [out],
    and how [UnquoteChar] reads it back. *)
Record QuotedPiece (piece out : string) : Prop := mkQuotedPiece {
  piece_unquote :
    forall rest, exists c multibyte,
      UnquoteChar (piece +:+ rest) 34 = Some (c, multibyte, rest) /\
      (if Z.ltb c RuneSelf || negb multibyte then str1 c else EncodeRune c) = out;
  piece_nonempty : exists a p, piece = String a p;
  piece_no_newline : contains piece newline = false;
  piece_literal : contains piece backslash = false -> piece = out;
  piece_no_date : forall rest, startsDateTail (piece +:+ rest) = false
}.

(** The ASCII bytes, one by one. *)
Lemma quoted_ascii (c0 : ascii) :
  byte c0 < 128 ->
  QuotedPiece (appendEscapedRune isPrintWide (byte c0) 34) (String c0 EmptyString).
Proof.
  intros Hc0.
  destruct c0 as [b0 b1 b2 b3 b4 b5 b6 b7].
  destruct b7.
  { exfalso. destruct b0, b1, b2, b3, b4, b5, b6; vm_compute in Hc0; discriminate Hc0. }
  clear Hc0.
  destruct b0, b1, b2, b3, b4, b5, b6;
    (split;
     [ intros rest;
       match goal with
       | |- context [byte ?c] => exists (byte c), false
       end; split; vm_compute; reflexivity
     | eexists _, _; cbv; reflexivity
     | vm_compute; reflexivity
     | vm_compute; first [reflexivity | discriminate]
     | intros rest; destruct rest; vm_compute; reflexivity ]).
Qed.

(** A byte that starts no valid encoding is written as [\x] and two
    hexadecimal digits. *)
Lemma quoted_hex (c0 : ascii) :
  QuotedPiece ("\x" +:+ hex2 (byte c0)) (String c0 EmptyString).
Proof.
  destruct c0 as [b0 b1 b2 b3 b4 b5 b6 b7].
  destruct b0, b1, b2, b3, b4, b5, b6, b7;
    (split;
     [ intros rest;
       match goal with
       | |- context [byte ?c] => exists (byte c), false
       end; split; vm_compute; reflexivity
     | eexists _, _; cbv; reflexivity
     | vm_compute; reflexivity
     | vm_compute; discriminate
     | intros rest; vm_compute; reflexivity ]).
Qed.

Lemma UnquoteChar_u (x : string) :
  UnquoteChar (String backslash (String "u" x)) 34
  = match unhexN 4 0 x with
    | None => None
    | Some (v, s'') => if Z.ltb MaxRune v then None else Some (v, true, s'')
    end.
Proof. reflexivity. Qed.

Lemma UnquoteChar_U (x : string) :
  UnquoteChar (String backslash (String "U" x)) 34
  = match unhexN 8 0 x with
    | None => None
    | Some (v, s'') => if Z.ltb MaxRune v then None else Some (v, true, s'')
    end.
Proof. reflexivity. Qed.

(** [appendEscapedRune] on a valid rune outside ASCII. *)
Lemma appendEscapedRune_wide (r : Z) :
  128 <= r -> ValidRune r = true ->
  appendEscapedRune isPrintWide r 34
  = if IsPrint isPrintWide r then EncodeRune r
    else if Z.ltb r 65536 then "\u" +:+ hexdigits 4 r
    else "\U" +:+ hexdigits 8 r.
Proof.
  intros Hr Hv. unfold appendEscapedRune. rewrite Hv. cbn [negb].
  repeat match goal with
         | |- context [Z.eqb r ?k] =>
             replace (Z.eqb r k) with false by (symmetry; apply Z.eqb_neq; lia)
         end.
  replace (Z.ltb r 32) with false by (symmetry; apply Z.ltb_ge; lia).
  cbn [orb]. reflexivity.
Qed.

Lemma lowerhex_not_newline (d : Z) :
  0 <= d < 16 -> Ascii.eqb (lowerhex d) newline = false.
Proof.
  intros Hd.
  assert (H : In d (List.map Z.of_nat (seq 0 16))).
  { apply in_map_iff. exists (Z.to_nat d). split; [lia|]. apply in_seq. lia. }
  clear Hd. cbn in H.
  repeat (destruct H as [<-|H]; [reflexivity|]). destruct H.
Qed.

Lemma hexdigits_no_newline (n : nat) (r : Z) :
  0 <= r -> contains (hexdigits n r) newline = false.
Proof.
  intros Hr. induction n as [|n IH]; [reflexivity|].
  cbn [hexdigits contains]. rewrite IH, orb_false_r.
  apply lowerhex_not_newline. rewrite hexdigit_value by exact Hr.
  apply Z.mod_pos_bound. lia.
Qed.

Lemma allHigh_contains (p : string) (c : ascii) :
  allHigh p = true -> byte c < 128 -> contains p c = false.
Proof.
  intros Hp Hc. induction p as [|a p IH]; [reflexivity|].
  cbn [allHigh] in Hp. apply andb_true_iff in Hp as [Ha Hp].
  apply Z.leb_le in Ha. cbn [contains]. rewrite (IH Hp), orb_false_r.
  apply Ascii.eqb_neq. intros ->. lia.
Qed.

Lemma drop_append (p t : string) : drop (String.length p) (p +:+ t) = t.
Proof. induction p as [|a p IH]; [reflexivity|]. cbn [String.length]. rewrite append_cons. exact IH. Qed.

(** A valid rune outside ASCII. *)
Lemma quoted_wide (r : Z) (p : string) (w : nat) :
  128 <= r -> ValidRune r = true -> EncodeRune r = p ->
  String.length p = w -> (2 <= w)%nat -> allHigh p = true ->
  (forall t', DecodeRuneInString (p +:+ t') = (r, w)) ->
  QuotedPiece (appendEscapedRune isPrintWide r 34) p.
Proof.
  intros Hr Hv Henc Hlen Hw Hhigh Hdec.
  pose proof (ValidRune_range r Hv) as Hrange. unfold MaxRune in Hrange.
  assert (Hout : (if Z.ltb r RuneSelf || negb true then str1 r else EncodeRune r) = p).
  { replace (Z.ltb r RuneSelf) with false
      by (symmetry; apply Z.ltb_ge; unfold RuneSelf; lia).
    exact Henc. }
  assert (Hmax : Z.ltb MaxRune r = false) by (apply Z.ltb_ge; unfold MaxRune; lia).
  rewrite (appendEscapedRune_wide r Hr Hv).
  destruct (IsPrint isPrintWide r).
  - (* written as it is *)
    rewrite Henc.
    destruct p as [|a p']; [cbn in Hlen; lia|].
    pose proof Hhigh as Hhigh'. cbn [allHigh] in Hhigh'.
    apply andb_true_iff in Hhigh' as [Ha _]. apply Z.leb_le in Ha.
    split.
    + intros rest. exists r, true. split; [|exact Hout].
      pose proof (Hdec rest) as Hd. rewrite append_cons in Hd |- *.
      unfold UnquoteChar.
      replace (Z.eqb (byte a) 34) with false by (symmetry; apply Z.eqb_neq; lia).
      replace (Z.leb RuneSelf (byte a)) with true
        by (symmetry; apply Z.leb_le; unfold RuneSelf; lia).
      cbn [andb]. rewrite Hd. rewrite <- Hlen, <- append_cons, drop_append.
      reflexivity.
    + eauto.
    + apply allHigh_contains; [exact Hhigh | vm_compute; reflexivity].
    + reflexivity.
    + intros rest. rewrite append_cons. unfold startsDateTail.
      replace (Ascii.eqb a backslash) with false
        by (symmetry; apply Ascii.eqb_neq; intros ->; vm_compute in Ha; apply Ha; reflexivity).
      destruct (p' +:+ rest); reflexivity.
  - destruct (Z.ltb r 65536) eqn:Hsmall.
    + apply Z.ltb_lt in Hsmall.
      split.
      * intros rest. exists r, true. split; [|exact Hout].
        change (UnquoteChar _ 34)
          with (UnquoteChar (String backslash (String "u" (hexdigits 4 r +:+ rest))) 34).
        rewrite UnquoteChar_u.
        rewrite (unhexN_hexdigits 4 0 r rest) by
            (try lia; change (16 ^ Z.of_nat 4) with 65536;
             rewrite Z.mod_small by lia; lia).
        change (16 ^ Z.of_nat 4) with 65536. rewrite Z.mod_small by lia.
        change (0 * 65536 + r) with r. rewrite Hmax. reflexivity.
      * eexists _, _. reflexivity.
      * change (contains (String backslash (String "u" (hexdigits 4 r))) newline = false).
        cbn [contains]. rewrite hexdigits_no_newline by lia. reflexivity.
      * intros H. exfalso. discriminate.
      * intros rest. reflexivity.
    + apply Z.ltb_ge in Hsmall.
      split.
      * intros rest. exists r, true. split; [|exact Hout].
        change (UnquoteChar _ 34)
          with (UnquoteChar (String backslash (String "U" (hexdigits 8 r +:+ rest))) 34).
        rewrite UnquoteChar_U.
        rewrite (unhexN_hexdigits 8 0 r rest) by
            (try lia; change (16 ^ Z.of_nat 8) with 4294967296;
             rewrite Z.mod_small by lia; lia).
        change (16 ^ Z.of_nat 8) with 4294967296. rewrite Z.mod_small by lia.
        change (0 * 4294967296 + r) with r. rewrite Hmax. reflexivity.
      * eexists _, _. reflexivity.
      * change (contains (String backslash (String "U" (hexdigits 8 r))) newline = false).
        cbn [contains]. rewrite hexdigits_no_newline by lia. reflexivity.
      * intros H. exfalso. discriminate.
      * intros rest. reflexivity.
Qed.

(** The body [Quote] writes for a string, piece by piece. *)
Inductive Quoted : string -> string -> Prop :=
  | quoted_nil : Quoted EmptyString EmptyString
  | quoted_cons (piece out body rest : string) :
      QuotedPiece piece out -> Quoted body rest ->
      Quoted (piece +:+ body) (out +:+ rest).

Lemma length_append (a b : string) :
  String.length (a +:+ b) = (String.length a + String.length b)%nat.
Proof.
  induction a as [|x a IH]; [reflexivity|].
  rewrite append_cons. cbn [String.length]. rewrite IH. reflexivity.
Qed.

Lemma quoteLoop_Quoted (fuel : nat) :
  forall s, (String.length s <= fuel)%nat ->
            Quoted (quoteLoop isPrintWide fuel s 34) s.
Proof.
  induction fuel as [|fuel IH]; intros s Hlen.
  { destruct s; [constructor | cbn in Hlen; lia]. }
  destruct s as [|c0 t0]; [constructor|].
  cbn [String.length] in Hlen. cbn [quoteLoop].
  destruct (Z.leb RuneSelf (byte c0)) eqn:Hself.
  - pose proof (decode_cases c0 t0) as Hdec.
    destruct (DecodeRuneInString (String c0 t0)) as [r w].
    destruct Hdec as [(-> & -> & Hhigh) | Hdec].
    + cbn [Nat.eqb andb]. change (Z.eqb RuneError RuneError) with true. cbv iota.
      change ("\x" +:+ hex2 (byte c0) +:+ quoteLoop isPrintWide fuel t0 34)
        with (("\x" +:+ hex2 (byte c0)) +:+ quoteLoop isPrintWide fuel t0 34).
      change (String c0 t0) with (String c0 EmptyString +:+ t0).
      apply quoted_cons; [apply quoted_hex | apply IH; lia].
    + destruct Hdec as [c t Hs Hc _ _ | p t Hs Hp Hw Henc Hv Hr Hd Hh].
      * injection Hs as <- <-. apply Z.leb_le in Hself. unfold RuneSelf in Hself. lia.
      * replace (Nat.eqb w 1) with false by (symmetry; apply Nat.eqb_neq; lia).
        cbn [andb]. cbv iota.
        rewrite Hs, <- Hp, drop_append.
        apply quoted_cons.
        -- eapply quoted_wide; eauto.
        -- apply IH. apply (f_equal String.length) in Hs.
           rewrite length_append in Hs. cbn [String.length] in Hs. lia.
  - apply Z.leb_gt in Hself. unfold RuneSelf in Hself.
    pose proof (byte_range c0) as Hc0.
    replace (Z.eqb (byte c0) RuneError) with false
      by (symmetry; apply Z.eqb_neq; unfold RuneError; lia).
    rewrite andb_false_r. cbn [drop].
    change (String c0 t0) with (String c0 EmptyString +:+ t0).
    apply quoted_cons; [apply quoted_ascii; exact Hself | apply IH; lia].
Qed.

(** [Unquote]'s loop reads the body back. *)
Lemma Quoted_unquoteLoop (body s : string) :
  Quoted body s ->
  forall fuel, (String.length body <= fuel)%nat -> unquoteLoop fuel body 34 = Some s.
Proof.
  induction 1 as [|piece out body rest Hpiece _ IH]; intros fuel Hfuel.
  { destruct fuel; reflexivity. }
  destruct (piece_nonempty _ _ Hpiece) as (a & p & Hp).
  destruct (piece_unquote _ _ Hpiece body) as (c & multibyte & Hun & Hout).
  rewrite length_append in Hfuel. rewrite Hp in Hfuel |- *.
  cbn [String.length] in Hfuel. rewrite append_cons.
  destruct fuel as [|fuel]; [lia|].
  cbn [unquoteLoop]. rewrite <- append_cons, <- Hp, Hun.
  cbn [Z.eqb andb Pos.eqb]. rewrite (IH fuel) by lia. rewrite Hout. reflexivity.
Qed.

Lemma Quoted_no_newline (body s : string) :
  Quoted body s -> contains body newline = false.
Proof.
  induction 1 as [|piece out body rest Hpiece _ IH]; [reflexivity|].
  rewrite contains_append, (piece_no_newline _ _ Hpiece), IH. reflexivity.
Qed.

(** A body without a backslash is the string itself. *)
Lemma Quoted_literal (body s : string) :
  Quoted body s -> contains body backslash = false -> body = s.
Proof.
  induction 1 as [|piece out body rest Hpiece _ IH]; [reflexivity|].
  rewrite contains_append. intros H. apply orb_false_iff in H as [Hp Hb].
  rewrite (piece_literal _ _ Hpiece Hp), (IH Hb). reflexivity.
Qed.

Lemma Quoted_no_date (body s : string) :
  Quoted body s -> startsDateTail (body +:+ str1 34) = false.
Proof.
  destruct 1 as [|piece out body rest Hpiece _]; [reflexivity|].
  rewrite append_assoc. apply (piece_no_date _ _ Hpiece).
Qed.

Lemma splitLast_append (b : string) (c : ascii) :
  splitLast (b +:+ String c EmptyString) = Some (b, c).
Proof.
  induction b as [|x b IH]; [reflexivity|].
  rewrite append_cons. cbn [splitLast]. rewrite IH.
  destruct (b +:+ String c EmptyString) eqn:E; [|reflexivity].
  destruct b; discriminate E.
Qed.

(** [strconv.Unquote(strconv.Quote(s))] is [s], for every string of bytes. *)
Lemma Unquote_Quote (s : string) : Unquote (Quote isPrintWide s) = Some s.
Proof.
  pose proof (quoteLoop_Quoted (String.length s) s (le_n _)) as HQ.
  unfold Quote. set (body := quoteLoop isPrintWide (String.length s) s 34) in *.
  unfold Unquote. unfold str1. rewrite splitLast_append.
  change (byte (chr 34)) with 34.
  cbn [Z.eqb Pos.eqb negb andb orb].
  change "010"%char with newline. rewrite (Quoted_no_newline _ _ HQ).
  rewrite (Quoted_unquoteLoop _ _ HQ _ (le_n _)).
  destruct (contains body (chr 92)) eqn:Hbs; cbn [negb andb]; [reflexivity|].
  destruct (negb (contains body (chr 34)) && ValidString body); [|reflexivity].
  rewrite (Quoted_literal _ _ HQ Hbs). reflexivity.
Qed.

Lemma stripPrefix_length (p s s' : string) :
  stripPrefix p s = Some s' ->
  String.length s = (String.length p + String.length s')%nat.
Proof.
  revert s. induction p as [|a p IH]; intros s H.
  { injection H as <-. reflexivity. }
  destruct s as [|b s]; [discriminate H|]. cbn [stripPrefix] in H.
  destruct (Ascii.eqb a b); [|discriminate H].
  cbn [String.length]. rewrite (IH _ H). reflexivity.
Qed.

Lemma spanDigits_length (s : string) :
  String.length s
  = (String.length (fst (spanDigits s)) + String.length (snd (spanDigits s)))%nat.
Proof.
  induction s as [|c t IH]; [reflexivity|].
  cbn [spanDigits]. destruct (isDigit c); [|reflexivity].
  destruct (spanDigits t) as [ds rest]. cbn [fst snd String.length] in *. lia.
Qed.

(** A match is no longer than the text it was found in. *)
Lemma matchDateAt_length (s m g : string) :
  matchDateAt s = Some (m, g) -> (String.length m <= String.length s)%nat.
Proof.
  unfold matchDateAt. intros H.
  destruct (stripPrefix datePrefix s) as [s1|] eqn:Hpre; [|discriminate H].
  apply stripPrefix_length in Hpre.
  set (split := match s1 with
                | String c s2 => if Ascii.eqb c "-" then ("-", s2) else (EmptyString, s1)
                | EmptyString => (EmptyString, s1)
                end) in H.
  assert (Hsplit : String.length s1
                   = (String.length (fst split) + String.length (snd split))%nat).
  { subst split. destruct s1 as [|c s2]; [reflexivity|].
    destruct (Ascii.eqb c "-"); reflexivity. }
  destruct split as [sign s2]. cbn [fst snd] in Hsplit.
  pose proof (spanDigits_length s2) as Hspan.
  destruct (spanDigits s2) as [ds s3]. cbn [fst snd] in Hspan.
  destruct ds as [|d ds]; [discriminate H|].
  destruct (stripPrefix dateSuffix s3) as [s4|] eqn:Hsuf; [|discriminate H].
  apply stripPrefix_length in Hsuf.
  injection H as <- _. rewrite !length_append. lia.
Qed.

Lemma FindStringSubmatch_length (s : string) :
  FindStringSubmatch s = []
  \/ exists m g, FindStringSubmatch s = [m; g]
                 /\ (String.length m <= String.length s)%nat.
Proof.
  induction s as [|c t IH].
  - cbn [FindStringSubmatch].
    destruct (matchDateAt EmptyString) as [[m g]|] eqn:E; [|left; reflexivity].
    right. exists m, g. split; [reflexivity | exact (matchDateAt_length _ _ _ E)].
  - cbn [FindStringSubmatch].
    destruct (matchDateAt (String c t)) as [[m g]|] eqn:E.
    + right. exists m, g. split; [reflexivity | exact (matchDateAt_length _ _ _ E)].
    + destruct IH as [IH | (m & g & IH & Hlen)]; [left; exact IH|].
      right. exists m, g. split; [exact IH | cbn [String.length]; lia].
Qed.

Lemma matchDateAt_no_tail (q : ascii) (t : string) :
  startsDateTail t = false -> matchDateAt (String q t) = None.
Proof.
  intros H. unfold matchDateAt, datePrefix. cbn [stripPrefix].
  destruct (Ascii.eqb (chr 34) q); [|reflexivity].
  destruct t as [|a t]; [reflexivity|].
  destruct (Ascii.eqb (chr 92) a) eqn:Ha; [|reflexivity].
  destruct t as [|b t]; [reflexivity|].
  cbn [stripPrefix].
  destruct (Ascii.eqb "/" b) eqn:Hb; [|reflexivity].
  exfalso. unfold startsDateTail, backslash in H.
  rewrite Ascii.eqb_sym, Ha, Ascii.eqb_sym, Hb in H. discriminate H.
Qed.

(** What [ParseAzureAutomationVariableValue] makes of a quoted string. *)
Lemma classify_Quote (s : string) :
  Automation.classify (Quote isPrintWide s)
  = (Automation.GString s, "azurerm_automation_variable_string").
Proof.
  pose proof (quoteLoop_Quoted (String.length s) s (le_n _)) as HQ.
  unfold Automation.classify. rewrite Unquote_Quote.
  unfold Quote. set (body := quoteLoop isPrintWide (String.length s) s 34) in *.
  cbn [FindStringSubmatch].
  rewrite (matchDateAt_no_tail _ _ (Quoted_no_date _ _ HQ)).
  destruct (FindStringSubmatch_length (body +:+ str1 34)) as [-> | (m & g & -> & Hlen)].
  - reflexivity.
  - cbn [List.length Nat.eqb nth andb].
    replace (String.eqb m (String (chr 34) (body +:+ str1 34))) with false; [reflexivity|].
    symmetry. apply String.eqb_neq. intros ->. cbn [String.length] in Hlen. lia.
Qed.

End QuoteStepFacts.

(** ** Automation variables: the stored string parses back *)

Section AutomationRoundTrip.
Import Go Automation.
Variable time_Parse : string -> option Time.
Variable isPrintWide : Z -> bool.

(** The name [resourceAutomationVariableRead] passes to
    [ParseAzureAutomationVariableValue] for a variable type. *)
Definition resourceNameOf (varTypeLower : string) : string :=
  "azurerm_automation_variable_" +:+ varTypeLower.

(** A configuration whose [value] is the integer [n]. *)
Definition intConfig (n : Z) : ResourceData :=
  mkResourceData "" true (<["value" := VInt n]> ∅).

(** C3, amended: what Create stores for a variable parses back without an
    error to the value of the configuration, for every string, for every
    bool, for every int that fits in 32 bits, and for every datetime whose
    distance from the Unix epoch in nanoseconds fits in 64 bits; a
    datetime comes back cut to whole milliseconds, towards the epoch. *)
Theorem C3_encoded_value_parses_back (d : ResourceData) :
  (exists enc,
      valueString time_Parse isPrintWide "string" d = inr enc /\
      ParseAzureAutomationVariableValue (resourceNameOf "string") (Some enc)
      = (GString (GetString d "value"), None)) /\
  (exists enc,
      valueString time_Parse isPrintWide "bool" d = inr enc /\
      ParseAzureAutomationVariableValue (resourceNameOf "bool") (Some enc)
      = (GBool (GetBool d "value"), None)) /\
  (-2147483648 <= GetInt d "value" < 2147483648 ->
   exists enc,
      valueString time_Parse isPrintWide "int" d = inr enc /\
      ParseAzureAutomationVariableValue (resourceNameOf "int") (Some enc)
      = (GInt32 (GetInt d "value"), None)) /\
  (forall vTime,
      time_Parse (GetString d "value") = Some vTime ->
      -9223372036854775808 <= nanos vTime < 9223372036854775808 ->
      exists enc t,
        valueString time_Parse isPrintWide "datetime" d = inr enc /\
        ParseAzureAutomationVariableValue (resourceNameOf "datetime") (Some enc)
        = (GTime t, None) /\
        nanos t = 1000000 * Z.quot (nanos vTime) 1000000 /\
        0 <= nsec t < 1000000000).
Proof.
  refine (conj _ (conj _ (conj _ _))).
  - eexists. split; [reflexivity|].
    unfold ParseAzureAutomationVariableValue. rewrite classify_Quote. reflexivity.
  - eexists. split; [reflexivity|].
    unfold ParseAzureAutomationVariableValue. rewrite classify_FormatBool. reflexivity.
  - intros Hn. eexists. split; [reflexivity|].
    unfold ParseAzureAutomationVariableValue. rewrite (classify_Itoa _ Hn). reflexivity.
  - intros vTime Hparse Hrange.
    set (ms := Z.quot (nanos vTime) 1000000).
    assert (Hms : -9223372036854775 <= ms <= 9223372036854775).
    { subst ms. pose proof (Z.quot_le_mono (nanos vTime) 9223372036854775808 1000000).
      pose proof (Z.quot_le_mono (-9223372036854775808) (nanos vTime) 1000000).
      change (Z.quot 9223372036854775808 1000000) with 9223372036854 in *.
      change (Z.quot (-9223372036854775808) 1000000) with (-9223372036854) in *.
      lia. }
    destruct (Unix_of_millis ms Hms) as [Hnanos Hnsec].
    exists (datePrefix +:+ Itoa ms +:+ dateSuffix),
           (Unix (Z.quot ms 1000) (Z.rem ms 1000 * 1000000)).
    split.
    + unfold valueString. cbn [String.eqb Ascii.eqb Bool.eqb]. rewrite Hparse.
      unfold UnixNano. fold (nanos vTime). rewrite int64_in_range by lia. reflexivity.
    + split.
      * unfold ParseAzureAutomationVariableValue. rewrite (classify_date ms Hms). reflexivity.
      * split; [rewrite Hnanos; lia | exact Hnsec].
Qed.

End AutomationRoundTrip.

Module AutomationSamples.
Import Go Automation.

(** A parser that knows one timestamp, half a second past
    2021-03-04T05:06:07Z, and print tables that hold nothing. *)
Definition sampleParse (s : string) : option Time :=
  if String.eqb s "2021-03-04T05:06:07.5Z"
  then Some (mkTime 1614834367 500000000) else None.

Definition nothingPrints (r : Z) : bool := false.

Definition timeConfig : ResourceData :=
  mkResourceData "" true (<["value" := VString "2021-03-04T05:06:07.5Z"]> ∅).

End AutomationSamples.

(** C3, as the claim states it, fails for the type int: Create accepts the
    integer 2147483648 and stores it as the string [2147483648], and
    [ParseAzureAutomationVariableValue], which reads integers with
    [strconv.ParseInt(_, 10, 32)], answers it with an error. *)
Lemma C3_int_beyond_32_bits_is_rejected :
  Automation.valueString AutomationSamples.sampleParse AutomationSamples.nothingPrints
    "int" (intConfig 2147483648) = inr "2147483648" /\
  exists e,
    snd (Automation.ParseAzureAutomationVariableValue
           (resourceNameOf "int") (Some "2147483648"))
    = Some e.
Proof.
  split; [vm_compute; reflexivity|].
  eexists. vm_compute. reflexivity.
Qed.

Lemma C3_parses_back_witness :
  (exists enc,
      Automation.valueString AutomationSamples.sampleParse AutomationSamples.nothingPrints
        "int" (intConfig 42) = inr enc /\
      Automation.ParseAzureAutomationVariableValue (resourceNameOf "int") (Some enc)
      = (Automation.GInt32 (GetInt (intConfig 42) "value"), None)) /\
  (exists enc t,
      Automation.valueString AutomationSamples.sampleParse AutomationSamples.nothingPrints
        "datetime" AutomationSamples.timeConfig = inr enc /\
      Automation.ParseAzureAutomationVariableValue (resourceNameOf "datetime") (Some enc)
      = (Automation.GTime t, None) /\
      Go.nanos t = 1000000 * Z.quot (Go.nanos (Go.mkTime 1614834367 500000000)) 1000000 /\
      0 <= Go.nsec t < 1000000000).
Proof.
  split.
  - exact (proj1 (proj2 (proj2
             (C3_encoded_value_parses_back AutomationSamples.sampleParse
                AutomationSamples.nothingPrints (intConfig 42))))
             (conj (fun H : Z.compare (-2147483648) 42 = Gt => ltac:(discriminate H)) eq_refl)).
  - exact (proj2 (proj2 (proj2
             (C3_encoded_value_parses_back AutomationSamples.sampleParse
                AutomationSamples.nothingPrints AutomationSamples.timeConfig)))
             (Go.mkTime 1614834367 500000000) eq_refl
             (conj (fun H : Z.compare (-9223372036854775808) 1614834367500000000 = Gt =>
                      ltac:(discriminate H)) eq_refl)).
Defined.

(** ** Where the ID of a resource comes from *)

Section IdentityFacts.
Import Go TagsHelpers.

Variable ParseAzureResourceID : string -> error + ResourceID.
Variable FirewallRuleID : string -> error + Sql.FirewallRuleId.
Variable StorageSyncServiceID : string -> error + Storage.StorageSyncServiceId.
Variable DashboardID : string -> error + Portal.DashboardId.
Variable NewDashboardID : string -> string -> string -> string.
Variable NormalizeLocation : string -> string.
Variable NormalizeNilable : option string -> string.
Variable json_Unmarshal : string -> string + Portal.DashboardProperties.
Variable json_Marshal : option Portal.DashboardProperties -> string + string.
Variable subscriptionId : string.
Variable time_Parse : string -> option Time.
Variable time_Format : Time -> string.
Variable isPrintWide : Z -> bool.
Variable lowerWide : string -> string.
Variable expandTags : ResourceData -> Tags.
Variable FlattenAndSet : ResourceData -> Tags -> ResourceData * option error.
Hypothesis tagsOnly : setsTagsOnly FlattenAndSet.

(** What a Read called at the end of Create may do to the ID: leave it,
    or clear it, which it does only when [gone] holds. *)
Definition keepsOrClearsId {Req Body : Type} (gone : Prop) (w : World Req Body)
  (x : Exit) (w' : World Req Body) : Prop :=
  Id (data w') = Id (data w) \/ (Id (data w') = "" /\ gone).

(** In the branch that clears the ID, the ID has parsed and the Get has
    come back as "not found". *)
Ltac gone_evidence :=
  let parsed := fresh "parsed" in
  let Hp := fresh "Hp" in
  intros parsed Hp; cbn [data Id oracle ncalls] in Hp |- *;
  injection Hp as <-;
  split; [congruence | assumption].

Ltac keeps_or_clears :=
  first [ left; reflexivity
        | left; exact (proj1 (tagsOnly _ _))
        | right; split; [reflexivity | gone_evidence] ].

Lemma firewall_read_id (w : World Sql.Req Sql.FirewallRule) :
  wpFn (Sql.resourceSqlFirewallRuleRead FirewallRuleID) (keepsOrClearsId
          (forall parsed,
              FirewallRuleID (Id (data w)) = inr parsed ->
              isNotFound (oracle w (ncalls w)
                            (Sql.Get (Sql.ResourceGroup parsed) (Sql.ServerName parsed)
                                     (Sql.Name parsed))))
          w) w.
Proof.
  destruct w as [o n evs ds d]. unfold keepsOrClearsId.
  apply wpFn_body. unfold Sql.resourceSqlFirewallRuleRead. wp_norm.
  repeat wp_step_tags; keeps_or_clears.
Qed.

Lemma automation_read_id (varType : string)
  (w : World Automation.Req Automation.Variable_) :
  wpFn (Automation.resourceAutomationVariableRead ParseAzureResourceID time_Format
          lowerWide varType)
       (keepsOrClearsId
          (forall parsed,
              ParseAzureResourceID (Id (data w)) = inr parsed ->
              isNotFound (oracle w (ncalls w)
                            (Automation.Get (Sdk.ResourceGroup parsed)
                               (PathAt parsed "automationAccounts")
                               (PathAt parsed "variables"))))
          w) w.
Proof.
  destruct w as [o n evs ds d]. unfold keepsOrClearsId.
  apply wpFn_body. unfold Automation.resourceAutomationVariableRead. wp_norm.
  repeat wp_step_tags; keeps_or_clears.
Qed.

Lemma dashboard_read_id (w : World Portal.Req Portal.Dashboard) :
  wpFn (Portal.resourceDashboardRead DashboardID NormalizeLocation json_Marshal
          FlattenAndSet)
       (keepsOrClearsId
          (forall parsed,
              DashboardID (Id (data w)) = inr parsed ->
              isNotFound (oracle w (ncalls w)
                            (Portal.Get (Portal.ResourceGroup parsed)
                                        (Portal.Name parsed))))
          w) w.
Proof.
  destruct w as [o n evs ds d]. unfold keepsOrClearsId.
  apply wpFn_body. unfold Portal.resourceDashboardRead. wp_norm.
  repeat wp_step_tags; keeps_or_clears.
Qed.

Lemma express_route_read_id
  (w : World ExpressRoute.Req ExpressRoute.ExpressRouteGateway) :
  wpFn (ExpressRoute.resourceExpressRouteGatewayRead ParseAzureResourceID
          NormalizeLocation FlattenAndSet)
       (keepsOrClearsId
          (forall parsed,
              ParseAzureResourceID (Id (data w)) = inr parsed ->
              isNotFound (oracle w (ncalls w)
                            (ExpressRoute.Get (Sdk.ResourceGroup parsed)
                               (PathAt parsed "expressRouteGateways"))))
          w) w.
Proof.
  destruct w as [o n evs ds d]. unfold keepsOrClearsId.
  apply wpFn_body. unfold ExpressRoute.resourceExpressRouteGatewayRead. wp_norm.
  repeat wp_step_tags; keeps_or_clears.
Qed.

Lemma devtest_read_id (w : World DevTestPolicy.Req DevTestPolicy.Policy) :
  wpFn (DevTestPolicy.resourceArmDevTestPolicyRead ParseAzureResourceID FlattenAndSet)
       (keepsOrClearsId
          (forall parsed,
              ParseAzureResourceID (Id (data w)) = inr parsed ->
              isNotFound (oracle w (ncalls w)
                            (DevTestPolicy.Get (Sdk.ResourceGroup parsed)
                               (PathAt parsed "labs") (PathAt parsed "policysets")
                               (PathAt parsed "policies") "")))
          w) w.
Proof.
  destruct w as [o n evs ds d]. unfold keepsOrClearsId.
  apply wpFn_body. unfold DevTestPolicy.resourceArmDevTestPolicyRead. wp_norm.
  repeat wp_step_tags; keeps_or_clears.
Qed.

(** A Create that takes the ID from the answer: when it returns without
    an error, the Get after the write carried an ID, and the ID of the
    state is that ID, unless the final Read has cleared it, which it does
    only when [gone] holds of that ID. *)
Definition idFromAnswer {Req Body : Type} (returned : option string)
  (gone : string -> Prop) (out : Exit * World Req Body) : Prop :=
  fst out = Return None ->
  exists id, returned = Some id /\
             (Id (data (snd out)) = id \/ (Id (data (snd out)) = "" /\ gone id)).

Lemma wpFn_deferred {Req Body : Type} (f : M Req Body Empty_set)
  (Q : Exit -> World Req Body -> Prop) (w : World Req Body) :
  wpFn f Q w -> wpFn f (fun x w' => Q x w' /\ deferred w' = deferred w) w.
Proof.
  unfold wpFn, runFn. destruct (f _) as [[a|x] w1]; [destruct a|].
  cbn [fst snd deferred]. auto.
Qed.

Ltac id_from_answer read_id :=
  lazymatch goal with
  | |- wpFn _ _ _ =>
      eapply wpFn_mono; [apply wpFn_deferred; apply read_id|]; cbv beta;
      let x := fresh "x" in
      let w' := fresh "w'" in
      let H := fresh "H" in
      let Hdef := fresh "Hdef" in
      intros x w' [H Hdef]; unfold keepsOrClearsId in H;
      cbn [data Id deferred] in H, Hdef;
      destruct x; [wp_step | cbv beta iota; wp_norm];
      rewrite Hdef; wp_norm;
      unfold idFromAnswer; cbn [fst snd data];
      let Hret := fresh "Hret" in
      intros Hret;
      first [ discriminate Hret | exact (ex_intro _ _ (conj eq_refl H)) ]
  | |- _ => unfold idFromAnswer; cbn [fst snd];
            let Hret := fresh "Hret" in intros Hret; discriminate Hret
  end.

Lemma firewall_create_id (o : nat -> Sql.Req -> Answer Sql.FirewallRule)
  (d : ResourceData) :
  let get := Sql.Get (GetString d "resource_group_name") (GetString d "server_name")
                     (GetString d "name") in
  let k := if IsNewResource d then 1%nat else 0%nat in
  idFromAnswer (Sql.ID (body (o (S k) get)))
    (fun id => forall parsed,
         FirewallRuleID id = inr parsed ->
         isNotFound (o (S (S k))
                       (Sql.Get (Sql.ResourceGroup parsed) (Sql.ServerName parsed)
                                (Sql.Name parsed))))
    (runFn (Sql.resourceSqlFirewallRuleCreateUpdate FirewallRuleID) (world0 o d)).
Proof.
  intros get k.
  apply (wpFn_body _ (fun x w' => idFromAnswer (Sql.ID (body (o (S k) get)))
             (fun id => forall parsed,
                  FirewallRuleID id = inr parsed ->
         isNotFound (o (S (S k))
                       (Sql.Get (Sql.ResourceGroup parsed) (Sql.ServerName parsed)
                                (Sql.Name parsed)))) (x, w'))).
  unfold Sql.resourceSqlFirewallRuleCreateUpdate, world0. wp_norm.
  wp_step. wp_step. cbv beta iota. fold get.
  subst k. destruct (IsNewResource d); repeat wp_step.
  all: id_from_answer firewall_read_id.
Qed.

Lemma automation_create_id (varType : string)
  (o : nat -> Automation.Req -> Answer Automation.Variable_) (d : ResourceData) :
  let get := Automation.Get (GetString d "resource_group_name")
               (GetString d "automation_account_name") (GetString d "name") in
  let k := if IsNewResource d then 1%nat else 0%nat in
  idFromAnswer (Automation.ID (body (o (S k) get)))
    (fun id => forall parsed,
         ParseAzureResourceID id = inr parsed ->
         isNotFound (o (S (S k))
                       (Automation.Get (Sdk.ResourceGroup parsed)
                          (PathAt parsed "automationAccounts")
                          (PathAt parsed "variables"))))
    (runFn (Automation.resourceAutomationVariableCreateUpdate ParseAzureResourceID
              time_Parse time_Format isPrintWide lowerWide varType)
           (world0 o d)).
Proof.
  intros get k.
  apply (wpFn_body _ (fun x w' =>
           idFromAnswer (Automation.ID (body (o (S k) get)))
             (fun id => forall parsed,
                  ParseAzureResourceID id = inr parsed ->
         isNotFound (o (S (S k))
                       (Automation.Get (Sdk.ResourceGroup parsed)
                          (PathAt parsed "automationAccounts")
                          (PathAt parsed "variables")))) (x, w'))).
  unfold Automation.resourceAutomationVariableCreateUpdate, world0. wp_norm.
  wp_step. wp_step. cbv beta iota. fold get.
  subst k. destruct (IsNewResource d); repeat wp_step.
  all: id_from_answer automation_read_id.
Qed.

Lemma express_route_create_id
  (o : nat -> ExpressRoute.Req -> Answer ExpressRoute.ExpressRouteGateway)
  (d : ResourceData) :
  let get := ExpressRoute.Get (GetString d "resource_group_name") (GetString d "name") in
  let k := if IsNewResource d then 1%nat else 0%nat in
  idFromAnswer (ExpressRoute.ID (body (o (S (S k)) get)))
    (fun id => forall parsed,
         ParseAzureResourceID id = inr parsed ->
         isNotFound (o (S (S (S k)))
                       (ExpressRoute.Get (Sdk.ResourceGroup parsed)
                          (PathAt parsed "expressRouteGateways"))))
    (runFn (ExpressRoute.resourceExpressRouteGatewayCreateUpdate ParseAzureResourceID
              NormalizeLocation expandTags FlattenAndSet)
           (world0 o d)).
Proof.
  intros get k.
  apply (wpFn_body _ (fun x w' =>
           idFromAnswer (ExpressRoute.ID (body (o (S (S k)) get)))
             (fun id => forall parsed,
                  ParseAzureResourceID id = inr parsed ->
         isNotFound (o (S (S (S k)))
                       (ExpressRoute.Get (Sdk.ResourceGroup parsed)
                          (PathAt parsed "expressRouteGateways")))) (x, w'))).
  unfold ExpressRoute.resourceExpressRouteGatewayCreateUpdate, world0. wp_norm.
  wp_step. wp_step. cbv beta iota. fold get.
  subst k. destruct (IsNewResource d); repeat wp_step.
  all: id_from_answer express_route_read_id.
Qed.

Lemma devtest_create_id
  (o : nat -> DevTestPolicy.Req -> Answer DevTestPolicy.Policy) (d : ResourceData) :
  let get := DevTestPolicy.Get (GetString d "resource_group_name") (GetString d "lab_name")
               (GetString d "policy_set_name") (GetString d "name") "" in
  let k := if IsNewResource d then 1%nat else 0%nat in
  idFromAnswer (DevTestPolicy.ID (body (o (S k) get)))
    (fun id => forall parsed,
         ParseAzureResourceID id = inr parsed ->
         isNotFound (o (S (S k))
                       (DevTestPolicy.Get (Sdk.ResourceGroup parsed)
                          (PathAt parsed "labs") (PathAt parsed "policysets")
                          (PathAt parsed "policies") "")))
    (runFn (DevTestPolicy.resourceArmDevTestPolicyCreateUpdate ParseAzureResourceID
              expandTags FlattenAndSet)
           (world0 o d)).
Proof.
  intros get k.
  apply (wpFn_body _ (fun x w' =>
           idFromAnswer (DevTestPolicy.ID (body (o (S k) get)))
             (fun id => forall parsed,
                  ParseAzureResourceID id = inr parsed ->
         isNotFound (o (S (S k))
                       (DevTestPolicy.Get (Sdk.ResourceGroup parsed)
                          (PathAt parsed "labs") (PathAt parsed "policysets")
                          (PathAt parsed "policies") ""))) (x, w'))).
  unfold DevTestPolicy.resourceArmDevTestPolicyCreateUpdate, world0. wp_norm.
  wp_step. wp_step. cbv beta iota. fold get.
  subst k. destruct (IsNewResource d); repeat wp_step.
  all: id_from_answer devtest_read_id.
Qed.

(** Read of a resource that is there leaves the ID alone, whatever else
    it does. *)
Lemma firewall_read_keeps_id
  (o : nat -> Sql.Req -> Answer Sql.FirewallRule) (d : ResourceData) (id : Sql.FirewallRuleId) :
  FirewallRuleID (Id d) = inr id ->
  err (o 0%nat (Sql.Get (Sql.ResourceGroup id) (Sql.ServerName id) (Sql.Name id))) = None ->
  Id (data (snd (runFn (Sql.resourceSqlFirewallRuleRead FirewallRuleID) (world0 o d)))) = Id d.
Proof.
  intros Hparse Herr.
  apply (wpFn_body _ (fun x w' => Id (data w') = Id d)).
  unfold Sql.resourceSqlFirewallRuleRead, world0. wp_norm.
  wp_step. wp_step. rewrite Hparse. do 2 wp_step. cbv beta iota. rewrite Herr.
  repeat wp_step_tags.
  all: first [reflexivity | exact (proj1 (tagsOnly _ _))].
Qed.

Lemma automation_read_keeps_id (varType : string)
  (o : nat -> Automation.Req -> Answer Automation.Variable_) (d : ResourceData) (id : ResourceID) :
  ParseAzureResourceID (Id d) = inr id ->
  err (o 0%nat (Automation.Get (Sdk.ResourceGroup id) (PathAt id "automationAccounts")
                   (PathAt id "variables"))) = None ->
  Id (data (snd (runFn (Automation.resourceAutomationVariableRead ParseAzureResourceID time_Format
                           lowerWide varType) (world0 o d)))) = Id d.
Proof.
  intros Hparse Herr.
  apply (wpFn_body _ (fun x w' => Id (data w') = Id d)).
  unfold Automation.resourceAutomationVariableRead, world0. wp_norm.
  wp_step. wp_step. rewrite Hparse. do 2 wp_step. cbv beta iota. rewrite Herr.
  repeat wp_step_tags.
  all: first [reflexivity | exact (proj1 (tagsOnly _ _))].
Qed.

Lemma storage_read_keeps_id
  (o : nat -> Storage.Req -> Answer Storage.Service) (d : ResourceData) (id : Storage.StorageSyncServiceId) :
  StorageSyncServiceID (Id d) = inr id ->
  err (o 0%nat (Storage.Get (Storage.ResourceGroup id) (Storage.SyncName id))) = None ->
  Id (data (snd (runFn (Storage.resourceStorageSyncRead StorageSyncServiceID NormalizeNilable
                           FlattenAndSet) (world0 o d)))) = Id d.
Proof.
  intros Hparse Herr.
  apply (wpFn_body _ (fun x w' => Id (data w') = Id d)).
  unfold Storage.resourceStorageSyncRead, world0. wp_norm.
  wp_step. wp_step. rewrite Hparse. do 2 wp_step. cbv beta iota. rewrite Herr.
  repeat wp_step_tags.
  all: first [reflexivity | exact (proj1 (tagsOnly _ _))].
Qed.

Lemma dashboard_read_keeps_id
  (o : nat -> Portal.Req -> Answer Portal.Dashboard) (d : ResourceData) (id : Portal.DashboardId) :
  DashboardID (Id d) = inr id ->
  err (o 0%nat (Portal.Get (Portal.ResourceGroup id) (Portal.Name id))) = None ->
  Id (data (snd (runFn (Portal.resourceDashboardRead DashboardID NormalizeLocation json_Marshal
                           FlattenAndSet) (world0 o d)))) = Id d.
Proof.
  intros Hparse Herr.
  apply (wpFn_body _ (fun x w' => Id (data w') = Id d)).
  unfold Portal.resourceDashboardRead, world0. wp_norm.
  wp_step. wp_step. rewrite Hparse. do 2 wp_step. cbv beta iota. rewrite Herr.
  repeat wp_step_tags.
  all: first [reflexivity | exact (proj1 (tagsOnly _ _))].
Qed.

Lemma express_route_read_keeps_id
  (o : nat -> ExpressRoute.Req -> Answer ExpressRoute.ExpressRouteGateway) (d : ResourceData) (id : ResourceID) :
  ParseAzureResourceID (Id d) = inr id ->
  err (o 0%nat (ExpressRoute.Get (Sdk.ResourceGroup id) (PathAt id "expressRouteGateways"))) = None ->
  Id (data (snd (runFn (ExpressRoute.resourceExpressRouteGatewayRead ParseAzureResourceID
                           NormalizeLocation FlattenAndSet) (world0 o d)))) = Id d.
Proof.
  intros Hparse Herr.
  apply (wpFn_body _ (fun x w' => Id (data w') = Id d)).
  unfold ExpressRoute.resourceExpressRouteGatewayRead, world0. wp_norm.
  wp_step. wp_step. rewrite Hparse. do 2 wp_step. cbv beta iota. rewrite Herr.
  repeat wp_step_tags.
  all: first [reflexivity | exact (proj1 (tagsOnly _ _))].
Qed.

Lemma devtest_read_keeps_id
  (o : nat -> DevTestPolicy.Req -> Answer DevTestPolicy.Policy) (d : ResourceData) (id : ResourceID) :
  ParseAzureResourceID (Id d) = inr id ->
  err (o 0%nat (DevTestPolicy.Get (Sdk.ResourceGroup id) (PathAt id "labs")
                   (PathAt id "policysets") (PathAt id "policies") "")) = None ->
  Id (data (snd (runFn (DevTestPolicy.resourceArmDevTestPolicyRead ParseAzureResourceID
                           FlattenAndSet) (world0 o d)))) = Id d.
Proof.
  intros Hparse Herr.
  apply (wpFn_body _ (fun x w' => Id (data w') = Id d)).
  unfold DevTestPolicy.resourceArmDevTestPolicyRead, world0. wp_norm.
  wp_step. wp_step. rewrite Hparse. do 2 wp_step. cbv beta iota. rewrite Herr.
  repeat wp_step_tags.
  all: first [reflexivity | exact (proj1 (tagsOnly _ _))].
Qed.

(** *** IDs the handler builds itself *)

Lemma Split_no_separator (s : string) (sep : ascii) :
  contains s sep = false -> Split s sep = [s].
Proof.
  induction s as [|c t IH]; [reflexivity|].
  cbn [contains Split]. intros H. apply orb_false_iff in H as [Hc Ht].
  rewrite Hc, (IH Ht). reflexivity.
Qed.

Lemma Split_at_separator (a b : string) (sep : ascii) :
  contains a sep = false -> Split (a +:+ String sep b) sep = a :: Split b sep.
Proof.
  induction a as [|c t IH]; intros H.
  - rewrite append_nil. cbn [Split]. rewrite Ascii.eqb_refl. reflexivity.
  - cbn [contains] in H. apply orb_false_iff in H as [Hc Ht].
    rewrite append_cons. cbn [Split]. rewrite Hc, (IH Ht). reflexivity.
Qed.

Section BuiltIds.
Variable networkInterfaceResourceName : string.
Variable networkSecurityGroupResourceName : string.

(** A Create of the association that returns without an error has set
    the ID to the two IDs of the configuration joined by [|], unless the
    final Read has cleared it. *)
Lemma nic_create_success_id (o : nat -> Network.Req -> Answer Network.Interface)
  (d : ResourceData) :
  let out := runFn (Network.resourceNetworkInterfaceSecurityGroupAssociationCreate
                      ParseAzureResourceID networkInterfaceResourceName
                      networkSecurityGroupResourceName)
                   (world0 o d) in
  fst out = Return None ->
  Id (data (snd out))
  = GetString d "network_interface_id" +:+ "|" +:+ GetString d "network_security_group_id" \/
  Id (data (snd out)) = "".
Proof.
  intros out. subst out.
  apply (wpFn_body _ (fun x w' =>
    x = Return None ->
    Id (data w')
    = GetString d "network_interface_id" +:+ "|"
        +:+ GetString d "network_security_group_id" \/
    Id (data w') = "")).
  unfold Network.resourceNetworkInterfaceSecurityGroupAssociationCreate, world0.
  wp_norm. repeat wp_step.
  all: try (intros Hret; discriminate Hret).
  all: eapply wpFn_mono; [apply nic_read_wp|]; cbv beta;
    intros x w' (calls & d' & -> & Hc & Hid & Hx); cbn [data Id] in Hid;
    destruct x as [e'|]; [|contradiction]; repeat wp_step;
    intros _; exact Hid.
Qed.

(** The same Create when every request succeeds and the final Read finds
    the security group attached: the ID is the joined one. *)
Lemma nic_create_sets_joined_id (o : nat -> Network.Req -> Answer Network.Interface)
  (d : ResourceData) (nicId nsgId : ResourceID) (returned : string) :
  let networkInterfaceId := GetString d "network_interface_id" in
  let networkSecurityGroupId := GetString d "network_security_group_id" in
  contains networkInterfaceId "|" = false ->
  contains networkSecurityGroupId "|" = false ->
  ParseAzureResourceID networkInterfaceId = inr nicId ->
  ParseAzureResourceID networkSecurityGroupId = inr nsgId ->
  let get := Network.Get (Sdk.ResourceGroup nicId) (PathAt nicId "networkInterfaces") "" in
  let update :=
    Network.CreateOrUpdate (Sdk.ResourceGroup nicId) (PathAt nicId "networkInterfaces")
      (Network.mkInterface (Network.ID (body (o 0%nat get)))
         (Some (Network.mkInterfaceProperties
                  (Some (Network.mkSecurityGroup (Some networkSecurityGroupId)))))) in
  err (o 0%nat get) = None ->
  Network.Properties (body (o 0%nat get)) = Some (Network.mkInterfaceProperties None) ->
  err (o 1%nat update) = None ->
  err (o 2%nat Network.WaitForCompletionRef) = None ->
  err (o 3%nat get) = None ->
  Network.Properties (body (o 3%nat get))
  = Some (Network.mkInterfaceProperties (Some (Network.mkSecurityGroup (Some returned)))) ->
  let out := runFn (Network.resourceNetworkInterfaceSecurityGroupAssociationCreate
                      ParseAzureResourceID networkInterfaceResourceName
                      networkSecurityGroupResourceName)
                   (world0 o d) in
  fst out = Return None /\
  Id (data (snd out)) = networkInterfaceId +:+ "|" +:+ networkSecurityGroupId.
Proof.
  intros nicS nsgS Hbar1 Hbar2 Hnic Hnsg get update
         Herr0 Hprops0 Herr1 Herr2 Herr3 Hprops3 out. subst out.
  assert (Hsplit : Split (nicS +:+ "|" +:+ nsgS) "|" = [nicS; nsgS]).
  { change (nicS +:+ "|" +:+ nsgS) with (nicS +:+ String "|" nsgS).
    rewrite (Split_at_separator _ _ _ Hbar1), (Split_no_separator _ _ Hbar2).
    reflexivity. }
  apply (wpFn_body _ (fun x w' =>
    x = Return None /\ Id (data w') = nicS +:+ "|" +:+ nsgS)).
  unfold Network.resourceNetworkInterfaceSecurityGroupAssociationCreate, world0.
  wp_norm. wp_step. wp_step. fold nicS nsgS. rewrite Hnic. do 4 wp_step. rewrite Hnsg.
  do 6 wp_step. fold get. rewrite Herr0, Hprops0.
  cbn [Network.NetworkSecurityGroup]. do 2 wp_step. fold update. rewrite Herr1.
  do 2 wp_step. rewrite Herr2. do 3 wp_step.
  apply wp_callFn. apply wpFn_body.
  unfold Network.resourceNetworkInterfaceSecurityGroupAssociationRead. wp_norm.
  wp_step. wp_step. rewrite Hsplit. cbn [List.length Nat.eqb negb nth]. rewrite Hnic.
  do 2 wp_step. fold get. rewrite Herr3, Hprops3.
  cbn [Network.NetworkSecurityGroup]. repeat wp_step.
  split; reflexivity.
Qed.

End BuiltIds.

(** A Create of a dashboard changes the ID to nothing but the ID that
    [parse.NewDashboardID] builds from the subscription, the resource
    group and the name; the final Read may clear it. *)
Lemma dashboard_create_id (o : nat -> Portal.Req -> Answer Portal.Dashboard)
  (d : ResourceData) :
  let built := NewDashboardID subscriptionId (GetString d "resource_group_name")
                 (GetString d "name") in
  let out := runFn (Portal.resourceDashboardCreateUpdate DashboardID NewDashboardID
                      NormalizeLocation json_Unmarshal json_Marshal subscriptionId
                      expandTags FlattenAndSet)
                   (world0 o d) in
  (Id (data (snd out)) = Id d \/ Id (data (snd out)) = "" \/ Id (data (snd out)) = built) /\
  (fst out = Return None -> Id (data (snd out)) = built \/ Id (data (snd out)) = "").
Proof.
  intros built out. subst out.
  apply (wpFn_body _ (fun x w' =>
    (Id (data w') = Id d \/ Id (data w') = "" \/ Id (data w') = built) /\
    (x = Return None -> Id (data w') = built \/ Id (data w') = ""))).
  unfold Portal.resourceDashboardCreateUpdate, world0. wp_norm.
  repeat wp_step.
  all: try (split; [left; reflexivity | intros Hret; discriminate Hret]).
  eapply wpFn_mono; [apply wpFn_deferred; apply dashboard_read_id|]. cbv beta.
  intros x w' [H Hdef]. unfold keepsOrClearsId in H. cbn [data Id deferred] in H, Hdef.
  fold built in H.
  destruct x; [wp_step | cbv beta iota; wp_norm]; rewrite Hdef; wp_norm.
  - split; [right; destruct H as [H | [H _]]; [right | left]; exact H
           | intros _; destruct H as [H | [H _]]; [left | right]; exact H].
  - split; [right; destruct H as [H | [H _]]; [right | left]; exact H
           | intros Hret; discriminate Hret].
Qed.

(** The same Create when the write is accepted and the final Read finds
    the dashboard: the ID is the one built. *)
Lemma dashboard_create_sets_built_id (o : nat -> Portal.Req -> Answer Portal.Dashboard)
  (d : ResourceData) (props : Portal.DashboardProperties) (id : Portal.DashboardId) :
  let name := GetString d "name" in
  let resourceGroup := GetString d "resource_group_name" in
  let built := NewDashboardID subscriptionId resourceGroup name in
  let write :=
    Portal.CreateOrUpdate resourceGroup name
      (Portal.mkDashboard (Some (NormalizeLocation (GetString d "location"))) (Some props)
         (expandTags d)) in
  let read := Portal.Get (Portal.ResourceGroup id) (Portal.Name id) in
  json_Unmarshal (GetString d "dashboard_properties") = inr props ->
  err (o 0%nat write) = None ->
  DashboardID built = inr id ->
  err (o 1%nat read) = None ->
  let out := runFn (Portal.resourceDashboardCreateUpdate DashboardID NewDashboardID
                      NormalizeLocation json_Unmarshal json_Marshal subscriptionId
                      expandTags FlattenAndSet)
                   (world0 o d) in
  Id (data (snd out)) = built /\ events (snd out) = [EvCall write; EvCall read].
Proof.
  intros name resourceGroup built write read Hjson Hw Hparse Hr out. subst out.
  apply (wpFn_body _ (fun x w' =>
    Id (data w') = built /\ events w' = [EvCall write; EvCall read])).
  unfold Portal.resourceDashboardCreateUpdate, world0. wp_norm.
  wp_step. wp_step. cbv beta iota. fold name resourceGroup. rewrite Hjson.
  do 2 wp_step. cbv beta iota. fold write. rewrite Hw. do 3 wp_step. fold built.
  apply wp_callFn. apply wpFn_body. unfold Portal.resourceDashboardRead. wp_norm.
  wp_step. wp_step. rewrite Hparse. do 2 wp_step. cbv beta iota. fold read. rewrite Hr.
  repeat wp_step_tags.
  all: split; [first [reflexivity | exact (proj1 (tagsOnly _ _))] | reflexivity].
Qed.

End IdentityFacts.

(** The number of requests the existence check of Create/Update makes. *)
Definition checkOffset (d : ResourceData) : nat :=
  if IsNewResource d then 1%nat else 0%nat.

(** *** Sample runs *)

Module AssociationCreateSamples.
Import AssociationSamples.

Definition nsgID : ResourceID :=
  mkResourceID "rg1" (<["networkSecurityGroups" := "nsg1"]> ∅).

Definition parseAssociation (id : string) : error + ResourceID :=
  if String.eqb id nicResourceID then inr nicID
  else if String.eqb id nsgResourceID then inr nsgID
  else inl (Errorf "Cannot parse Azure ID: %s" None).

(** The configuration of a new association of [nic1] with [nsg1]. *)
Definition newAssociationData : ResourceData :=
  mkResourceData "" true
    (<["network_interface_id" := VString nicResourceID]>
       (<["network_security_group_id" := VString nsgResourceID]> ∅)).

(** The interface [nic1] with no security group. *)
Definition detached : Network.Interface :=
  Network.mkInterface (Some nicResourceID) (Some (Network.mkInterfaceProperties None)).

(** The API attaches the group: the first request finds the interface
    without a group, the later ones with it. *)
Definition attaching : nat -> Network.Req -> Answer Network.Interface :=
  fun n _ =>
    match n with
    | O => mkAnswer detached (Some 200%Z) None
    | S _ => mkAnswer attached (Some 200%Z) None
    end.

End AssociationCreateSamples.

Module IdentitySamples.
Import AssociationSamples AssociationCreateSamples.

(** The ID of the firewall rule [office] of server [srv1], as the API
    spells it, and as some answers spell it: with [resourcegroups] in
    lower case. *)
Definition ruleResourceID : string :=
  "/subscriptions/sub1/resourceGroups/rg1/providers/Microsoft.Sql/servers/srv1/firewallRules/office".

Definition ruleResourceIDLower : string :=
  "/subscriptions/sub1/resourcegroups/rg1/providers/Microsoft.Sql/servers/srv1/firewallRules/office".

(** The parser takes both spellings of the resource group segment. *)
Definition parseRuleID (id : string) : error + Sql.FirewallRuleId :=
  if String.eqb id ruleResourceID || String.eqb id ruleResourceIDLower
  then inr (Sql.mkFirewallRuleId "rg1" "srv1" "office")
  else inl (Errorf "parsing %q as an ID" None).

(** The configuration of the new rule [office]. *)
Definition newRuleData : ResourceData :=
  mkResourceData "" true
    (<["name" := VString "office"]>
       (<["server_name" := VString "srv1"]>
          (<["resource_group_name" := VString "rg1"]>
             (<["start_ip_address" := VString "10.0.0.1"]>
                (<["end_ip_address" := VString "10.0.0.9"]> ∅))))).

(** The rule is not there before the write; after it the API returns the
    rule under the ID [id]. *)
Definition returning (id : string) : nat -> Sql.Req -> Answer Sql.FirewallRule :=
  fun n _ =>
    match n with
    | O => mkAnswer (Sql.mkFirewallRule None None None) (Some 404%Z)
             (Some NotFoundSamples.notFoundText)
    | _ => mkAnswer (Sql.mkFirewallRule (Some id) (Some "10.0.0.1") (Some "10.0.0.9"))
             (Some 200%Z) None
    end.

(** A parser that knows the endpoint, the interface and the security
    group of the samples. *)
Definition parseKnown (id : string) : error + ResourceID :=
  if String.eqb id IotHubSamples.sampleEndpointResourceID
  then inr IotHubSamples.sampleEndpointID
  else parseAssociation id.

End IdentitySamples.

Section IdentityTheorems.
Import Go.

(** C6, as claimed, fails for the handlers that take the ID from the API.
    Create of the SQL firewall rule [office] of server [srv1] runs twice
    on the same configuration, against two APIs that answer alike but
    for the spelling of the ID of the rule: both runs send the same
    requests and succeed, and they end with different IDs.  The ID is
    what the answer carries, not a function of the parent and the name. *)
Lemma C6_firewall_id_is_taken_from_the_answer :
  let create o :=
    runFn (Sql.resourceSqlFirewallRuleCreateUpdate IdentitySamples.parseRuleID)
          (world0 o IdentitySamples.newRuleData) in
  let first := create (IdentitySamples.returning IdentitySamples.ruleResourceID) in
  let second := create (IdentitySamples.returning IdentitySamples.ruleResourceIDLower) in
  fst first = Return None /\
  fst second = Return None /\
  events (snd first) = events (snd second) /\
  Id (data (snd first)) = IdentitySamples.ruleResourceID /\
  Id (data (snd second)) = IdentitySamples.ruleResourceIDLower /\
  Id (data (snd first)) <> Id (data (snd second)).
Proof.
  vm_compute. repeat split. discriminate.
Qed.

(** C6, amended.  Three handlers build the ID from the ID of the parent
    and the names of the resource: the IoT Hub endpoint (the ID of the
    hub, [/Endpoints/] and the name of the endpoint), the association of
    a network interface with a security group (the two IDs joined by
    [|]) and the dashboard (what [parse.NewDashboardID] builds from the
    subscription, the resource group and the name).  A Create run of
    these leaves the ID alone or sets it to that string, or has it
    cleared by the final Read (association and dashboard only); a run
    that returns without an error has set it (or had it cleared).  A
    Create of an association whose configured IDs parse and hold no [|],
    on an interface without a security group, whose requests succeed and
    whose final Read finds the group attached, ends with the joined ID; a
    Create of a dashboard whose properties decode, whose write is
    accepted, whose built ID parses and whose final Get succeeds ends
    with the built ID.  Two successful Create runs of an endpoint that
    see the same hub ID and the same name end with the same ID.

    Create/Update of a SQL firewall rule, an automation variable, an
    ExpressRoute gateway and a DevTest policy takes the ID from the API:
    when it returns without an error, the ID is the one the Get after the
    write carried, unless the final Read has cleared it, which happens
    only when the Get of Read is answered "not found".

    Read of a resource that is there leaves the ID alone: always for the
    endpoint; for the association when the ID splits at [|] in two, its
    first part parses, the Get succeeds and a security group is
    attached; for the dashboard, the firewall rule, the automation
    variable, the gateway, the policy and the storage sync service when
    the ID parses and the Get succeeds.  Where a handler ends in
    [tags.FlattenAndSet], that helper is taken to set the field [tags]
    only. *)
Theorem C6_create_derives_id_and_read_keeps_it :
  forall (ParseAzureResourceID : string -> error + ResourceID)
         (IothubResourceName subscriptionID : string)
         (networkInterfaceResourceName networkSecurityGroupResourceName : string)
         (foldOrbit : Z -> Z -> bool)
         (FirewallRuleID : string -> error + Sql.FirewallRuleId)
         (StorageSyncServiceID : string -> error + Storage.StorageSyncServiceId)
         (DashboardID : string -> error + Portal.DashboardId)
         (NewDashboardID : string -> string -> string -> string)
         (NormalizeLocation : string -> string)
         (NormalizeNilable : option string -> string)
         (json_Unmarshal : string -> string + Portal.DashboardProperties)
         (json_Marshal : option Portal.DashboardProperties -> string + string)
         (time_Parse : string -> option Time) (time_Format : Time -> string)
         (isPrintWide : Z -> bool) (lowerWide : string -> string)
         (expandTags : ResourceData -> TagsHelpers.Tags)
         (FlattenAndSet : ResourceData -> TagsHelpers.Tags -> ResourceData * option error),
    setsTagsOnly FlattenAndSet ->
    let iotCreate :=
      runFn (IotHub.resourceIotHubEndpointServiceBusQueueCreateUpdate
               ParseAzureResourceID IothubResourceName subscriptionID foldOrbit) in
    let iotRead :=
      runFn (IotHub.resourceIotHubEndpointServiceBusQueueRead
               ParseAzureResourceID foldOrbit) in
    let nicCreate :=
      runFn (Network.resourceNetworkInterfaceSecurityGroupAssociationCreate
               ParseAzureResourceID networkInterfaceResourceName
               networkSecurityGroupResourceName) in
    let nicRead :=
      runFn (Network.resourceNetworkInterfaceSecurityGroupAssociationRead
               ParseAzureResourceID) in
    let dashCreate :=
      runFn (Portal.resourceDashboardCreateUpdate DashboardID NewDashboardID
               NormalizeLocation json_Unmarshal json_Marshal subscriptionID
               expandTags FlattenAndSet) in
    let dashRead :=
      runFn (Portal.resourceDashboardRead DashboardID NormalizeLocation json_Marshal
               FlattenAndSet) in
    let ruleCreate := runFn (Sql.resourceSqlFirewallRuleCreateUpdate FirewallRuleID) in
    let ruleRead := runFn (Sql.resourceSqlFirewallRuleRead FirewallRuleID) in
    let variableCreate varType :=
      runFn (Automation.resourceAutomationVariableCreateUpdate ParseAzureResourceID
               time_Parse time_Format isPrintWide lowerWide varType) in
    let variableRead varType :=
      runFn (Automation.resourceAutomationVariableRead ParseAzureResourceID time_Format
               lowerWide varType) in
    let gatewayCreate :=
      runFn (ExpressRoute.resourceExpressRouteGatewayCreateUpdate ParseAzureResourceID
               NormalizeLocation expandTags FlattenAndSet) in
    let gatewayRead :=
      runFn (ExpressRoute.resourceExpressRouteGatewayRead ParseAzureResourceID
               NormalizeLocation FlattenAndSet) in
    let policyCreate :=
      runFn (DevTestPolicy.resourceArmDevTestPolicyCreateUpdate ParseAzureResourceID
               expandTags FlattenAndSet) in
    let policyRead :=
      runFn (DevTestPolicy.resourceArmDevTestPolicyRead ParseAzureResourceID
               FlattenAndSet) in
    let syncRead :=
      runFn (Storage.resourceStorageSyncRead StorageSyncServiceID NormalizeNilable
               FlattenAndSet) in
    (* the IoT Hub endpoint *)
    (forall o d,
        (Id (data (snd (iotCreate (world0 o d)))) = Id d \/
         derivedEndpointID o d (Id (data (snd (iotCreate (world0 o d)))))) /\
        (fst (iotCreate (world0 o d)) = Return None ->
         derivedEndpointID o d (Id (data (snd (iotCreate (world0 o d))))))) /\
    (forall o1 d1 o2 d2,
        IotHub.ID (body (o1 0%nat (IotHub.Get (GetString d1 "resource_group_name")
                                               (GetString d1 "iothub_name"))))
        = IotHub.ID (body (o2 0%nat (IotHub.Get (GetString d2 "resource_group_name")
                                                 (GetString d2 "iothub_name")))) ->
        GetString d1 "name" = GetString d2 "name" ->
        fst (iotCreate (world0 o1 d1)) = Return None ->
        fst (iotCreate (world0 o2 d2)) = Return None ->
        Id (data (snd (iotCreate (world0 o1 d1))))
        = Id (data (snd (iotCreate (world0 o2 d2))))) /\
    (forall o d, Id (data (snd (iotRead (world0 o d)))) = Id d) /\
    (* the association of an interface with a security group *)
    (forall o d,
        let joined := GetString d "network_interface_id" +:+ "|"
                        +:+ GetString d "network_security_group_id" in
        (Id (data (snd (nicCreate (world0 o d)))) = Id d \/
         Id (data (snd (nicCreate (world0 o d)))) = "" \/
         Id (data (snd (nicCreate (world0 o d)))) = joined) /\
        (fst (nicCreate (world0 o d)) = Return None ->
         Id (data (snd (nicCreate (world0 o d)))) = joined \/
         Id (data (snd (nicCreate (world0 o d)))) = "")) /\
    (forall o d nicId nsgId returned,
        let networkInterfaceId := GetString d "network_interface_id" in
        let networkSecurityGroupId := GetString d "network_security_group_id" in
        contains networkInterfaceId "|" = false ->
        contains networkSecurityGroupId "|" = false ->
        ParseAzureResourceID networkInterfaceId = inr nicId ->
        ParseAzureResourceID networkSecurityGroupId = inr nsgId ->
        let get := Network.Get (Sdk.ResourceGroup nicId)
                     (PathAt nicId "networkInterfaces") "" in
        let update :=
          Network.CreateOrUpdate (Sdk.ResourceGroup nicId) (PathAt nicId "networkInterfaces")
            (Network.mkInterface (Network.ID (body (o 0%nat get)))
               (Some (Network.mkInterfaceProperties
                        (Some (Network.mkSecurityGroup (Some networkSecurityGroupId)))))) in
        err (o 0%nat get) = None ->
        Network.Properties (body (o 0%nat get)) = Some (Network.mkInterfaceProperties None) ->
        err (o 1%nat update) = None ->
        err (o 2%nat Network.WaitForCompletionRef) = None ->
        err (o 3%nat get) = None ->
        Network.Properties (body (o 3%nat get))
        = Some (Network.mkInterfaceProperties
                  (Some (Network.mkSecurityGroup (Some returned)))) ->
        fst (nicCreate (world0 o d)) = Return None /\
        Id (data (snd (nicCreate (world0 o d))))
        = networkInterfaceId +:+ "|" +:+ networkSecurityGroupId) /\
    (forall o d nicID nsgID,
        List.length (Split (Id d) "|"%char) = 2%nat ->
        ParseAzureResourceID (nth 0 (Split (Id d) "|"%char) "") = inr nicID ->
        let read := o 0%nat (Network.Get (Sdk.ResourceGroup nicID)
                                         (PathAt nicID "networkInterfaces") "") in
        err read = None ->
        Network.Properties (body read)
        = Some (Network.mkInterfaceProperties
                  (Some (Network.mkSecurityGroup (Some nsgID)))) ->
        fst (nicRead (world0 o d)) = Return None /\
        Id (data (snd (nicRead (world0 o d)))) = Id d) /\
    (* the dashboard *)
    (forall o d,
        let built := NewDashboardID subscriptionID (GetString d "resource_group_name")
                       (GetString d "name") in
        (Id (data (snd (dashCreate (world0 o d)))) = Id d \/
         Id (data (snd (dashCreate (world0 o d)))) = "" \/
         Id (data (snd (dashCreate (world0 o d)))) = built) /\
        (fst (dashCreate (world0 o d)) = Return None ->
         Id (data (snd (dashCreate (world0 o d)))) = built \/
         Id (data (snd (dashCreate (world0 o d)))) = "")) /\
    (forall o d props id,
        let name := GetString d "name" in
        let resourceGroup := GetString d "resource_group_name" in
        let built := NewDashboardID subscriptionID resourceGroup name in
        let write :=
          Portal.CreateOrUpdate resourceGroup name
            (Portal.mkDashboard (Some (NormalizeLocation (GetString d "location")))
               (Some props) (expandTags d)) in
        json_Unmarshal (GetString d "dashboard_properties") = inr props ->
        err (o 0%nat write) = None ->
        DashboardID built = inr id ->
        err (o 1%nat (Portal.Get (Portal.ResourceGroup id) (Portal.Name id))) = None ->
        Id (data (snd (dashCreate (world0 o d)))) = built) /\
    (forall o d id,
        DashboardID (Id d) = inr id ->
        err (o 0%nat (Portal.Get (Portal.ResourceGroup id) (Portal.Name id))) = None ->
        Id (data (snd (dashRead (world0 o d)))) = Id d) /\
    (* the handlers that take the ID from the API *)
    (forall o d,
        idFromAnswer
          (Sql.ID (body (o (S (checkOffset d))
                           (Sql.Get (GetString d "resource_group_name")
                                    (GetString d "server_name") (GetString d "name")))))
          (fun id => forall parsed,
               FirewallRuleID id = inr parsed ->
               isNotFound (o (S (S (checkOffset d)))
                             (Sql.Get (Sql.ResourceGroup parsed) (Sql.ServerName parsed)
                                      (Sql.Name parsed))))
          (ruleCreate (world0 o d))) /\
    (forall varType o d,
        idFromAnswer
          (Automation.ID
             (body (o (S (checkOffset d))
                      (Automation.Get (GetString d "resource_group_name")
                         (GetString d "automation_account_name") (GetString d "name")))))
          (fun id => forall parsed,
               ParseAzureResourceID id = inr parsed ->
               isNotFound (o (S (S (checkOffset d)))
                             (Automation.Get (Sdk.ResourceGroup parsed)
                                (PathAt parsed "automationAccounts")
                                (PathAt parsed "variables"))))
          (variableCreate varType (world0 o d))) /\
    (forall o d,
        idFromAnswer
          (ExpressRoute.ID
             (body (o (S (S (checkOffset d)))
                      (ExpressRoute.Get (GetString d "resource_group_name")
                                        (GetString d "name")))))
          (fun id => forall parsed,
               ParseAzureResourceID id = inr parsed ->
               isNotFound (o (S (S (S (checkOffset d))))
                             (ExpressRoute.Get (Sdk.ResourceGroup parsed)
                                (PathAt parsed "expressRouteGateways"))))
          (gatewayCreate (world0 o d))) /\
    (forall o d,
        idFromAnswer
          (DevTestPolicy.ID
             (body (o (S (checkOffset d))
                      (DevTestPolicy.Get (GetString d "resource_group_name")
                         (GetString d "lab_name") (GetString d "policy_set_name")
                         (GetString d "name") ""))))
          (fun id => forall parsed,
               ParseAzureResourceID id = inr parsed ->
               isNotFound (o (S (S (checkOffset d)))
                             (DevTestPolicy.Get (Sdk.ResourceGroup parsed)
                                (PathAt parsed "labs") (PathAt parsed "policysets")
                                (PathAt parsed "policies") "")))
          (policyCreate (world0 o d))) /\
    (* Read of a resource that is there *)
    (forall o d id,
        FirewallRuleID (Id d) = inr id ->
        err (o 0%nat (Sql.Get (Sql.ResourceGroup id) (Sql.ServerName id) (Sql.Name id)))
        = None ->
        Id (data (snd (ruleRead (world0 o d)))) = Id d) /\
    (forall varType o d id,
        ParseAzureResourceID (Id d) = inr id ->
        err (o 0%nat (Automation.Get (Sdk.ResourceGroup id)
                        (PathAt id "automationAccounts") (PathAt id "variables")))
        = None ->
        Id (data (snd (variableRead varType (world0 o d)))) = Id d) /\
    (forall o d id,
        ParseAzureResourceID (Id d) = inr id ->
        err (o 0%nat (ExpressRoute.Get (Sdk.ResourceGroup id)
                        (PathAt id "expressRouteGateways")))
        = None ->
        Id (data (snd (gatewayRead (world0 o d)))) = Id d) /\
    (forall o d id,
        ParseAzureResourceID (Id d) = inr id ->
        err (o 0%nat (DevTestPolicy.Get (Sdk.ResourceGroup id) (PathAt id "labs")
                        (PathAt id "policysets") (PathAt id "policies") ""))
        = None ->
        Id (data (snd (policyRead (world0 o d)))) = Id d) /\
    (forall o d id,
        StorageSyncServiceID (Id d) = inr id ->
        err (o 0%nat (Storage.Get (Storage.ResourceGroup id) (Storage.SyncName id)))
        = None ->
        Id (data (snd (syncRead (world0 o d)))) = Id d).
Proof.
  intros parse hubTag sub nicTag nsgTag fold parseRule parseSync parseDash newDash
         normLoc normNil unmarshal marshal timeParse timeFormat printWide lower
         expand setTags Htags.
  cbv zeta.
  repeat lazymatch goal with |- _ /\ _ => split end.
  - intros o d. exact (proj2 (createUpdate_run parse hubTag sub fold o d)).
  - intros o1 d1 o2 d2 Hhub Hname H1 H2.
    destruct (createUpdate_run parse hubTag sub fold o1 d1) as (_ & _ & K1).
    destruct (createUpdate_run parse hubTag sub fold o2 d2) as (_ & _ & K2).
    destruct (K1 H1) as (id1 & E1 & ->). destruct (K2 H2) as (id2 & E2 & ->).
    rewrite Hhub, E2 in E1. injection E1 as ->. rewrite Hname. reflexivity.
  - intros o d.
    destruct (read_wp parse fold (world0 o d)) as (calls & d' & Hw & _ & Hid & _).
    rewrite Hw. exact Hid.
  - intros o d. split.
    + exact (proj2 (nic_create_run parse nicTag nsgTag o d)).
    + exact (nic_create_success_id parse nicTag nsgTag o d).
  - intros o d nicId nsgId returned. cbv zeta.
    apply (nic_create_sets_joined_id parse nicTag nsgTag o d nicId nsgId returned).
  - intros o d nicID nsgID Hlen Hparse Herr Hprops.
    exact (nic_read_existing parse o d nicID nsgID Hlen Hparse Herr Hprops).
  - intros o d.
    exact (dashboard_create_id parseDash newDash normLoc unmarshal marshal sub expand
             setTags Htags o d).
  - intros o d props id. cbv zeta. intros Hjson Hw Hparse Hr.
    exact (proj1 (dashboard_create_sets_built_id parseDash newDash normLoc unmarshal
                    marshal sub expand setTags Htags o d props id Hjson Hw Hparse Hr)).
  - intros o d id.
    apply (dashboard_read_keeps_id parseDash normLoc marshal setTags Htags).
  - intros o d. apply firewall_create_id.
  - intros varType o d. apply automation_create_id.
  - intros o d. apply (express_route_create_id parse normLoc expand setTags Htags).
  - intros o d. apply (devtest_create_id parse expand setTags Htags).
  - intros o d id. apply firewall_read_keeps_id.
  - intros varType o d id. apply automation_read_keeps_id.
  - intros o d id. apply (express_route_read_keeps_id parse normLoc setTags Htags).
  - intros o d id. apply (devtest_read_keeps_id parse setTags Htags).
  - intros o d id. apply (storage_read_keeps_id parseSync normNil setTags Htags).
Qed.

(** A new endpoint, a new association and an association that exists:
    Create ends with the ID built from the configuration, Read with the
    ID it found. *)
Lemma C6_id_witness :
  let iotCreate :=
    runFn (IotHub.resourceIotHubEndpointServiceBusQueueCreateUpdate
             IdentitySamples.parseKnown "azurerm_iothub" "sub1" IotHubSamples.noWideFold) in
  let nicCreate :=
    runFn (Network.resourceNetworkInterfaceSecurityGroupAssociationCreate
             IdentitySamples.parseKnown "azurerm_network_interface"
             "azurerm_network_security_group") in
  let nicRead :=
    runFn (Network.resourceNetworkInterfaceSecurityGroupAssociationRead
             IdentitySamples.parseKnown) in
  let w := world0 (IotHubSamples.answering AssociationSamples.hubKeeping)
                  AssociationSamples.createEndpointData in
  let u := world0 AssociationCreateSamples.attaching
                  AssociationCreateSamples.newAssociationData in
  let v := world0 AssociationSamples.nicAnswers AssociationSamples.associationData in
  fst (iotCreate w) = Return None /\
  derivedEndpointID (IotHubSamples.answering AssociationSamples.hubKeeping)
    AssociationSamples.createEndpointData (Id (data (snd (iotCreate w)))) /\
  Id (data (snd (iotCreate w))) = IotHubSamples.sampleEndpointResourceID /\
  fst (nicCreate u) = Return None /\
  Id (data (snd (nicCreate u)))
  = AssociationSamples.nicResourceID +:+ "|" +:+ AssociationSamples.nsgResourceID /\
  fst (nicRead v) = Return None /\
  Id (data (snd (nicRead v))) = Id AssociationSamples.associationData.
Proof.
  pose (thm := C6_create_derives_id_and_read_keeps_it
                 IdentitySamples.parseKnown "azurerm_iothub" "sub1"
                 "azurerm_network_interface" "azurerm_network_security_group"
                 IotHubSamples.noWideFold
                 IdentitySamples.parseRuleID NotFoundSamples.parseSyncID
                 DashboardSamples.parseDashboardID DashboardSamples.formatDashboardID
                 (fun l => l) (fun _ => "") DashboardSamples.decode DashboardSamples.encode
                 AutomationSamples.sampleParse NotFoundSamples.formatNothing
                 AutomationSamples.nothingPrints NotFoundSamples.noWideLower
                 TagsSamples.noTags TagsSamples.setNoTags setNoTags_setsTagsOnly).
  destruct thm as (Hiot & _ & _ & _ & Hnic & Hread & _).
  refine (conj _ (conj _ (conj _ _))).
  - vm_compute. reflexivity.
  - exact (proj2 (Hiot (IotHubSamples.answering AssociationSamples.hubKeeping)
                    AssociationSamples.createEndpointData)
             ltac:(vm_compute; reflexivity)).
  - vm_compute. reflexivity.
  - pose proof (Hnic AssociationCreateSamples.attaching
                  AssociationCreateSamples.newAssociationData
                  AssociationSamples.nicID AssociationCreateSamples.nsgID
                  AssociationSamples.nsgResourceID
                  eq_refl eq_refl eq_refl eq_refl eq_refl eq_refl eq_refl eq_refl
                  eq_refl eq_refl) as Hcreated.
    pose proof (Hread AssociationSamples.nicAnswers
                  AssociationSamples.associationData AssociationSamples.nicID
                  AssociationSamples.nsgResourceID
                  ltac:(vm_compute; reflexivity) ltac:(vm_compute; reflexivity)
                  eq_refl eq_refl) as Hkept.
    exact (conj (proj1 Hcreated) (conj (proj2 Hcreated) Hkept)).
Defined.

End IdentityTheorems.

(** * Further properties of the handlers *)

(** ** IoT Hub endpoints: what Create/Update writes *)

Section IotHubWriteFacts.
Import Go IotHub.

Variable ParseAzureResourceID : string -> error + ResourceID.
Variable IothubResourceName : string.
Variable subscriptionID : string.
Variable foldOrbit : Z -> Z -> bool.

(** An entry of the list carries the name [endpointName], up to case. *)
Definition sameName (endpointName : string)
  (endpoint : RoutingServiceBusQueueEndpointProperties) : bool :=
  match Name endpoint with
  | Some existingEndpointName => EqualFold foldOrbit existingEndpointName endpointName
  | None => false
  end.

Definition named (endpoint : RoutingServiceBusQueueEndpointProperties) : bool :=
  match Name endpoint with
  | Some _ => true
  | None => false
  end.

(** The list with the entries without a name left out and every entry of
    the name [endpointName] replaced by [queueEndpoint]. *)
Definition replaced (endpointName : string)
  (queueEndpoint : RoutingServiceBusQueueEndpointProperties)
  (l : list RoutingServiceBusQueueEndpointProperties)
  : list RoutingServiceBusQueueEndpointProperties :=
  List.map (fun e => if sameName endpointName e then queueEndpoint else e)
           (List.filter named l).

(** A hub as the API returns it, with both lists of endpoints. *)
Definition hubOf (iothubID : string)
  (queues : option (list RoutingServiceBusQueueEndpointProperties))
  (eventHubs : option (list RoutingEventHubProperties)) : IotHubDescription :=
  mkIotHub (Some iothubID)
    (Some (mkProperties (Some (mkRouting (Some (mkEndpoints queues eventHubs)))))).

(** The endpoint Create/Update builds from the configuration. *)
Definition configuredEndpoint (d : ResourceData) : RoutingServiceBusQueueEndpointProperties :=
  mkQueueEndpoint (Some (GetString d "connection_string")) (Some (GetString d "name"))
    (Some subscriptionID) (Some (GetString d "resource_group_name")).

(** The list of queues the loop of Create/Update runs over, lines 101 to
    112: the list of the hub when the hub has a routing object with
    endpoints and a list of event hubs, the empty list when one of them
    is nil.  [None]: there is a list of event hubs and no list of queues. *)
Definition queuesInUse (props : IotHubProperties)
  : option (list RoutingServiceBusQueueEndpointProperties) :=
  match Routing props with
  | Some routing =>
      match Endpoints routing with
      | Some routingEndpoints =>
          match EventHubs routingEndpoints with
          | Some _ => ServiceBusQueues routingEndpoints
          | None => Some []
          end
      | None => Some []
      end
  | None => Some []
  end.

Lemma queuesInUse_cases (props : IotHubProperties)
  (l : list RoutingServiceBusQueueEndpointProperties) :
  queuesInUse props = Some l ->
  (exists eventHubs,
      Routing props = Some (mkRouting (Some (mkEndpoints (Some l) (Some eventHubs))))) \/
  (l = [] /\
   (Routing props = None \/
    Routing props = Some (mkRouting None) \/
    exists queues, Routing props = Some (mkRouting (Some (mkEndpoints queues None))))).
Proof.
  unfold queuesInUse. destruct (Routing props) as [[[[queues [eventHubs|]]|]]|]; cbn.
  - intros ->. left. exists eventHubs. reflexivity.
  - intros [= <-]. right. split; [reflexivity|]. right. right. exists queues. reflexivity.
  - intros [= <-]. right. split; [reflexivity|]. right. left. reflexivity.
  - intros [= <-]. right. split; [reflexivity|]. left. reflexivity.
Qed.

Lemma rebuildEndpoints_found (resourceId endpointName : string)
  (queueEndpoint : RoutingServiceBusQueueEndpointProperties)
  (l : list RoutingServiceBusQueueEndpointProperties) :
  forall (endpoints : list RoutingServiceBusQueueEndpointProperties)
         (alreadyExists : bool) (w : World Req IotHubDescription),
    IsNewResource (data w) = true ->
    existsb (sameName endpointName) l = true ->
    rebuildEndpoints foldOrbit resourceId endpointName queueEndpoint l endpoints
      alreadyExists w
    = (Stop (Return (Some (ImportAsExistsError "azurerm_iothub_endpoint_servicebus_queue"
                             resourceId))), w).
Proof.
  induction l as [|e l IH]; intros endpoints alreadyExists w Hnew Hex; [discriminate Hex|].
  cbn [existsb] in Hex. cbn [rebuildEndpoints]. unfold sameName in Hex at 1.
  destruct (Name e) as [n|].
  - destruct (EqualFold foldOrbit n endpointName).
    + unfold bind, get_d. rewrite Hnew. reflexivity.
    + apply IH; assumption.
  - apply IH; assumption.
Qed.

Lemma rebuildEndpoints_pure (resourceId endpointName : string)
  (queueEndpoint : RoutingServiceBusQueueEndpointProperties)
  (l : list RoutingServiceBusQueueEndpointProperties) :
  forall (endpoints : list RoutingServiceBusQueueEndpointProperties)
         (alreadyExists : bool) (w : World Req IotHubDescription),
    (IsNewResource (data w) = true -> existsb (sameName endpointName) l = false) ->
    rebuildEndpoints foldOrbit resourceId endpointName queueEndpoint l endpoints
      alreadyExists w
    = (Next ((endpoints ++ replaced endpointName queueEndpoint l)%list,
             alreadyExists || existsb (sameName endpointName) l), w).
Proof.
  induction l as [|e l IH]; intros endpoints alreadyExists w Hnew.
  { cbn [rebuildEndpoints replaced List.filter List.map existsb].
    rewrite app_nil_r, orb_false_r. reflexivity. }
  cbn [rebuildEndpoints existsb] in Hnew |- *.
  unfold replaced in IH |- *. cbn [List.filter].
  assert (Hs : sameName endpointName e
               = match Name e with
                 | Some n => EqualFold foldOrbit n endpointName
                 | None => false
                 end) by reflexivity.
  assert (Hnamed : named e = match Name e with Some _ => true | None => false end)
    by reflexivity.
  rewrite Hnamed. rewrite Hs in Hnew |- *.
  destruct (Name e) as [n|] eqn:Hn.
  - cbn [List.map]. rewrite Hs.
    destruct (EqualFold foldOrbit n endpointName) eqn:Hfold.
    + unfold bind, get_d.
      destruct (IsNewResource (data w)) eqn:Hd; [specialize (Hnew eq_refl); discriminate Hnew|].
      rewrite IH by (intros H; rewrite Hd in H; discriminate H).
      rewrite <- app_assoc, orb_true_r. reflexivity.
    + rewrite IH by exact Hnew. rewrite <- app_assoc. reflexivity.
  - rewrite IH by exact Hnew. reflexivity.
Qed.

End IotHubWriteFacts.

Section IotHubWriteTheorems.
Import Go IotHub.

Variable ParseAzureResourceID : string -> error + ResourceID.
Variable IothubResourceName : string.
Variable subscriptionID : string.
Variable foldOrbit : Z -> Z -> bool.

(** X1: Create of an endpoint whose name, up to case, is the name of an
    entry of the list of queues the handler works on ends in the "already
    exists" error; the hub is read under the lock and nothing is written.
    The list the handler works on is the hub's list of queues when the
    hub has a list of event hub endpoints, and the empty list otherwise:
    without that list no name is taken. *)
Theorem iot_create_existing_name_is_import_error
  (o : nat -> Req -> Answer IotHubDescription) (d : ResourceData) (iothubID : string)
  (props : IotHubProperties) (l : list RoutingServiceBusQueueEndpointProperties) :
  let resourceGroup := GetString d "resource_group_name" in
  let iothubName := GetString d "iothub_name" in
  let iothub := o 0%nat (Get resourceGroup iothubName) in
  IsNewResource d = true ->
  err iothub = None ->
  ID (body iothub) = Some iothubID ->
  Properties (body iothub) = Some props ->
  queuesInUse props = Some l ->
  existsb (sameName foldOrbit (GetString d "name")) l = true ->
  let out := runFn (resourceIotHubEndpointServiceBusQueueCreateUpdate
                      ParseAzureResourceID IothubResourceName subscriptionID foldOrbit)
                   (world0 o d) in
  fst out = Return (Some (ImportAsExistsError "azurerm_iothub_endpoint_servicebus_queue"
                            (iothubID +:+ "/Endpoints/" +:+ GetString d "name"))) /\
  events (snd out) = [EvLock iothubName IothubResourceName;
                      EvCall (Get resourceGroup iothubName);
                      EvUnlock iothubName IothubResourceName] /\
  data (snd out) = d.
Proof.
  intros rg hub iothub Hnew Herr Hid Hprops Hl Hex out. subst out iothub.
  apply (wpFn_body _ (fun x w' =>
           x = Return (Some (ImportAsExistsError "azurerm_iothub_endpoint_servicebus_queue"
                               (iothubID +:+ "/Endpoints/" +:+ GetString d "name"))) /\
           events w' = [EvLock hub IothubResourceName; EvCall (Get rg hub);
                        EvUnlock hub IothubResourceName] /\
           data w' = d)).
  unfold resourceIotHubEndpointServiceBusQueueCreateUpdate, world0. wp_norm.
  do 8 wp_step.
  fold rg hub. rewrite Herr, Hid, Hprops.
  destruct (queuesInUse_cases props l Hl) as [(eventHubs & Hr) | (-> & _)];
    [|discriminate Hex].
  rewrite Hr. cbn [Endpoints EventHubs ServiceBusQueues].
  apply wp_bind. unfold wp at 1.
  rewrite rebuildEndpoints_found by (wp_norm; assumption).
  cbn [fst snd]. wp_norm. repeat split.
Qed.

(** X2: Update of an endpoint whose name is the name of no entry of the
    list of queues the handler works on ends in an error; the hub is
    read under the lock and nothing is written.  That list is the hub's
    list of queues when the hub has a list of event hub endpoints, and
    the empty list otherwise, so that without a list of event hub
    endpoints every Update ends in this error. *)
Theorem iot_update_unknown_name_is_error
  (o : nat -> Req -> Answer IotHubDescription) (d : ResourceData) (iothubID : string)
  (props : IotHubProperties) (l : list RoutingServiceBusQueueEndpointProperties) :
  let resourceGroup := GetString d "resource_group_name" in
  let iothubName := GetString d "iothub_name" in
  let iothub := o 0%nat (Get resourceGroup iothubName) in
  IsNewResource d = false ->
  err iothub = None ->
  ID (body iothub) = Some iothubID ->
  Properties (body iothub) = Some props ->
  queuesInUse props = Some l ->
  existsb (sameName foldOrbit (GetString d "name")) l = false ->
  let out := runFn (resourceIotHubEndpointServiceBusQueueCreateUpdate
                      ParseAzureResourceID IothubResourceName subscriptionID foldOrbit)
                   (world0 o d) in
  fst out = Return (Some (Errorf "Unable to find ServiceBus Queue Endpoint %q defined for IotHub %q (Resource Group %q)" None)) /\
  events (snd out) = [EvLock iothubName IothubResourceName;
                      EvCall (Get resourceGroup iothubName);
                      EvUnlock iothubName IothubResourceName] /\
  data (snd out) = d.
Proof.
  intros rg hub iothub Hnew Herr Hid Hprops Hl Hex out. subst out iothub.
  apply (wpFn_body _ (fun x w' =>
           x = Return (Some (Errorf "Unable to find ServiceBus Queue Endpoint %q defined for IotHub %q (Resource Group %q)" None)) /\
           events w' = [EvLock hub IothubResourceName; EvCall (Get rg hub);
                        EvUnlock hub IothubResourceName] /\
           data w' = d)).
  unfold resourceIotHubEndpointServiceBusQueueCreateUpdate, world0. wp_norm.
  do 8 wp_step.
  fold rg hub. rewrite Herr, Hid, Hprops.
  destruct (queuesInUse_cases props l Hl)
    as [(eventHubs & Hr) | (-> & [Hr | [Hr | (queues & Hr)]])];
    rewrite Hr; cbn [Endpoints EventHubs ServiceBusQueues];
    (apply wp_bind; unfold wp at 1;
     rewrite rebuildEndpoints_pure by (wp_norm; intros H; rewrite Hnew in H; discriminate H);
     cbn [fst snd]; rewrite Hex, Hnew; cbn [orb negb];
     wp_step; wp_step; repeat split).
Qed.

(** X3: What Create/Update writes when the hub has both lists of endpoints:
    the hub as read, its list of queues replaced by the entries that have
    a name, in their order, with every entry of the configured name
    replaced by the configured endpoint (Update) or with the configured
    endpoint added at the end (Create). *)
Theorem iot_create_update_writes_rebuilt_list
  (o : nat -> Req -> Answer IotHubDescription) (d : ResourceData) (iothubID : string)
  (l : list RoutingServiceBusQueueEndpointProperties)
  (eventHubs : list RoutingEventHubProperties) :
  let resourceGroup := GetString d "resource_group_name" in
  let iothubName := GetString d "iothub_name" in
  let endpointName := GetString d "name" in
  let iothub := o 0%nat (Get resourceGroup iothubName) in
  err iothub = None ->
  body iothub = hubOf iothubID (Some l) (Some eventHubs) ->
  existsb (sameName foldOrbit endpointName) l = negb (IsNewResource d) ->
  let queueEndpoint := configuredEndpoint subscriptionID d in
  let written :=
    if IsNewResource d
    then (replaced foldOrbit endpointName queueEndpoint l ++ [queueEndpoint])%list
    else replaced foldOrbit endpointName queueEndpoint l in
  let out := runFn (resourceIotHubEndpointServiceBusQueueCreateUpdate
                      ParseAzureResourceID IothubResourceName subscriptionID foldOrbit)
                   (world0 o d) in
  exists rest,
    events (snd out)
    = EvLock iothubName IothubResourceName
      :: EvCall (Get resourceGroup iothubName)
      :: EvCall (CreateOrUpdate resourceGroup iothubName
                   (hubOf iothubID (Some written) (Some eventHubs)))
      :: rest.
Proof.
  intros rg hub name iothub Herr Hbody Hex q written out. subst out iothub.
  apply (wpFn_body _ (fun x w' =>
           exists rest,
             events w'
             = EvLock hub IothubResourceName :: EvCall (Get rg hub)
               :: EvCall (CreateOrUpdate rg hub (hubOf iothubID (Some written) (Some eventHubs)))
               :: rest)).
  unfold resourceIotHubEndpointServiceBusQueueCreateUpdate, world0. wp_norm.
  do 8 wp_step.
  fold rg hub name. rewrite Herr, Hbody. unfold hubOf.
  cbn [ID Properties Routing Endpoints EventHubs ServiceBusQueues].
  apply wp_bind. unfold wp at 1.
  rewrite rebuildEndpoints_pure
    by (wp_norm; intros H; rewrite H in Hex; exact Hex).
  cbn [fst snd]. rewrite Hex. cbn [orb app].
  change (mkQueueEndpoint _ _ _ _) with q. subst written.
  destruct (IsNewResource d); cbn [negb].
  all: repeat wp_step.
  all: try (eexists; reflexivity).
  all: (eapply wpFn_mono; [apply read_wp|]); cbv beta.
  all: intros x w' (calls & d' & -> & _ & _ & Hx).
  all: (destruct x as [e|]; [|contradiction]); repeat wp_step.
  all: eexists; reflexivity.
Qed.

(** X4: When the hub has no list of event hub endpoints, the handler starts
    from an empty list of queues whatever the hub has: Create writes a
    list that holds the configured endpoint alone, and Update does not
    find its endpoint. *)
Theorem iot_create_without_event_hubs_starts_from_empty_list
  (o : nat -> Req -> Answer IotHubDescription) (d : ResourceData) (iothubID : string)
  (queues : option (list RoutingServiceBusQueueEndpointProperties)) :
  let resourceGroup := GetString d "resource_group_name" in
  let iothubName := GetString d "iothub_name" in
  let iothub := o 0%nat (Get resourceGroup iothubName) in
  err iothub = None ->
  body iothub = hubOf iothubID queues None ->
  let out := runFn (resourceIotHubEndpointServiceBusQueueCreateUpdate
                      ParseAzureResourceID IothubResourceName subscriptionID foldOrbit)
                   (world0 o d) in
  (IsNewResource d = true ->
   exists rest,
     events (snd out)
     = EvLock iothubName IothubResourceName
       :: EvCall (Get resourceGroup iothubName)
       :: EvCall (CreateOrUpdate resourceGroup iothubName
                    (hubOf iothubID (Some [configuredEndpoint subscriptionID d]) None))
       :: rest) /\
  (IsNewResource d = false ->
   fst out = Return (Some (Errorf "Unable to find ServiceBus Queue Endpoint %q defined for IotHub %q (Resource Group %q)" None)) /\
   events (snd out) = [EvLock iothubName IothubResourceName;
                       EvCall (Get resourceGroup iothubName);
                       EvUnlock iothubName IothubResourceName]).
Proof.
  intros rg hub iothub Herr Hbody out. subst out iothub.
  apply (wpFn_body _ (fun x w' =>
    (IsNewResource d = true ->
     exists rest,
       events w'
       = EvLock hub IothubResourceName :: EvCall (Get rg hub)
         :: EvCall (CreateOrUpdate rg hub
                      (hubOf iothubID (Some [configuredEndpoint subscriptionID d]) None))
         :: rest) /\
    (IsNewResource d = false ->
     x = Return (Some (Errorf "Unable to find ServiceBus Queue Endpoint %q defined for IotHub %q (Resource Group %q)" None)) /\
     events w' = [EvLock hub IothubResourceName; EvCall (Get rg hub);
                  EvUnlock hub IothubResourceName]))).
  unfold resourceIotHubEndpointServiceBusQueueCreateUpdate, world0. wp_norm.
  do 8 wp_step.
  fold rg hub. rewrite Herr, Hbody. unfold hubOf.
  cbn [ID Properties Routing Endpoints EventHubs ServiceBusQueues].
  cbn [rebuildEndpoints].
  destruct (IsNewResource d) eqn:Hnew.
  all: repeat wp_step.
  all: try match goal with H : negb false = false |- _ => discriminate H end.
  all: try (split; [intros _; eexists; reflexivity | intros H; discriminate H]).
  all: try (split; [intros H; discriminate H | intros _; split; reflexivity]).
  all: (eapply wpFn_mono; [apply read_wp|]); cbv beta.
  all: intros x w' (calls & d' & -> & _ & _ & Hx).
  all: (destruct x as [e|]; [|contradiction]); repeat wp_step.
  all: split; [intros _; eexists; reflexivity | intros H; discriminate H].
Qed.

(** X5: When the hub has no routing object, the handler builds one of its own
    that the hub does not point to: the hub goes back to the API as it was
    read, without the configured endpoint. *)
Theorem iot_create_without_routing_writes_hub_unchanged
  (o : nat -> Req -> Answer IotHubDescription) (d : ResourceData) (iothubID : string) :
  let resourceGroup := GetString d "resource_group_name" in
  let iothubName := GetString d "iothub_name" in
  let iothub := o 0%nat (Get resourceGroup iothubName) in
  IsNewResource d = true ->
  err iothub = None ->
  body iothub = mkIotHub (Some iothubID) (Some (mkProperties None)) ->
  let out := runFn (resourceIotHubEndpointServiceBusQueueCreateUpdate
                      ParseAzureResourceID IothubResourceName subscriptionID foldOrbit)
                   (world0 o d) in
  exists rest,
    events (snd out)
    = EvLock iothubName IothubResourceName
      :: EvCall (Get resourceGroup iothubName)
      :: EvCall (CreateOrUpdate resourceGroup iothubName
                   (mkIotHub (Some iothubID) (Some (mkProperties None))))
      :: rest.
Proof.
  intros rg hub iothub Hnew Herr Hbody out. subst out iothub.
  apply (wpFn_body _ (fun x w' =>
     exists rest,
       events w'
       = EvLock hub IothubResourceName :: EvCall (Get rg hub)
         :: EvCall (CreateOrUpdate rg hub (mkIotHub (Some iothubID) (Some (mkProperties None))))
         :: rest)).
  unfold resourceIotHubEndpointServiceBusQueueCreateUpdate, world0. wp_norm.
  do 8 wp_step.
  fold rg hub. rewrite Herr, !Hbody.
  cbn [ID Properties Routing Endpoints EventHubs ServiceBusQueues].
  cbn [rebuildEndpoints]. rewrite Hnew.
  repeat wp_step.
  all: try (eexists; reflexivity).
  all: (eapply wpFn_mono; [apply read_wp|]); cbv beta.
  all: intros x w' (calls & d' & -> & _ & _ & Hx).
  all: (destruct x as [e|]; [|contradiction]); repeat wp_step.
  all: eexists; reflexivity.
Qed.

End IotHubWriteTheorems.

(** ** IoT Hub endpoints: what Read takes from the hub *)

Section IotHubReadFacts.
Import Go IotHub.

Variable ParseAzureResourceID : string -> error + ResourceID.
Variable foldOrbit : Z -> Z -> bool.

(** The value of [connection_string] after the loop of Read over the
    entries [l], starting from [current]. *)
Definition connectionStringAfter (endpointName : string)
  (l : list RoutingServiceBusQueueEndpointProperties) (current : option Value)
  : option Value :=
  match last (List.filter (sameName foldOrbit endpointName) l) with
  | Some endpoint => Some (VStringPtr (ConnectionString endpoint))
  | None => current
  end.

Lemma setConnectionString_run (endpointName : string)
  (l : list RoutingServiceBusQueueEndpointProperties) :
  forall (o : nat -> Req -> Answer IotHubDescription) (n : nat)
         (evs : list (Event Req)) (ds : list Deferred) (d : ResourceData),
  exists f,
    setConnectionString foldOrbit endpointName l (mkWorld o n evs ds d)
    = (Next tt, mkWorld o n evs ds (mkResourceData (Id d) (IsNewResource d) f)) /\
    f !! "connection_string"
    = connectionStringAfter endpointName l (fields d !! "connection_string") /\
    forall key, key <> "connection_string" -> f !! key = fields d !! key.
Proof.
  induction l as [|e l IH]; intros o n evs ds d.
  { exists (fields d). destruct d. split; [reflexivity|]. split; [reflexivity|]. auto. }
  cbn [setConnectionString]. unfold connectionStringAfter. cbn [List.filter].
  assert (Hs : sameName foldOrbit endpointName e
               = match Name e with
                 | Some n => EqualFold foldOrbit n endpointName
                 | None => false
                 end) by reflexivity.
  rewrite Hs.
  destruct (Name e) as [nm|].
  - destruct (EqualFold foldOrbit nm endpointName).
    + unfold bind at 1. unfold Set_ at 1, put_d. cbn [data oracle ncalls events deferred].
      destruct (IH o n evs ds
                  (mkResourceData (Id d) (IsNewResource d)
                     (<["connection_string" := VStringPtr (ConnectionString e)]> (fields d))))
        as (f & Hrun & Hcs & Hother).
      exists f. cbn [Id IsNewResource fields] in *. split; [exact Hrun|]. split.
      * rewrite Hcs. unfold connectionStringAfter. rewrite lookup_insert_eq.
        rewrite last_cons.
        destruct (last (List.filter (sameName foldOrbit endpointName) l)); reflexivity.
      * intros key Hkey. rewrite Hother by exact Hkey.
        apply lookup_insert_ne. congruence.
    + unfold bind at 1, ret at 1. apply IH.
  - unfold bind at 1, ret at 1. apply IH.
Qed.

(** X6: Read of an endpoint of a hub that is there: the three names come from
    the ID, the ID stays, and [connection_string] is that of the last
    entry of the hub's list of queues whose name is, up to case, the name
    of the endpoint; with no such entry the field keeps its value. *)
Theorem iot_read_takes_connection_string_of_last_match
  (o : nat -> Req -> Answer IotHubDescription) (d : ResourceData) (id : ResourceID) :
  ParseAzureResourceID (Id d) = inr id ->
  let resourceGroup := Sdk.ResourceGroup id in
  let iothubName := PathAt id "IotHubs" in
  let endpointName := PathAt id "Endpoints" in
  let iothub := o 0%nat (Get resourceGroup iothubName) in
  err iothub = None ->
  let l := match queuesOf (body iothub) with Some l => l | None => [] end in
  let out := runFn (resourceIotHubEndpointServiceBusQueueRead ParseAzureResourceID foldOrbit)
                   (world0 o d) in
  fst out = Return None /\
  Id (data (snd out)) = Id d /\
  fields (data (snd out)) !! "name" = Some (VString endpointName) /\
  fields (data (snd out)) !! "iothub_name" = Some (VString iothubName) /\
  fields (data (snd out)) !! "resource_group_name" = Some (VString resourceGroup) /\
  fields (data (snd out)) !! "connection_string"
  = connectionStringAfter endpointName l (fields d !! "connection_string").
Proof.
  intros Hid rg hub name iothub Herr l out. subst out iothub.
  apply (wpFn_body _ (fun x w' =>
    x = Return None /\ Id (data w') = Id d /\
    fields (data w') !! "name" = Some (VString name) /\
    fields (data w') !! "iothub_name" = Some (VString hub) /\
    fields (data w') !! "resource_group_name" = Some (VString rg) /\
    fields (data w') !! "connection_string"
    = connectionStringAfter name l (fields d !! "connection_string"))).
  unfold resourceIotHubEndpointServiceBusQueueRead, world0. wp_norm.
  wp_step. wp_step. rewrite Hid. wp_step. wp_step. fold rg hub name. rewrite Herr.
  do 6 wp_step.
  subst l. unfold queuesOf.
  destruct (Properties (body (o 0%nat (Get rg hub)))) as [props|];
    [destruct (Routing props) as [routing|];
     [destruct (Endpoints routing) as [eps|];
      [destruct (ServiceBusQueues eps) as [l|] |] |] |].
  2-5: repeat wp_step; unfold connectionStringAfter; cbn [List.filter last];
       refine (conj eq_refl (conj eq_refl (conj _ (conj _ (conj _ _)))));
       repeat (rewrite lookup_insert_ne by discriminate);
       rewrite ?lookup_insert_eq; reflexivity.
  wp_step. unfold wp at 1.
  match goal with
  | |- context [setConnectionString _ _ _ (mkWorld ?o ?n ?evs ?ds ?d0)] =>
      destruct (setConnectionString_run name l o n evs ds d0) as (f & -> & Hcs & Hother)
  end.
  cbn [fst snd Id IsNewResource fields] in *. wp_step. wp_norm.
  refine (conj eq_refl (conj eq_refl (conj _ (conj _ (conj _ _))))).
  1-3: rewrite Hother by discriminate;
       repeat (rewrite lookup_insert_ne by discriminate);
       rewrite ?lookup_insert_eq; reflexivity.
  rewrite Hcs. repeat (rewrite lookup_insert_ne by discriminate). reflexivity.
Qed.

End IotHubReadFacts.

(** *** The IoT Hub theorems at sample hubs *)

Module IotHubWriteSamples.
Import IotHub IotHubSamples.

Definition fullHub : IotHubDescription :=
  hubWith (mkEndpoints (Some sampleQueues) (Some [])).

Definition fullProperties : IotHubProperties :=
  mkProperties (Some (mkRouting (Some (mkEndpoints (Some sampleQueues) (Some []))))).

Definition hubWithoutEventHubs : IotHubDescription :=
  hubWith (mkEndpoints (Some sampleQueues) None).

Definition hubWithoutRouting : IotHubDescription :=
  mkIotHub (Some sampleHubID) (Some (mkProperties None)).

(** The endpoint [q1], known to the state, of which the hub knows nothing. *)
Definition staleEndpointData : ResourceData :=
  mkResourceData (sampleHubID +:+ "/Endpoints/q1") false (fields newEndpointData).

End IotHubWriteSamples.

Lemma iot_create_existing_name_witness :
  fst (runFn (IotHub.resourceIotHubEndpointServiceBusQueueCreateUpdate
                AssociationSamples.parseBoth "azurerm_iothub" "sub1" IotHubSamples.noWideFold)
             (world0 (IotHubSamples.answering IotHubWriteSamples.fullHub)
                     AssociationSamples.createEndpointData))
  = Return (Some (ImportAsExistsError "azurerm_iothub_endpoint_servicebus_queue"
                    (IotHubSamples.sampleHubID +:+ "/Endpoints/" +:+ "gone"))).
Proof.
  exact (proj1 (iot_create_existing_name_is_import_error
                  AssociationSamples.parseBoth "azurerm_iothub" "sub1"
                  IotHubSamples.noWideFold
                  (IotHubSamples.answering IotHubWriteSamples.fullHub)
                  AssociationSamples.createEndpointData IotHubSamples.sampleHubID
                  IotHubWriteSamples.fullProperties IotHubSamples.sampleQueues
                  eq_refl eq_refl eq_refl eq_refl eq_refl eq_refl)).
Defined.

Lemma iot_update_unknown_name_witness :
  fst (runFn (IotHub.resourceIotHubEndpointServiceBusQueueCreateUpdate
                AssociationSamples.parseBoth "azurerm_iothub" "sub1" IotHubSamples.noWideFold)
             (world0 (IotHubSamples.answering IotHubWriteSamples.fullHub)
                     IotHubWriteSamples.staleEndpointData))
  = Return (Some (Errorf "Unable to find ServiceBus Queue Endpoint %q defined for IotHub %q (Resource Group %q)" None)).
Proof.
  exact (proj1 (iot_update_unknown_name_is_error
                  AssociationSamples.parseBoth "azurerm_iothub" "sub1"
                  IotHubSamples.noWideFold
                  (IotHubSamples.answering IotHubWriteSamples.fullHub)
                  IotHubWriteSamples.staleEndpointData IotHubSamples.sampleHubID
                  IotHubWriteSamples.fullProperties IotHubSamples.sampleQueues
                  eq_refl eq_refl eq_refl eq_refl eq_refl eq_refl)).
Defined.

Lemma iot_create_update_writes_rebuilt_list_witness :
  exists rest,
    events (snd (runFn (IotHub.resourceIotHubEndpointServiceBusQueueCreateUpdate
                          AssociationSamples.parseBoth "azurerm_iothub" "sub1"
                          IotHubSamples.noWideFold)
                       (world0 (IotHubSamples.answering AssociationSamples.hubKeeping)
                               AssociationSamples.createEndpointData)))
    = EvLock "hub1" "azurerm_iothub"
      :: EvCall (IotHub.Get "rg1" "hub1")
      :: EvCall (IotHub.CreateOrUpdate "rg1" "hub1"
                   (hubOf IotHubSamples.sampleHubID
                      (Some [IotHubSamples.keptEndpoint;
                             configuredEndpoint "sub1" AssociationSamples.createEndpointData])
                      (Some [])))
      :: rest.
Proof.
  exact (iot_create_update_writes_rebuilt_list
           AssociationSamples.parseBoth "azurerm_iothub" "sub1" IotHubSamples.noWideFold
           (IotHubSamples.answering AssociationSamples.hubKeeping)
           AssociationSamples.createEndpointData IotHubSamples.sampleHubID
           [IotHubSamples.keptEndpoint] [] eq_refl eq_refl eq_refl).
Defined.

Lemma iot_create_without_event_hubs_witness :
  exists rest,
    events (snd (runFn (IotHub.resourceIotHubEndpointServiceBusQueueCreateUpdate
                          AssociationSamples.parseBoth "azurerm_iothub" "sub1"
                          IotHubSamples.noWideFold)
                       (world0 (IotHubSamples.answering IotHubWriteSamples.hubWithoutEventHubs)
                               AssociationSamples.createEndpointData)))
    = EvLock "hub1" "azurerm_iothub"
      :: EvCall (IotHub.Get "rg1" "hub1")
      :: EvCall (IotHub.CreateOrUpdate "rg1" "hub1"
                   (hubOf IotHubSamples.sampleHubID
                      (Some [configuredEndpoint "sub1" AssociationSamples.createEndpointData])
                      None))
      :: rest.
Proof.
  exact (proj1 (iot_create_without_event_hubs_starts_from_empty_list
                  AssociationSamples.parseBoth "azurerm_iothub" "sub1"
                  IotHubSamples.noWideFold
                  (IotHubSamples.answering IotHubWriteSamples.hubWithoutEventHubs)
                  AssociationSamples.createEndpointData IotHubSamples.sampleHubID
                  (Some IotHubSamples.sampleQueues) eq_refl eq_refl) eq_refl).
Defined.

Lemma iot_create_without_routing_witness :
  exists rest,
    events (snd (runFn (IotHub.resourceIotHubEndpointServiceBusQueueCreateUpdate
                          AssociationSamples.parseBoth "azurerm_iothub" "sub1"
                          IotHubSamples.noWideFold)
                       (world0 (IotHubSamples.answering IotHubWriteSamples.hubWithoutRouting)
                               AssociationSamples.createEndpointData)))
    = EvLock "hub1" "azurerm_iothub"
      :: EvCall (IotHub.Get "rg1" "hub1")
      :: EvCall (IotHub.CreateOrUpdate "rg1" "hub1" IotHubWriteSamples.hubWithoutRouting)
      :: rest.
Proof.
  exact (iot_create_without_routing_writes_hub_unchanged
           AssociationSamples.parseBoth "azurerm_iothub" "sub1" IotHubSamples.noWideFold
           (IotHubSamples.answering IotHubWriteSamples.hubWithoutRouting)
           AssociationSamples.createEndpointData IotHubSamples.sampleHubID
           eq_refl eq_refl eq_refl).
Defined.

Lemma iot_read_connection_string_witness :
  fields (data (snd (runFn (IotHub.resourceIotHubEndpointServiceBusQueueRead
                              IotHubSamples.sampleParse IotHubSamples.noWideFold)
                           (world0 (IotHubSamples.answering IotHubWriteSamples.fullHub)
                                   IotHubSamples.sampleEndpointData))))
    !! "connection_string"
  = Some (VString "Endpoint=sb://g/;EntityPath=g").
Proof.
  exact (proj2 (proj2 (proj2 (proj2 (proj2
           (iot_read_takes_connection_string_of_last_match
              IotHubSamples.sampleParse IotHubSamples.noWideFold
              (IotHubSamples.answering IotHubWriteSamples.fullHub)
              IotHubSamples.sampleEndpointData IotHubSamples.sampleEndpointID
              eq_refl eq_refl)))))).
Defined.

(** ** Network interface associations: Create *)

Section NetworkCreateFacts.
Import Go Network Spec.

Variable ParseAzureResourceID : string -> error + ResourceID.
Variable networkInterfaceResourceName : string.
Variable networkSecurityGroupResourceName : string.

Ltac solve_two_locks :=
  rewrite <- ?app_assoc; cbn [app];
  lazymatch goal with
  | |- exists calls, _ :: _ :: ?rest = _ /\ _ =>
      let c := strip_last2 rest in
      exists c; split; [reflexivity | cbn; first [reflexivity | assumption]]
  end.

(** X7: Create takes two locks, the one of the interface and inside it the
    one of the security group: once both IDs of the configuration parse,
    every run is lock, lock, requests only, unlock, unlock, the locks
    released in reverse order however the run ends. *)
Theorem nic_create_holds_both_locks
  (o : nat -> Req -> Answer Interface) (d : ResourceData) (nicId nsgId : ResourceID) :
  ParseAzureResourceID (GetString d "network_interface_id") = inr nicId ->
  ParseAzureResourceID (GetString d "network_security_group_id") = inr nsgId ->
  let networkInterfaceName := PathAt nicId "networkInterfaces" in
  let nsgName := PathAt nsgId "networkSecurityGroups" in
  let out := runFn (resourceNetworkInterfaceSecurityGroupAssociationCreate
                      ParseAzureResourceID networkInterfaceResourceName
                      networkSecurityGroupResourceName)
                   (world0 o d) in
  exists calls,
    events (snd out)
    = EvLock networkInterfaceName networkInterfaceResourceName
      :: EvLock nsgName networkSecurityGroupResourceName
      :: calls ++ [EvUnlock nsgName networkSecurityGroupResourceName;
                   EvUnlock networkInterfaceName networkInterfaceResourceName] /\
    onlyCalls calls = true.
Proof.
  intros Hnic Hnsg nic nsg out. subst out.
  apply (wpFn_body _ (fun x w' =>
    exists calls,
      events w'
      = EvLock nic networkInterfaceResourceName
        :: EvLock nsg networkSecurityGroupResourceName
        :: calls ++ [EvUnlock nsg networkSecurityGroupResourceName;
                     EvUnlock nic networkInterfaceResourceName] /\
      onlyCalls calls = true)).
  unfold resourceNetworkInterfaceSecurityGroupAssociationCreate, world0.
  wp_norm. wp_step. wp_step. rewrite Hnic. do 4 wp_step. rewrite Hnsg.
  fold nic nsg.
  repeat wp_step.
  all: try solve [solve_two_locks].
  all: eapply wpFn_mono; [apply nic_read_wp|]; cbv beta;
    intros x w' (calls & d' & -> & Hc & Hid & Hx);
    destruct x as [e'|]; [|contradiction]; repeat wp_step; solve_two_locks.
Qed.

(** X8: Create for an interface that has a security group attached ends in
    the "already exists" error; the interface is read under the two locks
    and nothing is written. *)
Theorem nic_create_attached_interface_is_import_error
  (o : nat -> Req -> Answer Interface) (d : ResourceData) (nicId nsgId : ResourceID)
  (props : InterfacePropertiesFormat) (attached : SecurityGroup) :
  let networkInterfaceId := GetString d "network_interface_id" in
  let networkSecurityGroupId := GetString d "network_security_group_id" in
  ParseAzureResourceID networkInterfaceId = inr nicId ->
  ParseAzureResourceID networkSecurityGroupId = inr nsgId ->
  let networkInterfaceName := PathAt nicId "networkInterfaces" in
  let nsgName := PathAt nsgId "networkSecurityGroups" in
  let get := Get (Sdk.ResourceGroup nicId) networkInterfaceName "" in
  err (o 0%nat get) = None ->
  Properties (body (o 0%nat get)) = Some props ->
  NetworkSecurityGroup props = Some attached ->
  let out := runFn (resourceNetworkInterfaceSecurityGroupAssociationCreate
                      ParseAzureResourceID networkInterfaceResourceName
                      networkSecurityGroupResourceName)
                   (world0 o d) in
  fst out = Return (Some (ImportAsExistsError
                            "azurerm_network_interface_security_group_association"
                            (networkInterfaceId +:+ "|" +:+ networkSecurityGroupId))) /\
  events (snd out)
  = [EvLock networkInterfaceName networkInterfaceResourceName;
     EvLock nsgName networkSecurityGroupResourceName;
     EvCall get;
     EvUnlock nsgName networkSecurityGroupResourceName;
     EvUnlock networkInterfaceName networkInterfaceResourceName] /\
  data (snd out) = d.
Proof.
  intros nicS nsgS Hnic Hnsg nic nsg get Herr Hprops Hatt out. subst out.
  apply (wpFn_body _ (fun x w' =>
    x = Return (Some (ImportAsExistsError
                        "azurerm_network_interface_security_group_association"
                        (nicS +:+ "|" +:+ nsgS))) /\
    events w'
    = [EvLock nic networkInterfaceResourceName;
       EvLock nsg networkSecurityGroupResourceName;
       EvCall get;
       EvUnlock nsg networkSecurityGroupResourceName;
       EvUnlock nic networkInterfaceResourceName] /\
    data w' = d)).
  unfold resourceNetworkInterfaceSecurityGroupAssociationCreate, world0.
  wp_norm. wp_step. wp_step. fold nicS nsgS. rewrite Hnic. do 4 wp_step. rewrite Hnsg.
  fold nic nsg. do 6 wp_step. fold get. rewrite Herr, Hprops, Hatt.
  wp_step. repeat split.
Qed.

(** X9: The ID Create sets is the one Read understands: when neither ID of
    the configuration holds a [|], a Create whose requests all succeed
    reads the interface back under the ID it has set, ends without an
    error, and leaves in the state the ID of the interface and of the
    security group as the API returned them. *)
Theorem nic_create_then_read_back
  (o : nat -> Req -> Answer Interface) (d : ResourceData) (nicId nsgId : ResourceID)
  (returned : string) :
  let networkInterfaceId := GetString d "network_interface_id" in
  let networkSecurityGroupId := GetString d "network_security_group_id" in
  contains networkInterfaceId "|" = false ->
  contains networkSecurityGroupId "|" = false ->
  ParseAzureResourceID networkInterfaceId = inr nicId ->
  ParseAzureResourceID networkSecurityGroupId = inr nsgId ->
  let networkInterfaceName := PathAt nicId "networkInterfaces" in
  let nsgName := PathAt nsgId "networkSecurityGroups" in
  let resourceGroup := Sdk.ResourceGroup nicId in
  let get := Get resourceGroup networkInterfaceName "" in
  let update :=
    CreateOrUpdate resourceGroup networkInterfaceName
      (mkInterface (ID (body (o 0%nat get)))
         (Some (mkInterfaceProperties (Some (mkSecurityGroup (Some networkSecurityGroupId)))))) in
  err (o 0%nat get) = None ->
  Properties (body (o 0%nat get)) = Some (mkInterfaceProperties None) ->
  err (o 1%nat update) = None ->
  err (o 2%nat WaitForCompletionRef) = None ->
  err (o 3%nat get) = None ->
  Properties (body (o 3%nat get))
  = Some (mkInterfaceProperties (Some (mkSecurityGroup (Some returned)))) ->
  let out := runFn (resourceNetworkInterfaceSecurityGroupAssociationCreate
                      ParseAzureResourceID networkInterfaceResourceName
                      networkSecurityGroupResourceName)
                   (world0 o d) in
  fst out = Return None /\
  Id (data (snd out)) = networkInterfaceId +:+ "|" +:+ networkSecurityGroupId /\
  fields (data (snd out)) !! "network_interface_id"
  = Some (VStringPtr (ID (body (o 3%nat get)))) /\
  fields (data (snd out)) !! "network_security_group_id" = Some (VString returned) /\
  events (snd out)
  = [EvLock networkInterfaceName networkInterfaceResourceName;
     EvLock nsgName networkSecurityGroupResourceName;
     EvCall get; EvCall update; EvCall WaitForCompletionRef; EvCall get;
     EvUnlock nsgName networkSecurityGroupResourceName;
     EvUnlock networkInterfaceName networkInterfaceResourceName].
Proof.
  intros nicS nsgS Hbar1 Hbar2 Hnic Hnsg nic nsg rg get update
         Herr0 Hprops0 Herr1 Herr2 Herr3 Hprops3 out. subst out.
  assert (Hsplit : Split (nicS +:+ "|" +:+ nsgS) "|" = [nicS; nsgS]).
  { change (nicS +:+ "|" +:+ nsgS) with (nicS +:+ String "|" nsgS).
    rewrite (Split_at_separator _ _ _ Hbar1), (Split_no_separator _ _ Hbar2).
    reflexivity. }
  apply (wpFn_body _ (fun x w' =>
    x = Return None /\
    Id (data w') = nicS +:+ "|" +:+ nsgS /\
    fields (data w') !! "network_interface_id" = Some (VStringPtr (ID (body (o 3%nat get)))) /\
    fields (data w') !! "network_security_group_id" = Some (VString returned) /\
    events w'
    = [EvLock nic networkInterfaceResourceName;
       EvLock nsg networkSecurityGroupResourceName;
       EvCall get; EvCall update; EvCall WaitForCompletionRef; EvCall get;
       EvUnlock nsg networkSecurityGroupResourceName;
       EvUnlock nic networkInterfaceResourceName])).
  unfold resourceNetworkInterfaceSecurityGroupAssociationCreate, world0.
  wp_norm. wp_step. wp_step. fold nicS nsgS. rewrite Hnic. do 4 wp_step. rewrite Hnsg.
  fold nic nsg rg. do 6 wp_step. fold get. rewrite Herr0, Hprops0.
  cbn [NetworkSecurityGroup]. do 2 wp_step. fold update. rewrite Herr1.
  do 2 wp_step. rewrite Herr2. do 3 wp_step.
  apply wp_callFn. apply wpFn_body.
  unfold resourceNetworkInterfaceSecurityGroupAssociationRead. wp_norm.
  wp_step. wp_step. rewrite Hsplit. cbn [List.length Nat.eqb negb nth]. rewrite Hnic.
  fold nic rg. do 2 wp_step. fold get. rewrite Herr3, Hprops3.
  cbn [NetworkSecurityGroup]. repeat wp_step.
  refine (conj eq_refl (conj eq_refl (conj _ (conj _ eq_refl)))).
  - rewrite lookup_insert_ne by discriminate. apply lookup_insert_eq.
  - apply lookup_insert_eq.
Qed.

End NetworkCreateFacts.

Lemma nic_create_holds_both_locks_witness :
  exists calls,
    events (snd (runFn (Network.resourceNetworkInterfaceSecurityGroupAssociationCreate
                          AssociationCreateSamples.parseAssociation
                          "azurerm_network_interface" "azurerm_network_security_group")
                       (world0 AssociationCreateSamples.attaching
                               AssociationCreateSamples.newAssociationData)))
    = EvLock "nic1" "azurerm_network_interface"
      :: EvLock "nsg1" "azurerm_network_security_group"
      :: calls ++ [EvUnlock "nsg1" "azurerm_network_security_group";
                   EvUnlock "nic1" "azurerm_network_interface"] /\
    Spec.onlyCalls calls = true.
Proof.
  exact (nic_create_holds_both_locks AssociationCreateSamples.parseAssociation
           "azurerm_network_interface" "azurerm_network_security_group"
           AssociationCreateSamples.attaching AssociationCreateSamples.newAssociationData
           AssociationSamples.nicID AssociationCreateSamples.nsgID eq_refl eq_refl).
Defined.

Lemma nic_create_attached_interface_witness :
  fst (runFn (Network.resourceNetworkInterfaceSecurityGroupAssociationCreate
                AssociationCreateSamples.parseAssociation
                "azurerm_network_interface" "azurerm_network_security_group")
             (world0 AssociationSamples.nicAnswers
                     AssociationCreateSamples.newAssociationData))
  = Return (Some (ImportAsExistsError
                    "azurerm_network_interface_security_group_association"
                    (AssociationSamples.nicResourceID +:+ "|"
                       +:+ AssociationSamples.nsgResourceID))).
Proof.
  exact (proj1 (nic_create_attached_interface_is_import_error
                  AssociationCreateSamples.parseAssociation
                  "azurerm_network_interface" "azurerm_network_security_group"
                  AssociationSamples.nicAnswers AssociationCreateSamples.newAssociationData
                  AssociationSamples.nicID AssociationCreateSamples.nsgID
                  (Network.mkInterfaceProperties
                     (Some (Network.mkSecurityGroup (Some AssociationSamples.nsgResourceID))))
                  (Network.mkSecurityGroup (Some AssociationSamples.nsgResourceID))
                  eq_refl eq_refl eq_refl eq_refl eq_refl)).
Defined.

Lemma nic_create_then_read_back_witness :
  fst (runFn (Network.resourceNetworkInterfaceSecurityGroupAssociationCreate
                AssociationCreateSamples.parseAssociation
                "azurerm_network_interface" "azurerm_network_security_group")
             (world0 AssociationCreateSamples.attaching
                     AssociationCreateSamples.newAssociationData))
  = Return None.
Proof.
  exact (proj1 (nic_create_then_read_back
                  AssociationCreateSamples.parseAssociation
                  "azurerm_network_interface" "azurerm_network_security_group"
                  AssociationCreateSamples.attaching
                  AssociationCreateSamples.newAssociationData
                  AssociationSamples.nicID AssociationCreateSamples.nsgID
                  AssociationSamples.nsgResourceID
                  eq_refl eq_refl eq_refl eq_refl eq_refl eq_refl eq_refl eq_refl
                  eq_refl eq_refl)).
Defined.

(** ** Automation variables: Read and Create/Update *)

Section AutomationHandlerFacts.
Import Go Automation.

Variable ParseAzureResourceID : string -> error + ResourceID.
Variable time_Parse : string -> option Time.
Variable time_Format : Time -> string.
Variable isPrintWide : Z -> bool.
Variable lowerWide : string -> string.

(** X10: Read of a variable that is encrypted does not look at the stored
    value: whatever the API returns for it, Read ends without an error
    and the field [value] of the state is what it was. *)
Theorem automation_read_encrypted_keeps_value
  (varType : string) (o : nat -> Req -> Answer Variable_) (d : ResourceData)
  (id : ResourceID) (properties : VariableProperties) :
  ParseAzureResourceID (Id d) = inr id ->
  let get := Get (Sdk.ResourceGroup id) (PathAt id "automationAccounts")
                 (PathAt id "variables") in
  err (o 0%nat get) = None ->
  Properties (body (o 0%nat get)) = Some properties ->
  IsEncrypted properties = Some true ->
  let out := runFn (resourceAutomationVariableRead ParseAzureResourceID time_Format lowerWide varType)
                   (world0 o d) in
  fst out = Return None /\
  Id (data (snd out)) = Id d /\
  fields (data (snd out)) !! "encrypted" = Some (VBool true) /\
  fields (data (snd out)) !! "value" = fields d !! "value".
Proof.
  intros Hid get Herr Hprops Henc out. subst out.
  apply (wpFn_body _ (fun x w' =>
    x = Return None /\ Id (data w') = Id d /\
    fields (data w') !! "encrypted" = Some (VBool true) /\
    fields (data w') !! "value" = fields d !! "value")).
  unfold resourceAutomationVariableRead, world0. wp_norm.
  wp_step. wp_step. rewrite Hid. do 2 wp_step. fold get. rewrite Herr.
  do 6 wp_step. rewrite Hprops. do 6 wp_step.
  unfold GetBool. cbn [fields]. rewrite lookup_insert_eq, Henc. cbn [VBoolPtr negb].
  wp_step.
  refine (conj eq_refl (conj eq_refl (conj _ _))).
  - apply lookup_insert_eq.
  - repeat (rewrite lookup_insert_ne by discriminate). reflexivity.
Qed.

(** X11: Read gives back what Create stored.  When the variable is not
    encrypted and the API holds the string Create/Update builds for a
    configuration, Read ends without an error and sets [value] to the
    value of that configuration: the string, the bool, the int when it
    fits in 32 bits, and, for a datetime whose instant counted in
    nanoseconds since 1970 fits in 64 bits, the formatted instant cut to
    whole milliseconds. *)
Theorem automation_read_restores_configured_value
  (varType : string) (o : nat -> Req -> Answer Variable_) (d config : ResourceData)
  (id : ResourceID) (properties : VariableProperties) (stored : string) :
  ParseAzureResourceID (Id d) = inr id ->
  let get := Get (Sdk.ResourceGroup id) (PathAt id "automationAccounts")
                 (PathAt id "variables") in
  err (o 0%nat get) = None ->
  Properties (body (o 0%nat get)) = Some properties ->
  IsEncrypted properties <> Some true ->
  valueString time_Parse isPrintWide (ToLower lowerWide varType) config = inr stored ->
  Value properties = Some stored ->
  let out := runFn (resourceAutomationVariableRead ParseAzureResourceID time_Format lowerWide varType)
                   (world0 o d) in
  let value := fields (data (snd out)) !! "value" in
  (ToLower lowerWide varType = "string" ->
   fst out = Return None /\ value = Some (VString (GetString config "value"))) /\
  (ToLower lowerWide varType = "bool" ->
   fst out = Return None /\ value = Some (VBool (GetBool config "value"))) /\
  (ToLower lowerWide varType = "int" ->
   -2147483648 <= GetInt config "value" < 2147483648 ->
   fst out = Return None /\ value = Some (VInt (GetInt config "value"))) /\
  (ToLower lowerWide varType = "datetime" ->
   forall vTime,
     time_Parse (GetString config "value") = Some vTime ->
     -9223372036854775808 <= nanos vTime < 9223372036854775808 ->
     fst out = Return None /\
     exists t,
       value = Some (VString (time_Format t)) /\
       nanos t = 1000000 * Z.quot (nanos vTime) 1000000 /\
       0 <= nsec t < 1000000000).
Proof.
  intros Hid get Herr Hprops Henc Hstored Hvalue out value. subst value out.
  assert (Hplain : GetBool (mkResourceData (Id d) (IsNewResource d)
                     (<["encrypted" := VBoolPtr (IsEncrypted properties)]>
                        (<["description" := VStringPtr (Description properties)]>
                           (<["automation_account_name" := VString (PathAt id "automationAccounts")]>
                              (<["resource_group_name" := VString (Sdk.ResourceGroup id)]>
                                 (<["name" := VStringPtr (Name (body (o 0%nat get)))]>
                                    (fields d)))))))
                     "encrypted" = false).
  { unfold GetBool. cbn [fields]. rewrite lookup_insert_eq.
    destruct (IsEncrypted properties) as [[|]|]; [congruence | reflexivity | reflexivity]. }
  assert (Hrun : forall v : GoValue,
    ParseAzureAutomationVariableValue ("azurerm_automation_variable_" +:+ ToLower lowerWide varType)
      (Some stored) = (v, None) ->
    (String.eqb (ToLower lowerWide varType) "datetime" = true -> exists t, v = GTime t) ->
    String.eqb (ToLower lowerWide varType) "null" = false ->
    wpFn (resourceAutomationVariableRead ParseAzureResourceID time_Format lowerWide varType)
      (fun x w' =>
         x = Return None /\
         fields (data w') !! "value"
         = Some match v with
                | GNil => VNil
                | GTime t => VString (time_Format t)
                | GString s => VString s
                | GInt32 n => VInt n
                | GBool b => VBool b
                end)
      (world0 o d)).
  { intros v Hparse Hdate Hnull.
    apply wpFn_body. unfold resourceAutomationVariableRead, world0. wp_norm.
    wp_step. wp_step. rewrite Hid. do 2 wp_step. fold get. rewrite Herr.
    do 6 wp_step. rewrite Hprops. do 6 wp_step. rewrite Hplain. cbn [negb].
    rewrite Hvalue, Hparse.
    destruct (String.eqb (ToLower lowerWide varType) "datetime") eqn:Hdt.
    - destruct (Hdate eq_refl) as (t & ->). repeat wp_step.
      split; [reflexivity | apply lookup_insert_eq].
    - rewrite Hnull. cbn [negb]. repeat wp_step.
      split; [reflexivity | apply lookup_insert_eq]. }
  refine (conj _ (conj _ (conj _ _))).
  - intros Hty. rewrite Hty in Hstored, Hrun.
    injection Hstored as <-.
    apply (Hrun (GString (GetString config "value"))); [|discriminate|reflexivity].
    unfold ParseAzureAutomationVariableValue. rewrite classify_Quote. reflexivity.
  - intros Hty. rewrite Hty in Hstored, Hrun.
    injection Hstored as <-.
    apply (Hrun (GBool (GetBool config "value"))); [|discriminate|reflexivity].
    unfold ParseAzureAutomationVariableValue. rewrite classify_FormatBool. reflexivity.
  - intros Hty Hn. rewrite Hty in Hstored, Hrun.
    injection Hstored as <-.
    apply (Hrun (GInt32 (GetInt config "value"))); [|discriminate|reflexivity].
    unfold ParseAzureAutomationVariableValue. rewrite (classify_Itoa _ Hn). reflexivity.
  - intros Hty vTime Hparse Hrange. rewrite Hty in Hstored, Hrun.
    unfold valueString in Hstored. cbn [String.eqb Ascii.eqb Bool.eqb] in Hstored.
    rewrite Hparse in Hstored. injection Hstored as <-.
    unfold UnixNano in Hrun. fold (nanos vTime) in Hrun.
    rewrite int64_in_range in Hrun by lia.
    set (ms := Z.quot (nanos vTime) 1000000) in *.
    assert (Hms : -9223372036854775 <= ms <= 9223372036854775).
    { subst ms. pose proof (Z.quot_le_mono (nanos vTime) 9223372036854775808 1000000).
      pose proof (Z.quot_le_mono (-9223372036854775808) (nanos vTime) 1000000).
      change (Z.quot 9223372036854775808 1000000) with 9223372036854 in *.
      change (Z.quot (-9223372036854775808) 1000000) with (-9223372036854) in *.
      lia. }
    destruct (Unix_of_millis ms Hms) as [Hnanos Hnsec].
    pose proof (Hrun (GTime (Unix (Z.quot ms 1000) (Z.rem ms 1000 * 1000000)))) as Hr.
    unfold wpFn in Hr.
    destruct Hr as [Hx Hv].
    + unfold ParseAzureAutomationVariableValue. rewrite (classify_date ms Hms). reflexivity.
    + intros _. eexists. reflexivity.
    + reflexivity.
    + split; [exact Hx|]. eexists. split; [exact Hv|]. split; [rewrite Hnanos; lia | exact Hnsec].
Qed.

(** X12: Create of a variable that is already there ends in the "already
    exists" error with the ID the API returned; the Get is the only
    request and the state is not touched. *)
Theorem automation_create_existing_is_import_error
  (varType : string) (o : nat -> Req -> Answer Variable_) (d : ResourceData) (id : string) :
  let get := Get (GetString d "resource_group_name")
                 (GetString d "automation_account_name") (GetString d "name") in
  IsNewResource d = true ->
  err (o 0%nat get) = None ->
  ResponseWasNotFound (response (o 0%nat get)) = false ->
  ID (body (o 0%nat get)) = Some id ->
  let out := runFn (resourceAutomationVariableCreateUpdate
                      ParseAzureResourceID time_Parse time_Format isPrintWide lowerWide varType)
                   (world0 o d) in
  fst out = Return (Some (ImportAsExistsError
                            ("azurerm_automation_variable_" +:+ ToLower lowerWide varType) id)) /\
  events (snd out) = [EvCall get] /\
  data (snd out) = d.
Proof.
  intros get Hnew Herr Hfound Hid out. subst out.
  apply (wpFn_body _ (fun x w' =>
    x = Return (Some (ImportAsExistsError
                        ("azurerm_automation_variable_" +:+ ToLower lowerWide varType) id)) /\
    events w' = [EvCall get] /\ data w' = d)).
  unfold resourceAutomationVariableCreateUpdate, world0. wp_norm.
  wp_step. wp_step. rewrite Hnew. do 4 wp_step. cbv beta iota. fold get.
  rewrite Herr, Hfound, Hid. cbn [negb]. repeat wp_step. repeat split.
Qed.

(** X13: A datetime variable whose value is no RFC 3339 time is never written:
    the run ends in an error or a panic and makes no CreateOrUpdate
    request; for a variable that is not new it makes no request at all. *)
Theorem automation_create_invalid_datetime_writes_nothing
  (varType : string) (o : nat -> Req -> Answer Variable_) (d : ResourceData) :
  ToLower lowerWide varType = "datetime" ->
  time_Parse (GetString d "value") = None ->
  let out := runFn (resourceAutomationVariableCreateUpdate
                      ParseAzureResourceID time_Parse time_Format isPrintWide lowerWide varType)
                   (world0 o d) in
  fst out <> Return None /\
  (forall resourceGroup accountName name parameters,
      ~ In (EvCall (CreateOrUpdate resourceGroup accountName name parameters))
           (events (snd out))) /\
  (IsNewResource d = false ->
   fst out = Return (Some (Errorf "Error invalid time format: %+v" None)) /\
   events (snd out) = []).
Proof.
  intros Hty Hparse out. subst out.
  apply (wpFn_body _ (fun x w' =>
    x <> Return None /\
    (forall resourceGroup accountName name parameters,
        ~ In (EvCall (CreateOrUpdate resourceGroup accountName name parameters))
             (events w')) /\
    (IsNewResource d = false ->
     x = Return (Some (Errorf "Error invalid time format: %+v" None)) /\
     events w' = []))).
  unfold resourceAutomationVariableCreateUpdate, world0. wp_norm.
  wp_step. wp_step.
  rewrite Hty. unfold valueString. cbn [String.eqb Ascii.eqb Bool.eqb]. rewrite Hparse.
  destruct (IsNewResource d) eqn:Hnew.
  all: repeat wp_step.
  all: refine (conj _ (conj _ _));
    [ discriminate
    | intros rg acc nm p Hin; cbn in Hin;
      repeat (destruct Hin as [Hin|Hin]; [discriminate Hin|]); exact Hin
    | first [ intros H; discriminate H | intros _; split; reflexivity ] ].
Qed.

End AutomationHandlerFacts.

Module AutomationHandlerSamples.
Import Go Automation NotFoundSamples AutomationSamples.

(** What the API holds: the variable [v1], encrypted, with a value that
    is no encoding of anything. *)
Definition encryptedVariable : Variable_ :=
  mkVariable (Some variableResourceID) (Some "v1")
    (Some (mkVariableProperties (Some "****") (Some true) None)).

(** The configuration of the string variable [v1] with the value [hello]. *)
Definition helloConfig : ResourceData :=
  mkResourceData "" true
    (<["name" := VString "v1"]>
       (<["resource_group_name" := VString "rg1"]>
          (<["automation_account_name" := VString "acc1"]>
             (<["value" := VString "hello"]> ∅)))).

(** The variable as the API holds it after Create of [helloConfig]. *)
Definition helloVariable : Variable_ :=
  mkVariable (Some variableResourceID) (Some "v1")
    (Some (mkVariableProperties (Some (Quote nothingPrints "hello")) (Some false) None)).

Definition holding (v : Variable_) : nat -> Req -> Answer Variable_ :=
  fun _ _ => mkAnswer v (Some 200%Z) None.

(** A datetime variable that is not new, with a value that is no time. *)
Definition yesterdayConfig : ResourceData :=
  mkResourceData variableResourceID false (<["value" := VString "yesterday"]> ∅).

End AutomationHandlerSamples.

Lemma automation_read_encrypted_witness :
  fst (runFn (Automation.resourceAutomationVariableRead
                NotFoundSamples.parseVariableID NotFoundSamples.formatNothing
                NotFoundSamples.noWideLower "String")
             (world0 (AutomationHandlerSamples.holding AutomationHandlerSamples.encryptedVariable)
                     NotFoundSamples.variableData))
  = Return None.
Proof.
  exact (proj1 (automation_read_encrypted_keeps_value
                  NotFoundSamples.parseVariableID NotFoundSamples.formatNothing
                NotFoundSamples.noWideLower "String"
                  (AutomationHandlerSamples.holding AutomationHandlerSamples.encryptedVariable)
                  NotFoundSamples.variableData NotFoundSamples.variableID
                  (Automation.mkVariableProperties (Some "****") (Some true) None)
                  eq_refl eq_refl eq_refl eq_refl)).
Defined.

Lemma automation_read_restores_witness :
  fst (runFn (Automation.resourceAutomationVariableRead
                NotFoundSamples.parseVariableID NotFoundSamples.formatNothing
                NotFoundSamples.noWideLower "String")
             (world0 (AutomationHandlerSamples.holding AutomationHandlerSamples.helloVariable)
                     NotFoundSamples.variableData))
  = Return None /\
  fields (data (snd (runFn (Automation.resourceAutomationVariableRead
                              NotFoundSamples.parseVariableID NotFoundSamples.formatNothing
                              NotFoundSamples.noWideLower "String")
                           (world0 (AutomationHandlerSamples.holding
                                      AutomationHandlerSamples.helloVariable)
                                   NotFoundSamples.variableData)))) !! "value"
  = Some (VString "hello").
Proof.
  exact (proj1 (automation_read_restores_configured_value
                  NotFoundSamples.parseVariableID AutomationSamples.sampleParse
                  NotFoundSamples.formatNothing AutomationSamples.nothingPrints
                NotFoundSamples.noWideLower "String"
                  (AutomationHandlerSamples.holding AutomationHandlerSamples.helloVariable)
                  NotFoundSamples.variableData AutomationHandlerSamples.helloConfig
                  NotFoundSamples.variableID
                  (Automation.mkVariableProperties
                     (Some (Go.Quote AutomationSamples.nothingPrints "hello")) (Some false) None)
                  (Go.Quote AutomationSamples.nothingPrints "hello")
                  eq_refl eq_refl eq_refl ltac:(discriminate) eq_refl eq_refl) eq_refl).
Defined.

Lemma automation_create_existing_witness :
  fst (runFn (Automation.resourceAutomationVariableCreateUpdate
                NotFoundSamples.parseVariableID AutomationSamples.sampleParse
                NotFoundSamples.formatNothing AutomationSamples.nothingPrints
                NotFoundSamples.noWideLower "String")
             (world0 (AutomationHandlerSamples.holding AutomationHandlerSamples.helloVariable)
                     AutomationHandlerSamples.helloConfig))
  = Return (Some (ImportAsExistsError "azurerm_automation_variable_string"
                    NotFoundSamples.variableResourceID)).
Proof.
  exact (proj1 (automation_create_existing_is_import_error
                  NotFoundSamples.parseVariableID AutomationSamples.sampleParse
                  NotFoundSamples.formatNothing AutomationSamples.nothingPrints
                NotFoundSamples.noWideLower "String"
                  (AutomationHandlerSamples.holding AutomationHandlerSamples.helloVariable)
                  AutomationHandlerSamples.helloConfig NotFoundSamples.variableResourceID
                  eq_refl eq_refl eq_refl eq_refl)).
Defined.

Lemma automation_create_invalid_datetime_witness :
  fst (runFn (Automation.resourceAutomationVariableCreateUpdate
                NotFoundSamples.parseVariableID AutomationSamples.sampleParse
                NotFoundSamples.formatNothing AutomationSamples.nothingPrints
                NotFoundSamples.noWideLower "Datetime")
             (world0 (AutomationHandlerSamples.holding AutomationHandlerSamples.helloVariable)
                     AutomationHandlerSamples.yesterdayConfig))
  = Return (Some (Errorf "Error invalid time format: %+v" None)).
Proof.
  exact (proj1 (proj2 (proj2 (automation_create_invalid_datetime_writes_nothing
                  NotFoundSamples.parseVariableID AutomationSamples.sampleParse
                  NotFoundSamples.formatNothing AutomationSamples.nothingPrints
                NotFoundSamples.noWideLower "Datetime"
                  (AutomationHandlerSamples.holding AutomationHandlerSamples.helloVariable)
                  AutomationHandlerSamples.yesterdayConfig eq_refl eq_refl)) eq_refl)).
Defined.

(** ** Automation variables: integers that do not fit in 32 bits *)

Section IntRangeFacts.
Import Go Automation.

Lemma parseDigits_formatDigits_beyond (maxVal : Z) (fuel : nat) :
  forall (n : Z) (acc : string),
    0 <= maxVal -> 0 <= n < 2 ^ Z.of_nat fuel -> maxVal < n ->
    parseDigits (formatDigits fuel n acc) maxVal 0 = UintRange.
Proof.
  induction fuel as [|fuel IH]; intros n acc H0 Hn Hmax.
  { change (2 ^ Z.of_nat 0) with 1 in Hn. lia. }
  cbn [formatDigits].
  pose proof (Z.mod_pos_bound n 10 ltac:(lia)) as Hmod.
  pose proof (Z.div_mod n 10 ltac:(lia)) as Hdiv.
  assert (Hstep : forall k, k * 10 + n mod 10 = n ->
            parseDigits (String (chr (48 + n mod 10)) acc) maxVal k = UintRange).
  { intros k Hk. cbn [parseDigits]. rewrite digit_char by lia.
    unfold inb. replace (Z.leb 0 (n mod 10)) with true by (symmetry; apply Z.leb_le; lia).
    replace (Z.leb (n mod 10) 9) with true by (symmetry; apply Z.leb_le; lia).
    cbn [andb negb]. rewrite Hk.
    replace (Z.ltb maxVal n) with true by (symmetry; apply Z.ltb_lt; lia).
    reflexivity. }
  destruct (Z.ltb n 10) eqn:E.
  - apply Z.ltb_lt in E. apply Hstep. rewrite Z.mod_small by lia. lia.
  - apply Z.ltb_ge in E.
    assert (Hq : 0 <= n / 10 < 2 ^ Z.of_nat fuel).
    { split; [apply Z.div_pos; lia|].
      rewrite Nat2Z.inj_succ, Z.pow_succ_r in Hn by lia.
      apply Z.div_lt_upper_bound; lia. }
    destruct (Z.lt_ge_cases maxVal (n / 10)) as [Hover | Hfit].
    + apply IH; assumption.
    + rewrite parseDigits_formatDigits by (try exact Hq; lia).
      apply Hstep. lia.
Qed.

(** [strconv.ParseInt] refuses the decimal form of an integer that does
    not fit in [bitSize] bits. *)
Lemma ParseInt_Itoa_beyond (bitSize n : Z) :
  0 < bitSize ->
  n < - 2 ^ (bitSize - 1) \/ 2 ^ (bitSize - 1) <= n ->
  ParseInt (Itoa n) bitSize = None.
Proof.
  intros Hb Hn.
  assert (Hp : 2 ^ bitSize = 2 * 2 ^ (bitSize - 1)).
  { replace bitSize with (Z.succ (bitSize - 1)) at 1 by lia.
    rewrite Z.pow_succ_r by lia. reflexivity. }
  assert (Hpos : 0 < 2 ^ (bitSize - 1)) by (apply Z.pow_pos_nonneg; lia).
  unfold Itoa. destruct (Z.ltb n 0) eqn:Eneg.
  - apply Z.ltb_lt in Eneg. destruct Hn as [Hn|Hn]; [|lia].
    set (fuel := S (Z.to_nat (Z.log2 (- n)))).
    cbn [ParseInt].
    change (Ascii.eqb "-"%char "+"%char) with false.
    change (Ascii.eqb "-"%char "-"%char) with true.
    cbv beta iota.
    unfold ParseUint.
    destruct (formatDigits_nonempty (Z.to_nat (Z.log2 (- n))) (- n) EmptyString)
      as (c & rest & Hs).
    fold fuel in Hs. rewrite Hs, <- Hs.
    destruct (Z.lt_ge_cases (2 ^ bitSize - 1) (- n)) as [Hover | Hfit].
    + rewrite parseDigits_formatDigits_beyond;
        [reflexivity | lia | split; [lia | apply log2_fuel; lia] | exact Hover].
    + rewrite parseDigits_formatDigits; [|split; [lia | apply log2_fuel; lia] | lia].
      cbn [parseDigits andb negb].
      replace (Z.ltb (2 ^ (bitSize - 1)) (- n)) with true
        by (symmetry; apply Z.ltb_lt; lia).
      reflexivity.
  - apply Z.ltb_ge in Eneg. destruct Hn as [Hn|Hn]; [lia|].
    set (fuel := S (Z.to_nat (Z.log2 n))).
    destruct (formatDigits_nonempty (Z.to_nat (Z.log2 n)) n EmptyString)
      as (c & rest & Hs).
    fold fuel in Hs.
    pose proof (formatDigits_allDigits fuel n EmptyString Eneg eq_refl) as Hall.
    rewrite Hs in Hall. cbn [allDigits] in Hall. apply andb_true_iff in Hall as [Hc _].
    rewrite Hs. cbn [ParseInt].
    assert (Hplus : Ascii.eqb c "+"%char = false).
    { apply Ascii.eqb_neq. intros ->. discriminate Hc. }
    assert (Hminus : Ascii.eqb c "-"%char = false).
    { apply Ascii.eqb_neq. intros ->. discriminate Hc. }
    rewrite Hplus, Hminus. unfold ParseUint. rewrite <- Hs.
    destruct (Z.lt_ge_cases (2 ^ bitSize - 1) n) as [Hover | Hfit].
    + rewrite parseDigits_formatDigits_beyond;
        [reflexivity | lia | split; [lia | apply log2_fuel; lia] | exact Hover].
    + rewrite parseDigits_formatDigits; [|split; [lia | apply log2_fuel; lia] | lia].
      cbn [parseDigits].
      replace (Z.leb (2 ^ (bitSize - 1)) n) with true
        by (symmetry; apply Z.leb_le; lia).
      reflexivity.
Qed.

Lemma ParseBool_Itoa_beyond (n : Z) :
  -9223372036854775808 <= n < 9223372036854775808 ->
  n < -2147483648 \/ 2147483648 <= n ->
  ParseBool (Itoa n) = None.
Proof.
  intros H64 Hn.
  pose proof (ParseInt_Itoa 64 n ltac:(lia) H64) as Hround.
  destruct (ParseBool (Itoa n)) as [b|] eqn:Hb; [exfalso | reflexivity].
  unfold ParseBool in Hb.
  repeat match type of Hb with
         | context [String.eqb (Itoa n) ?lit] =>
             destruct (String.eqb_spec (Itoa n) lit) as [E|_];
             [rewrite E in Hround; vm_compute in Hround;
              first [discriminate Hround | injection Hround as <-; lia] |]
         end.
  discriminate Hb.
Qed.

Variable time_Parse : string -> option Time.
Variable isPrintWide : Z -> bool.

(** X14: Create stores every Go int; the parser takes back the 32-bit ones
    only.  For an int outside the 32-bit range, the string Create stores
    is answered by [ParseAzureAutomationVariableValue] with an error. *)
Theorem automation_int_beyond_32_bits_is_rejected (d : ResourceData) :
  -9223372036854775808 <= GetInt d "value" < 9223372036854775808 ->
  GetInt d "value" < -2147483648 \/ 2147483648 <= GetInt d "value" ->
  exists stored e,
    valueString time_Parse isPrintWide "int" d = inr stored /\
    ParseAzureAutomationVariableValue (resourceNameOf "int") (Some stored)
    = (GNil, Some e).
Proof.
  intros H64 Hn. exists (Itoa (GetInt d "value")). eexists. split; [reflexivity|].
  unfold ParseAzureAutomationVariableValue, classify.
  destruct (Itoa_head (GetInt d "value")) as (q & t & Hs & Hq & Hnoquote).
  rewrite (FindStringSubmatch_needs_quote _ Hnoquote). cbn [List.length Nat.eqb andb].
  rewrite Hs, Unquote_needs_quote, <- Hs.
  - rewrite ParseInt_Itoa_beyond by (try exact Hn; lia).
    rewrite (ParseBool_Itoa_beyond _ H64 Hn). reflexivity.
  - destruct Hq as [-> | Hq]; [discriminate|]. intros E. unfold isDigit in Hq.
    rewrite E in Hq. discriminate.
  - destruct Hq as [-> | Hq]; [discriminate|]. intros E. unfold isDigit in Hq.
    rewrite E in Hq. discriminate.
  - destruct Hq as [-> | Hq]; [discriminate|]. intros E. unfold isDigit in Hq.
    rewrite E in Hq. discriminate.
Qed.

End IntRangeFacts.

Lemma automation_int_beyond_32_bits_witness :
  exists stored e,
    Automation.valueString AutomationSamples.sampleParse AutomationSamples.nothingPrints
      "int" (intConfig (-2147483649)) = inr stored /\
    Automation.ParseAzureAutomationVariableValue (resourceNameOf "int") (Some stored)
    = (Automation.GNil, Some e).
Proof.
  exact (automation_int_beyond_32_bits_is_rejected
           AutomationSamples.sampleParse AutomationSamples.nothingPrints
           (intConfig (-2147483649))
           (conj (fun H : Z.compare (-9223372036854775808) (-2147483649) = Gt =>
                    ltac:(discriminate H)) eq_refl)
           (or_introl eq_refl)).
Defined.

(** ** SQL firewall rules: Create/Update *)

Section FirewallRuleFacts.
Import Sql.

Variable FirewallRuleID : string -> error + FirewallRuleId.

(** X15: Create of a rule that is already there ends in the "already exists"
    error with the ID the API returned, whether the Get succeeded or
    came back as "not found" with a rule in its body; the Get is the only
    request and the state is not touched. *)
Theorem firewall_create_existing_rule_is_import_error
  (o : nat -> Req -> Answer FirewallRule) (d : ResourceData) (id : string) :
  let get := Get (GetString d "resource_group_name") (GetString d "server_name")
                 (GetString d "name") in
  IsNewResource d = true ->
  err (o 0%nat get) = None \/ ResponseWasNotFound (response (o 0%nat get)) = true ->
  ID (body (o 0%nat get)) = Some id ->
  id <> "" ->
  let out := runFn (resourceSqlFirewallRuleCreateUpdate FirewallRuleID) (world0 o d) in
  fst out = Return (Some (ImportAsExistsError "azurerm_sql_firewall_rule" id)) /\
  events (snd out) = [EvCall get] /\
  data (snd out) = d.
Proof.
  intros get Hnew Hget Hid Hne out. subst out.
  apply (wpFn_body _ (fun x w' =>
           x = Return (Some (ImportAsExistsError "azurerm_sql_firewall_rule" id)) /\
           events w' = [EvCall get] /\ data w' = d)).
  unfold resourceSqlFirewallRuleCreateUpdate, world0. wp_norm.
  wp_step. wp_step. rewrite Hnew. do 4 wp_step. cbv beta iota. fold get. rewrite Hid.
  apply String.eqb_neq in Hne. rewrite Hne. cbn [negb].
  destruct Hget as [Herr | Hnf]; [rewrite Herr | rewrite Hnf; cbn [negb]].
  - repeat wp_step. repeat split.
  - destruct (err (o 0%nat get)); repeat wp_step; repeat split.
Qed.


(** X17: The Get after the write is trusted to carry an ID: when it does
    not, the rule has been written and the handler panics, in a Create
    (after an existence check that finds no rule) as in an Update. *)
Theorem firewall_create_without_returned_id_panics
  (o : nat -> Req -> Answer FirewallRule) (d : ResourceData) :
  let name := GetString d "name" in
  let serverName := GetString d "server_name" in
  let resourceGroup := GetString d "resource_group_name" in
  let get := Get resourceGroup serverName name in
  let write :=
    CreateOrUpdate resourceGroup serverName name
      (mkFirewallRule None (Some (GetString d "start_ip_address"))
         (Some (GetString d "end_ip_address"))) in
  let k := if IsNewResource d then 1%nat else 0%nat in
  (IsNewResource d = true ->
   (err (o 0%nat get) = None \/ ResponseWasNotFound (response (o 0%nat get)) = true) /\
   (ID (body (o 0%nat get)) = None \/ ID (body (o 0%nat get)) = Some "")) ->
  err (o k write) = None ->
  err (o (S k) get) = None ->
  ID (body (o (S k) get)) = None ->
  let out := runFn (resourceSqlFirewallRuleCreateUpdate FirewallRuleID) (world0 o d) in
  fst out = Panic /\
  events (snd out)
  = ((if IsNewResource d then [EvCall get] else []) ++ [EvCall write; EvCall get])%list /\
  data (snd out) = d.
Proof.
  intros name serverName resourceGroup get write k Hfree Hw Hg Hid out. subst out.
  apply (wpFn_body _ (fun x w' =>
    x = Panic /\
    events w'
    = ((if IsNewResource d then [EvCall get] else []) ++ [EvCall write; EvCall get])%list /\
    data w' = d)).
  unfold resourceSqlFirewallRuleCreateUpdate, world0. wp_norm.
  wp_step. wp_step. cbv beta iota.
  fold name serverName resourceGroup. fold get. fold write.
  subst k. destruct (IsNewResource d) eqn:Hnew;
    [existence_check_passes Hfree | do 2 wp_step].
  all: wp_step; wp_step; cbv beta iota; rewrite Hw.
  all: do 2 wp_step; cbv beta iota; rewrite Hg, Hid; wp_step.
  all: exact (conj eq_refl (conj eq_refl eq_refl)).
Qed.

End FirewallRuleFacts.

Module FirewallRuleSamples.
Import Sql.

Definition ruleResourceID : string :=
  "/subscriptions/sub1/resourceGroups/rg1/providers/Microsoft.Sql/servers/srv1/firewallRules/office".

Definition parseRuleID (id : string) : error + FirewallRuleId :=
  if String.eqb id ruleResourceID then inr (mkFirewallRuleId "rg1" "srv1" "office")
  else inl (Errorf "parsing %q as an ID" None).

Definition officeRule : FirewallRule :=
  mkFirewallRule (Some ruleResourceID) (Some "10.0.0.1") (Some "10.0.0.9").

Definition ruleFields : gmap string Value :=
  <["name" := VString "office"]>
    (<["server_name" := VString "srv1"]>
       (<["resource_group_name" := VString "rg1"]>
          (<["start_ip_address" := VString "10.0.0.1"]>
             (<["end_ip_address" := VString "10.0.0.9"]> ∅)))).

Definition newRuleData : ResourceData := mkResourceData "" true ruleFields.

(** The rule is there; every request succeeds. *)
Definition ruleExists : nat -> Req -> Answer FirewallRule :=
  fun _ _ => mkAnswer officeRule (Some 200%Z) None.

(** The rule is not there before the write and there after it. *)
Definition created : nat -> Req -> Answer FirewallRule :=
  fun n _ =>
    match n with
    | O => mkAnswer (mkFirewallRule None None None) (Some 404%Z)
             (Some NotFoundSamples.notFoundText)
    | _ => mkAnswer officeRule (Some 200%Z) None
    end.

(** Every request succeeds, and the objects that come back have no ID. *)
Definition anonymous : nat -> Req -> Answer FirewallRule :=
  fun _ _ => mkAnswer (mkFirewallRule None None None) (Some 200%Z) None.

End FirewallRuleSamples.

Lemma firewall_create_existing_rule_witness :
  fst (runFn (Sql.resourceSqlFirewallRuleCreateUpdate FirewallRuleSamples.parseRuleID)
             (world0 FirewallRuleSamples.ruleExists FirewallRuleSamples.newRuleData))
  = Return (Some (ImportAsExistsError "azurerm_sql_firewall_rule"
                    FirewallRuleSamples.ruleResourceID)).
Proof.
  exact (proj1 (firewall_create_existing_rule_is_import_error
                  FirewallRuleSamples.parseRuleID FirewallRuleSamples.ruleExists
                  FirewallRuleSamples.newRuleData FirewallRuleSamples.ruleResourceID
                  eq_refl (or_introl eq_refl) eq_refl ltac:(discriminate))).
Defined.


Lemma firewall_create_without_returned_id_witness :
  fst (runFn (Sql.resourceSqlFirewallRuleCreateUpdate FirewallRuleSamples.parseRuleID)
             (world0 FirewallRuleSamples.anonymous FirewallRuleSamples.newRuleData))
  = Panic.
Proof.
  exact (proj1 (firewall_create_without_returned_id_panics
                  FirewallRuleSamples.parseRuleID FirewallRuleSamples.anonymous
                  FirewallRuleSamples.newRuleData
                  (fun _ => conj (or_introl eq_refl) (or_introl eq_refl))
                  eq_refl eq_refl eq_refl)).
Defined.

(** ** Dashboards and registry tokens: failures that leave no trace *)

Section QuietFailureFacts.

(** X18: Create/Update of a dashboard whose properties are no JSON the SDK
    type decodes from ends in an error before any request is made. *)
Theorem dashboard_create_invalid_json_makes_no_request
  (DashboardID : string -> error + Portal.DashboardId)
  (NewDashboardID : string -> string -> string -> string)
  (NormalizeLocation : string -> string)
  (json_Unmarshal : string -> string + Portal.DashboardProperties)
  (json_Marshal : option Portal.DashboardProperties -> string + string)
  (subscriptionId : string)
  (expandTags : ResourceData -> TagsHelpers.Tags)
  (FlattenAndSet : ResourceData -> TagsHelpers.Tags -> ResourceData * option error)
  (o : nat -> Portal.Req -> Answer Portal.Dashboard) (d : ResourceData) (cause : string) :
  json_Unmarshal (GetString d "dashboard_properties") = inl cause ->
  let out := runFn (Portal.resourceDashboardCreateUpdate DashboardID NewDashboardID
                      NormalizeLocation json_Unmarshal json_Marshal subscriptionId
                      expandTags FlattenAndSet)
                   (world0 o d) in
  fst out = Return (Some (Errorf "Error parsing JSON: %+v" (Some cause))) /\
  events (snd out) = [] /\
  data (snd out) = d.
Proof.
  intros Hjson out. subst out. unfold Portal.resourceDashboardCreateUpdate.
  go_run. rewrite Hjson. destruct d. repeat split.
Qed.

(** X19: The token data source reports a token it cannot read as an error:
    a failed Get ("not found" included) and an answer without an ID or
    with an empty one all end in an error, with the one Get as the only
    request and the state as it was. *)
Theorem token_read_failure_leaves_state
  (TokenStatusDisabled : string) (o : nat -> Containers.Req -> Answer Containers.Token)
  (d : ResourceData) :
  let get := Containers.TokensGet (GetString d "resource_group_name")
               (GetString d "container_registry_name") (GetString d "name") in
  err (o 0%nat get) <> None \/
  Containers.ID (body (o 0%nat get)) = None \/
  Containers.ID (body (o 0%nat get)) = Some "" ->
  let out := runFn (Containers.dataSourceContainerRegistryTokenRead TokenStatusDisabled)
                   (world0 o d) in
  (exists e, fst out = Return (Some e)) /\
  events (snd out) = [EvCall get] /\
  data (snd out) = d.
Proof.
  intros get Hfail out. subst out.
  apply (wpFn_body _ (fun x w' =>
    (exists e, x = Return (Some e)) /\ events w' = [EvCall get] /\ data w' = d)).
  unfold Containers.dataSourceContainerRegistryTokenRead, world0. wp_norm.
  do 4 wp_step. cbv beta iota. fold get.
  destruct (err (o 0%nat get)) as [e|] eqn:Herr.
  - repeat wp_step; (split; [eexists; reflexivity | split; reflexivity]).
  - destruct Hfail as [Hfail | [Hid | Hid]]; [congruence | |]; rewrite Hid.
    + repeat wp_step. split; [eexists; reflexivity | split; reflexivity].
    + cbn [String.eqb]. repeat wp_step. split; [eexists; reflexivity | split; reflexivity].
Qed.

End QuietFailureFacts.

Module QuietFailureSamples.

(** A decoder that takes no document. *)
Definition refuse (s : string) : string + Portal.DashboardProperties :=
  inl "invalid character".

Definition zeroToken : Containers.Token := Containers.mkToken None None None "".

End QuietFailureSamples.

Lemma dashboard_create_invalid_json_witness :
  events (snd (runFn (Portal.resourceDashboardCreateUpdate
                        DashboardSamples.parseDashboardID DashboardSamples.formatDashboardID
                        (fun l => l) QuietFailureSamples.refuse DashboardSamples.encode "sub1"
                        TagsSamples.noTags TagsSamples.setNoTags)
                     (world0 DashboardSamples.dashboardExists
                             DashboardSamples.newDashboardData)))
  = [].
Proof.
  exact (proj1 (proj2 (dashboard_create_invalid_json_makes_no_request
                  DashboardSamples.parseDashboardID DashboardSamples.formatDashboardID
                  (fun l => l) QuietFailureSamples.refuse DashboardSamples.encode "sub1"
                  TagsSamples.noTags TagsSamples.setNoTags
                  DashboardSamples.dashboardExists DashboardSamples.newDashboardData
                  "invalid character" eq_refl))).
Defined.

Lemma token_read_failure_witness :
  exists e,
    fst (runFn (Containers.dataSourceContainerRegistryTokenRead "disabled")
               (world0 (NotFoundSamples.notFound QuietFailureSamples.zeroToken)
                       (mkResourceData "" false ∅)))
    = Return (Some e).
Proof.
  exact (proj1 (token_read_failure_leaves_state "disabled"
                  (NotFoundSamples.notFound QuietFailureSamples.zeroToken)
                  (mkResourceData "" false ∅)
                  (or_introl (fun H : Some NotFoundSamples.notFoundText = None =>
                                ltac:(discriminate H))))).
Defined.

(** ** SQL failover groups: the read-only policy and the partner servers *)

Section SqlFailoverGroupFacts.
Import SqlFailoverGroup.

(** X20: Flatten after expand for the read-only policy: a configuration
    without the block gives the nil endpoint and that flattens to the
    empty list; a configuration with the block gives an endpoint that
    flattens to one block holding the mode of the first block.  A block
    without a mode makes expand panic. *)
Theorem readonly_policy_round_trip (d : ResourceData) :
  (fields d !! "readonly_endpoint_failover_policy" = None \/
   fields d !! "readonly_endpoint_failover_policy" = Some (VList []) ->
   expandSqlFailoverGroupReadOnlyPolicy d = Some None /\
   flattenSqlFailoverGroupReadOnlyPolicy None = []) /\
  (forall v rest mode,
      fields d !! "readonly_endpoint_failover_policy" = Some (VList (v :: rest)) ->
      v !! "mode" = Some (AString mode) ->
      exists endpoint,
        expandSqlFailoverGroupReadOnlyPolicy d = Some (Some endpoint) /\
        flattenSqlFailoverGroupReadOnlyPolicy (Some endpoint)
        = [<["mode" := AString mode]> ∅]) /\
  (forall v rest,
      fields d !! "readonly_endpoint_failover_policy" = Some (VList (v :: rest)) ->
      (forall mode, v !! "mode" <> Some (AString mode)) ->
      expandSqlFailoverGroupReadOnlyPolicy d = None).
Proof.
  unfold expandSqlFailoverGroupReadOnlyPolicy. refine (conj _ (conj _ _)).
  - intros [-> | ->]; split; reflexivity.
  - intros v rest mode -> ->. eexists. split; reflexivity.
  - intros v rest -> Hmode.
    destruct (v !! "mode") as [[mode|n]|]; [|reflexivity|reflexivity].
    exfalso. exact (Hmode mode eq_refl).
Qed.

(** The block flatten makes for a partner expand has built: the ID and
    an empty role, and no location. *)
Definition partnerBlock (id : string) : gmap string Attr :=
  <["role" := AString ""]> (<["id" := AString id]> ∅).

Lemma expandPartners_ids (ids : list string) :
  forall (servers : list (gmap string Attr)) (partners : list PartnerInfo),
    Forall2 (fun info id => info !! "id" = Some (AString id)) servers ids ->
    expandPartners servers partners
    = Some (partners ++ List.map (fun id => mkPartnerInfo (Some id) None "") ids)%list.
Proof.
  induction ids as [|id ids IH]; intros servers partners H.
  - apply Forall2_nil_inv_r in H. subst servers. cbn. rewrite app_nil_r. reflexivity.
  - apply Forall2_cons_inv_r in H as (info & servers' & Hid & Hrest & ->).
    cbn [expandPartners List.map]. rewrite Hid, (IH _ _ Hrest), <- app_assoc. reflexivity.
Qed.

Lemma flattenPartners_app (input : list PartnerInfo) :
  forall result : list (gmap string Attr),
    flattenPartners input result = (result ++ List.map flattenPartner input)%list.
Proof.
  induction input as [|server input IH]; intros result.
  - cbn. rewrite app_nil_r. reflexivity.
  - cbn [flattenPartners List.map]. rewrite IH, <- app_assoc. reflexivity.
Qed.

Lemma expandPartners_panics (servers : list (gmap string Attr)) :
  forall partners : list PartnerInfo,
    Exists (fun info => forall id, info !! "id" <> Some (AString id)) servers ->
    expandPartners servers partners = None.
Proof.
  induction servers as [|info servers IH]; intros partners H.
  - inversion H.
  - cbn [expandPartners].
    destruct (info !! "id") as [[id|n]|] eqn:Hid; [|reflexivity|reflexivity].
    apply IH. inversion H as [? ? Hhere | ? ? Hthere]; subst; [|exact Hthere].
    exfalso. exact (Hhere id Hid).
Qed.

(** X21: Flatten after expand for the partner servers keeps the servers, in
    their order, by their IDs: each block that comes back holds the ID of
    the block that went in and an empty role, whatever else that block
    held.  A block without an ID makes expand panic, and the list expand
    returns is never nil: with no servers configured it is the empty
    list. *)
Theorem partner_servers_round_trip (d : ResourceData) :
  (forall servers ids,
      fields d !! "partner_servers" = Some (VList servers) ->
      Forall2 (fun info id => info !! "id" = Some (AString id)) servers ids ->
      exists partners,
        expandSqlFailoverGroupPartnerServers d = Some partners /\
        List.length partners = List.length servers /\
        flattenSqlFailoverGroupPartnerServers (Some partners) = List.map partnerBlock ids) /\
  (forall servers,
      fields d !! "partner_servers" = Some (VList servers) ->
      Exists (fun info => forall id, info !! "id" <> Some (AString id)) servers ->
      expandSqlFailoverGroupPartnerServers d = None) /\
  (fields d !! "partner_servers" = None ->
   expandSqlFailoverGroupPartnerServers d = Some []).
Proof.
  unfold expandSqlFailoverGroupPartnerServers. refine (conj _ (conj _ _)).
  - intros servers ids -> H.
    rewrite (expandPartners_ids ids servers [] H). cbn [app].
    eexists. split; [reflexivity|]. split.
    + rewrite length_map. symmetry. exact (Forall2_length _ _ _ H).
    + unfold flattenSqlFailoverGroupPartnerServers. rewrite flattenPartners_app. cbn [app].
      rewrite List.map_map. reflexivity.
  - intros servers -> H. apply expandPartners_panics, H.
  - intros ->. reflexivity.
Qed.

End SqlFailoverGroupFacts.

Module SqlFailoverGroupSamples.

Definition readonlyConfig : ResourceData :=
  mkResourceData "" true
    (<["readonly_endpoint_failover_policy" := VList [<["mode" := AString "Enabled"]> ∅]]> ∅).

(** Two partner servers as the state holds them after a Read, with the
    location and the role the API reported. *)
Definition partnerServers : list (gmap string Attr) :=
  [<["id" := AString "/servers/b"]>
     (<["location" := AString "westeurope"]> (<["role" := AString "Secondary"]> ∅));
   <["id" := AString "/servers/c"]> ∅].

Definition partnersConfig : ResourceData :=
  mkResourceData "" true (<["partner_servers" := VList partnerServers]> ∅).

End SqlFailoverGroupSamples.

Lemma readonly_policy_round_trip_witness :
  exists endpoint,
    SqlFailoverGroup.expandSqlFailoverGroupReadOnlyPolicy
      SqlFailoverGroupSamples.readonlyConfig = Some (Some endpoint) /\
    SqlFailoverGroup.flattenSqlFailoverGroupReadOnlyPolicy (Some endpoint)
    = [<["mode" := AString "Enabled"]> ∅].
Proof.
  exact (proj1 (proj2 (readonly_policy_round_trip SqlFailoverGroupSamples.readonlyConfig))
           (<["mode" := AString "Enabled"]> ∅) [] "Enabled" eq_refl eq_refl).
Defined.

Lemma partner_servers_round_trip_witness :
  exists partners,
    SqlFailoverGroup.expandSqlFailoverGroupPartnerServers
      SqlFailoverGroupSamples.partnersConfig = Some partners /\
    List.length partners = 2%nat /\
    SqlFailoverGroup.flattenSqlFailoverGroupPartnerServers (Some partners)
    = [partnerBlock "/servers/b"; partnerBlock "/servers/c"].
Proof.
  exact (proj1 (partner_servers_round_trip SqlFailoverGroupSamples.partnersConfig)
           SqlFailoverGroupSamples.partnerServers ["/servers/b"; "/servers/c"] eq_refl
           ltac:(unfold SqlFailoverGroupSamples.partnerServers; repeat constructor)).
Defined.

(** ** ExpressRoute gateways *)

Section ExpressRouteFacts.
Import TagsHelpers ExpressRoute.

Variable ParseAzureResourceID : string -> error + ResourceID.
Variable NormalizeLocation : string -> string.
Variable expandTags : ResourceData -> Tags.
Variable FlattenAndSet : ResourceData -> Tags -> ResourceData * option error.

(** X22: Delete of a gateway that is gone is a success: the handler returns
    no error exactly when every failure it meets, of the request or of
    the wait for its completion, is a "not found"; it waits only for a
    request that was accepted, and leaves the state alone. *)
Theorem express_route_delete_not_found_is_success
  (o : nat -> Req -> Answer ExpressRouteGateway) (d : ResourceData) (id : ResourceID) :
  ParseAzureResourceID (Id d) = inr id ->
  let delete := Delete (ResourceGroup id) (PathAt id "expressRouteGateways") in
  let future := o 0%nat delete in
  let done := o 1%nat WaitForCompletionRef in
  let out := runFn (resourceExpressRouteGatewayDelete ParseAzureResourceID) (world0 o d) in
  (fst out = Return None <->
   (err future = None \/ ResponseWasNotFound (response future) = true) /\
   (err future = None ->
    err done = None \/ ResponseWasNotFound (response done) = true)) /\
  events (snd out)
  = match err future with
    | Some _ => [EvCall delete]
    | None => [EvCall delete; EvCall WaitForCompletionRef]
    end /\
  data (snd out) = d.
Proof.
  intros Hid delete future done out. subst out.
  apply (wpFn_body _ (fun x w' =>
    (x = Return None <->
     (err future = None \/ ResponseWasNotFound (response future) = true) /\
     (err future = None ->
      err done = None \/ ResponseWasNotFound (response done) = true)) /\
    events w'
    = match err future with
    | Some _ => [EvCall delete]
    | None => [EvCall delete; EvCall WaitForCompletionRef]
    end /\
    data w' = d)).
  unfold resourceExpressRouteGatewayDelete, world0. wp_norm.
  wp_step. wp_step. rewrite Hid. do 2 wp_step. cbv beta iota. fold delete future.
  destruct (err future) as [e|] eqn:Hf.
  - destruct (ResponseWasNotFound (response future)) eqn:Hnf; wp_step.
    + split; [|split; reflexivity]. split; [|reflexivity].
      intros _. split; [right; reflexivity | intros H; discriminate H].
    + split; [|split; reflexivity]. split; [intros H; discriminate H|].
      intros [[H|H] _]; discriminate H.
  - do 2 wp_step. cbv beta iota. fold done.
    destruct (err done) as [e|] eqn:Hd.
    + destruct (ResponseWasNotFound (response done)) eqn:Hnf; cbn [negb]; wp_step.
      * split; [|split; reflexivity]. split; [|reflexivity].
        intros _. split; [left; reflexivity | intros _; right; reflexivity].
      * split; [|split; reflexivity]. split; [intros H; discriminate H|].
        intros [_ H]. destruct (H eq_refl) as [H'|H']; discriminate H'.
    + wp_step. split; [|split; reflexivity]. split; [|reflexivity].
      intros _. split; [left; reflexivity | intros _; left; reflexivity].
Qed.

(** X23: Create of a gateway that is already there ends in the "already
    exists" error with the ID the API returned; the Get is the only
    request and the state is not touched. *)
Theorem express_route_create_existing_is_import_error
  (o : nat -> Req -> Answer ExpressRouteGateway) (d : ResourceData) (id : string) :
  let get := Get (GetString d "resource_group_name") (GetString d "name") in
  IsNewResource d = true ->
  err (o 0%nat get) = None \/ ResponseWasNotFound (response (o 0%nat get)) = true ->
  ID (body (o 0%nat get)) = Some id ->
  id <> "" ->
  let out := runFn (resourceExpressRouteGatewayCreateUpdate
                      ParseAzureResourceID NormalizeLocation expandTags FlattenAndSet)
                   (world0 o d) in
  fst out = Return (Some (ImportAsExistsError "azurerm_express_route_gateway" id)) /\
  events (snd out) = [EvCall get] /\
  data (snd out) = d.
Proof.
  intros get Hnew Hget Hid Hne out. subst out.
  apply (wpFn_body _ (fun x w' =>
           x = Return (Some (ImportAsExistsError "azurerm_express_route_gateway" id)) /\
           events w' = [EvCall get] /\ data w' = d)).
  unfold resourceExpressRouteGatewayCreateUpdate, world0. wp_norm.
  wp_step. wp_step. rewrite Hnew. do 4 wp_step. cbv beta iota. fold get. rewrite Hid.
  apply String.eqb_neq in Hne. rewrite Hne. cbn [negb].
  destruct Hget as [Herr | Hnf]; [rewrite Herr | rewrite Hnf; cbn [negb]].
  - repeat wp_step. repeat split.
  - destruct (err (o 0%nat get)); repeat wp_step; repeat split.
Qed.

(** X24: The scale units and the hub of the configuration go to the API and
    come back.  When the API accepts the write (for a new gateway, after
    an existence check that finds no gateway) and returns the gateway
    with the properties that were written, Create/Update leaves in the
    state the ID the API returned, the hub of the configuration and its
    scale units, as a 32-bit integer; its result is the result of
    [tags.FlattenAndSet]. *)
Theorem express_route_create_then_read_back
  (o : nat -> Req -> Answer ExpressRouteGateway) (d : ResourceData) (id : string)
  (parsed : ResourceID) :
  setsTagsOnly FlattenAndSet ->
  let name := GetString d "name" in
  let resourceGroup := GetString d "resource_group_name" in
  let get := Get resourceGroup name in
  let properties :=
    mkGatewayProperties
      (Some (mkAutoScaleConfiguration
               (Some (mkBounds (Some (Go.int32 (GetInt d "scale_units")))))))
      (Some (mkVirtualHubID (Some (GetString d "virtual_hub_id")))) in
  let write :=
    CreateOrUpdate resourceGroup name
      (mkGateway None None (Some (NormalizeLocation (GetString d "location")))
         (Some properties) (expandTags d)) in
  let read := Get (ResourceGroup parsed) (PathAt parsed "expressRouteGateways") in
  let k := if IsNewResource d then 1%nat else 0%nat in
  (IsNewResource d = true ->
   (err (o 0%nat get) = None \/ ResponseWasNotFound (response (o 0%nat get)) = true) /\
   (ID (body (o 0%nat get)) = None \/ ID (body (o 0%nat get)) = Some "")) ->
  err (o k write) = None ->
  err (o (S k) WaitForCompletionRef) = None ->
  err (o (S (S k)) get) = None ->
  ID (body (o (S (S k)) get)) = Some id ->
  id <> "" ->
  ParseAzureResourceID id = inr parsed ->
  err (o (S (S (S k))) read) = None ->
  Properties (body (o (S (S (S k))) read)) = Some properties ->
  let out := runFn (resourceExpressRouteGatewayCreateUpdate
                      ParseAzureResourceID NormalizeLocation expandTags FlattenAndSet)
                   (world0 o d) in
  (exists before,
      fst out
      = Return (snd (FlattenAndSet before (gatewayTags (body (o (S (S (S k))) read)))))) /\
  Id (data (snd out)) = id /\
  events (snd out)
  = ((if IsNewResource d then [EvCall get] else [])
       ++ [EvCall write; EvCall WaitForCompletionRef; EvCall get; EvCall read])%list /\
  fields (data (snd out)) !! "virtual_hub_id"
  = Some (VString (GetString d "virtual_hub_id")) /\
  fields (data (snd out)) !! "scale_units"
  = Some (VInt (Go.int32 (GetInt d "scale_units"))).
Proof.
  intros Htags name resourceGroup get properties write read k
         Hfree Hw Hdone Hg Hid Hne Hparse Hr Hprops out. subst out.
  apply (wpFn_body _ (fun x w' =>
    (exists before,
        x = Return (snd (FlattenAndSet before
                           (gatewayTags (body (o (S (S (S k))) read)))))) /\
    Id (data w') = id /\
    events w'
    = ((if IsNewResource d then [EvCall get] else [])
         ++ [EvCall write; EvCall WaitForCompletionRef; EvCall get; EvCall read])%list /\
    fields (data w') !! "virtual_hub_id" = Some (VString (GetString d "virtual_hub_id")) /\
    fields (data w') !! "scale_units" = Some (VInt (Go.int32 (GetInt d "scale_units"))))).
  unfold resourceExpressRouteGatewayCreateUpdate, world0. wp_norm.
  wp_step. wp_step. cbv beta iota.
  fold name resourceGroup. fold get. fold properties. fold write.
  apply String.eqb_neq in Hne.
  subst k. destruct (IsNewResource d) eqn:Hnew;
    [existence_check_passes Hfree | do 2 wp_step].
  all: wp_step; wp_step; cbv beta iota; rewrite Hw.
  all: do 2 wp_step; cbv beta iota; rewrite Hdone.
  all: do 2 wp_step; cbv beta iota; rewrite Hg, Hid, Hne; do 3 wp_step.
  all: apply wp_callFn; apply wpFn_body; unfold resourceExpressRouteGatewayRead; wp_norm.
  all: wp_step; wp_step; rewrite Hparse; do 2 wp_step; cbv beta iota; fold read.
  all: rewrite Hr, Hprops; subst properties; cbn [VirtualHub AutoScale].
  all: repeat wp_step_tags.
  all: match goal with
       | |- context [FlattenAndSet ?before ?t] =>
           destruct (Htags before t) as [HId Hkeep]
       end.
  all: refine (conj (ex_intro _ _ eq_refl) (conj _ (conj eq_refl (conj _ _)))).
  all: try (rewrite HId; reflexivity).
  all: rewrite Hkeep by discriminate; cbn [fields].
  all: repeat (rewrite lookup_insert_ne by discriminate); apply lookup_insert_eq.
Qed.

End ExpressRouteFacts.

Module ExpressRouteSamples.
Import TagsHelpers ExpressRoute.

Definition gatewayResourceID : string :=
  "/subscriptions/sub1/resourceGroups/rg1/providers/Microsoft.Network/expressRouteGateways/gw1".

Definition gatewayID : ResourceID :=
  mkResourceID "rg1" (<["expressRouteGateways" := "gw1"]> ∅).

Definition parseGatewayID (id : string) : error + ResourceID :=
  if String.eqb id gatewayResourceID then inr gatewayID
  else inl (Errorf "Cannot parse Azure ID: %s" None).

Definition gatewayFields : gmap string Value :=
  <["name" := VString "gw1"]>
    (<["resource_group_name" := VString "rg1"]>
       (<["location" := VString "westeurope"]>
          (<["virtual_hub_id" := VString "/virtualHubs/hub1"]>
             (<["scale_units" := VInt 2]> ∅)))).

Definition newGatewayData : ResourceData := mkResourceData "" true gatewayFields.
Definition knownGatewayData : ResourceData :=
  mkResourceData gatewayResourceID false gatewayFields.

(** The gateway as the API holds it after the write of [gatewayFields]. *)
Definition gateway : ExpressRouteGateway :=
  mkGateway (Some gatewayResourceID) (Some "gw1") (Some "westeurope")
    (Some (mkGatewayProperties
             (Some (mkAutoScaleConfiguration (Some (mkBounds (Some 2)))))
             (Some (mkVirtualHubID (Some "/virtualHubs/hub1")))))
    ∅.

Definition gatewayExists : nat -> Req -> Answer ExpressRouteGateway :=
  fun _ _ => mkAnswer gateway (Some 200%Z) None.

Definition zeroGateway : ExpressRouteGateway := mkGateway None None None None ∅.

(** The gateway is not there before the write and there after it. *)
Definition gatewayCreated : nat -> Req -> Answer ExpressRouteGateway :=
  fun n _ =>
    match n with
    | O => mkAnswer zeroGateway (Some 404%Z) (Some NotFoundSamples.notFoundText)
    | _ => mkAnswer gateway (Some 200%Z) None
    end.

End ExpressRouteSamples.

Lemma express_route_delete_not_found_witness :
  fst (runFn (ExpressRoute.resourceExpressRouteGatewayDelete
                ExpressRouteSamples.parseGatewayID)
             (world0 (NotFoundSamples.notFound ExpressRouteSamples.zeroGateway)
                     ExpressRouteSamples.knownGatewayData))
  = Return None.
Proof.
  exact (proj2 (proj1 (express_route_delete_not_found_is_success
                         ExpressRouteSamples.parseGatewayID
                         (NotFoundSamples.notFound ExpressRouteSamples.zeroGateway)
                         ExpressRouteSamples.knownGatewayData
                         ExpressRouteSamples.gatewayID eq_refl))
           (conj (or_intror eq_refl)
                 (fun H : Some NotFoundSamples.notFoundText = None =>
                    ltac:(discriminate H)))).
Defined.

Lemma express_route_create_existing_witness :
  fst (runFn (ExpressRoute.resourceExpressRouteGatewayCreateUpdate
                ExpressRouteSamples.parseGatewayID (fun l => l)
                TagsSamples.noTags TagsSamples.setNoTags)
             (world0 ExpressRouteSamples.gatewayExists ExpressRouteSamples.newGatewayData))
  = Return (Some (ImportAsExistsError "azurerm_express_route_gateway"
                    ExpressRouteSamples.gatewayResourceID)).
Proof.
  exact (proj1 (express_route_create_existing_is_import_error
                  ExpressRouteSamples.parseGatewayID (fun l => l)
                  TagsSamples.noTags TagsSamples.setNoTags
                  ExpressRouteSamples.gatewayExists ExpressRouteSamples.newGatewayData
                  ExpressRouteSamples.gatewayResourceID
                  eq_refl (or_introl eq_refl) eq_refl ltac:(discriminate))).
Defined.

Lemma express_route_create_then_read_back_witness :
  fields (data (snd (runFn (ExpressRoute.resourceExpressRouteGatewayCreateUpdate
                              ExpressRouteSamples.parseGatewayID (fun l => l)
                              TagsSamples.noTags TagsSamples.setNoTags)
                           (world0 ExpressRouteSamples.gatewayCreated
                                   ExpressRouteSamples.newGatewayData))))
    !! "scale_units"
  = Some (VInt (Go.int32 2)).
Proof.
  exact (proj2 (proj2 (proj2 (proj2
           (express_route_create_then_read_back
              ExpressRouteSamples.parseGatewayID (fun l => l)
              TagsSamples.noTags TagsSamples.setNoTags
              ExpressRouteSamples.gatewayCreated ExpressRouteSamples.newGatewayData
              ExpressRouteSamples.gatewayResourceID ExpressRouteSamples.gatewayID
              setNoTags_setsTagsOnly
              (fun _ => conj (or_intror eq_refl) (or_introl eq_refl))
              eq_refl eq_refl eq_refl eq_refl ltac:(discriminate)
              eq_refl eq_refl eq_refl))))).
Defined.

(** ** DevTest lab policies *)

Section DevTestPolicyFacts.
Import TagsHelpers DevTestPolicy.

Variable ParseAzureResourceID : string -> error + ResourceID.
Variable expandTags : ResourceData -> Tags.
Variable FlattenAndSet : ResourceData -> Tags -> ResourceData * option error.

(** X25: Delete looks the policy up before it deletes it.  The Delete
    request is sent only when the lookup succeeds; a lookup that ends in
    "not found" is a success without any Delete request, any other
    failure of the lookup is an error.  After a successful lookup the
    handler succeeds exactly when the Delete request does: a "not found"
    answer to the Delete request itself is an error.  The state is left
    alone. *)
Theorem devtest_policy_delete_looks_before_deleting
  (o : nat -> Req -> Answer Policy) (d : ResourceData) (id : ResourceID) :
  ParseAzureResourceID (Id d) = inr id ->
  let get := Get (ResourceGroup id) (PathAt id "labs") (PathAt id "policysets")
                 (PathAt id "policies") "" in
  let delete := Delete (ResourceGroup id) (PathAt id "labs") (PathAt id "policysets")
                       (PathAt id "policies") in
  let read := o 0%nat get in
  let deleted := o 1%nat delete in
  let out := runFn (resourceArmDevTestPolicyDelete ParseAzureResourceID) (world0 o d) in
  events (snd out)
  = match err read with
    | Some _ => [EvCall get]
    | None => [EvCall get; EvCall delete]
    end /\
  (fst out = Return None <->
   match err read with
   | Some _ => ResponseWasNotFound (response read) = true
   | None => err deleted = None
   end) /\
  data (snd out) = d.
Proof.
  intros Hid get delete read deleted out. subst out.
  apply (wpFn_body _ (fun x w' =>
    events w'
    = match err read with
      | Some _ => [EvCall get]
      | None => [EvCall get; EvCall delete]
      end /\
    (x = Return None <->
     match err read with
     | Some _ => ResponseWasNotFound (response read) = true
     | None => err deleted = None
     end) /\
    data w' = d)).
  unfold resourceArmDevTestPolicyDelete, world0. wp_norm.
  wp_step. wp_step. rewrite Hid. do 2 wp_step. cbv beta iota. fold get read.
  destruct (err read) as [e|] eqn:Hr.
  - destruct (ResponseWasNotFound (response read)) eqn:Hnf; wp_step.
    + split; [reflexivity|]. split; [|reflexivity]. split; reflexivity.
    + split; [reflexivity|]. split; [|reflexivity].
      split; intros H; discriminate H.
  - do 2 wp_step. cbv beta iota. fold delete deleted.
    destruct (err deleted) as [e|] eqn:Hd; wp_step.
    + split; [reflexivity|]. split; [|reflexivity].
      split; intros H; discriminate H.
    + split; [reflexivity|]. split; [|reflexivity]. split; reflexivity.
Qed.

(** X26: A policy that vanishes between the write and the final Read makes
    Create/Update succeed with an empty ID.  When the policy is not
    there yet (for a new resource), the write is accepted and the
    policy is returned with an ID, but the Read that ends the handler
    is answered "not found", the handler returns no error, the ID of
    the state is empty and the fields are those of the configuration. *)
Theorem devtest_policy_create_of_vanished_policy_is_success
  (o : nat -> Req -> Answer Policy) (d : ResourceData) (id : string)
  (parsed : ResourceID) :
  let name := GetString d "name" in
  let policySetName := GetString d "policy_set_name" in
  let labName := GetString d "lab_name" in
  let resourceGroup := GetString d "resource_group_name" in
  let get := Get resourceGroup labName policySetName name "" in
  let write :=
    CreateOrUpdate resourceGroup labName policySetName name
      (mkPolicy None None
         (Some (mkPolicyProperties (Some (GetString d "description")) name
                  (Some (GetString d "fact_data")) (Some (GetString d "threshold"))
                  (GetString d "evaluator_type")))
         (expandTags d)) in
  let read := Get (ResourceGroup parsed) (PathAt parsed "labs")
                  (PathAt parsed "policysets") (PathAt parsed "policies") "" in
  let k := if IsNewResource d then 1%nat else 0%nat in
  (IsNewResource d = true ->
   (err (o 0%nat get) = None \/ ResponseWasNotFound (response (o 0%nat get)) = true) /\
   (ID (body (o 0%nat get)) = None \/ ID (body (o 0%nat get)) = Some "")) ->
  err (o k write) = None ->
  err (o (S k) get) = None ->
  ID (body (o (S k) get)) = Some id ->
  ParseAzureResourceID id = inr parsed ->
  err (o (S (S k)) read) <> None ->
  ResponseWasNotFound (response (o (S (S k)) read)) = true ->
  let out := runFn (resourceArmDevTestPolicyCreateUpdate
                      ParseAzureResourceID expandTags FlattenAndSet)
                   (world0 o d) in
  fst out = Return None /\
  Id (data (snd out)) = "" /\
  fields (data (snd out)) = fields d /\
  events (snd out)
  = ((if IsNewResource d then [EvCall get] else [])
       ++ [EvCall write; EvCall get; EvCall read])%list.
Proof.
  intros name policySetName labName resourceGroup get write read k
         Hfree Hw Hg Hid Hparse Hr Hnf out. subst out.
  apply (wpFn_body _ (fun x w' =>
    x = Return None /\ Id (data w') = "" /\ fields (data w') = fields d /\
    events w'
    = ((if IsNewResource d then [EvCall get] else [])
         ++ [EvCall write; EvCall get; EvCall read])%list)).
  assert (Hrest : forall evs : list (Event Req),
    wp (written <- call write ;;
        match err written with
        | Some e => return_ (Some (Errorf "Error creating/updating DevTest Policy %q (Policy Set %q / Lab %q / Resource Group %q): %+v" (Some e)))
        | None =>
            read <- call get ;;
            match err read with
            | Some e => return_ (Some (Errorf "Error retrieving DevTest Policy %q (Policy Set %q / Lab %q / Resource Group %q): %+v" (Some e)))
            | None =>
                match ID (body read) with
                | None => return_ (Some (Errorf "Cannot read DevTest Policy %q (Policy Set %q / Lab %q / Resource Group %q) ID" None))
                | Some id =>
                    SetId id ;;;
                    e <- callFn (resourceArmDevTestPolicyRead ParseAzureResourceID FlattenAndSet) ;;
                    return_ e
                end
            end
        end)
       (fun (x : Step Empty_set) w' =>
          match x with
          | Next _ => True
          | Stop x =>
              x = Return None /\
              Id (data (run_deferred (deferred w') w')) = "" /\
              fields (data (run_deferred (deferred w') w')) = fields d /\
              events (run_deferred (deferred w') w')
              = (evs ++ [EvCall write; EvCall get; EvCall read])%list
          end)
       (mkWorld o k evs [] d)).
  { intros evs. do 2 wp_step. cbv beta iota. rewrite Hw.
    do 2 wp_step. cbv beta iota. rewrite Hg, Hid. do 3 wp_step.
    apply wp_callFn. apply wpFn_body. unfold resourceArmDevTestPolicyRead. wp_norm.
    wp_step. wp_step. rewrite Hparse. do 2 wp_step. cbv beta iota. fold read.
    rewrite Hnf. destruct (err (o (S (S k)) read)) as [e|]; [|congruence].
    repeat wp_step. rewrite <- !app_assoc. repeat split. }
  unfold resourceArmDevTestPolicyCreateUpdate, world0. wp_norm.
  wp_step. wp_step. cbv beta iota.
  fold name policySetName labName resourceGroup. fold get. fold write.
  subst k. destruct (IsNewResource d) eqn:Hnew.
  - destruct (Hfree eq_refl) as [Hfirst Hnone].
    do 3 wp_step. cbv beta iota.
    assert (Hcheck : forall Q w,
      Q (Next tt) w ->
      wp (match err (o 0%nat get) with
          | Some e =>
              if negb (ResponseWasNotFound (response (o 0%nat get)))
              then return_ (Some (Errorf "Error checking for presence of existing DevTest Policy %q (Policy Set %q / Lab %q / Resource Group %q): %s" (Some e)))
              else ret tt
          | None => ret tt
          end : M Req Policy unit) Q w).
    { intros Q w HQ. destruct Hfirst as [-> | Hfirst]; [apply wp_ret; exact HQ|].
      rewrite Hfirst. destruct (err (o 0%nat get)); apply wp_ret; exact HQ. }
    wp_step. apply Hcheck. cbv beta iota.
    destruct Hnone as [-> | ->]; cbn [String.eqb negb]; wp_step; apply (Hrest [EvCall get]).
  - do 2 wp_step. apply (Hrest []).
Qed.

End DevTestPolicyFacts.

Module DevTestPolicySamples.
Import TagsHelpers DevTestPolicy.

Definition policyResourceID : string :=
  "/subscriptions/sub1/resourceGroups/rg1/providers/Microsoft.DevTestLab/labs/lab1/policysets/default/policies/LabVmCount".

Definition policyID : ResourceID :=
  mkResourceID "rg1"
    (<["labs" := "lab1"]> (<["policysets" := "default"]> (<["policies" := "LabVmCount"]> ∅))).

Definition parsePolicyID (id : string) : error + ResourceID :=
  if String.eqb id policyResourceID then inr policyID
  else inl (Errorf "Cannot parse Azure ID: %s" None).

Definition policyFields : gmap string Value :=
  <["name" := VString "LabVmCount"]>
    (<["policy_set_name" := VString "default"]>
       (<["lab_name" := VString "lab1"]>
          (<["resource_group_name" := VString "rg1"]>
             (<["threshold" := VString "5"]>
                (<["evaluator_type" := VString "MaxValuePolicy"]> ∅))))).

Definition knownPolicyData : ResourceData :=
  mkResourceData policyResourceID false policyFields.
Definition newPolicyData : ResourceData := mkResourceData "" true policyFields.

Definition zeroPolicy : Policy := mkPolicy None None None ∅.

Definition policy : Policy :=
  mkPolicy (Some policyResourceID) (Some "LabVmCount")
    (Some (mkPolicyProperties (Some "") "LabVmCount" (Some "") (Some "5") "MaxValuePolicy"))
    ∅.

(** The policy is not there, is written and returned, and is gone again
    when it is read for the state. *)
Definition vanishing : nat -> Req -> Answer Policy :=
  fun n _ =>
    match n with
    | 1%nat => mkAnswer zeroPolicy (Some 200%Z) None
    | 2%nat => mkAnswer policy (Some 200%Z) None
    | _ => mkAnswer zeroPolicy (Some 404%Z) (Some NotFoundSamples.notFoundText)
    end.

End DevTestPolicySamples.

Lemma devtest_policy_delete_witness :
  fst (runFn (DevTestPolicy.resourceArmDevTestPolicyDelete
                DevTestPolicySamples.parsePolicyID)
             (world0 (NotFoundSamples.notFound DevTestPolicySamples.zeroPolicy)
                     DevTestPolicySamples.knownPolicyData))
  = Return None.
Proof.
  exact (proj2 (proj1 (proj2 (devtest_policy_delete_looks_before_deleting
                                DevTestPolicySamples.parsePolicyID
                                (NotFoundSamples.notFound DevTestPolicySamples.zeroPolicy)
                                DevTestPolicySamples.knownPolicyData
                                DevTestPolicySamples.policyID eq_refl)))
           eq_refl).
Defined.

Lemma devtest_policy_create_of_vanished_policy_witness :
  Id (data (snd (runFn (DevTestPolicy.resourceArmDevTestPolicyCreateUpdate
                          DevTestPolicySamples.parsePolicyID
                          TagsSamples.noTags TagsSamples.setNoTags)
                       (world0 DevTestPolicySamples.vanishing
                               DevTestPolicySamples.newPolicyData))))
  = "".
Proof.
  exact (proj1 (proj2 (devtest_policy_create_of_vanished_policy_is_success
                         DevTestPolicySamples.parsePolicyID
                         TagsSamples.noTags TagsSamples.setNoTags
                         DevTestPolicySamples.vanishing DevTestPolicySamples.newPolicyData
                         DevTestPolicySamples.policyResourceID DevTestPolicySamples.policyID
                         (fun _ => conj (or_intror eq_refl) (or_introl eq_refl))
                         eq_refl eq_refl eq_refl eq_refl
                         (fun H : Some NotFoundSamples.notFoundText = None =>
                            ltac:(discriminate H))
                         eq_refl))).
Defined.

(** ** The subscription data source *)

Section SubscriptionFacts.
Import TagsHelpers Subscription.

Variable accountSubscriptionId : string.
Variable FlattenAndSet : ResourceData -> Tags -> ResourceData * option error.

(** X27: The data source asks for the configured subscription, and for the
    subscription of the provider when none is configured.  A lookup
    that fails is an error, also when the failure is "not found"; it is
    the only request and the state is left as it was. *)
Theorem subscription_lookup_failure_is_error
  (o : nat -> Req -> Answer Subscription) (d : ResourceData) (subscriptionId : string) :
  (GetString d "subscription_id" = "" -> subscriptionId = accountSubscriptionId) ->
  (GetString d "subscription_id" <> "" -> subscriptionId = GetString d "subscription_id") ->
  err (o 0%nat (Get subscriptionId)) <> None ->
  let out := runFn (dataSourceSubscriptionRead accountSubscriptionId FlattenAndSet)
                   (world0 o d) in
  (exists e, fst out = Return (Some e)) /\
  events (snd out) = [EvCall (Get subscriptionId)] /\
  data (snd out) = d.
Proof.
  intros Hdefault Hconfigured Herr out. subst out.
  apply (wpFn_body _ (fun x w' =>
    (exists e, x = Return (Some e)) /\
    events w' = [EvCall (Get subscriptionId)] /\ data w' = d)).
  assert (Hsub : (if String.eqb (GetString d "subscription_id") ""
                  then accountSubscriptionId
                  else GetString d "subscription_id") = subscriptionId).
  { destruct (String.eqb_spec (GetString d "subscription_id") "") as [He|Hne].
    - symmetry. apply Hdefault. exact He.
    - symmetry. apply Hconfigured. exact Hne. }
  unfold dataSourceSubscriptionRead, world0. wp_norm.
  do 3 wp_step. cbv beta iota. rewrite Hsub. wp_step. cbv beta iota.
  destruct (err (o 0%nat (Get subscriptionId))) as [e|]; [|congruence].
  destruct (ResponseWasNotFound (response (o 0%nat (Get subscriptionId))));
    wp_step; exact (conj (ex_intro _ _ eq_refl) (conj eq_refl eq_refl)).
Qed.

(** X28: A successful lookup replaces what was configured by what the API
    returned: the ID of the state is the ID of the subscription, and
    [subscription_id], [display_name], [tenant_id] and [state] are the
    values of the answer, so that a [subscription_id] left empty comes
    back filled in.  The result is the result of [tags.FlattenAndSet]. *)
Theorem subscription_lookup_fills_in_subscription
  (o : nat -> Req -> Answer Subscription) (d : ResourceData) (id : string) :
  setsTagsOnly FlattenAndSet ->
  let configured := GetString d "subscription_id" in
  let get := Get (if String.eqb configured "" then accountSubscriptionId else configured) in
  let found := body (o 0%nat get) in
  err (o 0%nat get) = None ->
  ID found = Some id ->
  let out := runFn (dataSourceSubscriptionRead accountSubscriptionId FlattenAndSet)
                   (world0 o d) in
  let after := fields (data (snd out)) in
  (exists before, fst out = Return (snd (FlattenAndSet before (subscriptionTags found)))) /\
  Id (data (snd out)) = id /\
  after !! "subscription_id" = Some (VStringPtr (SubscriptionID found)) /\
  after !! "display_name" = Some (VStringPtr (DisplayName found)) /\
  after !! "tenant_id" = Some (VStringPtr (TenantID found)) /\
  after !! "state" = Some (VString (State found)) /\
  events (snd out) = [EvCall get].
Proof.
  intros Htags configured get found Herr Hid out after. subst after out.
  apply (wpFn_body _ (fun x w' =>
    (exists before, x = Return (snd (FlattenAndSet before (subscriptionTags found)))) /\
    Id (data w') = id /\
    fields (data w') !! "subscription_id" = Some (VStringPtr (SubscriptionID found)) /\
    fields (data w') !! "display_name" = Some (VStringPtr (DisplayName found)) /\
    fields (data w') !! "tenant_id" = Some (VStringPtr (TenantID found)) /\
    fields (data w') !! "state" = Some (VString (State found)) /\
    events w' = [EvCall get])).
  unfold dataSourceSubscriptionRead, world0. wp_norm.
  do 3 wp_step. cbv beta iota. fold configured. wp_step. cbv beta iota.
  fold get. rewrite Herr.
  fold found. rewrite Hid.
  repeat wp_step_tags.
  all: match goal with
       | |- context [FlattenAndSet ?before ?t] =>
           destruct (Htags before t) as [HId Hkeep]
       end.
  all: refine (conj (ex_intro _ _ eq_refl)
                 (conj _ (conj _ (conj _ (conj _ (conj _ eq_refl)))))).
  all: try (rewrite HId; reflexivity).
  all: rewrite Hkeep by discriminate; cbn [fields].
  all: repeat (rewrite lookup_insert_ne by discriminate); apply lookup_insert_eq.
Qed.

End SubscriptionFacts.

Module SubscriptionSamples.
Import TagsHelpers Subscription.

(** Nothing is configured: the data source is about the subscription of
    the provider. *)
Definition currentData : ResourceData := mkResourceData "" false ∅.

Definition zeroSubscription : Subscription :=
  mkSubscription None None None None "" None ∅.

Definition subscription : Subscription :=
  mkSubscription (Some "/subscriptions/sub1") (Some "sub1") (Some "Production")
    (Some "tenant1") "Enabled"
    (Some (mkSubscriptionPolicies (Some "Public_2014-09-01") (Some "PayAsYouGo_2014-09-01") "Off"))
    ∅.

Definition found : nat -> Req -> Answer Subscription :=
  fun _ _ => mkAnswer subscription (Some 200%Z) None.

End SubscriptionSamples.

Lemma subscription_lookup_failure_witness :
  events (snd (runFn (Subscription.dataSourceSubscriptionRead "sub1"
                        TagsSamples.setNoTags)
                     (world0 (NotFoundSamples.notFound SubscriptionSamples.zeroSubscription)
                             SubscriptionSamples.currentData)))
  = [EvCall (Subscription.Get "sub1")].
Proof.
  exact (proj1 (proj2 (subscription_lookup_failure_is_error "sub1"
                         TagsSamples.setNoTags
                         (NotFoundSamples.notFound SubscriptionSamples.zeroSubscription)
                         SubscriptionSamples.currentData "sub1"
                         (fun _ => eq_refl)
                         (fun H : GetString SubscriptionSamples.currentData "subscription_id" <> "" =>
                            False_ind _ (H eq_refl))
                         (fun H : Some NotFoundSamples.notFoundText = None =>
                            ltac:(discriminate H))))).
Defined.

Lemma subscription_lookup_fills_in_witness :
  fields (data (snd (runFn (Subscription.dataSourceSubscriptionRead "sub1"
                              TagsSamples.setNoTags)
                           (world0 SubscriptionSamples.found
                                   SubscriptionSamples.currentData))))
    !! "subscription_id"
  = Some (VString "sub1").
Proof.
  exact (proj1 (proj2 (proj2 (subscription_lookup_fills_in_subscription "sub1"
                                TagsSamples.setNoTags
                                SubscriptionSamples.found SubscriptionSamples.currentData
                                "/subscriptions/sub1"
                                setNoTags_setsTagsOnly
                                eq_refl eq_refl)))).
Defined.

(** ** The data source of automation variables *)

Section RunEquations.
Context {Req Body : Type}.

Lemma run_get_d {B} (k : ResourceData -> M Req Body B) (w : World Req Body) :
  (d <- get_d ;; k d) w = k (data w) w.
Proof. reflexivity. Qed.

Lemma run_call {B} (r : Req) (k : Answer Body -> M Req Body B) (w : World Req Body) :
  (a <- call r ;; k a) w
  = k (oracle w (ncalls w) r)
      (mkWorld (oracle w) (S (ncalls w)) (events w ++ [EvCall r]) (deferred w) (data w)).
Proof. reflexivity. Qed.

Lemma run_SetId {B} (id : string) (k : M Req Body B) (w : World Req Body) :
  (SetId id ;;; k) w
  = k (mkWorld (oracle w) (ncalls w) (events w) (deferred w)
         (mkResourceData id (IsNewResource (data w)) (fields (data w)))).
Proof. reflexivity. Qed.

Lemma run_Set {B} (key : string) (v : Value) (k : M Req Body B) (w : World Req Body) :
  (Set_ key v ;;; k) w
  = k (mkWorld (oracle w) (ncalls w) (events w) (deferred w)
         (mkResourceData (Id (data w)) (IsNewResource (data w))
            (<[key := v]> (fields (data w))))).
Proof. reflexivity. Qed.

End RunEquations.

Section AutomationDataSourceFacts.
Import Go Automation AutomationDataSource.

Variable ParseAzureResourceID : string -> error + ResourceID.
Variable time_Format : Time -> string.
Variable lowerWide : string -> string.

(** X29: The data source reads a variable as the resource does.  For a state
    whose ID names the variable of its fields [resource_group_name],
    [automation_account_name] and [name], and an API that returns the
    variable under that ID, the data source and the Read of the resource
    send the same request, end in the same result, a panic included, and
    leave the same state. *)
Theorem automation_data_source_agrees_with_read
  (varType : string) (o : nat -> Req -> Answer Variable_) (d : ResourceData)
  (id : ResourceID) :
  ParseAzureResourceID (Id d) = inr id ->
  Sdk.ResourceGroup id = GetString d "resource_group_name" ->
  PathAt id "automationAccounts" = GetString d "automation_account_name" ->
  PathAt id "variables" = GetString d "name" ->
  let get := Get (GetString d "resource_group_name")
                 (GetString d "automation_account_name") (GetString d "name") in
  (err (o 0%nat get) = None -> ID (body (o 0%nat get)) = Some (Id d)) ->
  runFn (dataSourceAutomationVariableRead time_Format lowerWide varType) (world0 o d)
  = runFn (resourceAutomationVariableRead ParseAzureResourceID time_Format lowerWide varType)
          (world0 o d).
Proof.
  intros Hid Hrg Hacc Hname get Hsame.
  unfold runFn, world0. cbn [oracle ncalls events deferred data].
  assert (Hbody :
    dataSourceAutomationVariableRead time_Format lowerWide varType (mkWorld o 0 [] [] d)
    = resourceAutomationVariableRead ParseAzureResourceID time_Format lowerWide varType
        (mkWorld o 0 [] [] d)).
  { unfold dataSourceAutomationVariableRead, resourceAutomationVariableRead.
    rewrite !run_get_d. cbn [data]. rewrite Hid. cbv beta iota zeta.
    rewrite Hrg, Hacc, Hname. fold get.
    rewrite !run_call. cbn [oracle ncalls events deferred data].
    destruct (err (o 0%nat get)) as [e|] eqn:Herr; [reflexivity|].
    rewrite (Hsame eq_refl).
    rewrite run_SetId. rewrite !run_Set.
    cbn [oracle ncalls events deferred data Id IsNewResource fields].
    reflexivity. }
  rewrite Hbody. reflexivity.
Qed.

(** X30: The data source takes the ID of the state from the answer without
    looking whether there is one: an answer without an error and
    without an ID makes it panic, after the one request and with the
    state as it was. *)
Theorem automation_data_source_without_id_panics
  (varType : string) (o : nat -> Req -> Answer Variable_) (d : ResourceData) :
  let get := Get (GetString d "resource_group_name")
                 (GetString d "automation_account_name") (GetString d "name") in
  err (o 0%nat get) = None ->
  ID (body (o 0%nat get)) = None ->
  let out := runFn (dataSourceAutomationVariableRead time_Format lowerWide varType) (world0 o d) in
  fst out = Panic /\
  events (snd out) = [EvCall get] /\
  data (snd out) = d.
Proof.
  intros get Herr Hnone out. subst out.
  apply (wpFn_body _ (fun x w' => x = Panic /\ events w' = [EvCall get] /\ data w' = d)).
  unfold dataSourceAutomationVariableRead, world0. wp_norm.
  do 4 wp_step. cbv beta iota. fold get. rewrite Herr, Hnone. wp_step.
  exact (conj eq_refl (conj eq_refl eq_refl)).
Qed.

End AutomationDataSourceFacts.

Module AutomationDataSourceSamples.
Import Go Automation NotFoundSamples.

(** The state of the variable [v1] of the account [acc1]. *)
Definition namedVariableData : ResourceData :=
  mkResourceData variableResourceID false
    (<["name" := VString "v1"]>
       (<["resource_group_name" := VString "rg1"]>
          (<["automation_account_name" := VString "acc1"]> ∅))).

(** An answer without an error and without an object. *)
Definition empty : nat -> Req -> Answer Variable_ :=
  fun _ _ => mkAnswer zeroVariable (Some 200%Z) None.

End AutomationDataSourceSamples.

Lemma automation_data_source_agrees_witness :
  runFn (AutomationDataSource.dataSourceAutomationVariableRead
           NotFoundSamples.formatNothing NotFoundSamples.noWideLower "String")
        (world0 (AutomationHandlerSamples.holding AutomationHandlerSamples.helloVariable)
                AutomationDataSourceSamples.namedVariableData)
  = runFn (Automation.resourceAutomationVariableRead
             NotFoundSamples.parseVariableID NotFoundSamples.formatNothing
                NotFoundSamples.noWideLower "String")
          (world0 (AutomationHandlerSamples.holding AutomationHandlerSamples.helloVariable)
                  AutomationDataSourceSamples.namedVariableData).
Proof.
  exact (automation_data_source_agrees_with_read
           NotFoundSamples.parseVariableID NotFoundSamples.formatNothing
                NotFoundSamples.noWideLower "String"
           (AutomationHandlerSamples.holding AutomationHandlerSamples.helloVariable)
           AutomationDataSourceSamples.namedVariableData NotFoundSamples.variableID
           eq_refl eq_refl eq_refl eq_refl (fun _ => eq_refl)).
Defined.

Lemma automation_data_source_without_id_witness :
  fst (runFn (AutomationDataSource.dataSourceAutomationVariableRead
                NotFoundSamples.formatNothing NotFoundSamples.noWideLower "String")
             (world0 AutomationDataSourceSamples.empty
                     AutomationDataSourceSamples.namedVariableData))
  = Panic.
Proof.
  exact (proj1 (automation_data_source_without_id_panics
                  NotFoundSamples.formatNothing NotFoundSamples.noWideLower "String"
                  AutomationDataSourceSamples.empty
                  AutomationDataSourceSamples.namedVariableData eq_refl eq_refl)).
Defined.
